(** * LinBot economy engine: a shallow embedding of the game managers

    The plugin keeps one SQLite database with a [users] table and four
    append-only record tables.  Every manager method opens a connection,
    reads some rows, validates, writes and commits.  Here the database is
    an explicit value of type [Db] and every manager method is a function
    from the database (plus the clock and the random draws it consumes) to
    an outcome and the database after the call.

    Modelling conventions.
    - Python [int] and SQLite INTEGER are [Z] (unbounded).
    - The interest rates of the bank are binary64 floats ([float], the
      primitive floats of Rocq), and the interest [int(bank_money * rate)]
      is computed as Python computes it: the integer is rounded to a
      float, the product is rounded to a float, and [int] truncates it
      toward zero or raises on an infinity or a NaN.
    - The other floats of the configuration (success rate, cooldown hours
      and the two work multipliers) and the bonus factors of the salary
      are exact rationals ([Q]), with [int(x)] as truncation toward zero
      ([Qtrunc]).
    - Dates are day numbers and timestamps are seconds.  A call is made
      under two clocks ([Clock]): Python's [date.today()] and
      [datetime.now()] read the local time of the host, SQLite's
      [CURRENT_TIMESTAMP] and [date(created_at)] are UTC; [date_of] takes
      the day of a timestamp.
    - [random.random()] and [random.randint(a, b)] read their entropy from
      an explicit [Rand] argument.
    - A table is the list of its rows in rowid order; [fetchone()] reads
      the first matching row and [UPDATE ... WHERE user_id = ?] rewrites
      every matching row.
    - The human-readable [message] strings of the result dictionaries are
      rendered by the caller and are left out; the reason of a declined
      call is kept as a constructor.  Of the [except] branches, the one
      of [apply_daily_interest] and of [get_bank_info] is modelled, where
      the float arithmetic can raise; a database fault is not. *)

From Stdlib Require Import ZArith QArith Qround List String Bool Lia Floats.
From Stdlib Require Import Sorting.Sorted Sorting.Permutation.
Import ListNotations.
Open Scope Z_scope.

(** ** Python primitives *)

(** [int(x)] for a float [x]: truncation toward zero. *)
Definition Qtrunc (q : Q) : Z := Z.quot (Qnum q) (Zpos (Qden q)).

(** [x < y] on floats. *)
Definition Qltb (x y : Q) : bool := negb (Qle_bool y x).

(** [float(z)] for an int [z], as the mixed arithmetic of Python converts
    it: the nearest binary64 value, ties to even; [None] is the
    [OverflowError] of an int too large for a float. *)
Definition float_of_int (z : Z) : option float :=
  match binary_normalize prec emax z 0 false with
  | S754_infinity _ | S754_nan => None
  | x => Some (SF2Prim x)
  end.

(** [int(x)] for a binary64 float [x]: truncation toward zero; [None] is
    the [OverflowError] or [ValueError] raised on an infinity or a NaN. *)
Definition int_of_float (x : float) : option Z :=
  match Prim2SF x with
  | S754_zero _ => Some 0
  | S754_finite s m e =>
      let a := if 0 <=? e then Z.shiftl (Zpos m) e else Z.shiftr (Zpos m) (- e) in
      Some (if s then - a else a)
  | S754_infinity _ | S754_nan => None
  end.

(** [int(z * x)] for an int [z] and a float [x]. *)
Definition int_of_product (z : Z) (x : float) : option Z :=
  match float_of_int z with
  | None => None
  | Some y => int_of_float (y * x)%float
  end.

(** The number a float stands for, when it is one. *)
Definition Q_of_float (x : float) : option Q :=
  match Prim2SF x with
  | S754_zero _ => Some 0%Q
  | S754_finite s m e =>
      let a := if s then Zneg m else Zpos m in
      Some (if 0 <=? e then inject_Z (a * 2 ^ e) else a # (2 ^ Z.to_pos (- e)))
  | S754_infinity _ | S754_nan => None
  end.

(** The entropy a call may consume: [rnd_unit] is what [random.random()]
    returns, [rnd_int] selects the value of [random.randint]. *)
Record Rand := mkRand { rnd_unit : Q; rnd_int : Z }.

(** [random.randint(a, b)]: some integer of [a..b]; raises [ValueError]
    ([None]) on an empty range. *)
Definition randint (r : Rand) (a b : Z) : option Z :=
  if b <? a then None else Some (a + rnd_int r mod (b - a + 1)).

(** [random.random()]. *)
Definition random_random (r : Rand) : Q := rnd_unit r.

Definition date_of (t : Z) : Z := t / 86400.

(** What the two clocks show when a call is made, in seconds.  Python's
    [datetime.now()] and [date.today()] read the host's local time;
    SQLite's [CURRENT_TIMESTAMP], which stamps every row, is UTC.  The
    managers compare the one with the other as they stand. *)
Record Clock := mkClock { local_time : Z; utc_time : Z }.

(** Where a stamp is expected, a clock stands for its UTC reading. *)
Coercion utc_time : Clock >-> Z.

(** The clocks of a host whose local time is UTC. *)
Definition utc_host (t : Z) : Clock := mkClock t t.

(** ** Leveling (work_manager.py) *)

Module Leveling.

(** [WorkManager._calculate_level]; [//] is floor division, [Z.div]. *)
Definition _calculate_level (exp : Z) : Z :=
  if exp <? 500 then Z.max 1 (exp / 100 + 1)
  else if exp <? 1500 then 5 + (exp - 500) / 200 + 1
  else if exp <? 4000 then 10 + (exp - 1500) / 500 + 1
  else 15 + (exp - 4000) / 1000 + 1.

(** [get_level_exp_requirement], the local helper of [_get_level_info]:
    the experience at which a level starts. *)
Definition get_level_exp_requirement (level : Z) : Z :=
  if level <=? 5 then (level - 1) * 100
  else if level <=? 10 then 500 + (level - 6) * 200
  else if level <=? 15 then 1500 + (level - 11) * 500
  else 4000 + (level - 16) * 1000.

(** [get_exp_for_next_level], the other local helper. *)
Definition get_exp_for_next_level (level : Z) : Z :=
  if level <=? 4 then 100
  else if level <=? 9 then 200
  else if level <=? 14 then 500
  else 1000.

End Leveling.

(** ** The database (init_db.py) *)

(** A row of [users]. *)
Record User := mkUser
  { user_id : string;
    username : string;
    money : Z;
    bank_money : Z;
    total_earned : Z;
    level : Z;
    exp : Z;
    last_checkin : option Z;
    checkin_streak : Z;
    total_checkin : Z;
    last_work_time : option Z;
    work_count_today : Z;
    rob_count_today : Z;
    robbed_count_today : Z;
    created_at : Z;
    updated_at : Z }.

Inductive TransactionType :=
  | deposit_tx | withdraw_tx | transfer_out_tx | transfer_in_tx | interest_tx.

Definition TransactionType_eqb (a b : TransactionType) : bool :=
  match a, b with
  | deposit_tx, deposit_tx | withdraw_tx, withdraw_tx
  | transfer_out_tx, transfer_out_tx | transfer_in_tx, transfer_in_tx
  | interest_tx, interest_tx => true
  | _, _ => false
  end.

(** A row of [bank_transactions]. *)
Record BankTransaction := mkTx
  { tx_user_id : string;
    transaction_type : TransactionType;
    tx_amount : Z;
    balance_before : Z;
    balance_after : Z;
    tx_created_at : Z }.

(** A row of [work_records]. *)
Record WorkRecord := mkWork
  { wr_user_id : string;
    work_type : string;
    base_salary : Z;
    bonus : Z;
    wr_total_earned : Z;
    work_time : Z }.

(** A row of [checkin_records]. *)
Record CheckinRecord := mkCheckin
  { cr_user_id : string;
    checkin_date : Z;
    reward_money : Z;
    consecutive_days : Z;
    cr_created_at : Z }.

(** A row of [robbery_records]. *)
Record RobberyRecord := mkRobbery
  { robber_id : string;
    victim_id : string;
    rob_amount : Z;
    rob_success : bool;
    rob_created_at : Z }.

(** The five tables; every list is in rowid (insertion) order. *)
Record Db := mkDb
  { users : list User;
    bank_transactions : list BankTransaction;
    work_records : list WorkRecord;
    checkin_records : list CheckinRecord;
    robbery_records : list RobberyRecord }.

Definition empty_db : Db := mkDb [] [] [] [] [].

(** The column defaults of [CREATE TABLE users]. *)
Definition new_user (uid name : string) (now : Z) : User :=
  mkUser uid name 0 0 0 1 0 None 0 0 None 0 0 0 now now.

(** [SELECT ... FROM users WHERE user_id = ?] followed by [fetchone()]. *)
Definition find_user (uid : string) (us : list User) : option User :=
  find (fun u => String.eqb (user_id u) uid) us.

(** [UPDATE users SET ... WHERE user_id = ?]. *)
Definition update_user (uid : string) (f : User -> User) (us : list User) : list User :=
  map (fun u => if String.eqb (user_id u) uid then f u else u) us.

Definition with_users (db : Db) (us : list User) : Db :=
  mkDb us (bank_transactions db) (work_records db) (checkin_records db)
       (robbery_records db).

Definition insert_transaction (db : Db) (t : BankTransaction) : Db :=
  mkDb (users db) (bank_transactions db ++ [t]) (work_records db)
       (checkin_records db) (robbery_records db).

Definition insert_work (db : Db) (w : WorkRecord) : Db :=
  mkDb (users db) (bank_transactions db) (work_records db ++ [w])
       (checkin_records db) (robbery_records db).

Definition insert_checkin (db : Db) (c : CheckinRecord) : Db :=
  mkDb (users db) (bank_transactions db) (work_records db)
       (checkin_records db ++ [c]) (robbery_records db).

Definition insert_robbery (db : Db) (r : RobberyRecord) : Db :=
  mkDb (users db) (bank_transactions db) (work_records db)
       (checkin_records db) (robbery_records db ++ [r]).

(** [_ensure_user_exists] of the bank, work and checkin managers:
    [INSERT OR IGNORE INTO users (user_id, username)]. *)
Definition _ensure_user_exists (db : Db) (now : Z) (uid name : string) : Db :=
  match find_user uid (users db) with
  | Some _ => db
  | None => with_users db (users db ++ [new_user uid name now])
  end.

(** Why a call was declined.  The source reports a decline as
    [{"success": False, "message": ...}]; each constructor stands for one
    of its messages. *)
Inductive Declined :=
  | BelowMinimum | AboveMaximum | InsufficientCash | InsufficientSavings
  | DailyLimitExceeded | SelfTransfer | RecipientNotFound
  | UserDataError | AlreadyCheckedIn | UnknownJob | LevelTooLow
  | DailyQuotaExceeded | OnCooldown | SelfTarget | VictimProtected
  | VictimNotFound | RaisedException.

Inductive Outcome (A : Type) :=
  | Success (payload : A)
  | Failure (why : Declined).
Arguments Success {A} payload.
Arguments Failure {A} why.

Definition is_success {A} (o : Outcome A) : bool :=
  match o with Success _ => true | Failure _ => false end.

(** The [game_system_settings] section of the plugin configuration, with
    the defaults the managers fall back to. *)
Record GameSettings := mkSettings
  { bank_interest_rate : float;
    vip_threshold : Z;
    bank_vip_interest_rate : float;
    robbery_success_rate : Q;
    robbery_min_amount : Z;
    robbery_max_amount : Z;
    robbery_cooldown_hours : Q;
    robbery_level_requirement : Z;
    robbery_protection_amount : Z;
    robbery_failure_penalty : Z;
    work_cooldown_multiplier : Q;
    work_experience_multiplier : Q }.

Definition default_settings : GameSettings :=
  mkSettings 0.1%float 10000 0.15%float 30 50 300 6 5 100 20 1 1.

(** ** Bank (bank_manager.py) *)

Module Bank.

(** The attributes set by [BankManager.__init__]. *)
Definition min_deposit : Z := 10.
Definition min_withdraw : Z := 10.
Definition max_deposit : Z := 100000.
Definition max_withdraw : Z := 50000.
Definition daily_withdraw_limit : Z := 200000.
Definition interest_rate (cfg : GameSettings) : float :=
  (bank_interest_rate cfg / 100)%float.
Definition vip_interest_rate (cfg : GameSettings) : float :=
  (bank_vip_interest_rate cfg / 100)%float.

(** The success dictionary of [deposit] and [withdraw]. *)
Record Receipt := mkReceipt
  { amount : Z; new_money : Z; new_bank_money : Z; total_assets : Z }.

(** The success dictionary of [transfer]. *)
Record TransferReceipt := mkTransferReceipt
  { tr_amount : Z; new_from_balance : Z; new_to_balance : Z }.

(** The success dictionary of [apply_daily_interest]. *)
Record InterestReport := mkInterestReport
  { processed_users : Z; total_interest : Z }.

(** [UPDATE users SET money = ?, bank_money = ?, updated_at = CURRENT_TIMESTAMP]. *)
Definition set_balances (m b now : Z) (u : User) : User :=
  mkUser (user_id u) (username u) m b (total_earned u) (level u) (exp u)
         (last_checkin u) (checkin_streak u) (total_checkin u)
         (last_work_time u) (work_count_today u) (rob_count_today u)
         (robbed_count_today u) (created_at u) now.

(** [UPDATE users SET bank_money = ?, updated_at = CURRENT_TIMESTAMP]. *)
Definition set_bank_money (b now : Z) (u : User) : User :=
  mkUser (user_id u) (username u) (money u) b (total_earned u) (level u) (exp u)
         (last_checkin u) (checkin_streak u) (total_checkin u)
         (last_work_time u) (work_count_today u) (rob_count_today u)
         (robbed_count_today u) (created_at u) now.

(** [BankManager.deposit]. *)
Definition deposit (db : Db) (now : Z) (uid name : string) (amt : Z)
  : Outcome Receipt * Db :=
  let db := _ensure_user_exists db now uid name in
  if amt <? min_deposit then (Failure BelowMinimum, db)
  else if amt >? max_deposit then (Failure AboveMaximum, db)
  else
    match find_user uid (users db) with
    | None => (Failure UserDataError, db)
    | Some user_data =>
        let current_money := money user_data in
        let current_bank_money := bank_money user_data in
        if current_money <? amt then (Failure InsufficientCash, db)
        else
          let new_money := current_money - amt in
          let new_bank_money := current_bank_money + amt in
          let db := with_users db
                      (update_user uid (set_balances new_money new_bank_money now)
                                   (users db)) in
          let db := insert_transaction db
                      (mkTx uid deposit_tx amt current_bank_money new_bank_money now) in
          (Success (mkReceipt amt new_money new_bank_money
                              (new_money + new_bank_money)), db)
    end.

(** [SELECT SUM(amount) FROM bank_transactions WHERE user_id = ? AND
    transaction_type = 'withdraw' AND date(created_at) = ?], with
    [or 0] for the empty sum. *)
Definition today_withdraw (db : Db) (uid : string) (today : Z) : Z :=
  fold_right Z.add 0
    (map tx_amount
       (filter (fun t => String.eqb (tx_user_id t) uid
                         && TransactionType_eqb (transaction_type t) withdraw_tx
                         && (date_of (tx_created_at t) =? today))
               (bank_transactions db))).

(** [BankManager.withdraw]. *)
Definition withdraw (db : Db) (now : Clock) (uid name : string) (amt : Z)
  : Outcome Receipt * Db :=
  let db := _ensure_user_exists db (utc_time now) uid name in
  if amt <? min_withdraw then (Failure BelowMinimum, db)
  else if amt >? max_withdraw then (Failure AboveMaximum, db)
  else
    let today := date_of (local_time now) in
    let today_withdraw := today_withdraw db uid today in
    if today_withdraw + amt >? daily_withdraw_limit
    then (Failure DailyLimitExceeded, db)
    else
      match find_user uid (users db) with
      | None => (Failure UserDataError, db)
      | Some user_data =>
          let current_money := money user_data in
          let current_bank_money := bank_money user_data in
          if current_bank_money <? amt then (Failure InsufficientSavings, db)
          else
            let new_money := current_money + amt in
            let new_bank_money := current_bank_money - amt in
            let db := with_users db
                        (update_user uid
                           (set_balances new_money new_bank_money (utc_time now))
                           (users db)) in
            let db := insert_transaction db
                        (mkTx uid withdraw_tx amt current_bank_money new_bank_money
                              (utc_time now)) in
            (Success (mkReceipt amt new_money new_bank_money
                                (new_money + new_bank_money)), db)
      end.

(** [BankManager.transfer].  The two accounts are ensured after the
    argument checks and before either row is read. *)
Definition transfer (db : Db) (now : Z)
    (from_user_id to_user_id from_username to_username : string) (amt : Z)
  : Outcome TransferReceipt * Db :=
  if String.eqb from_user_id to_user_id then (Failure SelfTransfer, db)
  else if amt <? min_deposit then (Failure BelowMinimum, db)
  else if amt >? max_deposit then (Failure AboveMaximum, db)
  else
    let db := _ensure_user_exists db now from_user_id from_username in
    let db := _ensure_user_exists db now to_user_id to_username in
    match find_user from_user_id (users db) with
    | None => (Failure InsufficientSavings, db)
    | Some from_user =>
        if bank_money from_user <? amt then (Failure InsufficientSavings, db)
        else
          match find_user to_user_id (users db) with
          | None => (Failure RecipientNotFound, db)
          | Some to_user =>
              let new_from_balance := bank_money from_user - amt in
              let new_to_balance := bank_money to_user + amt in
              let db := with_users db
                          (update_user from_user_id
                             (set_bank_money new_from_balance now) (users db)) in
              let db := with_users db
                          (update_user to_user_id
                             (set_bank_money new_to_balance now) (users db)) in
              let db := insert_transaction db
                          (mkTx from_user_id transfer_out_tx amt
                                (bank_money from_user) new_from_balance now) in
              let db := insert_transaction db
                          (mkTx to_user_id transfer_in_tx amt
                                (bank_money to_user) new_to_balance now) in
              (Success (mkTransferReceipt amt new_from_balance new_to_balance), db)
          end
    end.

(** The interest of one selected row: the rate by VIP status, then
    [int(bank_money * rate)]; [None] when the conversion raises. *)
Definition interest_of (cfg : GameSettings) (bank_money : Z) : option Z :=
  let is_vip := bank_money >=? vip_threshold cfg in
  let rate := if is_vip then vip_interest_rate cfg else interest_rate cfg in
  int_of_product bank_money rate.

(** The body of the [for user_id, bank_money in users] loop; the state
    carried around the loop is the database and the two counters.
    [None] when the body raises. *)
Definition interest_step (cfg : GameSettings) (now : Z)
    (st : Db * InterestReport) (row : string * Z) : option (Db * InterestReport) :=
  let '(db, rep) := st in
  let '(uid, bank_money) := row in
  match interest_of cfg bank_money with
  | None => None
  | Some interest =>
      if interest >? 0 then
        let new_bank_money := bank_money + interest in
        let db := with_users db
                    (update_user uid (set_bank_money new_bank_money now) (users db)) in
        let db := insert_transaction db
                    (mkTx uid interest_tx interest bank_money new_bank_money now) in
        Some (db, mkInterestReport (processed_users rep + 1)
                                   (total_interest rep + interest))
      else Some (db, rep)
  end.

(** The [for] loop: it stops at the first row whose body raises. *)
Fixpoint interest_loop (cfg : GameSettings) (now : Z) (rows : list (string * Z))
    (st : Db * InterestReport) : option (Db * InterestReport) :=
  match rows with
  | [] => Some st
  | row :: rows =>
      match interest_step cfg now st row with
      | None => None
      | Some st => interest_loop cfg now rows st
      end
  end.

(** [SELECT user_id, bank_money FROM users WHERE bank_money > 0]. *)
Definition savers (db : Db) : list (string * Z) :=
  map (fun u => (user_id u, bank_money u))
      (filter (fun u => bank_money u >? 0) (users db)).

(** [BankManager.apply_daily_interest]: the loop, then [commit]; an
    exception raised in the loop is caught, the writes of the loop are
    rolled back and the call reports a failure. *)
Definition apply_daily_interest (cfg : GameSettings) (db : Db) (now : Z)
  : Outcome InterestReport * Db :=
  match interest_loop cfg now (savers db) (db, mkInterestReport 0 0) with
  | Some (db, rep) => (Success rep, db)
  | None => (Failure RaisedException, db)
  end.

End Bank.

(** ** Checkin (checkin_manager.py) *)

Module Checkin.

Definition base_reward : Z := 100.

(** The [consecutive_bonus] dict, in insertion order. *)
Definition consecutive_bonus : list (Z * Z) :=
  [(3, 50); (7, 200); (15, 500); (30, 1000)].

Definition random_bonus_range : Z * Z := (0, 50).

(** The dictionary returned by [_calculate_reward]. *)
Record Reward := mkReward
  { rw_base : Z; rw_random : Z; rw_consecutive : Z; rw_total : Z }.

(** The loop of [_calculate_reward] over the dict items: every entry
    whose day count is reached overwrites the bonus. *)
Definition bonus_loop (days_in_a_row : Z) (tiers : list (Z * Z)) (acc : Z) : Z :=
  fold_left
    (fun bonus_so_far '(days, bonus) =>
       if days_in_a_row >=? days then bonus else bonus_so_far)
    tiers acc.

(** [CheckinManager._calculate_reward]. *)
Definition _calculate_reward (r : Rand) (days_in_a_row : Z) : option Reward :=
  let base := base_reward in
  match randint r (fst random_bonus_range) (snd random_bonus_range) with
  | None => None
  | Some random_bonus =>
      let consecutive := bonus_loop days_in_a_row consecutive_bonus 0 in
      Some (mkReward base random_bonus consecutive
              (base + random_bonus + consecutive))
  end.

(** The success dictionary of [daily_checkin]. *)
Record CheckinReceipt := mkCheckinReceipt
  { reward : Reward; new_money : Z; new_streak : Z; new_total_checkin : Z }.

(** [UPDATE users SET money = ?, checkin_streak = ?, total_checkin = ?,
    last_checkin = ?, updated_at = CURRENT_TIMESTAMP]. *)
Definition set_checkin (m streak total today now : Z) (u : User) : User :=
  mkUser (user_id u) (username u) m (bank_money u) (total_earned u) (level u)
         (exp u) (Some today) streak total
         (last_work_time u) (work_count_today u) (rob_count_today u)
         (robbed_count_today u) (created_at u) now.

(** [SELECT id FROM checkin_records WHERE user_id = ? AND checkin_date = ?]
    has a row. *)
Definition checked_on (db : Db) (uid : string) (today : Z) : bool :=
  existsb (fun c => String.eqb (cr_user_id c) uid && (checkin_date c =? today))
          (checkin_records db).

(** [CheckinManager.daily_checkin]. *)
Definition daily_checkin (db : Db) (now : Clock) (r : Rand) (uid name : string)
  : Outcome CheckinReceipt * Db :=
  let db := _ensure_user_exists db (utc_time now) uid name in
  let today := date_of (local_time now) in
  if checked_on db uid today then (Failure AlreadyCheckedIn, db)
  else
    match find_user uid (users db) with
    | None => (Failure UserDataError, db)
    | Some user_data =>
        let current_money := money user_data in
        let current_streak := checkin_streak user_data in
        let streak_or_stop :=
          match last_checkin user_data with
          | None => Some 1
          | Some last_date =>
              let days_diff := today - last_date in
              if days_diff =? 1 then Some (current_streak + 1)
              else if days_diff =? 0 then None
              else Some 1
          end in
        match streak_or_stop with
        | None => (Failure AlreadyCheckedIn, db)
        | Some new_streak =>
            match _calculate_reward r new_streak with
            | None => (Failure RaisedException, db)
            | Some rw =>
                let new_money := current_money + rw_total rw in
                let new_total_checkin := total_checkin user_data + 1 in
                let db := with_users db
                            (update_user uid
                               (set_checkin new_money new_streak new_total_checkin
                                            today (utc_time now))
                               (users db)) in
                let db := insert_checkin db
                            (mkCheckin uid today (rw_total rw) new_streak
                                       (utc_time now)) in
                (Success (mkCheckinReceipt rw new_money new_streak new_total_checkin),
                 db)
            end
        end
    end.

End Checkin.

(** ** Work (work_manager.py) *)

Module Work.

(** An entry of the [jobs] dict (the [description] text is not kept). *)
Record Job := mkJob
  { job_base_salary : Z;
    salary_range : Z * Z;
    level_required : Z;
    cooldown_hours : Z;
    exp_reward : Z }.

(** The [jobs] dict, in insertion order. *)
Definition jobs : list (string * Job) :=
  [ ("搬砖"%string,       mkJob 80 (60, 120) 1 1 5);
    ("送外卖"%string,     mkJob 120 (80, 180) 1 1 8);
    ("便利店员"%string,   mkJob 150 (100, 200) 2 2 10);
    ("快递员"%string,     mkJob 200 (150, 280) 3 2 15);
    ("客服代表"%string,   mkJob 250 (180, 350) 5 3 20);
    ("程序员"%string,     mkJob 500 (300, 800) 10 4 50);
    ("设计师"%string,     mkJob 450 (280, 700) 8 4 40);
    ("金融分析师"%string, mkJob 800 (500, 1200) 15 6 80);
    ("企业顾问"%string,   mkJob 1000 (600, 1500) 20 8 100) ].

(** [self.daily_work_limit]: the constructor reads the setting and then
    overwrites it with 10. *)
Definition daily_work_limit : Z := 10.

Definition cooldown_multiplier (cfg : GameSettings) : Q := work_cooldown_multiplier cfg.
Definition exp_multiplier (cfg : GameSettings) : Q := work_experience_multiplier cfg.

(** [self.jobs[job_name]], [None] when [job_name not in self.jobs]. *)
Definition lookup_job (job_name : string) : option Job :=
  option_map snd (find (fun e => String.eqb (fst e) job_name) jobs).

(** The dictionary returned by [_calculate_salary]. *)
Record Salary := mkSalary
  { sal_base_salary : Z;
    level_bonus : Z;
    luck_bonus : Z;
    luck_triggered : bool;
    sal_total_earned : Z;
    sal_exp_reward : Z }.

(** [WorkManager._calculate_salary]. *)
Definition _calculate_salary (cfg : GameSettings) (r : Rand)
    (job_config : Job) (user_level : Z) : option Salary :=
  let base_salary := job_base_salary job_config in
  let salary_range := salary_range job_config in
  match randint r (fst salary_range) (snd salary_range) with
  | None => None
  | Some random_salary =>
      let level_bonus :=
        Qtrunc (inject_Z (base_salary * (user_level - 1)) * (2 # 100)) in
      let luck_triggered := Qltb (random_random r) (1 # 10) in
      let luck_bonus :=
        if luck_triggered then Qtrunc (inject_Z random_salary * (1 # 2)) else 0 in
      let total_earned := random_salary + level_bonus + luck_bonus in
      let exp_reward := Qtrunc (inject_Z (exp_reward job_config) * exp_multiplier cfg) in
      Some (mkSalary random_salary level_bonus luck_bonus luck_triggered
                     total_earned exp_reward)
  end.

(** The success dictionary of [work]. *)
Record WorkReceipt := mkWorkReceipt
  { salary_result : Salary;
    new_money : Z;
    new_exp : Z;
    new_level : Z;
    level_up : bool;
    today_work_count : Z }.

(** [UPDATE users SET money = ?, exp = ?, level = ?, last_work_time =
    CURRENT_TIMESTAMP, total_earned = total_earned + ?, updated_at =
    CURRENT_TIMESTAMP]. *)
Definition set_worked (m e l earned now : Z) (u : User) : User :=
  mkUser (user_id u) (username u) m (bank_money u) (total_earned u + earned) l e
         (last_checkin u) (checkin_streak u) (total_checkin u)
         (Some now) (work_count_today u) (rob_count_today u)
         (robbed_count_today u) (created_at u) now.

(** [SELECT COUNT( * ) FROM work_records WHERE user_id = ? AND
    date(work_time) = ?]. *)
Definition today_count (db : Db) (uid : string) (today : Z) : Z :=
  Z.of_nat (List.length (filter (fun w => String.eqb (wr_user_id w) uid
                                     && (date_of (work_time w) =? today))
                           (work_records db))).

(** [SELECT work_time FROM work_records WHERE user_id = ? AND work_type = ?
    ORDER BY work_time DESC LIMIT 1]. *)
Definition last_work (db : Db) (uid job_name : string) : option Z :=
  fold_left
    (fun best w =>
       if String.eqb (wr_user_id w) uid && String.eqb (work_type w) job_name then
         match best with
         | None => Some (work_time w)
         | Some t => Some (Z.max t (work_time w))
         end
       else best)
    (work_records db) None.

(** [datetime.now() < last + timedelta(hours = h)], for the reading [now]
    of the host's clock and a stored stamp [last]. *)
Definition cooling_down (now last : Z) (hours : Q) : bool :=
  Qltb (inject_Z now) (inject_Z last + hours * 3600).

(** [WorkManager.work]. *)
Definition work (cfg : GameSettings) (db : Db) (now : Clock) (r : Rand)
    (uid name job_name : string) : Outcome WorkReceipt * Db :=
  let db := _ensure_user_exists db (utc_time now) uid name in
  match lookup_job job_name with
  | None => (Failure UnknownJob, db)
  | Some job_config =>
      match find_user uid (users db) with
      | None => (Failure UserDataError, db)
      | Some user_data =>
          let money := money user_data in
          let level := level user_data in
          let exp := exp user_data in
          if level <? level_required job_config then (Failure LevelTooLow, db)
          else
            let today := date_of (local_time now) in
            let today_count := today_count db uid today in
            if today_count >=? daily_work_limit then (Failure DailyQuotaExceeded, db)
            else
              let on_cooldown :=
                match last_work db uid job_name with
                | None => false
                | Some last_work_time =>
                    cooling_down (local_time now) last_work_time
                      (inject_Z (cooldown_hours job_config) * cooldown_multiplier cfg)
                end in
              if on_cooldown then (Failure OnCooldown, db)
              else
                match _calculate_salary cfg r job_config level with
                | None => (Failure RaisedException, db)
                | Some salary_result =>
                    let new_money := money + sal_total_earned salary_result in
                    let new_exp := exp + sal_exp_reward salary_result in
                    let new_level := Leveling._calculate_level new_exp in
                    let db := with_users db
                                (update_user uid
                                   (set_worked new_money new_exp new_level
                                      (sal_total_earned salary_result) (utc_time now))
                                   (users db)) in
                    let db := insert_work db
                                (mkWork uid job_name
                                   (sal_base_salary salary_result)
                                   (level_bonus salary_result + luck_bonus salary_result)
                                   (sal_total_earned salary_result) (utc_time now)) in
                    (Success (mkWorkReceipt salary_result new_money new_exp new_level
                                (new_level >? level) (today_count + 1)), db)
                end
      end
  end.

End Work.

(** ** Robbery (robbery_manager.py) *)

Module Robbery.

(** The attributes set by [RobberyManager.__init__]. *)
Definition success_rate (cfg : GameSettings) : Q := robbery_success_rate cfg / 100.
Definition min_amount (cfg : GameSettings) : Z := robbery_min_amount cfg.
Definition max_amount (cfg : GameSettings) : Z := robbery_max_amount cfg.
Definition cooldown_hours (cfg : GameSettings) : Q := robbery_cooldown_hours cfg.
Definition level_requirement (cfg : GameSettings) : Z := robbery_level_requirement cfg.
Definition protection_amount (cfg : GameSettings) : Z := robbery_protection_amount cfg.
Definition failure_penalty (cfg : GameSettings) : Z := robbery_failure_penalty cfg.

(** [UPDATE users SET username = ?, updated_at = CURRENT_TIMESTAMP
    WHERE user_id = ? AND username != ?]. *)
Definition rename (name : string) (now : Z) (u : User) : User :=
  if String.eqb (username u) name then u
  else mkUser (user_id u) name (money u) (bank_money u) (total_earned u)
              (level u) (exp u) (last_checkin u) (checkin_streak u)
              (total_checkin u) (last_work_time u) (work_count_today u)
              (rob_count_today u) (robbed_count_today u) (created_at u) now.

(** [RobberyManager._ensure_user_exists]: insert if missing, then
    refresh the user name. *)
Definition _ensure_user_exists (db : Db) (now : Z) (uid name : string) : Db :=
  let db := _ensure_user_exists db now uid name in
  with_users db (update_user uid (rename name now) (users db)).

(** [UPDATE users SET money = ?, rob_count_today = rob_count_today + 1,
    updated_at = CURRENT_TIMESTAMP]. *)
Definition set_robber (m now : Z) (u : User) : User :=
  mkUser (user_id u) (username u) m (bank_money u) (total_earned u)
         (level u) (exp u) (last_checkin u) (checkin_streak u)
         (total_checkin u) (last_work_time u) (work_count_today u)
         (rob_count_today u + 1) (robbed_count_today u) (created_at u) now.

(** [UPDATE users SET money = ?, robbed_count_today = robbed_count_today + 1,
    updated_at = CURRENT_TIMESTAMP]. *)
Definition set_victim (m now : Z) (u : User) : User :=
  mkUser (user_id u) (username u) m (bank_money u) (total_earned u)
         (level u) (exp u) (last_checkin u) (checkin_streak u)
         (total_checkin u) (last_work_time u) (work_count_today u)
         (rob_count_today u) (robbed_count_today u + 1) (created_at u) now.

(** [SELECT created_at FROM robbery_records WHERE robber_id = ?
    ORDER BY created_at DESC LIMIT 1]. *)
Definition last_robbery (db : Db) (uid : string) : option Z :=
  fold_left
    (fun best rec =>
       if String.eqb (robber_id rec) uid then
         match best with
         | None => Some (rob_created_at rec)
         | Some t => Some (Z.max t (rob_created_at rec))
         end
       else best)
    (robbery_records db) None.

(** The success dictionary of [rob_user]: the call went through, the
    robbery itself succeeded or failed. *)
Record RobReceipt := mkRobReceipt
  { robbery_success : bool; amount : Z; victim_name : string }.

(** The amount taken by a successful robbery. *)
Definition loot (cfg : GameSettings) (r : Rand) (victim_money : Z) : option Z :=
  let max_rob_amount := Z.min (max_amount cfg) (victim_money - protection_amount cfg) in
  if max_rob_amount <? min_amount cfg then Some max_rob_amount
  else randint r (min_amount cfg) max_rob_amount.

(** [RobberyManager.rob_user]. *)
Definition rob_user (cfg : GameSettings) (db : Db) (now : Clock) (r : Rand)
    (robber robber_name victim victim_name : string) : Outcome RobReceipt * Db :=
  let db := _ensure_user_exists db (utc_time now) robber robber_name in
  let db := _ensure_user_exists db (utc_time now) victim victim_name in
  if String.eqb robber victim then (Failure SelfTarget, db)
  else
    match find_user robber (users db) with
    | None => (Failure UserDataError, db)
    | Some robber_data =>
        let robber_level := level robber_data in
        let robber_money := money robber_data in
        if robber_level <? level_requirement cfg then (Failure LevelTooLow, db)
        else
          let on_cooldown :=
            match last_robbery db robber with
            | None => false
            | Some last_time =>
                Work.cooling_down (local_time now) last_time (cooldown_hours cfg)
            end in
          if on_cooldown then (Failure OnCooldown, db)
          else
            match find_user victim (users db) with
            | None => (Failure VictimNotFound, db)
            | Some victim_data =>
                let victim_money := money victim_data in
                let victim_username := username victim_data in
                if victim_money <? protection_amount cfg
                then (Failure VictimProtected, db)
                else
                  let success := Qltb (random_random r) (success_rate cfg) in
                  if success then
                    match loot cfg r victim_money with
                    | None => (Failure RaisedException, db)
                    | Some rob_amount =>
                        let new_robber_money := robber_money + rob_amount in
                        let new_victim_money := victim_money - rob_amount in
                        let db := with_users db
                                    (update_user robber
                                       (set_robber new_robber_money (utc_time now))
                                       (users db)) in
                        let db := with_users db
                                    (update_user victim
                                       (set_victim new_victim_money (utc_time now))
                                       (users db)) in
                        let db := insert_robbery db
                                    (mkRobbery robber victim rob_amount true
                                               (utc_time now)) in
                        (Success (mkRobReceipt true rob_amount victim_username), db)
                    end
                  else
                    let penalty_amount := Z.min (failure_penalty cfg) robber_money in
                    let new_robber_money := robber_money - penalty_amount in
                    let new_victim_money := victim_money + penalty_amount in
                    let db := with_users db
                                (update_user robber
                                   (set_robber new_robber_money (utc_time now))
                                   (users db)) in
                    let db := with_users db
                                (update_user victim
                                   (set_victim new_victim_money (utc_time now))
                                   (users db)) in
                    let db := insert_robbery db
                                (mkRobbery robber victim penalty_amount false
                                           (utc_time now)) in
                    (Success (mkRobReceipt false 0 victim_username), db)
            end
    end.

End Robbery.

(** ** Ranking (ranking_manager.py) *)

Module Ranking.

(** The [field] entries of the [ranking_types] dict, as column
    expressions over a row of [users]. *)
Definition ranking_types : list (string * (User -> Z)) :=
  [ ("money"%string,   money);
    ("assets"%string,  fun u => money u + bank_money u);
    ("earned"%string,  total_earned);
    ("level"%string,   exp);
    ("checkin"%string, total_checkin) ].

Definition lookup_field (ranking_type : string) : option (User -> Z) :=
  option_map snd (find (fun e => String.eqb (fst e) ranking_type) ranking_types).

(** The columns of the [ORDER BY ... DESC] clause: [level DESC, exp DESC]
    for the level ranking, the field alone otherwise. *)
Definition order_columns (ranking_type : string) (field : User -> Z)
  : list (User -> Z) :=
  if String.eqb ranking_type "level" then [level; field] else [field].

Definition sort_key (cols : list (User -> Z)) (u : User) : list Z :=
  map (fun c => c u) cols.

(** Strictly greater, column by column. *)
Fixpoint lex_gtb (k1 k2 : list Z) : bool :=
  match k1, k2 with
  | a :: r1, b :: r2 => (b <? a) || ((a =? b) && lex_gtb r1 r2)
  | _, _ => false
  end.

(** [ORDER BY cols DESC]: the clause names no further column, so rows
    with equal keys come out in the order the table scan yields them. *)
Fixpoint insert_desc (cols : list (User -> Z)) (x : User) (sorted : list User)
  : list User :=
  match sorted with
  | [] => [x]
  | y :: rest =>
      if lex_gtb (sort_key cols y) (sort_key cols x)
      then y :: insert_desc cols x rest
      else x :: y :: rest
  end.

Definition order_by_desc (cols : list (User -> Z)) (rows : list User) : list User :=
  fold_right (insert_desc cols) [] rows.

(** [LIMIT ?]; SQLite reads a negative limit as no limit. *)
Definition sql_limit {A} (limit : Z) (rows : list A) : list A :=
  if limit <? 0 then rows else firstn (Z.to_nat limit) rows.

(** An element of the [data] list of the result. *)
Record Entry := mkEntry
  { rank : Z;
    e_user_id : string;
    e_username : string;
    value : Z;
    e_money : Z;
    e_bank_money : Z;
    e_level : Z;
    e_total_checkin : Z }.

Record RankingData := mkRankingData
  { data : list Entry; total_users : Z }.

(** The rows the query returns. *)
Definition ranked_users (ranking_type : string) (field : User -> Z) (limit : Z)
    (db : Db) : list User :=
  sql_limit limit
    (order_by_desc (order_columns ranking_type field)
       (filter (fun u => field u >? 0) (users db))).

(** [for i, row in enumerate(results, 1)]. *)
Fixpoint enumerate_from (field : User -> Z) (i : Z) (rows : list User) : list Entry :=
  match rows with
  | [] => []
  | u :: rest =>
      mkEntry i (user_id u) (username u) (field u) (money u) (bank_money u)
              (level u) (total_checkin u)
      :: enumerate_from field (i + 1) rest
  end.

(** [RankingManager.get_ranking_data]; [None] is the
    [{"error": ...}] answer to an unknown ranking type. *)
Definition get_ranking_data (db : Db) (ranking_type : string) (limit : Z)
  : option RankingData :=
  match lookup_field ranking_type with
  | None => None
  | Some field =>
      let results := ranked_users ranking_type field limit db in
      let total_users :=
        Z.of_nat (List.length (filter (fun u => (money u >? 0) || (total_checkin u >? 0))
                                      (users db))) in
      Some (mkRankingData (enumerate_from field 1 results) total_users)
  end.

End Ranking.

(** ** The engine as a transition system *)

(** One call into the engine, with the clock readings and the random
    draws it is given: a [Clock] for a call that reads the host's clock,
    the stamp alone for a call that only writes rows. *)
Inductive Op :=
  | OpCheckin (now : Clock) (r : Rand) (uid name : string)
  | OpWork (now : Clock) (r : Rand) (uid name job_name : string)
  | OpDeposit (now : Z) (uid name : string) (amt : Z)
  | OpWithdraw (now : Clock) (uid name : string) (amt : Z)
  | OpTransfer (now : Z) (from_id to_id from_name to_name : string) (amt : Z)
  | OpRob (now : Clock) (r : Rand) (robber robber_name victim victim_name : string)
  | OpInterest (now : Z).

(** The database after one call. *)
Definition step (cfg : GameSettings) (db : Db) (op : Op) : Db :=
  match op with
  | OpCheckin now r uid name => snd (Checkin.daily_checkin db now r uid name)
  | OpWork now r uid name job => snd (Work.work cfg db now r uid name job)
  | OpDeposit now uid name amt => snd (Bank.deposit db now uid name amt)
  | OpWithdraw now uid name amt => snd (Bank.withdraw db now uid name amt)
  | OpTransfer now f t fn tn amt => snd (Bank.transfer db now f t fn tn amt)
  | OpRob now r a an v vn => snd (Robbery.rob_user cfg db now r a an v vn)
  | OpInterest now => snd (Bank.apply_daily_interest cfg db now)
  end.

(** The databases seen along a sequence of calls, the starting one
    excluded. *)
Fixpoint trace (cfg : GameSettings) (db : Db) (ops : list Op) : list Db :=
  match ops with
  | [] => []
  | op :: rest => step cfg db op :: trace cfg (step cfg db op) rest
  end.

(** Both balances of a row are non-negative. *)
Definition solvent (u : User) : Prop := 0 <= money u /\ 0 <= bank_money u.

Definition all_solvent (db : Db) : Prop := Forall solvent (users db).

(** The robbery amounts of the configuration are non-negative. *)
Definition robbery_amounts_nonneg (cfg : GameSettings) : Prop :=
  0 <= Robbery.min_amount cfg /\ 0 <= Robbery.max_amount cfg
  /\ 0 <= Robbery.protection_amount cfg /\ 0 <= Robbery.failure_penalty cfg.

(** The spec's [consecutiveBonus]: the bonus of the highest tier reached. *)
Definition highest_tier_bonus (s : Z) : Z :=
  if s >=? 30 then 1000
  else if s >=? 15 then 500
  else if s >=? 7 then 200
  else if s >=? 3 then 50
  else 0.

(** The streak rule of the spec: one more than the stored streak when the
    last checkin was the day before [today], otherwise 1. *)
Definition next_streak (u : User) (today : Z) : Z :=
  match last_checkin u with
  | None => 1
  | Some last_date => if today - last_date =? 1 then checkin_streak u + 1 else 1
  end.

(** A ledger with one user who checked in on day 9 with a streak of 6. *)
Definition streak6_db : Db :=
  mkDb [mkUser "alice" "Alice" 40 0 0 1 0 (Some 9) 6 6 None 0 0 0 0 777600]
       [] [] [mkCheckin "alice" 9 120 6 777600] [].

(** The cash a user holds; a user without a row holds nothing. *)
Definition cash_of (db : Db) (uid : string) : Z :=
  match find_user uid (users db) with
  | Some u => money u
  | None => 0
  end.

(** [SELECT SUM(total_earned) FROM work_records WHERE user_id = ?]. *)
Definition earned_by (db : Db) (uid : string) : Z :=
  fold_right Z.add 0
    (map wr_total_earned
       (filter (fun w => String.eqb (wr_user_id w) uid) (work_records db))).

Definition is_work_call (op : Op) : Prop :=
  match op with OpWork _ _ _ _ _ => True | _ => False end.

(** The database after a sequence of calls. *)
Definition run (cfg : GameSettings) (db : Db) (ops : list Op) : Db :=
  fold_left (step cfg) ops db.

(** The two [_ensure_user_exists] calls that open [rob_user]. *)
Definition rob_entry (db : Db) (now : Z) (robber robber_name victim victim_name : string)
  : Db :=
  Robbery._ensure_user_exists
    (Robbery._ensure_user_exists db now robber robber_name) now victim victim_name.

(** The cooldown test of [rob_user]. *)
Definition robber_cooling (cfg : GameSettings) (db : Db) (now : Clock) (robber : string)
  : bool :=
  match Robbery.last_robbery db robber with
  | None => false
  | Some last_time =>
      Work.cooling_down (local_time now) last_time (Robbery.cooldown_hours cfg)
  end.

(** What [rob_user] commits: the robber's row, the victim's row and one
    record. *)
Definition settled (db0 : Db) (now : Z) (robber victim : string)
    (new_robber_money new_victim_money amt : Z) (ok : bool) : Db :=
  let db1 := with_users db0
               (update_user robber (Robbery.set_robber new_robber_money now)
                            (users db0)) in
  let db2 := with_users db1
               (update_user victim (Robbery.set_victim new_victim_money now)
                            (users db1)) in
  insert_robbery db2 (mkRobbery robber victim amt ok now).

(** The savings a user holds; a user without a row holds nothing. *)
Definition savings_of (db : Db) (uid : string) : Z :=
  match find_user uid (users db) with
  | Some u => bank_money u
  | None => 0
  end.

(** The bank transactions of one user, oldest first. *)
Definition txs_of (db : Db) (uid : string) : list BankTransaction :=
  filter (fun t => String.eqb (tx_user_id t) uid) (bank_transactions db).

(** The interest of the spec: the rate by VIP status, then
    [floor(savings * rate)] in exact arithmetic on the number the rate
    stands for; [None] when the rate is not a number. *)
Definition floor_interest (cfg : GameSettings) (savings : Z) : option Z :=
  let rate := if savings >=? vip_threshold cfg
              then Bank.vip_interest_rate cfg else Bank.interest_rate cfg in
  option_map (fun rate => Qfloor (inject_Z savings * rate)) (Q_of_float rate).

(** The interest computed for savings [b], and 0 where the computation
    raises. *)
Definition interest_due (cfg : GameSettings) (b : Z) : Z :=
  match Bank.interest_of cfg b with Some interest => interest | None => 0 end.

(** One turn of the interest loop when its body does not raise. *)
Definition credit_step (cfg : GameSettings) (now : Z)
    (st : Db * Bank.InterestReport) (row : string * Z) : Db * Bank.InterestReport :=
  let '(db, rep) := st in
  let '(uid, b) := row in
  let interest := interest_due cfg b in
  if interest >? 0 then
    (insert_transaction
       (with_users db (update_user uid (Bank.set_bank_money (b + interest) now)
                                   (users db)))
       (mkTx uid interest_tx interest b (b + interest) now),
     Bank.mkInterestReport (Bank.processed_users rep + 1)
                           (Bank.total_interest rep + interest))
  else (db, rep).

(** What one turn of the interest loop does to the row it is about. *)
Definition credited (cfg : GameSettings) (now savings : Z) (u : User) : User :=
  if interest_due cfg savings >? 0
  then Bank.set_bank_money (savings + interest_due cfg savings) now u
  else u.

(** The record one turn of the interest loop appends, if any. *)
Definition interest_records (cfg : GameSettings) (now : Z) (uid : string) (savings : Z)
  : list BankTransaction :=
  if interest_due cfg savings >? 0
  then [mkTx uid interest_tx (interest_due cfg savings) savings
             (savings + interest_due cfg savings) now]
  else [].

(** A ledger with a saver below the VIP threshold, a VIP saver and a
    user without savings. *)
Definition savers_db : Db :=
  mkDb [ mkUser "alice" "Alice" 40 1000 0 1 0 None 0 0 None 0 0 0 0 0;
         mkUser "bob" "Bob" 500 0 0 5 420 None 0 0 None 0 0 0 0 0;
         mkUser "carol" "Carol" 0 20000 0 1 0 None 0 0 None 0 0 0 0 0 ]
       [] [] [] [].

(** Two ledgers with the same two accounts of equal cash, inserted in
    opposite orders, and a ledger whose only account holds no cash. *)
Definition tie_db_bob_first : Db :=
  mkDb [ mkUser "bob" "Bob" 100 0 0 1 0 None 0 0 None 0 0 0 0 0;
         mkUser "alice" "Alice" 100 0 0 1 0 None 0 0 None 0 0 0 0 0 ]
       [] [] [] [].

Definition tie_db_alice_first : Db :=
  mkDb [ mkUser "alice" "Alice" 100 0 0 1 0 None 0 0 None 0 0 0 0 0;
         mkUser "bob" "Bob" 100 0 0 1 0 None 0 0 None 0 0 0 0 0 ]
       [] [] [] [].

Definition penniless_db : Db :=
  mkDb [ mkUser "alice" "Alice" 0 0 0 1 0 None 0 0 None 0 0 0 0 0 ] [] [] [] [].

(** The user ids of a ranking, best first. *)
Definition ranking_ids (rd : option Ranking.RankingData) : option (list string) :=
  option_map (fun d => map Ranking.e_user_id (Ranking.data d)) rd.

(** [x] is not ranked below [y]: the key of [y] is not strictly greater. *)
Definition not_below (cols : list (User -> Z)) (x y : User) : Prop :=
  Ranking.lex_gtb (Ranking.sort_key cols y) (Ranking.sort_key cols x) = false.

(** The rows whose sort key is [k]. *)
Definition same_key (cols : list (User -> Z)) (k : list Z) (u : User) : bool :=
  if list_eq_dec Z.eq_dec (Ranking.sort_key cols u) k then true else false.

(** A level-5 robber with 30 coins and a victim holding 500, and the same
    pair with the victim holding exactly the default protection amount. *)
Definition heist_bob : User :=
  mkUser "bob" "Bob" 30 0 0 5 420 None 0 0 None 0 0 0 0 0.

Definition heist_alice (cash : Z) : User :=
  mkUser "alice" "Alice" cash 0 0 1 0 None 0 0 None 0 0 0 0 0.

Definition heist_db (victim_cash : Z) : Db :=
  mkDb [heist_alice victim_cash; heist_bob] [] [] [] [].

(** The [user_id] column, the primary key of [users]. *)
Definition ids (db : Db) : list string := map user_id (users db).

(** ** Reading the ledger *)

(** A numeric column of a user's row; a user without a row counts as 0. *)
Definition field_of (column : User -> Z) (db : Db) (uid : string) : Z :=
  match find_user uid (users db) with
  | Some u => column u
  | None => 0
  end.

(** Whether the call an [Op] stands for went through. *)
Definition went_through (cfg : GameSettings) (db : Db) (op : Op) : bool :=
  match op with
  | OpCheckin now r uid name => is_success (fst (Checkin.daily_checkin db now r uid name))
  | OpWork now r uid name job => is_success (fst (Work.work cfg db now r uid name job))
  | OpDeposit now uid name amt => is_success (fst (Bank.deposit db now uid name amt))
  | OpWithdraw now uid name amt => is_success (fst (Bank.withdraw db now uid name amt))
  | OpTransfer now f t fn tn amt => is_success (fst (Bank.transfer db now f t fn tn amt))
  | OpRob now r a an v vn => is_success (fst (Robbery.rob_user cfg db now r a an v vn))
  | OpInterest now => is_success (fst (Bank.apply_daily_interest cfg db now))
  end.

(** What a bank record adds to the savings it is about. *)
Definition signed_amount (t : BankTransaction) : Z :=
  match transaction_type t with
  | deposit_tx | transfer_in_tx | interest_tx => tx_amount t
  | withdraw_tx | transfer_out_tx => - tx_amount t
  end.

(** A bank record whose amount is positive and whose two balances differ
    by it, in the direction of its type. *)
Definition tx_consistent (t : BankTransaction) : Prop :=
  0 < tx_amount t /\ balance_after t = balance_before t + signed_amount t.

(** The savings obtained by replaying a user's bank records from 0. *)
Definition replayed (db : Db) (uid : string) : Z :=
  fold_right Z.add 0 (map signed_amount (txs_of db uid)).

(** Every account of [db] is still there in [db'], related by [R]. *)
Definition persists (R : User -> User -> Prop) (db db' : Db) : Prop :=
  forall who u, find_user who (users db) = Some u ->
                exists u', find_user who (users db') = Some u' /\ R u u'.

(** The same account later: identity and creation time kept, lifetime
    counters not decreased. *)
Definition grown (u u' : User) : Prop :=
  user_id u' = user_id u
  /\ created_at u' = created_at u
  /\ total_earned u <= total_earned u'
  /\ total_checkin u <= total_checkin u'.

(** The four record tables of two databases are the same. *)
Definition same_records (db db' : Db) : Prop :=
  bank_transactions db' = bank_transactions db
  /\ work_records db' = work_records db
  /\ checkin_records db' = checkin_records db
  /\ robbery_records db' = robbery_records db.

(** Every record of the bank table is consistent. *)
Definition ledger_consistent (db : Db) : Prop :=
  Forall tx_consistent (bank_transactions db).

(** Replaying a user's bank records gives the user's savings. *)
Definition reconciled (db : Db) : Prop :=
  forall uid, savings_of db uid = replayed db uid.

(** Nobody has more work records on one day than the daily limit. *)
Definition within_work_quota (db : Db) : Prop :=
  forall uid day, Work.today_count db uid day <= Work.daily_work_limit.


(** [grown], and experience not decreased either. *)
Definition grown_with_exp (u u' : User) : Prop := grown u u' /\ exp u <= exp u'.

(** Every stored level is the level of the stored experience. *)
Definition levels_consistent (db : Db) : Prop :=
  Forall (fun u => level u = Leveling._calculate_level (exp u)) (users db).

(** ** Queries that only read (the managers' info and listing methods) *)

(** [ORDER BY key DESC] over any table: a stable insertion sort, rows with
    equal keys staying in scan order. *)
Fixpoint insert_by_desc {A} (key : A -> Z) (x : A) (sorted : list A) : list A :=
  match sorted with
  | [] => [x]
  | y :: rest =>
      if key x <? key y then y :: insert_by_desc key x rest else x :: y :: rest
  end.

Definition sort_by_desc {A} (key : A -> Z) (rows : list A) : list A :=
  fold_right (insert_by_desc key) [] rows.

(** Python's [l[:n]]: the first [n] items, or all but the last [-n] when
    [n] is negative. *)
Definition slice_to {A} (n : Z) (l : list A) : list A :=
  if n <? 0 then firstn (Z.to_nat (Z.of_nat (List.length l) + n)) l
  else firstn (Z.to_nat n) l.

Module LevelInfo.

(** The dictionary returned by [_get_level_info]. *)
Record Info := mkInfo
  { current_level : Z;
    next_level : Z;
    current_exp : Z;
    level_progress : Z;
    exp_needed : Z;
    exp_for_current_level : Z;
    progress_percentage : Z }.

Section WithFloats.

(** [int((a / b) * 100)] as Python computes it on floats; its rounding is
    not modelled, so the operation is a parameter. *)
Variable int_percent : Z -> Z -> Z.

(** [WorkManager._get_level_info]; [UserInfoManager._get_level_info] is
    the same code with [_calculate_level] inlined. *)
Definition _get_level_info (exp : Z) : Info :=
  let current_level := Leveling._calculate_level exp in
  let next_level := current_level + 1 in
  let current_level_start := Leveling.get_level_exp_requirement current_level in
  let next_level_start := Leveling.get_level_exp_requirement next_level in
  let exp_for_current_level := Leveling.get_exp_for_next_level current_level in
  let level_progress := exp - current_level_start in
  let exp_needed := next_level_start - exp in
  mkInfo current_level next_level exp level_progress exp_needed exp_for_current_level
         (int_percent level_progress exp_for_current_level).

End WithFloats.

End LevelInfo.

Module Targets.

(** The [rob_range] text of a target: ["lo-hi"] or a single number. *)
Inductive RobRange :=
  | Between (lo hi : Z)
  | Exactly (n : Z).

(** An element of the [targets] list. *)
Record Target := mkTarget
  { t_user_id : string;
    t_username : string;
    t_money : Z;
    t_level : Z;
    t_total_assets : Z;
    rob_range : RobRange }.

(** [SELECT ... FROM users WHERE user_id != ? AND money >= ?
    ORDER BY money DESC LIMIT ?]. *)
Definition candidates (cfg : GameSettings) (db : Db) (robber : string) (limit : Z)
  : list User :=
  Ranking.sql_limit limit
    (sort_by_desc money
       (filter (fun u => negb (String.eqb (user_id u) robber)
                         && (money u >=? Robbery.protection_amount cfg))
               (users db))).

(** The body of the loop over the selected rows. *)
Definition describe (cfg : GameSettings) (u : User) : Target :=
  let max_rob := Z.min (Robbery.max_amount cfg)
                       (money u - Robbery.protection_amount cfg) in
  let min_rob := Z.min (Robbery.min_amount cfg) max_rob in
  mkTarget (user_id u) (username u) (money u) (level u) (money u + bank_money u)
           (if min_rob <? max_rob then Between min_rob max_rob else Exactly max_rob).

(** [RobberyManager.get_robbery_targets]: the [targets] list (the
    [config] echo of the result is the configuration itself). *)
Definition get_robbery_targets (cfg : GameSettings) (db : Db) (robber : string)
    (limit : Z) : list Target :=
  map (describe cfg) (candidates cfg db robber limit).

End Targets.

Module CheckinInfo.

(** The dictionary returned by [get_checkin_info]. *)
Record Info := mkInfo
  { i_money : Z;
    streak : Z;
    i_total_checkin : Z;
    i_last_checkin : option Z;
    has_checked_today : bool;
    today_reward : Z;
    recent_records : list CheckinRecord;
    next_reward : Checkin.Reward }.

(** [SELECT reward_money FROM checkin_records WHERE user_id = ? AND
    checkin_date = ?] followed by [fetchone()]. *)
Definition todays_record (db : Db) (uid : string) (today : Z) : option CheckinRecord :=
  find (fun c => String.eqb (cr_user_id c) uid && (checkin_date c =? today))
       (checkin_records db).

(** [CheckinManager.get_checkin_info]; [None] is the [{'error': ...}]
    answer. *)
Definition get_checkin_info (db : Db) (now : Clock) (r : Rand) (uid name : string)
  : option Info * Db :=
  let db := _ensure_user_exists db (utc_time now) uid name in
  let today := date_of (local_time now) in
  match find_user uid (users db) with
  | None => (None, db)
  | Some user_data =>
      let streak := checkin_streak user_data in
      let today_reward := todays_record db uid today in
      let has_checked_today :=
        match today_reward with Some _ => true | None => false end in
      let recent_records :=
        Ranking.sql_limit 7
          (sort_by_desc checkin_date
             (filter (fun c => String.eqb (cr_user_id c) uid) (checkin_records db))) in
      let next_streak :=
        if has_checked_today then streak + 1
        else match last_checkin user_data with
             | Some last_date => if today - last_date =? 1 then streak + 1 else 1
             | None => 1
             end in
      match Checkin._calculate_reward r next_streak with
      | None => (None, db)
      | Some next_reward =>
          (Some (mkInfo (money user_data) streak (total_checkin user_data)
                        (last_checkin user_data) has_checked_today
                        (match today_reward with
                         | Some c => reward_money c
                         | None => 0
                         end)
                        recent_records next_reward), db)
      end
  end.

End CheckinInfo.

Module BankInfo.

(** The [stats] entry of the result. *)
Record Stats := mkStats
  { total_transactions : Z; total_deposits : Z; total_withdraws : Z }.

(** The dictionary returned by [get_bank_info] (the [limits] entry
    repeats the four constants of the manager). *)
Record Info := mkInfo
  { i_username : string;
    i_money : Z;
    i_bank_money : Z;
    i_total_assets : Z;
    is_vip : bool;
    i_vip_threshold : Z;
    i_interest_rate : float;
    daily_interest : Z;
    i_today_withdraw : Z;
    remaining_withdraw : Z;
    daily_limit : Z;
    stats : Stats;
    recent_transactions : list BankTransaction }.

(** [SUM(CASE WHEN transaction_type = ty THEN amount ELSE 0 END)], with
    [or 0]. *)
Definition sum_of_type (ty : TransactionType) (txs : list BankTransaction) : Z :=
  fold_right Z.add 0
    (map (fun t => if TransactionType_eqb (transaction_type t) ty
                   then tx_amount t else 0) txs).

(** [BankManager.get_bank_info]; [None] is the [{"error": ...}] answer,
    given when the row is missing or the interest computation raises. *)
Definition get_bank_info (cfg : GameSettings) (db : Db) (now : Clock) (uid name : string)
  : option Info * Db :=
  let db := _ensure_user_exists db (utc_time now) uid name in
  match find_user uid (users db) with
  | None => (None, db)
  | Some user_data =>
      let money := money user_data in
      let bank_money := bank_money user_data in
      let total_assets := money + bank_money in
      let is_vip := bank_money >=? vip_threshold cfg in
      let current_interest_rate :=
        if is_vip then Bank.vip_interest_rate cfg else Bank.interest_rate cfg in
      match int_of_product bank_money current_interest_rate with
      | None => (None, db)
      | Some daily_interest =>
          let today := date_of (local_time now) in
          let today_withdraw := Bank.today_withdraw db uid today in
          let remaining_withdraw := Bank.daily_withdraw_limit - today_withdraw in
          let mine := txs_of db uid in
          let stats := mkStats (Z.of_nat (List.length mine))
                               (sum_of_type deposit_tx mine)
                               (sum_of_type withdraw_tx mine) in
          let recent_transactions :=
            Ranking.sql_limit 5 (sort_by_desc tx_created_at mine) in
          (Some (mkInfo (username user_data) money bank_money total_assets is_vip
                        (vip_threshold cfg) (current_interest_rate * 100)%float
                        daily_interest
                        today_withdraw remaining_withdraw Bank.daily_withdraw_limit
                        stats recent_transactions), db)
      end
  end.

End BankInfo.

(** The amounts a [rob_range] text stands for. *)
Definition in_range (rg : Targets.RobRange) (x : Z) : Prop :=
  match rg with
  | Targets.Between lo hi => lo <= x <= hi
  | Targets.Exactly n => x = n
  end.

(** The order [ORDER BY key DESC] leaves rows in. *)
Definition desc_by {A} (key : A -> Z) (x y : A) : Prop := key y <= key x.

Module RankInfo.

(** The dictionary returned by [get_user_ranking_info]; the two
    [{"error": ...}] answers are the other constructors of [Answer]. *)
Record Info := mkInfo
  { rank : Z; r_username : string; value : Z; total_users : Z }.

Inductive Answer :=
  | Ranked (info : Info)
  | UnknownType
  | NoSuchUser.

(** [SELECT COUNT( * ) + 1 FROM users WHERE ...]. *)
Definition count_plus_one (ahead : User -> bool) (db : Db) : Z :=
  Z.of_nat (List.length (filter ahead (users db))) + 1.

(** [SELECT COUNT( * ) FROM users WHERE money > 0 OR total_checkin > 0]. *)
Definition count_active (db : Db) : Z :=
  Z.of_nat (List.length (filter (fun u => (money u >? 0) || (total_checkin u >? 0))
                                (users db))).

(** [RankingManager.get_user_ranking_info].  The scalar subqueries
    [(SELECT ... FROM users WHERE user_id = ?)] read the row the first
    query fetched. *)
Definition get_user_ranking_info (db : Db) (uid ranking_type : string) : Answer :=
  match Ranking.lookup_field ranking_type with
  | None => UnknownType
  | Some field =>
      match find_user uid (users db) with
      | None => NoSuchUser
      | Some user_data =>
          let rank :=
            if String.eqb ranking_type "level" then
              count_plus_one
                (fun u => (level u >? level user_data)
                          || ((level u =? level user_data)
                              && (field u >? field user_data))) db
            else count_plus_one (fun u => field u >? field user_data) db in
          Ranked (mkInfo rank (username user_data) (field user_data)
                         (count_active db))
      end
  end.

(** The dictionary returned by [UserInfoManager.get_user_ranking]. *)
Record Rankings := mkRankings
  { money_rank : Z; assets_rank : Z; checkin_rank : Z; r_total_users : Z }.

(** [column > (SELECT column FROM users WHERE user_id = ?)]: a comparison
    with the NULL of a missing row selects nothing. *)
Definition above (column : User -> Z) (me : option User) (u : User) : bool :=
  match me with
  | Some m => column u >? column m
  | None => false
  end.

Definition level_with (column : User -> Z) (me : option User) (u : User) : bool :=
  match me with
  | Some m => column u =? column m
  | None => false
  end.

(** [UserInfoManager.get_user_ranking]. *)
Definition get_user_ranking (db : Db) (uid : string) : Rankings :=
  let me := find_user uid (users db) in
  mkRankings
    (count_plus_one (above money me) db)
    (count_plus_one (above (fun u => money u + bank_money u) me) db)
    (count_plus_one (fun u => above checkin_streak me u
                              || (level_with checkin_streak me u
                                  && above total_checkin me u)) db)
    (count_active db).

End RankInfo.

(** [x] is strictly ahead of [y] in the ranking of a type: by level, then
    experience, in the level ranking and by the field otherwise. *)
Definition outranks (ranking_type : string) (field : User -> Z) (x y : User) : Prop :=
  if String.eqb ranking_type "level"
  then level y < level x \/ (level x = level y /\ field y < field x)
  else field y < field x.

(** [x] and [y] are level in the ranking of a type. *)
Definition tied (ranking_type : string) (field : User -> Z) (x y : User) : Prop :=
  if String.eqb ranking_type "level"
  then level x = level y /\ field x = field y
  else field x = field y.

(** The leaderboard entry of a row at a position. *)
Definition entry_of (field : User -> Z) (i : Z) (u : User) : Ranking.Entry :=
  Ranking.mkEntry i (user_id u) (username u) (field u) (money u) (bank_money u)
                  (level u) (total_checkin u).

(** [e'] is listed before [e] and level with it. *)
Definition tied_before (ranking_type : string) (e e' : Ranking.Entry) : bool :=
  (Ranking.rank e' <? Ranking.rank e)
  && (Ranking.value e' =? Ranking.value e)
  && (if String.eqb ranking_type "level"
      then Ranking.e_level e' =? Ranking.e_level e else true).

Module Activities.

(** An element of the list [get_recent_activities] returns: a
    ['checkin'] dictionary (date, amount, the day count of its [extra]
    text, timestamp) or a ['bank'] dictionary (action, amount,
    timestamp). *)
Inductive Activity :=
  | CheckinActivity (date amount consecutive timestamp : Z)
  | BankActivity (action : TransactionType) (amount timestamp : Z).

Definition timestamp (a : Activity) : Z :=
  match a with
  | CheckinActivity _ _ _ ts => ts
  | BankActivity _ _ ts => ts
  end.

Definition of_checkin (c : CheckinRecord) : Activity :=
  CheckinActivity (checkin_date c) (reward_money c) (consecutive_days c) (cr_created_at c).

Definition of_transaction (t : BankTransaction) : Activity :=
  BankActivity (transaction_type t) (tx_amount t) (tx_created_at t).

(** [SELECT ... FROM checkin_records WHERE user_id = ?
    ORDER BY created_at DESC LIMIT ?]. *)
Definition recent_checkins (db : Db) (uid : string) (n : Z) : list CheckinRecord :=
  Ranking.sql_limit n
    (sort_by_desc cr_created_at
       (filter (fun c => String.eqb (cr_user_id c) uid) (checkin_records db))).

(** The same query over [bank_transactions]. *)
Definition recent_transactions (db : Db) (uid : string) (n : Z) : list BankTransaction :=
  Ranking.sql_limit n
    (sort_by_desc tx_created_at
       (filter (fun t => String.eqb (tx_user_id t) uid) (bank_transactions db))).

(** [UserInfoManager.get_recent_activities]; [activities.sort(...,
    reverse=True)] is stable. *)
Definition get_recent_activities (db : Db) (uid : string) (limit : Z) : list Activity :=
  let activities :=
    map of_checkin (recent_checkins db uid (limit / 2))
    ++ map of_transaction (recent_transactions db uid (limit / 2)) in
  slice_to limit (sort_by_desc timestamp activities).

End Activities.

Module JobList.

(** An element of the [jobs] list of [get_available_jobs]; the clock
    reading [cooldown_end] is kept as seconds, where the source renders it
    as hours and minutes. *)
Record Entry := mkEntry
  { name : string;
    config : Work.Job;
    available : bool;
    cooldown_end : option Q;
    user_level : Z }.

(** The dictionary returned by [get_available_jobs]. *)
Record Listing := mkListing
  { jobs : list Entry;
    today_work_count : Z;
    daily_limit : Z;
    can_work_today : bool }.

(** [SELECT work_type, work_time FROM work_records WHERE user_id = ?
    ORDER BY work_time DESC LIMIT 10]. *)
Definition recent_works (db : Db) (uid : string) : list WorkRecord :=
  Ranking.sql_limit 10
    (sort_by_desc work_time
       (filter (fun w => String.eqb (wr_user_id w) uid) (work_records db))).

(** The body of the loop over [self.jobs.items()] for a job that passes
    the level check, [now] being what [datetime.now()] reads: the inner
    loop stops at the first recent record of that job. *)
Definition entry_for (cfg : GameSettings) (now : Z) (recent : list WorkRecord)
    (user_level : Z) (job : string * Work.Job) : Entry :=
  let '(job_name, job_config) := job in
  match find (fun w => String.eqb (work_type w) job_name) recent with
  | Some w =>
      let actual_cooldown_hours :=
        (inject_Z (Work.cooldown_hours job_config) * Work.cooldown_multiplier cfg)%Q in
      let cooldown_end := (inject_Z (work_time w) + actual_cooldown_hours * 3600)%Q in
      mkEntry job_name job_config (negb (Qltb (inject_Z now) cooldown_end))
              (Some cooldown_end) user_level
  | None => mkEntry job_name job_config true None user_level
  end.

(** [WorkManager.get_available_jobs]. *)
Definition get_available_jobs (cfg : GameSettings) (db : Db) (now : Clock)
    (uid uname : string) : Listing * Db :=
  let db := _ensure_user_exists db (utc_time now) uid uname in
  let user_level :=
    match find_user uid (users db) with
    | Some user_data => level user_data
    | None => 1
    end in
  let today_work_count := Work.today_count db uid (date_of (local_time now)) in
  let recent := recent_works db uid in
  let available_jobs :=
    map (entry_for cfg (local_time now) recent user_level)
        (filter (fun job => negb (user_level <? Work.level_required (snd job)))
                Work.jobs) in
  (mkListing available_jobs today_work_count Work.daily_work_limit
             (today_work_count <? Work.daily_work_limit), db).

End JobList.

(** The step of the scan [last_work] makes. *)
Definition newer_of (uid job_name : string) (best : option Z) (w : WorkRecord)
  : option Z :=
  if String.eqb (wr_user_id w) uid && String.eqb (work_type w) job_name then
    match best with
    | None => Some (work_time w)
    | Some t => Some (Z.max t (work_time w))
    end
  else best.

Module RobStats.

(** [SUM(...)] over the selected rows: NULL when there is none. *)
Definition sql_sum (l : list Z) : option Z :=
  match l with
  | [] => None
  | _ => Some (fold_right Z.add 0 l)
  end.

(** The [overall] entry of the result. *)
Record Overall := mkOverall
  { total_robberies : Z;
    successful_robberies : option Z;
    rob_success_rate : Q;
    total_robbed : Z;
    total_robbed_times : Z;
    successful_robbed_times : option Z;
    total_lost : Z }.

(** The dictionary returned by [get_robbery_stats] (its [config] entry
    repeats the settings). *)
Record Info := mkInfo
  { s_username : string;
    s_level : Z;
    s_money : Z;
    s_level_requirement : Z;
    can_rob : bool;
    cooldown_remaining : Q;
    rob_count : Z;
    robbed_count : Z;
    overall : Overall;
    recent_robberies : list (RobberyRecord * option string);
    recent_robbed : list (RobberyRecord * option string) }.

(** [LEFT JOIN users u ON r.<column> = u.user_id]: the record with the
    other party's name, if that user has a row. *)
Definition joined (db : Db) (party : RobberyRecord -> string) (rec : RobberyRecord)
  : RobberyRecord * option string :=
  (rec, option_map username (find_user (party rec) (users db))).

(** [RobberyManager.get_robbery_stats]; [None] is the
    [{"error": ...}] answer for a user without a row. *)
Definition get_robbery_stats (cfg : GameSettings) (db : Db) (now : Clock) (uid : string)
  : option Info :=
  match find_user uid (users db) with
  | None => None
  | Some user_data =>
      let as_robber := filter (fun rec => String.eqb (robber_id rec) uid)
                              (robbery_records db) in
      let as_victim := filter (fun rec => String.eqb (victim_id rec) uid)
                              (robbery_records db) in
      let ones := map (fun rec => if rob_success rec then 1 else 0) in
      let gains := map (fun rec => if rob_success rec then rob_amount rec else 0) in
      let total_robberies := Z.of_nat (List.length as_robber) in
      let successful_robberies := sql_sum (ones as_robber) in
      let total_robbed :=
        match sql_sum (gains as_robber) with Some s => s | None => 0 end in
      let total_robbed_times := Z.of_nat (List.length as_victim) in
      let successful_robbed_times := sql_sum (ones as_victim) in
      let total_lost :=
        match sql_sum (gains as_victim) with Some s => s | None => 0 end in
      let rob_success_rate :=
        if total_robberies >? 0
        then (inject_Z (match successful_robberies with Some s => s | None => 0 end)
              / inject_Z total_robberies * 100)%Q
        else 0%Q in
      let recent_robberies :=
        map (joined db victim_id)
            (Ranking.sql_limit 5 (sort_by_desc rob_created_at as_robber)) in
      let recent_robbed :=
        map (joined db robber_id)
            (Ranking.sql_limit 3 (sort_by_desc rob_created_at as_victim)) in
      let '(can_rob, cooldown_remaining) :=
        match Robbery.last_robbery db uid with
        | Some last_time =>
            let cooldown_end :=
              (inject_Z last_time + Robbery.cooldown_hours cfg * 3600)%Q in
            if Qltb (inject_Z (local_time now)) cooldown_end
            then (false, ((cooldown_end - inject_Z (local_time now)) / 3600)%Q)
            else (true, 0%Q)
        | None => (true, 0%Q)
        end in
      Some (mkInfo (username user_data) (level user_data) (money user_data)
                   (Robbery.level_requirement cfg)
                   (can_rob && (level user_data >=? Robbery.level_requirement cfg))
                   cooldown_remaining
                   (rob_count_today user_data) (robbed_count_today user_data)
                   (mkOverall total_robberies successful_robberies rob_success_rate
                              total_robbed total_robbed_times successful_robbed_times
                              total_lost)
                   recent_robberies recent_robbed)
  end.

End RobStats.

(** All the savings held at the bank. *)
Definition total_savings (db : Db) : Z :=
  fold_right Z.add 0 (map bank_money (users db)).

(** The interest the loop of [apply_daily_interest] pays on savings [b]. *)
Definition interest_paid (cfg : GameSettings) (b : Z) : Z :=
  if (b >? 0) && (interest_due cfg b >? 0) then interest_due cfg b else 0.

(** The two clocks show the same date, as they do all day on a host whose
    local time is UTC. *)
Definition same_date (now : Clock) : Prop :=
  date_of (utc_time now) = date_of (local_time now).

(** The clocks of a call that reads the host's clock show the same date. *)
Definition dated_alike (op : Op) : Prop :=
  match op with
  | OpCheckin now _ _ _ | OpWork now _ _ _ _ | OpWithdraw now _ _ _
  | OpRob now _ _ _ _ _ => same_date now
  | OpDeposit _ _ _ _ | OpTransfer _ _ _ _ _ _ | OpInterest _ => True
  end.

(** A host eight hours east of UTC, [t] seconds after its local midnight
    of day 1: the UTC date is still day 0 until 08:00. *)
Definition east8 (t : Z) : Clock := mkClock (86400 + t) (57600 + t).

(** A ledger with one user holding large savings. *)
Definition wealthy_db : Db :=
  mkDb [ mkUser "dora" "Dora" 0 300000 0 1 0 None 0 0 None 0 0 0 0 0 ] [] [] [] [].


Definition night_shifts : list Op :=
  map (fun t => OpWork (east8 t) (mkRand (1 # 2) 0) "dora" "Dora" "搬砖")
      [0; 60; 120; 180; 240; 300; 360; 420; 480; 540; 600].

(** A ledger whose only saver holds 2933333333333333, far above the VIP
    threshold. *)
Definition tycoon_db : Db :=
  mkDb [ mkUser "vera" "Vera" 0 2933333333333333 0 1 0 None 0 0 None 0 0 0 0 0 ]
       [] [] [] [].

(** The default settings with a VIP rate of 1e308 percent. *)
Definition steep_settings : GameSettings :=
  mkSettings 0.1%float 10000 1e308%float 30 50 300 6 5 100 20 1 1.

(** The default settings with other robbery amounts. *)
Definition robbery_settings (min_amount max_amount protection penalty : Z)
  : GameSettings :=
  mkSettings 0.1%float 10000 0.15%float 30 min_amount max_amount 6 5
             protection penalty 1 1.

(** * Facts *)

(** ** The interest loop *)

(** A turn of the loop that does not raise is a [credit_step]. *)
Lemma interest_step_credit cfg now st row st' :
  Bank.interest_step cfg now st row = Some st' -> st' = credit_step cfg now st row.
Proof.
  destruct st as [db rep], row as [uid b].
  unfold Bank.interest_step, credit_step, interest_due.
  destruct (Bank.interest_of cfg b) as [interest|]; [|discriminate].
  destruct (interest >? 0); now intros [= <-].
Qed.

Lemma interest_step_raises cfg now st row :
  Bank.interest_step cfg now st row = None <-> Bank.interest_of cfg (snd row) = None.
Proof.
  destruct st as [db rep], row as [uid b]. unfold Bank.interest_step. cbn [snd].
  destruct (Bank.interest_of cfg b) as [interest|]; [|tauto].
  destruct (interest >? 0); split; discriminate.
Qed.

(** A loop that runs to its end is the fold of [credit_step]. *)
Lemma interest_loop_credit cfg now rows : forall st st',
  Bank.interest_loop cfg now rows st = Some st' ->
  st' = fold_left (credit_step cfg now) rows st.
Proof.
  induction rows as [|row rows IH]; intros st st'; cbn [Bank.interest_loop fold_left].
  - now intros [= <-].
  - destruct (Bank.interest_step cfg now st row) as [st1|] eqn:E; [|discriminate].
    apply interest_step_credit in E as <-. apply IH.
Qed.

(** The loop raises exactly when the interest of some row does. *)
Lemma interest_loop_raises cfg now rows : forall st,
  Bank.interest_loop cfg now rows st = None
  <-> exists row, In row rows /\ Bank.interest_of cfg (snd row) = None.
Proof.
  induction rows as [|row rows IH]; intros st; cbn [Bank.interest_loop].
  - split; [discriminate|]. now intros (? & [] & _).
  - destruct (Bank.interest_step cfg now st row) as [st1|] eqn:E.
    + rewrite IH. split.
      * intros (r & Hin & Hr). exists r. split; [now right|exact Hr].
      * intros (r & [<-|Hin] & Hr).
        -- apply (interest_step_raises cfg now st) in Hr. congruence.
        -- eauto.
    + apply interest_step_raises in E. split; [|reflexivity].
      intros _. exists row. split; [now left|exact E].
Qed.

(** The two ways [apply_daily_interest] ends: every row is credited and
    the writes are committed, or the interest of some row raises and the
    database is left as it was. *)
Lemma apply_daily_interest_cases cfg db now :
  let st := fold_left (credit_step cfg now) (Bank.savers db)
                      (db, Bank.mkInterestReport 0 0) in
  (Bank.apply_daily_interest cfg db now = (Success (snd st), fst st)
   /\ forall row, In row (Bank.savers db) -> Bank.interest_of cfg (snd row) <> None)
  \/ (Bank.apply_daily_interest cfg db now = (Failure RaisedException, db)
      /\ exists row, In row (Bank.savers db) /\ Bank.interest_of cfg (snd row) = None).
Proof.
  cbv zeta. unfold Bank.apply_daily_interest.
  destruct (Bank.interest_loop cfg now (Bank.savers db) (db, Bank.mkInterestReport 0 0))
    as [[db1 rep1]|] eqn:E.
  - left. rewrite <- (interest_loop_credit _ _ _ _ _ E). split; [reflexivity|].
    intros row Hin Hnone.
    assert (Bank.interest_loop cfg now (Bank.savers db) (db, Bank.mkInterestReport 0 0)
            = None) by (apply interest_loop_raises; eauto).
    congruence.
  - right. split; [reflexivity|]. now apply interest_loop_raises in E.
Qed.

(** The database after a call, in either case. *)
Lemma apply_daily_interest_snd cfg db now :
  snd (Bank.apply_daily_interest cfg db now)
  = fst (fold_left (credit_step cfg now) (Bank.savers db)
                   (db, Bank.mkInterestReport 0 0))
  \/ snd (Bank.apply_daily_interest cfg db now) = db.
Proof.
  destruct (apply_daily_interest_cases cfg db now) as [[-> _]|[-> _]]; auto.
Qed.


(** ** Python primitives *)

Lemma randint_range r a b x : randint r a b = Some x -> a <= x <= b.
Proof.
  unfold randint. destruct (Z.ltb_spec b a); [discriminate|].
  intros [= <-]. pose proof (Z.mod_pos_bound (rnd_int r) (b - a + 1)). lia.
Qed.

Lemma randint_some r a b : a <= b -> exists x, randint r a b = Some x.
Proof.
  intros H. unfold randint. destruct (Z.ltb_spec b a); [lia|]. eauto.
Qed.

(** Every value of the range is the result of some draw. *)
Lemma randint_any q a b x : a <= x <= b -> randint (mkRand q (x - a)) a b = Some x.
Proof.
  intros H. unfold randint; cbn. destruct (Z.ltb_spec b a); [lia|].
  rewrite Z.mod_small by lia. f_equal; lia.
Qed.

Lemma Qtrunc_nonneg q : 0 <= Qnum q -> 0 <= Qtrunc q.
Proof. intros H. unfold Qtrunc. apply Z.quot_pos; lia. Qed.

(** On a non-negative float [int] is the floor. *)
Lemma Qtrunc_floor q : 0 <= Qnum q -> Qtrunc q = Qfloor q.
Proof.
  intros H. unfold Qtrunc. destruct q as [n d]; cbn in *.
  apply Z.quot_div_nonneg; lia.
Qed.

(** ** The users table *)

Lemma find_user_some uid us u :
  find_user uid us = Some u -> In u us /\ user_id u = uid.
Proof.
  unfold find_user. intros H. apply find_some in H as [Hin Heq].
  split; [assumption|]. now apply String.eqb_eq.
Qed.

Lemma Forall_update_user (P : User -> Prop) uid f us :
  Forall P us ->
  (forall u, In u us -> user_id u = uid -> P (f u)) ->
  Forall P (update_user uid f us).
Proof.
  intros HP Hf. unfold update_user. rewrite Forall_map.
  rewrite Forall_forall in *. intros u Hin.
  destruct (String.eqb_spec (user_id u) uid); auto.
Qed.

Lemma find_user_update_same uid f us :
  (forall u, user_id (f u) = user_id u) ->
  find_user uid (update_user uid f us) = option_map f (find_user uid us).
Proof.
  intros Hid. unfold find_user, update_user.
  induction us as [|u us IH]; [reflexivity|]. cbn.
  destruct (String.eqb_spec (user_id u) uid) as [E|E].
  - rewrite Hid, E, String.eqb_refl. reflexivity.
  - destruct (String.eqb_spec (user_id u) uid); [contradiction|]. exact IH.
Qed.

Lemma find_user_update_other uid uid' f us :
  (forall u, user_id (f u) = user_id u) ->
  uid <> uid' ->
  find_user uid' (update_user uid f us) = find_user uid' us.
Proof.
  intros Hid Hne. unfold find_user, update_user.
  induction us as [|u us IH]; [reflexivity|]. cbn.
  destruct (String.eqb_spec (user_id u) uid) as [E|E].
  - rewrite Hid, E.
    destruct (String.eqb_spec uid uid'); [contradiction|]. exact IH.
  - destruct (String.eqb_spec (user_id u) uid'); [reflexivity|]. exact IH.
Qed.

Lemma find_user_app_new uid us u :
  find_user uid us = None -> user_id u = uid -> find_user uid (us ++ [u]) = Some u.
Proof.
  unfold find_user. intros Hn Hu.
  induction us as [|v us IH]; cbn in *.
  - rewrite Hu, String.eqb_refl. reflexivity.
  - destruct (String.eqb (user_id v) uid); [discriminate|]. auto.
Qed.

Lemma find_user_app_other uid us u :
  user_id u <> uid -> find_user uid (us ++ [u]) = find_user uid us.
Proof.
  unfold find_user. intros Hu.
  induction us as [|v us IH]; cbn in *.
  - destruct (String.eqb_spec (user_id u) uid); [contradiction|reflexivity].
  - destruct (String.eqb (user_id v) uid); [reflexivity|]. auto.
Qed.

Lemma users_with_users db us : users (with_users db us) = us.
Proof. reflexivity. Qed.

(** After [_ensure_user_exists] the user has a row. *)
Lemma ensure_finds db now uid name :
  exists u, find_user uid (users (_ensure_user_exists db now uid name)) = Some u
            /\ (find_user uid (users db) = None -> u = new_user uid name now)
            /\ (forall v, find_user uid (users db) = Some v -> u = v).
Proof.
  unfold _ensure_user_exists. destruct (find_user uid (users db)) as [u|] eqn:E.
  - exists u. rewrite E. repeat split; [discriminate|]. now intros v [= ->].
  - exists (new_user uid name now). rewrite users_with_users.
    rewrite find_user_app_new by auto.
    repeat split. discriminate.
Qed.

Lemma ensure_keeps_other db now uid name uid' :
  uid <> uid' ->
  find_user uid' (users (_ensure_user_exists db now uid name))
  = find_user uid' (users db).
Proof.
  intros Hne. unfold _ensure_user_exists.
  destruct (find_user uid (users db)); [reflexivity|].
  rewrite users_with_users. now apply find_user_app_other.
Qed.

Lemma ensure_present db now uid name u :
  find_user uid (users db) = Some u -> _ensure_user_exists db now uid name = db.
Proof. intros H. unfold _ensure_user_exists. now rewrite H. Qed.

Lemma ensure_solvent db now uid name :
  all_solvent db -> all_solvent (_ensure_user_exists db now uid name).
Proof.
  unfold all_solvent, _ensure_user_exists. intros H.
  destruct (find_user uid (users db)); [assumption|]. cbn.
  apply Forall_app; split; [assumption|].
  constructor; [|constructor]. unfold solvent; cbn; lia.
Qed.

Lemma found_solvent db uid u :
  all_solvent db -> find_user uid (users db) = Some u -> solvent u.
Proof.
  unfold all_solvent. intros H Hf. apply find_user_some in Hf as [Hin _].
  rewrite Forall_forall in H. auto.
Qed.

(** ** Leveling: the band definition *)

Section LevelingFacts.
Import Leveling.

Lemma calculate_level_ge_1 exp : 1 <= _calculate_level exp.
Proof.
  unfold _calculate_level.
  destruct (Z.ltb_spec exp 500); [lia|].
  destruct (Z.ltb_spec exp 1500).
  { pose proof (Z.div_pos (exp - 500) 200); lia. }
  destruct (Z.ltb_spec exp 4000).
  { pose proof (Z.div_pos (exp - 1500) 500); lia. }
  pose proof (Z.div_pos (exp - 4000) 1000); lia.
Qed.

Lemma calculate_level_mono e1 e2 :
  e1 <= e2 -> _calculate_level e1 <= _calculate_level e2.
Proof.
  intros Hle. unfold _calculate_level.
  destruct (Z.ltb_spec e1 500), (Z.ltb_spec e2 500); try lia.
  - pose proof (Z.div_le_mono e1 e2 100); lia.
  - destruct (Z.ltb_spec e2 1500); [|destruct (Z.ltb_spec e2 4000)].
    + pose proof (Z.div_pos (e2 - 500) 200).
      pose proof (Z.div_lt_upper_bound e1 100 5). lia.
    + pose proof (Z.div_pos (e2 - 1500) 500).
      pose proof (Z.div_lt_upper_bound e1 100 5). lia.
    + pose proof (Z.div_pos (e2 - 4000) 1000).
      pose proof (Z.div_lt_upper_bound e1 100 5). lia.
  - destruct (Z.ltb_spec e1 1500), (Z.ltb_spec e2 1500); try lia.
    + pose proof (Z.div_le_mono (e1 - 500) (e2 - 500) 200); lia.
    + pose proof (Z.div_lt_upper_bound (e1 - 500) 200 5).
      destruct (Z.ltb_spec e2 4000).
      * pose proof (Z.div_pos (e2 - 1500) 500); lia.
      * pose proof (Z.div_pos (e2 - 4000) 1000); lia.
    + destruct (Z.ltb_spec e1 4000), (Z.ltb_spec e2 4000); try lia.
      * pose proof (Z.div_le_mono (e1 - 1500) (e2 - 1500) 500); lia.
      * pose proof (Z.div_lt_upper_bound (e1 - 1500) 500 5).
        pose proof (Z.div_pos (e2 - 4000) 1000); lia.
      * pose proof (Z.div_le_mono (e1 - 4000) (e2 - 4000) 1000); lia.
Qed.

(** The level computed for [exp] is the one whose band holds [exp]. *)
Lemma calculate_level_in_band exp :
  0 <= exp ->
  get_level_exp_requirement (_calculate_level exp) <= exp
  /\ exp < get_level_exp_requirement (_calculate_level exp + 1).
Proof.
  intros Hexp. unfold _calculate_level.
  destruct (Z.ltb_spec exp 500).
  { pose proof (Z.div_pos exp 100).
    pose proof (Z.div_lt_upper_bound exp 100 5).
    pose proof (Z.mul_div_le exp 100).
    pose proof (Z.mul_succ_div_gt exp 100).
    rewrite Z.max_r by lia.
    unfold get_level_exp_requirement.
    repeat match goal with |- context [?a <=? ?b] => destruct (Z.leb_spec a b) end; lia. }
  destruct (Z.ltb_spec exp 1500).
  { pose proof (Z.div_pos (exp - 500) 200).
    pose proof (Z.div_lt_upper_bound (exp - 500) 200 5).
    pose proof (Z.mul_div_le (exp - 500) 200).
    pose proof (Z.mul_succ_div_gt (exp - 500) 200).
    unfold get_level_exp_requirement.
    repeat match goal with |- context [?a <=? ?b] => destruct (Z.leb_spec a b) end; lia. }
  destruct (Z.ltb_spec exp 4000).
  { pose proof (Z.div_pos (exp - 1500) 500).
    pose proof (Z.div_lt_upper_bound (exp - 1500) 500 5).
    pose proof (Z.mul_div_le (exp - 1500) 500).
    pose proof (Z.mul_succ_div_gt (exp - 1500) 500).
    unfold get_level_exp_requirement.
    repeat match goal with |- context [?a <=? ?b] => destruct (Z.leb_spec a b) end; lia. }
  pose proof (Z.div_pos (exp - 4000) 1000).
  pose proof (Z.mul_div_le (exp - 4000) 1000).
  pose proof (Z.mul_succ_div_gt (exp - 4000) 1000).
  unfold get_level_exp_requirement.
  repeat match goal with |- context [?a <=? ?b] => destruct (Z.leb_spec a b) end; lia.
Qed.

Lemma level_requirement_mono l1 l2 :
  l1 <= l2 -> get_level_exp_requirement l1 <= get_level_exp_requirement l2.
Proof.
  intros. unfold get_level_exp_requirement.
  repeat match goal with |- context [?a <=? ?b] => destruct (Z.leb_spec a b) end; lia.
Qed.

End LevelingFacts.

(** C2.  For experience [e1 >= 0] the computed level is the level of the
    band definition: it is at least 1, [e1] lies between the cumulative
    threshold of that level and the threshold of the next one (thresholds
    [(l-1)*100] up to level 5, [500 + (l-6)*200] up to level 10,
    [1500 + (l-11)*500] up to level 15, [4000 + (l-16)*1000] from level 16
    on), and no other level has that property; and the level never
    decreases when experience grows. *)
Theorem level_matches_bands_and_is_monotonic (e1 e2 : Z) :
  0 <= e1 -> e1 <= e2 ->
  let lv := Leveling._calculate_level e1 in
  1 <= lv
  /\ Leveling.get_level_exp_requirement lv <= e1
       < Leveling.get_level_exp_requirement (lv + 1)
  /\ (forall l, 1 <= l ->
        Leveling.get_level_exp_requirement l <= e1
          < Leveling.get_level_exp_requirement (l + 1) ->
        l = lv)
  /\ (forall l, Leveling.get_level_exp_requirement l =
        if l <=? 5 then (l - 1) * 100
        else if l <=? 10 then 500 + (l - 6) * 200
        else if l <=? 15 then 1500 + (l - 11) * 500
        else 4000 + (l - 16) * 1000)
  /\ lv <= Leveling._calculate_level e2.
Proof.
  intros H0 Hle lv.
  pose proof (calculate_level_in_band e1 H0) as [Hlo Hhi]. fold lv in Hlo, Hhi.
  repeat split; try assumption.
  - apply calculate_level_ge_1.
  - intros l Hl [Hl1 Hl2].
    destruct (Z.lt_trichotomy l lv) as [Hlt|[Heq|Hgt]]; [|assumption|].
    + pose proof (level_requirement_mono (l + 1) lv ltac:(lia)). lia.
    + pose proof (level_requirement_mono (lv + 1) l ltac:(lia)). lia.
  - now apply calculate_level_mono.
Qed.

Lemma level_matches_bands_and_is_monotonic_witness :
  Leveling._calculate_level 1300 = 10
  /\ Leveling.get_level_exp_requirement 10 <= 1300
       < Leveling.get_level_exp_requirement 11
  /\ Leveling._calculate_level 1300 <= Leveling._calculate_level 4000.
Proof.
  pose proof (level_matches_bands_and_is_monotonic 1300 4000
                ltac:(lia) ltac:(lia)) as (_ & Hband & _ & _ & Hmono).
  split; [reflexivity|]. split; [exact Hband | exact Hmono].
Defined.

(** ** Checkin reward *)

Lemma bonus_loop_highest_tier s :
  Checkin.bonus_loop s Checkin.consecutive_bonus 0 = highest_tier_bonus s.
Proof.
  unfold Checkin.bonus_loop, Checkin.consecutive_bonus, highest_tier_bonus. cbn.
  repeat match goal with
         | |- context [?a >=? ?b] => destruct (Z.geb_spec a b)
         end; lia.
Qed.

Lemma calculate_reward_inv r s rw :
  Checkin._calculate_reward r s = Some rw ->
  0 <= Checkin.rw_random rw <= 50
  /\ rw = Checkin.mkReward 100 (Checkin.rw_random rw) (highest_tier_bonus s)
                           (100 + Checkin.rw_random rw + highest_tier_bonus s).
Proof.
  unfold Checkin._calculate_reward.
  destruct (randint r _ _) as [x|] eqn:E; [|discriminate].
  apply randint_range in E. cbn in E.
  rewrite bonus_loop_highest_tier. intros [= <-]. cbn. split; [lia|reflexivity].
Qed.

Lemma calculate_reward_any x s :
  0 <= x <= 50 ->
  Checkin._calculate_reward (mkRand 0 (x - 0)) s
  = Some (Checkin.mkReward 100 x (highest_tier_bonus s)
                           (100 + x + highest_tier_bonus s)).
Proof.
  intros Hx. unfold Checkin._calculate_reward.
  change (fst Checkin.random_bonus_range) with 0.
  change (snd Checkin.random_bonus_range) with 50.
  rewrite (randint_any 0 0 50 x) by lia.
  rewrite bonus_loop_highest_tier. reflexivity.
Qed.

(** What a successful [daily_checkin] did. *)
Lemma daily_checkin_success db now r uid name rc db' :
  Checkin.daily_checkin db now r uid name = (Success rc, db') ->
  let db0 := _ensure_user_exists db now uid name in
  let today := date_of (local_time now) in
  exists u rw,
    find_user uid (users db0) = Some u
    /\ Checkin.checked_on db0 uid today = false
    /\ last_checkin u <> Some today
    /\ Checkin._calculate_reward r (next_streak u today) = Some rw
    /\ rc = Checkin.mkCheckinReceipt rw (money u + Checkin.rw_total rw)
                                     (next_streak u today) (total_checkin u + 1)
    /\ db' = insert_checkin
               (with_users db0
                  (update_user uid
                     (Checkin.set_checkin (money u + Checkin.rw_total rw)
                        (next_streak u today) (total_checkin u + 1) today now)
                     (users db0)))
               (mkCheckin uid today (Checkin.rw_total rw) (next_streak u today) now).
Proof.
  unfold Checkin.daily_checkin.
  set (db0 := _ensure_user_exists db now uid name).
  set (today := date_of (local_time now)). intros H.
  destruct (Checkin.checked_on db0 uid today) eqn:Hc; [discriminate|].
  destruct (find_user uid (users db0)) as [u|] eqn:Hu; [|discriminate].
  exists u. unfold next_streak.
  destruct (last_checkin u) as [d|] eqn:Hl.
  - destruct (Z.eqb_spec (today - d) 1).
    + destruct (Checkin._calculate_reward r _) as [rw|] eqn:Hr; [|discriminate].
      injection H as Hrc Hdb; subst rc db'. exists rw. repeat split; auto.
      intros [= ->]. lia.
    + destruct (Z.eqb_spec (today - d) 0); [discriminate|].
      destruct (Checkin._calculate_reward r _) as [rw|] eqn:Hr; [|discriminate].
      injection H as Hrc Hdb; subst rc db'. exists rw. repeat split; auto.
      intros [= ->]. lia.
  - destruct (Checkin._calculate_reward r _) as [rw|] eqn:Hr; [|discriminate].
    injection H as Hrc Hdb; subst rc db'. exists rw. repeat split; auto. discriminate.
Qed.

(** C5.  A checkin that goes through with resulting streak [s] pays
    [100 + r + consecutiveBonus(s)], where [r] is the value drawn from
    0..50 and [consecutiveBonus] is the bonus of the highest tier reached
    (1000 from 30 days, 500 from 15, 200 from 7, 50 from 3, otherwise 0);
    every value of 0..50 can be drawn; a streak of 10 and a streak of 7
    both carry the day-7 bonus of 200. *)
Theorem checkin_reward_is_base_plus_random_plus_highest_tier
    (db : Db) (now : Clock) (r : Rand) (uid name : string)
    (rc : Checkin.CheckinReceipt) (db' : Db) :
  Checkin.daily_checkin db now r uid name = (Success rc, db') ->
  let rw := Checkin.reward rc in
  let s := Checkin.new_streak rc in
  Checkin.rw_base rw = 100
  /\ 0 <= Checkin.rw_random rw <= 50
  /\ Checkin.rw_consecutive rw = highest_tier_bonus s
  /\ Checkin.rw_total rw = 100 + Checkin.rw_random rw + highest_tier_bonus s
  /\ (forall x, 0 <= x <= 50 ->
        exists r', Checkin._calculate_reward r' s
                   = Some (Checkin.mkReward 100 x (highest_tier_bonus s)
                                            (100 + x + highest_tier_bonus s)))
  /\ highest_tier_bonus 10 = 200
  /\ highest_tier_bonus 7 = 200.
Proof.
  intros H rw s.
  apply daily_checkin_success in H as (u & rw0 & _ & _ & _ & Hr & -> & _).
  cbn in rw, s. subst rw s.
  pose proof (calculate_reward_inv _ _ _ Hr) as [Hrange Hshape].
  split; [rewrite Hshape; reflexivity|].
  split; [exact Hrange|].
  split; [rewrite Hshape; reflexivity|].
  split; [rewrite Hshape; reflexivity|].
  split; [|split; reflexivity].
  intros x Hx. exists (mkRand 0 (x - 0)). now apply calculate_reward_any.
Qed.

Lemma checkin_reward_is_base_plus_random_plus_highest_tier_witness :
  exists rc db',
    Checkin.daily_checkin streak6_db (utc_host 864000) (mkRand 0 7) "alice" "Alice"
    = (Success rc, db')
    /\ Checkin.new_streak rc = 7
    /\ Checkin.rw_total (Checkin.reward rc)
       = 100 + Checkin.rw_random (Checkin.reward rc) + 200.
Proof.
  eexists. eexists. split; [reflexivity|]. split; [reflexivity|].
  exact (proj1 (proj2 (proj2 (proj2
    (checkin_reward_is_base_plus_random_plus_highest_tier
       streak6_db (utc_host 864000) (mkRand 0 7) "alice" "Alice" _ _ eq_refl))))).
Defined.

(** ** Checkin streak *)

Lemma checked_on_insert db c uid today :
  cr_user_id c = uid -> checkin_date c = today ->
  Checkin.checked_on (insert_checkin db c) uid today = true.
Proof.
  intros Hu Hd. unfold Checkin.checked_on, insert_checkin. cbn [checkin_records].
  rewrite existsb_app. cbn. rewrite Hu, Hd, String.eqb_refl, Z.eqb_refl.
  cbn. apply orb_true_r.
Qed.

Lemma set_checkin_id m s t d now u :
  user_id (Checkin.set_checkin m s t d now u) = user_id u.
Proof. reflexivity. Qed.

(** An unchecked day with a last checkin other than today always goes
    through, with the streak of the streak rule. *)
Lemma daily_checkin_goes_through db (now : Clock) r uid name u :
  let db0 := _ensure_user_exists db now uid name in
  let today := date_of (local_time now) in
  find_user uid (users db0) = Some u ->
  Checkin.checked_on db0 uid today = false ->
  last_checkin u <> Some today ->
  exists rc db',
    Checkin.daily_checkin db now r uid name = (Success rc, db')
    /\ Checkin.new_streak rc = next_streak u today.
Proof.
  intros db0 today Hu Hc Hl.
  destruct (randint_some r 0 50 ltac:(lia)) as [x Hx].
  unfold Checkin.daily_checkin. fold db0 today. rewrite Hc, Hu.
  unfold Checkin._calculate_reward.
  change (fst Checkin.random_bonus_range) with 0.
  change (snd Checkin.random_bonus_range) with 50.
  rewrite Hx. unfold next_streak.
  destruct (last_checkin u) as [d|].
  - destruct (Z.eqb_spec (today - d) 1); [eauto|].
    destruct (Z.eqb_spec (today - d) 0); [|eauto].
    exfalso. apply Hl. f_equal. lia.
  - eauto.
Qed.

Lemma ensure_checkin_records db now uid name :
  checkin_records (_ensure_user_exists db now uid name) = checkin_records db.
Proof. unfold _ensure_user_exists. now destruct (find_user uid (users db)). Qed.

(** C4.  A checkin by a user whose last checkin was the day before today
    goes through with the old streak plus 1; with no earlier checkin, or a
    gap of more than one day, it goes through with streak 1; the new
    streak, date, count and balance are stored and one record is
    appended.  After a checkin that went through, every further checkin
    of that user on the same day is declined as already checked in and
    returns the database as it was: no field of the account changes and
    no record is appended. *)
Theorem checkin_streak_rule_and_same_day_rejection
    (db : Db) (now : Clock) (r : Rand) (uid name : string) :
  let db0 := _ensure_user_exists db now uid name in
  let today := date_of (local_time now) in
  let out := Checkin.daily_checkin db now r uid name in
  exists u,
    find_user uid (users db0) = Some u
    /\ (Checkin.checked_on db0 uid today = true ->
        out = (Failure AlreadyCheckedIn, db0))
    /\ (Checkin.checked_on db0 uid today = false ->
        (last_checkin u = Some (today - 1) ->
         exists rc, fst out = Success rc
                    /\ Checkin.new_streak rc = checkin_streak u + 1)
        /\ (last_checkin u = None
            \/ (exists d, last_checkin u = Some d /\ 1 < today - d) ->
            exists rc, fst out = Success rc /\ Checkin.new_streak rc = 1))
    /\ (forall rc, fst out = Success rc ->
        (exists u', find_user uid (users (snd out)) = Some u'
                    /\ checkin_streak u' = Checkin.new_streak rc
                    /\ last_checkin u' = Some today
                    /\ total_checkin u' = total_checkin u + 1
                    /\ money u' = money u + Checkin.rw_total (Checkin.reward rc))
        /\ checkin_records (snd out)
           = checkin_records db
             ++ [mkCheckin uid today (Checkin.rw_total (Checkin.reward rc))
                           (Checkin.new_streak rc) now]
        /\ forall now2 r2 name2,
             date_of (local_time now2) = today ->
             Checkin.daily_checkin (snd out) now2 r2 uid name2
             = (Failure AlreadyCheckedIn, snd out)).
Proof.
  intros db0 today out.
  destruct (ensure_finds db now uid name) as (u & Hu & _). fold db0 in Hu.
  exists u. split; [exact Hu|]. split; [|split].
  - intros Hc. subst out. unfold Checkin.daily_checkin. fold db0 today.
    now rewrite Hc.
  - intros Hc. split.
    + intros Hl.
      destruct (daily_checkin_goes_through db now r uid name u Hu Hc)
        as (rc & db' & Hout & Hs).
      { fold today. rewrite Hl. intros [= E]. lia. }
      exists rc. subst out. rewrite Hout. split; [reflexivity|].
      rewrite Hs. unfold next_streak. fold today. rewrite Hl.
      replace (today - (today - 1)) with 1 by lia. reflexivity.
    + intros Hl.
      destruct (daily_checkin_goes_through db now r uid name u Hu Hc)
        as (rc & db' & Hout & Hs).
      { fold today. destruct Hl as [Hl|(d & Hl & Hd)]; rewrite Hl;
          [discriminate|]. intros [= E]. lia. }
      exists rc. subst out. rewrite Hout. split; [reflexivity|].
      rewrite Hs. unfold next_streak. fold today.
      destruct Hl as [Hl|(d & Hl & Hd)]; rewrite Hl; [reflexivity|].
      destruct (Z.eqb_spec (today - d) 1); [lia|reflexivity].
  - intros rc Hrc. destruct out as [o db'] eqn:Hout. cbn in Hrc. subst o.
    cbn [snd]. subst out.
    apply daily_checkin_success in Hout
      as (u0 & rw & Hu0 & Hc & Hl & Hr & -> & Hdb').
    fold db0 today in Hu0, Hc, Hl, Hr, Hdb'.
    rewrite Hu in Hu0. injection Hu0 as <-.
    cbn [Checkin.new_streak Checkin.reward].
    assert (Hfound : find_user uid (users db')
                     = Some (Checkin.set_checkin (money u + Checkin.rw_total rw)
                               (next_streak u today) (total_checkin u + 1)
                               today now u)).
    { rewrite Hdb'. cbn [users insert_checkin with_users].
      rewrite find_user_update_same by apply set_checkin_id.
      now rewrite Hu. }
    split; [|split].
    + eexists. split; [exact Hfound|]. cbn. auto.
    + rewrite Hdb'. cbn [checkin_records insert_checkin with_users].
      unfold db0. now rewrite ensure_checkin_records.
    + intros now2 r2 name2 Hday.
      unfold Checkin.daily_checkin.
      rewrite (ensure_present _ _ _ _ _ Hfound), Hday.
      rewrite Hdb' at 1. now rewrite checked_on_insert.
Qed.

(** ** Balances stay non-negative *)

Ltac split_if :=
  match goal with
  | |- context [if ?a <? ?b then _ else _] => destruct (Z.ltb_spec a b)
  | |- context [if ?a >? ?b then _ else _] => destruct (Z.gtb_spec a b)
  | |- context [if ?a >=? ?b then _ else _] => destruct (Z.geb_spec a b)
  | |- context [if ?a =? ?b then _ else _] => destruct (Z.eqb_spec a b)
  end.

Lemma all_solvent_update db uid f :
  all_solvent db ->
  (forall u, solvent u -> solvent (f u)) ->
  all_solvent (with_users db (update_user uid f (users db))).
Proof.
  unfold all_solvent. intros H Hf. rewrite users_with_users.
  apply Forall_update_user; [assumption|].
  intros u Hin _. apply Hf. rewrite Forall_forall in H. auto.
Qed.

Lemma all_solvent_insert_transaction db t :
  all_solvent (insert_transaction db t) <-> all_solvent db.
Proof. reflexivity. Qed.

Lemma all_solvent_insert_work db w :
  all_solvent (insert_work db w) <-> all_solvent db.
Proof. reflexivity. Qed.

Lemma all_solvent_insert_checkin db c :
  all_solvent (insert_checkin db c) <-> all_solvent db.
Proof. reflexivity. Qed.

Lemma all_solvent_insert_robbery db c :
  all_solvent (insert_robbery db c) <-> all_solvent db.
Proof. reflexivity. Qed.

Create HintDb solvency.
#[local] Hint Resolve ensure_solvent all_solvent_update : solvency.
#[local] Hint Resolve -> all_solvent_insert_transaction all_solvent_insert_work
  all_solvent_insert_checkin all_solvent_insert_robbery : solvency.

Lemma deposit_solvent db now uid name amt :
  all_solvent db -> all_solvent (snd (Bank.deposit db now uid name amt)).
Proof.
  intros H. unfold Bank.deposit.
  set (db0 := _ensure_user_exists db now uid name).
  assert (H0 : all_solvent db0) by (subst db0; auto with solvency).
  repeat (split_if; [exact H0|]).
  destruct (find_user uid (users db0)) as [u|] eqn:Hu; [|exact H0].
  destruct (found_solvent _ _ _ H0 Hu) as [Hm Hb].
  split_if; [exact H0|]. cbn [snd].
  apply all_solvent_insert_transaction, all_solvent_update; [exact H0|].
  intros v _. unfold solvent, Bank.min_deposit in *. cbn. lia.
Qed.

Lemma withdraw_solvent db now uid name amt :
  all_solvent db -> all_solvent (snd (Bank.withdraw db now uid name amt)).
Proof.
  intros H. unfold Bank.withdraw.
  set (db0 := _ensure_user_exists db now uid name).
  assert (H0 : all_solvent db0) by (subst db0; auto with solvency).
  repeat (split_if; [exact H0|]).
  destruct (find_user uid (users db0)) as [u|] eqn:Hu; [|exact H0].
  destruct (found_solvent _ _ _ H0 Hu) as [Hm Hb].
  split_if; [exact H0|]. cbn [snd].
  apply all_solvent_insert_transaction, all_solvent_update; [exact H0|].
  intros v _. unfold solvent, Bank.min_withdraw in *. cbn. lia.
Qed.

Lemma set_bank_money_solvent b now u :
  0 <= b -> solvent u -> solvent (Bank.set_bank_money b now u).
Proof. unfold solvent. cbn. lia. Qed.

Lemma transfer_solvent db now f t fn tn amt :
  all_solvent db -> all_solvent (snd (Bank.transfer db now f t fn tn amt)).
Proof.
  intros H. unfold Bank.transfer.
  destruct (String.eqb f t); [exact H|].
  repeat (split_if; [exact H|]).
  set (db0 := _ensure_user_exists (_ensure_user_exists db now f fn) now t tn).
  assert (Hdb0 : all_solvent db0) by (subst db0; auto with solvency).
  destruct (find_user f (users db0)) as [u|] eqn:Hu; [|exact Hdb0].
  destruct (found_solvent _ _ _ Hdb0 Hu) as [Hm Hb].
  split_if; [exact Hdb0|].
  destruct (find_user t (users db0)) as [w|] eqn:Hw; [|exact Hdb0].
  destruct (found_solvent _ _ _ Hdb0 Hw) as [Hm' Hb'].
  cbn [snd]. unfold Bank.min_deposit in *.
  do 2 apply all_solvent_insert_transaction.
  apply all_solvent_update; [apply all_solvent_update; [exact Hdb0|]|];
    intros v Hv; apply set_bank_money_solvent; auto; lia.
Qed.

Lemma interest_step_solvent cfg now db rep row :
  all_solvent db -> 0 <= snd row ->
  all_solvent (fst (credit_step cfg now (db, rep) row)).
Proof.
  intros H Hrow. destruct row as [uid b]. cbn [snd] in Hrow.
  unfold credit_step. split_if; [|exact H]. cbn [fst].
  apply all_solvent_insert_transaction, all_solvent_update; [exact H|].
  intros v Hv. apply set_bank_money_solvent; auto; lia.
Qed.

Lemma interest_loop_solvent cfg now rows : forall st,
  Forall (fun row => 0 <= snd row) rows ->
  all_solvent (fst st) ->
  all_solvent (fst (fold_left (credit_step cfg now) rows st)).
Proof.
  induction rows as [|row rows IH]; intros [db rep] Hrows H; [exact H|].
  inversion Hrows; subst. cbn [fold_left]. apply IH; [assumption|].
  destruct (credit_step cfg now (db, rep) row) as [db1 rep1] eqn:E.
  pose proof (interest_step_solvent cfg now db rep row H ltac:(assumption)) as H1.
  now rewrite E in H1.
Qed.

Lemma savers_positive db : Forall (fun row => 0 < snd row) (Bank.savers db).
Proof.
  unfold Bank.savers. rewrite Forall_map, Forall_forall.
  intros u Hin. apply filter_In in Hin as [_ Hpos]. cbn. lia.
Qed.

Lemma apply_daily_interest_solvent cfg db now :
  all_solvent db -> all_solvent (snd (Bank.apply_daily_interest cfg db now)).
Proof.
  intros H. destruct (apply_daily_interest_snd cfg db now) as [-> | ->]; [|exact H].
  apply interest_loop_solvent; [|exact H].
  eapply Forall_impl; [|apply savers_positive]. cbn. intros; lia.
Qed.

Lemma daily_checkin_solvent db now r uid name :
  all_solvent db -> all_solvent (snd (Checkin.daily_checkin db now r uid name)).
Proof.
  intros H.
  assert (H0 : all_solvent (_ensure_user_exists db now uid name))
    by auto with solvency.
  destruct (Checkin.daily_checkin db now r uid name) as [[rc|why] db'] eqn:E.
  - apply daily_checkin_success in E as (u & rw & Hu & _ & _ & Hr & _ & ->).
    cbn [snd]. apply all_solvent_insert_checkin, all_solvent_update; [exact H0|].
    destruct (found_solvent _ _ _ H0 Hu) as [Hm Hb].
    apply calculate_reward_inv in Hr as [Hrange Hshape].
    assert (0 <= highest_tier_bonus (next_streak u (date_of (local_time now)))).
    { unfold highest_tier_bonus. repeat split_if; lia. }
    intros v [Hv1 Hv2]. rewrite Hshape. unfold solvent.
    cbn [money bank_money Checkin.set_checkin Checkin.rw_total]. lia.
  - revert E. unfold Checkin.daily_checkin.
    repeat match goal with
           | |- context [match ?x with _ => _ end] => destruct x
           end; intros [= _ <-]; exact H0.
Qed.

(** ** Work *)

Lemma lookup_job_sound job_name j :
  Work.lookup_job job_name = Some j ->
  1 <= Work.level_required j
  /\ 0 <= Work.job_base_salary j
  /\ 0 <= fst (Work.salary_range j) <= snd (Work.salary_range j).
Proof.
  unfold Work.lookup_job, Work.jobs. cbn [find fst].
  repeat match goal with
         | |- context [String.eqb ?a job_name] => destruct (String.eqb a job_name)
         end;
    cbn [option_map snd]; intros [= <-]; cbn; lia.
Qed.

Lemma calculate_salary_inv cfg r j lvl sal :
  Work._calculate_salary cfg r j lvl = Some sal ->
  randint r (fst (Work.salary_range j)) (snd (Work.salary_range j))
  = Some (Work.sal_base_salary sal)
  /\ Work.sal_total_earned sal
     = Work.sal_base_salary sal + Work.level_bonus sal + Work.luck_bonus sal
  /\ Work.level_bonus sal
     = Qtrunc (inject_Z (Work.job_base_salary j * (lvl - 1)) * (2 # 100))
  /\ Work.luck_bonus sal
     = (if Qltb (random_random r) (1 # 10)
        then Qtrunc (inject_Z (Work.sal_base_salary sal) * (1 # 2)) else 0).
Proof.
  unfold Work._calculate_salary.
  destruct (randint r _ _) as [x|] eqn:E; [|discriminate].
  intros [= <-]. cbn. auto.
Qed.

Lemma calculate_salary_nonneg cfg r j lvl sal :
  Work._calculate_salary cfg r j lvl = Some sal ->
  0 <= Work.job_base_salary j -> 0 <= fst (Work.salary_range j) -> 1 <= lvl ->
  0 <= Work.sal_total_earned sal.
Proof.
  intros H Hb Hr Hl.
  apply calculate_salary_inv in H as (Hdraw & -> & -> & ->).
  apply randint_range in Hdraw.
  assert (0 <= Qtrunc (inject_Z (Work.job_base_salary j * (lvl - 1)) * (2 # 100))).
  { apply Qtrunc_nonneg. cbn. nia. }
  assert (0 <= Qtrunc (inject_Z (Work.sal_base_salary sal) * (1 # 2))).
  { apply Qtrunc_nonneg. cbn. lia. }
  destruct (Qltb _ _); lia.
Qed.

(** What a successful [work] did. *)
Lemma work_success cfg db now r uid name job_name rc db' :
  Work.work cfg db now r uid name job_name = (Success rc, db') ->
  let db0 := _ensure_user_exists db now uid name in
  exists j u sal,
    Work.lookup_job job_name = Some j
    /\ find_user uid (users db0) = Some u
    /\ Work.level_required j <= level u
    /\ Work._calculate_salary cfg r j (level u) = Some sal
    /\ Work.salary_result rc = sal
    /\ db' = insert_work
               (with_users db0
                  (update_user uid
                     (Work.set_worked (money u + Work.sal_total_earned sal)
                        (exp u + Work.sal_exp_reward sal)
                        (Leveling._calculate_level (exp u + Work.sal_exp_reward sal))
                        (Work.sal_total_earned sal) now)
                     (users db0)))
               (mkWork uid job_name (Work.sal_base_salary sal)
                       (Work.level_bonus sal + Work.luck_bonus sal)
                       (Work.sal_total_earned sal) now).
Proof.
  unfold Work.work. set (db0 := _ensure_user_exists db now uid name).
  destruct (Work.lookup_job job_name) as [j|]; [|discriminate].
  destruct (find_user uid (users db0)) as [u|]; [|discriminate].
  split_if; [discriminate|]. split_if; [discriminate|].
  match goal with |- context [if ?c then _ else _] => destruct c end;
    [discriminate|].
  destruct (Work._calculate_salary cfg r j (level u)) as [sal|] eqn:Hs;
    [|discriminate].
  intros Hout. injection Hout as Hrc Hdb. subst rc db'.
  exists j, u, sal. repeat split; auto.
Qed.

(** A declined [work] leaves the database as [_ensure_user_exists] made it. *)
Lemma work_failure cfg db now r uid name job_name why db' :
  Work.work cfg db now r uid name job_name = (Failure why, db') ->
  db' = _ensure_user_exists db now uid name.
Proof.
  unfold Work.work.
  repeat match goal with
         | |- context [match ?x with _ => _ end] => destruct x
         end; now intros [= _ <-].
Qed.

Lemma work_solvent cfg db now r uid name job_name :
  all_solvent db -> all_solvent (snd (Work.work cfg db now r uid name job_name)).
Proof.
  intros H.
  assert (H0 : all_solvent (_ensure_user_exists db now uid name))
    by auto with solvency.
  destruct (Work.work cfg db now r uid name job_name) as [[rc|why] db'] eqn:E.
  - apply work_success in E as (j & u & sal & Hj & Hu & Hlv & Hs & _ & ->).
    cbn [snd]. apply all_solvent_insert_work, all_solvent_update; [exact H0|].
    destruct (found_solvent _ _ _ H0 Hu) as [Hm Hb].
    apply lookup_job_sound in Hj as (Hreq & Hbase & Hrange).
    pose proof (calculate_salary_nonneg _ _ _ _ _ Hs Hbase ltac:(lia) ltac:(lia)).
    intros v [Hv1 Hv2]. unfold solvent.
    cbn [money bank_money Work.set_worked]. lia.
  - apply work_failure in E. subst db'. exact H0.
Qed.

(** ** Robbery *)

Lemma rename_solvent name now u : solvent u -> solvent (Robbery.rename name now u).
Proof. unfold Robbery.rename, solvent. destruct (String.eqb _ _); cbn; auto. Qed.

Lemma rename_id name now u : user_id (Robbery.rename name now u) = user_id u.
Proof. unfold Robbery.rename. now destruct (String.eqb _ _). Qed.

Lemma robbery_ensure_solvent db now uid name :
  all_solvent db -> all_solvent (Robbery._ensure_user_exists db now uid name).
Proof.
  intros H. unfold Robbery._ensure_user_exists.
  apply all_solvent_update; [auto with solvency|]. apply rename_solvent.
Qed.

Lemma robbery_ensure_finds db now uid name :
  exists u, find_user uid (users (Robbery._ensure_user_exists db now uid name)) = Some u.
Proof.
  unfold Robbery._ensure_user_exists. rewrite users_with_users.
  rewrite find_user_update_same by apply rename_id.
  destruct (ensure_finds db now uid name) as (u & -> & _). cbn. eauto.
Qed.

Lemma robbery_ensure_keeps db now uid name uid' u :
  find_user uid' (users db) = Some u ->
  exists u', find_user uid' (users (Robbery._ensure_user_exists db now uid name))
             = Some u'.
Proof.
  intros H. unfold Robbery._ensure_user_exists. rewrite users_with_users.
  destruct (String.eqb_spec uid uid') as [->|Hne].
  - rewrite find_user_update_same by apply rename_id.
    rewrite (ensure_present _ _ _ _ _ H), H. cbn. eauto.
  - rewrite find_user_update_other by (apply rename_id || assumption).
    rewrite ensure_keeps_other by assumption. eauto.
Qed.

Lemma robbery_ensure_records db now uid name :
  robbery_records (Robbery._ensure_user_exists db now uid name) = robbery_records db.
Proof.
  unfold Robbery._ensure_user_exists, _ensure_user_exists.
  now destruct (find_user uid (users db)).
Qed.

(** Both parties have a row once [rob_user] has ensured them. *)
Lemma rob_entry_finds db now a an v vn :
  exists rd vd,
    find_user a (users (rob_entry db now a an v vn)) = Some rd
    /\ find_user v (users (rob_entry db now a an v vn)) = Some vd.
Proof.
  unfold rob_entry.
  destruct (robbery_ensure_finds db now a an) as [rd0 Hrd0].
  destruct (robbery_ensure_keeps _ now v vn _ _ Hrd0) as [rd Hrd].
  destruct (robbery_ensure_finds (Robbery._ensure_user_exists db now a an) now v vn)
    as [vd Hvd].
  eauto.
Qed.

Lemma rob_entry_solvent db now a an v vn :
  all_solvent db -> all_solvent (rob_entry db now a an v vn).
Proof. intros H. unfold rob_entry. now do 2 apply robbery_ensure_solvent. Qed.

Lemma rob_entry_records db now a an v vn :
  robbery_records (rob_entry db now a an v vn) = robbery_records db.
Proof. unfold rob_entry. now rewrite !robbery_ensure_records. Qed.

Lemma loot_inv cfg r vm amt :
  Robbery.loot cfg r vm = Some amt ->
  let cap := Z.min (Robbery.max_amount cfg) (vm - Robbery.protection_amount cfg) in
  amt <= cap
  /\ (cap < Robbery.min_amount cfg -> amt = cap)
  /\ (Robbery.min_amount cfg <= cap ->
      Robbery.min_amount cfg <= amt
      /\ randint r (Robbery.min_amount cfg) cap = Some amt).
Proof.
  intros H cap. unfold Robbery.loot in H. fold cap in H. revert H.
  split_if.
  - intros [= <-]. repeat split; lia.
  - intros Hr. pose proof (randint_range _ _ _ _ Hr). repeat split; auto; lia.
Qed.

Lemma loot_some cfg r vm : exists amt, Robbery.loot cfg r vm = Some amt.
Proof.
  unfold Robbery.loot. split_if; [eauto|]. now apply randint_some.
Qed.

(** Every amount between the minimum and the cap can be drawn. *)
Lemma loot_any cfg q vm x :
  let cap := Z.min (Robbery.max_amount cfg) (vm - Robbery.protection_amount cfg) in
  Robbery.min_amount cfg <= x <= cap ->
  Robbery.loot cfg (mkRand q (x - Robbery.min_amount cfg)) vm = Some x.
Proof.
  intros cap Hx. unfold Robbery.loot. fold cap. split_if; [lia|].
  now apply randint_any.
Qed.

(** [rob_user] once the self-target, level and cooldown checks are
    passed. *)
Lemma rob_user_past_gates cfg db (now : Clock) r a an v vn rd vd :
  let db0 := rob_entry db now a an v vn in
  a <> v ->
  find_user a (users db0) = Some rd ->
  find_user v (users db0) = Some vd ->
  Robbery.level_requirement cfg <= level rd ->
  robber_cooling cfg db0 now a = false ->
  Robbery.rob_user cfg db now r a an v vn =
  if money vd <? Robbery.protection_amount cfg then (Failure VictimProtected, db0)
  else if Qltb (random_random r) (Robbery.success_rate cfg) then
    match Robbery.loot cfg r (money vd) with
    | None => (Failure RaisedException, db0)
    | Some amt =>
        (Success (Robbery.mkRobReceipt true amt (username vd)),
         settled db0 now a v (money rd + amt) (money vd - amt) amt true)
    end
  else
    let penalty := Z.min (Robbery.failure_penalty cfg) (money rd) in
    (Success (Robbery.mkRobReceipt false 0 (username vd)),
     settled db0 now a v (money rd - penalty) (money vd + penalty) penalty false).
Proof.
  intros db0 Hne Hrd Hvd Hlv Hcool.
  unfold Robbery.rob_user. fold (rob_entry db now a an v vn). fold db0.
  destruct (String.eqb_spec a v); [contradiction|].
  rewrite Hrd. destruct (Z.ltb_spec (level rd) (Robbery.level_requirement cfg)); [lia|].
  fold (robber_cooling cfg db0 now a). rewrite Hcool, Hvd. reflexivity.
Qed.

(** Where each declined [rob_user] comes from; a call that is not
    declined passed every check. *)
Lemma rob_user_gates cfg db (now : Clock) r a an v vn :
  let db0 := rob_entry db now a an v vn in
  let out := Robbery.rob_user cfg db now r a an v vn in
  (a = v /\ out = (Failure SelfTarget, db0))
  \/ (a <> v /\ exists rd vd,
        find_user a (users db0) = Some rd
        /\ find_user v (users db0) = Some vd
        /\ ((level rd < Robbery.level_requirement cfg
             /\ out = (Failure LevelTooLow, db0))
            \/ (Robbery.level_requirement cfg <= level rd
                /\ robber_cooling cfg db0 now a = true
                /\ out = (Failure OnCooldown, db0))
            \/ (Robbery.level_requirement cfg <= level rd
                /\ robber_cooling cfg db0 now a = false))).
Proof.
  intros db0 out.
  destruct (rob_entry_finds db now a an v vn) as (rd & vd & Hrd & Hvd).
  fold db0 in Hrd, Hvd.
  subst out. unfold Robbery.rob_user. fold (rob_entry db now a an v vn). fold db0.
  destruct (String.eqb_spec a v); [left; auto|]. right. split; [assumption|].
  exists rd, vd. rewrite Hrd. split; [reflexivity|]. split; [assumption|].
  destruct (Z.ltb_spec (level rd) (Robbery.level_requirement cfg)); [left; auto|].
  right. fold (robber_cooling cfg db0 now a).
  destruct (robber_cooling cfg db0 now a); [left|right]; auto.
Qed.

Lemma set_robber_id m now u : user_id (Robbery.set_robber m now u) = user_id u.
Proof. reflexivity. Qed.

Lemma set_victim_id m now u : user_id (Robbery.set_victim m now u) = user_id u.
Proof. reflexivity. Qed.

Section Settled.
Variables (db0 : Db) (now : Z) (a v : string) (rm vm amt : Z) (ok : bool).
Hypothesis distinct : a <> v.

Lemma settled_robber rd :
  find_user a (users db0) = Some rd ->
  find_user a (users (settled db0 now a v rm vm amt ok))
  = Some (Robbery.set_robber rm now rd).
Proof.
  intros Hrd. unfold settled. cbn [users insert_robbery with_users].
  rewrite find_user_update_other by (apply set_victim_id || congruence).
  rewrite find_user_update_same by apply set_robber_id.
  now rewrite Hrd.
Qed.

Lemma settled_victim vd :
  find_user v (users db0) = Some vd ->
  find_user v (users (settled db0 now a v rm vm amt ok))
  = Some (Robbery.set_victim vm now vd).
Proof.
  intros Hvd. unfold settled. cbn [users insert_robbery with_users].
  rewrite find_user_update_same by apply set_victim_id.
  rewrite find_user_update_other by (apply set_robber_id || assumption).
  now rewrite Hvd.
Qed.

Lemma settled_other w :
  w <> a -> w <> v ->
  find_user w (users (settled db0 now a v rm vm amt ok)) = find_user w (users db0).
Proof.
  intros Ha Hv. unfold settled. cbn [users insert_robbery with_users].
  rewrite find_user_update_other by (apply set_victim_id || congruence).
  now rewrite find_user_update_other by (apply set_robber_id || congruence).
Qed.

Lemma settled_records :
  robbery_records (settled db0 now a v rm vm amt ok)
  = robbery_records db0 ++ [mkRobbery a v amt ok now].
Proof. reflexivity. Qed.

Lemma settled_other_tables :
  bank_transactions (settled db0 now a v rm vm amt ok) = bank_transactions db0
  /\ work_records (settled db0 now a v rm vm amt ok) = work_records db0
  /\ checkin_records (settled db0 now a v rm vm amt ok) = checkin_records db0.
Proof. repeat split. Qed.

Lemma settled_solvent :
  all_solvent db0 -> 0 <= rm -> 0 <= vm ->
  all_solvent (settled db0 now a v rm vm amt ok).
Proof.
  intros H Hrm Hvm. unfold settled.
  apply all_solvent_insert_robbery.
  apply all_solvent_update; [apply all_solvent_update; [exact H|]|];
    intros u [Hu1 Hu2]; unfold solvent; cbn; lia.
Qed.

End Settled.

Lemma rob_user_solvent cfg db now r a an v vn :
  robbery_amounts_nonneg cfg ->
  all_solvent db ->
  all_solvent (snd (Robbery.rob_user cfg db now r a an v vn)).
Proof.
  intros (Hmin & Hmax & Hprot & Hpen) H.
  pose proof (rob_entry_solvent db now a an v vn H) as H0.
  destruct (rob_user_gates cfg db now r a an v vn)
    as [[_ ->]|(Hne & rd & vd & Hrd & Hvd & [[_ ->]|[(_ & _ & ->)|[Hlv Hcool]]])];
    try exact H0.
  rewrite (rob_user_past_gates cfg db now r a an v vn rd vd) by assumption.
  destruct (found_solvent _ _ _ H0 Hrd) as [Hrm _].
  destruct (found_solvent _ _ _ H0 Hvd) as [Hvm _].
  split_if; [exact H0|].
  destruct (Qltb _ _).
  - destruct (Robbery.loot cfg r (money vd)) as [amt|] eqn:Hl; [|exact H0].
    apply loot_inv in Hl as (Hcap & Hlow & Hdraw). cbn [snd].
    apply settled_solvent; [exact H0| |]; lia.
  - cbn [snd]. apply settled_solvent; [exact H0| |]; lia.
Qed.

Lemma step_solvent cfg db op :
  robbery_amounts_nonneg cfg -> all_solvent db -> all_solvent (step cfg db op).
Proof.
  intros Hcfg H. destruct op; cbn [step].
  - now apply daily_checkin_solvent.
  - now apply work_solvent.
  - now apply deposit_solvent.
  - now apply withdraw_solvent.
  - now apply transfer_solvent.
  - now apply rob_user_solvent.
  - now apply apply_daily_interest_solvent.
Qed.

Lemma trace_solvent cfg ops : forall db,
  robbery_amounts_nonneg cfg -> all_solvent db ->
  Forall all_solvent (trace cfg db ops).
Proof.
  induction ops as [|op ops IH]; intros db Hcfg H; cbn [trace]; constructor.
  - now apply step_solvent.
  - apply IH; [assumption|]. now apply step_solvent.
Qed.

(** A [rob_user] call that went through passed every check and settled
    either a success or a failure. *)
Lemma rob_user_success_inv cfg db now r a an v vn rc db' :
  Robbery.rob_user cfg db now r a an v vn = (Success rc, db') ->
  let db0 := rob_entry db now a an v vn in
  a <> v /\ exists rd vd,
    find_user a (users db0) = Some rd
    /\ find_user v (users db0) = Some vd
    /\ Robbery.level_requirement cfg <= level rd
    /\ robber_cooling cfg db0 now a = false
    /\ Robbery.protection_amount cfg <= money vd
    /\ ((Qltb (random_random r) (Robbery.success_rate cfg) = true
         /\ exists amt,
             Robbery.loot cfg r (money vd) = Some amt
             /\ rc = Robbery.mkRobReceipt true amt (username vd)
             /\ db' = settled db0 now a v (money rd + amt) (money vd - amt) amt true)
        \/ (Qltb (random_random r) (Robbery.success_rate cfg) = false
            /\ rc = Robbery.mkRobReceipt false 0 (username vd)
            /\ db' = settled db0 now a v
                       (money rd - Z.min (Robbery.failure_penalty cfg) (money rd))
                       (money vd + Z.min (Robbery.failure_penalty cfg) (money rd))
                       (Z.min (Robbery.failure_penalty cfg) (money rd)) false)).
Proof.
  intros H db0.
  destruct (rob_user_gates cfg db now r a an v vn)
    as [[_ E]|(Hne & rd & vd & Hrd & Hvd & [[_ E]|[(_ & _ & E)|[Hlv Hcool]]])];
    try (rewrite E in H; discriminate).
  split; [assumption|]. exists rd, vd.
  rewrite (rob_user_past_gates cfg db now r a an v vn rd vd) in H by assumption.
  fold db0 in Hrd, Hvd, Hcool, H. revert H.
  split_if; [discriminate|].
  destruct (Qltb _ _).
  - destruct (Robbery.loot cfg r (money vd)) as [amt|]; [|discriminate].
    intros [= <- <-]. repeat split; auto. left. split; [reflexivity|].
    exists amt. auto.
  - intros [= <- <-]. repeat split; auto.
Qed.

Lemma cash_of_ensure db now uid name who :
  cash_of (_ensure_user_exists db now uid name) who = cash_of db who.
Proof.
  unfold cash_of. destruct (String.eqb_spec uid who) as [->|Hne].
  - destruct (ensure_finds db now who name) as (u & -> & Hnew & Hold).
    destruct (find_user who (users db)) as [w|].
    + now rewrite (Hold w eq_refl).
    + now rewrite Hnew.
  - now rewrite ensure_keeps_other.
Qed.

Lemma savings_of_ensure db now uid name who :
  savings_of (_ensure_user_exists db now uid name) who = savings_of db who.
Proof.
  unfold savings_of. destruct (String.eqb_spec uid who) as [->|Hne].
  - destruct (ensure_finds db now who name) as (u & -> & Hnew & Hold).
    destruct (find_user who (users db)) as [w|].
    + now rewrite (Hold w eq_refl).
    + now rewrite Hnew.
  - now rewrite ensure_keeps_other.
Qed.

Lemma deposit_rejects_overdraw db now uid name amt :
  cash_of db uid < amt ->
  exists why,
    Bank.deposit db now uid name amt
    = (Failure why, _ensure_user_exists db now uid name)
    /\ (Bank.min_deposit <= amt <= Bank.max_deposit -> why = InsufficientCash).
Proof.
  intros H. rewrite <- (cash_of_ensure db now uid name uid) in H.
  destruct (ensure_finds db now uid name) as (u & Hu & _).
  unfold Bank.deposit. set (db0 := _ensure_user_exists db now uid name) in *.
  unfold cash_of in H. rewrite Hu in *.
  destruct (Z.ltb_spec amt Bank.min_deposit);
    [eexists; split; [reflexivity|lia]|].
  destruct (Z.gtb_spec amt Bank.max_deposit);
    [eexists; split; [reflexivity|lia]|].
  destruct (Z.ltb_spec (money u) amt); [|lia].
  eexists; split; [reflexivity|auto].
Qed.

Lemma ensure_bank_transactions db now uid name :
  bank_transactions (_ensure_user_exists db now uid name) = bank_transactions db.
Proof. unfold _ensure_user_exists. now destruct (find_user uid (users db)). Qed.

Lemma ensure_work_records db now uid name :
  work_records (_ensure_user_exists db now uid name) = work_records db.
Proof. unfold _ensure_user_exists. now destruct (find_user uid (users db)). Qed.

Lemma withdraw_rejects_overdraw db now uid name amt :
  savings_of db uid < amt ->
  exists why,
    Bank.withdraw db now uid name amt
    = (Failure why, _ensure_user_exists db now uid name).
Proof.
  intros H. rewrite <- (savings_of_ensure db now uid name uid) in H.
  destruct (ensure_finds db now uid name) as (u & Hu & _).
  unfold Bank.withdraw. set (db0 := _ensure_user_exists db now uid name) in *.
  unfold savings_of in H. rewrite Hu in *.
  destruct (Z.ltb_spec amt Bank.min_withdraw); [eauto|].
  destruct (Z.gtb_spec amt Bank.max_withdraw); [eauto|].
  destruct (Z.gtb_spec (Bank.today_withdraw db0 uid (date_of (local_time now)) + amt)
                       Bank.daily_withdraw_limit); [eauto|].
  destruct (Z.ltb_spec (bank_money u) amt); [eauto|lia].
Qed.

Lemma transfer_rejects_overdraw db now f t fn tn amt :
  savings_of db f < amt ->
  exists why db',
    Bank.transfer db now f t fn tn amt = (Failure why, db')
    /\ bank_transactions db' = bank_transactions db
    /\ forall who, savings_of db' who = savings_of db who
                   /\ cash_of db' who = cash_of db who.
Proof.
  intros H. unfold Bank.transfer.
  destruct (String.eqb_spec f t); [eauto 6|].
  destruct (Z.ltb_spec amt Bank.min_deposit); [eauto 6|].
  destruct (Z.gtb_spec amt Bank.max_deposit); [eauto 6|].
  set (db1 := _ensure_user_exists db now f fn).
  set (db2 := _ensure_user_exists db1 now t tn).
  assert (Htx : bank_transactions db2 = bank_transactions db).
  { subst db2 db1. now rewrite !ensure_bank_transactions. }
  assert (Hsame : forall who, savings_of db2 who = savings_of db who
                              /\ cash_of db2 who = cash_of db who).
  { intros who. subst db2 db1.
    now rewrite !savings_of_ensure, !cash_of_ensure. }
  destruct (find_user f (users db2)) as [u|] eqn:Hu; [|eauto 6].
  destruct (Z.ltb_spec (bank_money u) amt); [eauto 6|].
  exfalso. destruct (Hsame f) as [Hs _]. unfold savings_of in Hs at 1.
  rewrite Hu in Hs. lia.
Qed.

(** C1, as stated, fails: the robbery amounts of the configuration are
    used as they are read, whatever their sign, and the penalty of a
    failed robbery is only clamped from above.  With a failure penalty of
    -1000 a failed robbery takes 1000 from a victim holding 100; with a
    protection amount of -1000 a successful robbery takes 50 from a
    victim holding nothing; with a maximum amount of -40, or a minimum
    amount of -100, a successful robbery costs the robber, who holds 30,
    40 or 100. *)
Lemma negative_robbery_amounts_overdraw_an_account :
  let rob cfg cash r :=
    run cfg (heist_db cash) [OpRob (utc_host 1000) r "bob" "Bob" "alice" "Alice"] in
  all_solvent (heist_db 100) /\ all_solvent (heist_db 0) /\ all_solvent (heist_db 500)
  /\ cash_of (rob (robbery_settings 50 300 100 (-1000)) 100 (mkRand 1 0)) "alice" = -900
  /\ robbery_records (rob (robbery_settings 50 300 100 (-1000)) 100 (mkRand 1 0))
     = [mkRobbery "bob" "alice" (-1000) false 1000]
  /\ ~ all_solvent (rob (robbery_settings 50 300 100 (-1000)) 100 (mkRand 1 0))
  /\ cash_of (rob (robbery_settings 50 300 (-1000) 20) 0 (mkRand 0 0)) "alice" = -50
  /\ cash_of (rob (robbery_settings 50 (-40) 100 20) 500 (mkRand 0 0)) "bob" = -10
  /\ cash_of (rob (robbery_settings (-100) 300 100 20) 500 (mkRand 0 0)) "bob" = -70.
Proof.
  cbv zeta.
  assert (Hdb : forall cash, 0 <= cash -> all_solvent (heist_db cash)).
  { intros cash Hc. unfold all_solvent, solvent.
    repeat constructor; cbn; lia. }
  split; [apply Hdb; lia|]. split; [apply Hdb; lia|]. split; [apply Hdb; lia|].
  split; [reflexivity|]. split; [reflexivity|]. split; [|repeat split].
  intros H. vm_compute in H. apply Forall_inv in H.
  destruct H as [H _]. vm_compute in H. now apply H.
Qed.

(** C1, amended.  Starting from a ledger in which every account has cash
    >= 0 and savings >= 0, and with robbery amounts (minimum, maximum,
    protection amount, failure penalty) that are not negative, after
    every call of every sequence of checkin, work, deposit, withdraw,
    transfer, rob and interest calls every account still has cash >= 0 and
    savings >= 0.  In particular a deposit above the cash held is
    declined (as insufficient cash when the amount is within the deposit
    bounds), a withdrawal or transfer above the savings held is declined
    and changes no balance, and the penalty of a failed robbery is the
    configured penalty clamped to the robber's cash. *)
Theorem balances_never_negative (cfg : GameSettings) (db : Db) (ops : list Op) :
  robbery_amounts_nonneg cfg ->
  all_solvent db ->
  Forall all_solvent (trace cfg db ops)
  /\ (forall now uid name amt,
        cash_of db uid < amt ->
        exists why,
          Bank.deposit db now uid name amt
          = (Failure why, _ensure_user_exists db now uid name)
          /\ (Bank.min_deposit <= amt <= Bank.max_deposit ->
              why = InsufficientCash))
  /\ (forall now uid name amt,
        savings_of db uid < amt ->
        exists why,
          Bank.withdraw db now uid name amt
          = (Failure why, _ensure_user_exists db now uid name))
  /\ (forall now f t fn tn amt,
        savings_of db f < amt ->
        exists why db',
          Bank.transfer db now f t fn tn amt = (Failure why, db')
          /\ bank_transactions db' = bank_transactions db
          /\ forall who, savings_of db' who = savings_of db who
                         /\ cash_of db' who = cash_of db who)
  /\ (forall now r a an v vn rc db',
        Robbery.rob_user cfg db now r a an v vn = (Success rc, db') ->
        Robbery.robbery_success rc = false ->
        let held := cash_of (rob_entry db now a an v vn) a in
        let penalty := Z.min (Robbery.failure_penalty cfg) held in
        0 <= penalty <= held
        /\ cash_of db' a = held - penalty
        /\ robbery_records db'
           = robbery_records db ++ [mkRobbery a v penalty false now]).
Proof.
  intros Hcfg H.
  split; [now apply trace_solvent|].
  split; [intros; now apply deposit_rejects_overdraw|].
  split; [intros; now apply withdraw_rejects_overdraw|].
  split; [intros; now apply transfer_rejects_overdraw|].
  intros now r a an v vn rc db' Hout Hfail held penalty.
  apply rob_user_success_inv in Hout
    as (Hne & rd & vd & Hrd & Hvd & _ & _ & _ & [(_ & amt & _ & -> & _)|(_ & _ & ->)]);
    [discriminate|].
  pose proof (rob_entry_solvent db now a an v vn H) as H0.
  destruct (found_solvent _ _ _ H0 Hrd) as [Hrm _].
  destruct Hcfg as (_ & _ & _ & Hpen).
  assert (Hheld : held = money rd) by (subst held; unfold cash_of; now rewrite Hrd).
  subst penalty. rewrite Hheld.
  split; [lia|]. split.
  - unfold cash_of. now rewrite (settled_robber _ _ _ _ _ _ _ _ Hne _ Hrd).
  - now rewrite settled_records, rob_entry_records.
Qed.

(** C3.  A robbery that passes the checks (the victim holding at least
    the protection amount) and whose draw succeeds takes
    [cap = min(max_amount, victim cash - protection_amount)] when
    [cap < min_amount], and otherwise the value [randint] draws from
    [min_amount..cap], each of whose values can be drawn.  In one step
    the robber's cash grows by that amount, the victim's cash shrinks by
    it, nobody else's row changes, and exactly one robbery record, with
    success set and that amount, is appended. *)
Theorem successful_robbery_moves_the_drawn_amount
    (cfg : GameSettings) (db : Db) (now : Clock) (r : Rand)
    (a an v vn : string) (rd vd : User) :
  let db0 := rob_entry db now a an v vn in
  a <> v ->
  find_user a (users db0) = Some rd ->
  find_user v (users db0) = Some vd ->
  Robbery.level_requirement cfg <= level rd ->
  robber_cooling cfg db0 now a = false ->
  Robbery.protection_amount cfg <= money vd ->
  Qltb (random_random r) (Robbery.success_rate cfg) = true ->
  let cap := Z.min (Robbery.max_amount cfg)
                   (money vd - Robbery.protection_amount cfg) in
  exists amt db',
    Robbery.rob_user cfg db now r a an v vn
    = (Success (Robbery.mkRobReceipt true amt (username vd)), db')
    /\ (cap < Robbery.min_amount cfg -> amt = cap)
    /\ (Robbery.min_amount cfg <= cap ->
        Robbery.min_amount cfg <= amt <= cap
        /\ randint r (Robbery.min_amount cfg) cap = Some amt)
    /\ (forall x q, Robbery.min_amount cfg <= x <= cap ->
          Robbery.loot cfg (mkRand q (x - Robbery.min_amount cfg)) (money vd)
          = Some x)
    /\ cash_of db' a = money rd + amt
    /\ cash_of db' v = money vd - amt
    /\ savings_of db' a = bank_money rd
    /\ savings_of db' v = bank_money vd
    /\ (forall w, w <> a -> w <> v ->
          find_user w (users db') = find_user w (users db0))
    /\ robbery_records db' = robbery_records db ++ [mkRobbery a v amt true now].
Proof.
  intros db0 Hne Hrd Hvd Hlv Hcool Hprot Hdraw cap.
  destruct (loot_some cfg r (money vd)) as [amt Hloot].
  exists amt, (settled db0 now a v (money rd + amt) (money vd - amt) amt true).
  split.
  { rewrite (rob_user_past_gates cfg db now r a an v vn rd vd) by assumption.
    destruct (Z.ltb_spec (money vd) (Robbery.protection_amount cfg)); [lia|].
    fold db0. now rewrite Hdraw, Hloot. }
  pose proof (loot_inv _ _ _ _ Hloot) as (Hcap & Hlow & Hin). fold cap in Hcap, Hlow, Hin.
  split; [exact Hlow|].
  split; [intros Hc; destruct (Hin Hc); repeat split; auto; lia|].
  split; [intros x q Hx; now apply loot_any|].
  unfold cash_of, savings_of.
  rewrite (settled_robber _ _ _ _ _ _ _ _ Hne _ Hrd).
  rewrite (settled_victim _ _ _ _ _ _ _ _ Hne _ Hvd).
  repeat split.
  - intros w Hwa Hwv. now apply settled_other.
  - rewrite settled_records. unfold db0. now rewrite rob_entry_records.
Qed.

(** C9.  A robbery is declined as protected only if the victim's cash is
    strictly below the protection amount, and an attempt that reaches
    the protection check (robber distinct from the victim, level
    sufficient, not cooling down) is declined as protected exactly in
    that case: a victim holding exactly the protection amount is robbed.
    A successful robbery leaves the victim with at least the protection
    amount.  When the victim holds exactly the protection amount (with
    [max_amount >= 0] and [min_amount > 0]) a successful draw yields a
    successful robbery of 0 coins: both balances stay as they were and
    the record carries amount 0. *)
Theorem protection_floor_is_strict_and_kept
    (cfg : GameSettings) (db : Db) (now : Clock) (r : Rand) (a an v vn : string) :
  let db0 := rob_entry db now a an v vn in
  let out := Robbery.rob_user cfg db now r a an v vn in
  (fst out = Failure VictimProtected ->
   exists vd, find_user v (users db0) = Some vd
              /\ money vd < Robbery.protection_amount cfg)
  /\ (forall rd vd,
        a <> v ->
        find_user a (users db0) = Some rd ->
        find_user v (users db0) = Some vd ->
        Robbery.level_requirement cfg <= level rd ->
        robber_cooling cfg db0 now a = false ->
        (fst out = Failure VictimProtected
         <-> money vd < Robbery.protection_amount cfg)
        /\ (money vd = Robbery.protection_amount cfg -> is_success (fst out) = true)
        /\ (money vd = Robbery.protection_amount cfg ->
            0 <= Robbery.max_amount cfg -> 0 < Robbery.min_amount cfg ->
            Qltb (random_random r) (Robbery.success_rate cfg) = true ->
            out = (Success (Robbery.mkRobReceipt true 0 (username vd)),
                   settled db0 now a v (money rd) (money vd) 0 true)
            /\ cash_of (snd out) a = money rd
            /\ cash_of (snd out) v = money vd
            /\ robbery_records (snd out)
               = robbery_records db ++ [mkRobbery a v 0 true now]))
  /\ (forall rc, fst out = Success rc -> Robbery.robbery_success rc = true ->
        Robbery.protection_amount cfg <= cash_of (snd out) v).
Proof.
  intros db0 out. split; [|split].
  - intros Hout.
    destruct (rob_user_gates cfg db now r a an v vn)
      as [[_ E]|(Hne & rd & vd & Hrd & Hvd & [[_ E]|[(_ & _ & E)|[Hlv Hcool]]])];
      try (subst out; rewrite E in Hout; discriminate).
    exists vd. split; [assumption|].
    subst out.
    rewrite (rob_user_past_gates cfg db now r a an v vn rd vd) in Hout by assumption.
    revert Hout. split_if; [auto|].
    destruct (Qltb _ _); [destruct (Robbery.loot _ _ _)|]; discriminate.
  - intros rd vd Hne Hrd Hvd Hlv Hcool.
    assert (Hout : out = _)
      by exact (rob_user_past_gates cfg db now r a an v vn rd vd Hne Hrd Hvd Hlv Hcool).
    cbv zeta in Hout. fold db0 in Hout.
    destruct (loot_some cfg r (money vd)) as [amt Hloot]. rewrite Hloot in Hout.
    split; [|split].
    + rewrite Hout. split_if.
      * split; auto.
      * split; [|lia]. destruct (Qltb _ _); discriminate.
    + intros Heq. rewrite Hout. split_if; [lia|]. now destruct (Qltb _ _).
    + intros Heq Hmax Hmin Hdraw.
      apply loot_inv in Hloot as (_ & Hlow & _).
      assert (amt = 0) by lia. subst amt.
      rewrite Hdraw in Hout.
      destruct (Z.ltb_spec (money vd) (Robbery.protection_amount cfg)); [lia|].
      rewrite !Z.add_0_r, !Z.sub_0_r in Hout.
      split; [exact Hout|]. rewrite Hout. cbn [snd]. unfold cash_of.
      rewrite (settled_robber _ _ _ _ _ _ _ _ Hne _ Hrd).
      rewrite (settled_victim _ _ _ _ _ _ _ _ Hne _ Hvd).
      repeat split. rewrite settled_records. unfold db0.
      now rewrite rob_entry_records.
  - intros rc Hrc Hok. destruct out as [o db'] eqn:Hout. cbn in Hrc. subst o.
    cbn [snd]. subst out.
    apply rob_user_success_inv in Hout
      as (Hne & rd & vd & Hrd & Hvd & _ & _ & Hprot
          & [(_ & amt & Hloot & -> & ->)|(_ & -> & _)]); [|discriminate].
    apply loot_inv in Hloot as (Hcap & _).
    unfold cash_of. rewrite (settled_victim _ _ _ _ _ _ _ _ Hne _ Hvd).
    cbn [money Robbery.set_victim]. lia.
Qed.

(** ** Daily interest *)

Lemma set_bank_money_id b now u : user_id (Bank.set_bank_money b now u) = user_id u.
Proof. reflexivity. Qed.

Lemma credited_id cfg now b u : user_id (credited cfg now b u) = user_id u.
Proof. unfold credited. now destruct (_ >? _). Qed.

(** One turn of the loop, seen from any user. *)
Lemma interest_step_effect cfg now db rep uid b who :
  let db' := fst (credit_step cfg now (db, rep) (uid, b)) in
  (who <> uid ->
   find_user who (users db') = find_user who (users db)
   /\ txs_of db' who = txs_of db who)
  /\ find_user uid (users db') = option_map (credited cfg now b) (find_user uid (users db))
  /\ txs_of db' uid = txs_of db uid ++ interest_records cfg now uid b.
Proof.
  unfold credit_step, credited, interest_records.
  destruct (interest_due cfg b >? 0); cbn [fst].
  - unfold txs_of. cbn [users bank_transactions insert_transaction with_users].
    rewrite !filter_app. cbn [filter tx_user_id]. rewrite String.eqb_refl.
    split; [intros Hne; split|split]; auto.
    + apply find_user_update_other; [apply set_bank_money_id|congruence].
    + destruct (String.eqb_spec uid who); [congruence|]. now rewrite app_nil_r.
    + apply find_user_update_same, set_bank_money_id.
  - rewrite app_nil_r. repeat split. now destruct (find_user uid (users db)).
Qed.

(** The whole loop over rows with distinct user ids. *)
Lemma interest_loop_effect cfg now rows : forall st who,
  NoDup (map fst rows) ->
  let db' := fst (fold_left (credit_step cfg now) rows st) in
  (~ In who (map fst rows) ->
   find_user who (users db') = find_user who (users (fst st))
   /\ txs_of db' who = txs_of (fst st) who)
  /\ (forall b, In (who, b) rows ->
      find_user who (users db')
      = option_map (credited cfg now b) (find_user who (users (fst st)))
      /\ txs_of db' who = txs_of (fst st) who ++ interest_records cfg now who b).
Proof.
  induction rows as [|[uid b] rows IH]; intros [db rep] who Hnd; cbn [fold_left].
  - split; [auto|]. intros b [].
  - cbn [map fst] in Hnd. inversion Hnd as [|? ? Hnotin Hnd']; subst.
    destruct (credit_step cfg now (db, rep) (uid, b)) as [db1 rep1] eqn:E.
    pose proof (interest_step_effect cfg now db rep uid b who) as Hstep.
    rewrite E in Hstep. cbn [fst] in Hstep. destruct Hstep as (Hother & Hsame & Htx).
    destruct (IH (db1, rep1) who Hnd') as (IHout & IHin). cbn [fst] in IHout, IHin.
    cbn [fst]. split.
    + intros Hnot. cbn [map fst In] in Hnot.
      destruct (IHout ltac:(tauto)) as [-> ->].
      apply Hother. intuition congruence.
    + intros b' [Hhead|Htail].
      * injection Hhead as -> ->.
        destruct (IHout Hnotin) as [-> ->]. auto.
      * assert (who <> uid).
        { intros ->. apply Hnotin. apply (in_map fst) in Htail. exact Htail. }
        destruct (Hother ltac:(assumption)) as [<- <-]. now apply IHin.
Qed.

Lemma NoDup_map_filter {A B} (f : A -> B) (p : A -> bool) l :
  NoDup (map f l) -> NoDup (map f (filter p l)).
Proof.
  induction l as [|x l IH]; cbn; intros H; [constructor|].
  inversion H as [|? ? Hnotin Hnd]; subst.
  destruct (p x); cbn; auto. constructor; auto.
  intros Hin. apply Hnotin. apply in_map_iff in Hin as (y & Hy & Hin).
  apply filter_In in Hin as [Hin _]. apply in_map_iff. eauto.
Qed.

Lemma NoDup_map_inj {A B} (f : A -> B) l x y :
  NoDup (map f l) -> In x l -> In y l -> f x = f y -> x = y.
Proof.
  induction l as [|z l IH]; cbn; intros H Hx Hy Hf; [contradiction|].
  inversion H as [|? ? Hnotin Hnd]; subst.
  destruct Hx as [->|Hx], Hy as [->|Hy]; auto.
  - exfalso. apply Hnotin. rewrite Hf. now apply in_map.
  - exfalso. apply Hnotin. rewrite <- Hf. now apply in_map.
Qed.

Lemma find_user_NoDup us u :
  NoDup (map user_id us) -> In u us -> find_user (user_id u) us = Some u.
Proof.
  intros Hnd Hin. unfold find_user.
  destruct (find _ us) as [w|] eqn:E.
  - apply find_some in E as [Hw Heq]. apply String.eqb_eq in Heq.
    f_equal. eapply NoDup_map_inj; eauto.
  - exfalso. pose proof (find_none _ _ E u Hin) as Hn. cbn in Hn.
    now rewrite String.eqb_refl in Hn.
Qed.

Lemma savers_ids db :
  map fst (Bank.savers db)
  = map user_id (filter (fun u => bank_money u >? 0) (users db)).
Proof. unfold Bank.savers. rewrite map_map. reflexivity. Qed.

(** With the default settings the interest of savings below the VIP
    threshold is the floor of a thousandth of them. *)
Lemma default_interest_below_vip b :
  0 <= b < vip_threshold default_settings ->
  Bank.interest_of default_settings b = Some (b / 1000)
  /\ floor_interest default_settings b = Some (b / 1000).
Proof.
  intros Hb. change (vip_threshold default_settings) with 10000 in Hb.
  assert (H : forallb
                (fun b => match Bank.interest_of default_settings b,
                                floor_interest default_settings b with
                          | Some i, Some f => (i =? b / 1000) && (f =? b / 1000)
                          | _, _ => false
                          end)
                (map Z.of_nat (seq 0 (Z.to_nat 10000))) = true)
    by (vm_compute; reflexivity).
  rewrite forallb_forall in H. specialize (H b).
  destruct (Bank.interest_of default_settings b) as [i|],
           (floor_interest default_settings b) as [f|];
    try (discriminate H; rewrite <- (Z2Nat.id b) by lia; apply in_map, in_seq; lia).
  assert (Hin : In b (map Z.of_nat (seq 0 (Z.to_nat 10000))))
    by (rewrite <- (Z2Nat.id b) by lia; apply in_map, in_seq; lia).
  apply H, andb_true_iff in Hin as [Hi Hf].
  apply Z.eqb_eq in Hi, Hf. now subst.
Qed.

(** C6, as stated, fails.  (1) The interest is the binary64 product
    truncated, not the floor of the exact product: on savings of
    2933333333333333 at the default VIP rate of 0.15 percent the exact
    product is 4399999999999.9995, the float product rounds to
    4400000000000.0, and the account is credited 4400000000000, one more
    than the floor.  (2) A run is all or nothing: with a VIP rate of
    1e308 percent the product overflows for carol (savings 20000), the
    conversion to [int] raises, and alice, whose interest of 1 was
    computed before, is credited nothing and gets no record. *)
Lemma daily_interest_departs_from_floor_of_savings_times_rate :
  let b := 2933333333333333 in
  let out := Bank.apply_daily_interest default_settings tycoon_db 90000 in
  let out' := Bank.apply_daily_interest steep_settings savers_db 90000 in
  (vip_threshold default_settings <= b
   /\ floor_interest default_settings b = Some 4399999999999
   /\ Qfloor (inject_Z b * (15 # 10000)) = 4399999999999
   /\ Bank.interest_of default_settings b = Some 4400000000000
   /\ savings_of (snd out) "vera" = b + 4400000000000
   /\ txs_of (snd out) "vera"
      = [mkTx "vera" interest_tx 4400000000000 b (b + 4400000000000) 90000])
  /\ (Bank.interest_of steep_settings 1000 = Some 1
      /\ Bank.interest_of steep_settings 20000 = None
      /\ fst out' = Failure RaisedException
      /\ savings_of (snd out') "alice" = 1000
      /\ txs_of (snd out') "alice" = []).
Proof.
  cbv zeta. split; [split; [discriminate|]|]; repeat split; vm_compute; reflexivity.
Qed.

(** C6, amended.  The interest of an account is [int(savings * rate)]
    computed in binary64, at the VIP rate when savings >= vip_threshold
    and the base rate otherwise.  [apply_daily_interest] completes
    exactly when the interest of no saver raises, and otherwise fails
    and leaves the database as it was.  When it completes, an account
    with savings > 0 whose interest is positive has the interest added
    to its savings and exactly one interest record appended; any other
    account is left as it was, with no record.  With the default rate
    of 0.1 percent (0.001) the interest of savings below the VIP
    threshold of 10000 is the floor of the exact product, and savings
    of 1000 earn exactly 1. *)
Theorem daily_interest_credits_truncated_float_product
    (cfg : GameSettings) (db : Db) (now : Z) (u : User) :
  NoDup (ids db) ->
  In u (users db) ->
  let out := Bank.apply_daily_interest cfg db now in
  let rate := if bank_money u >=? vip_threshold cfg
              then (bank_vip_interest_rate cfg / 100)%float
              else (bank_interest_rate cfg / 100)%float in
  Bank.interest_of cfg (bank_money u) = int_of_product (bank_money u) rate
  /\ (is_success (fst out) = true
      <-> forall row, In row (Bank.savers db) -> Bank.interest_of cfg (snd row) <> None)
  /\ (is_success (fst out) = false -> out = (Failure RaisedException, db))
  /\ (is_success (fst out) = true ->
      (0 < bank_money u ->
       exists interest,
         Bank.interest_of cfg (bank_money u) = Some interest
         /\ (0 < interest ->
             find_user (user_id u) (users (snd out))
             = Some (Bank.set_bank_money (bank_money u + interest) now u)
             /\ txs_of (snd out) (user_id u)
                = txs_of db (user_id u)
                  ++ [mkTx (user_id u) interest_tx interest (bank_money u)
                           (bank_money u + interest) now])
         /\ (interest <= 0 ->
             find_user (user_id u) (users (snd out)) = Some u
             /\ txs_of (snd out) (user_id u) = txs_of db (user_id u)))
      /\ (bank_money u <= 0 ->
          find_user (user_id u) (users (snd out)) = Some u
          /\ txs_of (snd out) (user_id u) = txs_of db (user_id u)))
  /\ (forall b, 0 <= b < vip_threshold default_settings ->
      Bank.interest_of default_settings b = Some (b / 1000)
      /\ floor_interest default_settings b = Some (b / 1000))
  /\ Bank.interest_of default_settings 1000 = Some 1.
Proof.
  intros Hnd Hin out rate. unfold ids in Hnd.
  assert (Hfind : find_user (user_id u) (users db) = Some u)
    by now apply find_user_NoDup.
  pose proof (interest_loop_effect cfg now (Bank.savers db)
                (db, Bank.mkInterestReport 0 0) (user_id u)) as Hloop.
  rewrite savers_ids in Hloop.
  specialize (Hloop (NoDup_map_filter _ _ _ Hnd)).
  cbv zeta in Hloop. cbn [fst] in Hloop. rewrite Hfind in Hloop.
  destruct Hloop as [Hout Hsel].
  split; [reflexivity|].
  assert (Hsaver : 0 < bank_money u -> In (user_id u, bank_money u) (Bank.savers db)).
  { intros Hpos. unfold Bank.savers. apply in_map_iff. exists u.
    split; [reflexivity|]. apply filter_In. split; [assumption|]. now apply Z.gtb_lt. }
  assert (Hidle : bank_money u <= 0 ->
                  ~ In (user_id u)
                       (map user_id (filter (fun u => bank_money u >? 0) (users db)))).
  { intros Hzero Hin'. apply in_map_iff in Hin' as (w & Hid & Hw).
    apply filter_In in Hw as [Hw Hpos].
    assert (w = u) by (eapply NoDup_map_inj; eauto). subst w.
    apply Z.gtb_lt in Hpos. lia. }
  split; [|split; [|split; [|split; [exact default_interest_below_vip
                                    |vm_compute; reflexivity]]]];
    subst out;
    destruct (apply_daily_interest_cases cfg db now) as [[-> Hall]|[-> Hsome]];
    cbn [fst snd is_success].
  - split; [intros _; exact Hall|reflexivity].
  - split; [discriminate|]. intros Hall. destruct Hsome as (row & Hrow & Hnone).
    now destruct (Hall row Hrow).
  - discriminate.
  - reflexivity.
  - intros _. split.
    + intros Hpos. specialize (Hsaver Hpos).
      destruct (Bank.interest_of cfg (bank_money u)) as [interest|] eqn:Hi;
        [|now destruct (Hall _ Hsaver)].
      exists interest. split; [reflexivity|].
      destruct (Hsel (bank_money u) Hsaver) as [Hf Ht].
      rewrite Hf, Ht. unfold credited, interest_records, interest_due.
      cbn [option_map]. rewrite Hi.
      split; intros Hint; (destruct (Z.gtb_spec interest 0); [|]); try lia.
      * split; reflexivity.
      * now rewrite app_nil_r.
    + intros Hzero. apply Hout, Hidle, Hzero.
  - discriminate.
Qed.

(** ** Transfer to a user without an account *)

(** C7, as stated, fails: a transfer to a user id without an account is
    not declined as recipient-not-found.  Alice (savings 1000) transfers
    50 to "dave", who has no row: the call succeeds, dave's row is
    created and credited, and two records are written. *)
Lemma transfer_to_missing_recipient_goes_through :
  let out := Bank.transfer savers_db 100 "alice" "dave" "Alice" "Dave" 50 in
  find_user "dave" (users savers_db) = None
  /\ fst out <> Failure RecipientNotFound
  /\ fst out = Success (Bank.mkTransferReceipt 50 950 50)
  /\ savings_of (snd out) "alice" = 950
  /\ savings_of (snd out) "dave" = 50
  /\ bank_transactions (snd out)
     = [mkTx "alice" transfer_out_tx 50 1000 950 100;
        mkTx "dave" transfer_in_tx 50 0 50 100].
Proof.
  cbv zeta. split; [reflexivity|]. split; [discriminate|].
  repeat split.
Qed.

(** C7, amended.  [transfer] never answers recipient-not-found.  When
    sender and recipient differ and the amount is within the deposit
    bounds, a recipient without an account gets one with zero balances
    before any balance is read; the transfer is then declined for
    insufficient savings when the amount exceeds the sender's savings
    (no balance changes, no record), and otherwise debits the sender's
    savings, credits the new account with the amount and appends one
    transfer-out and one transfer-in record. *)
Theorem transfer_creates_missing_recipient
    (db : Db) (now : Z) (f t fn tn : string) (amt : Z) :
  let out := Bank.transfer db now f t fn tn amt in
  let db2 := _ensure_user_exists (_ensure_user_exists db now f fn) now t tn in
  fst out <> Failure RecipientNotFound
  /\ (f <> t ->
      Bank.min_deposit <= amt <= Bank.max_deposit ->
      find_user t (users db) = None ->
      find_user t (users db2) = Some (new_user t tn now)
      /\ (savings_of db f < amt -> out = (Failure InsufficientSavings, db2))
      /\ (amt <= savings_of db f ->
          fst out = Success (Bank.mkTransferReceipt amt (savings_of db f - amt) amt)
          /\ savings_of (snd out) f = savings_of db f - amt
          /\ find_user t (users (snd out))
             = Some (Bank.set_bank_money amt now (new_user t tn now))
          /\ bank_transactions (snd out)
             = bank_transactions db
               ++ [mkTx f transfer_out_tx amt (savings_of db f)
                        (savings_of db f - amt) now;
                   mkTx t transfer_in_tx amt 0 amt now])).
Proof.
  intros out db2.
  set (db1 := _ensure_user_exists db now f fn) in *.
  destruct (ensure_finds db1 now t tn) as (ut & Hut & Hnew & _).
  fold db2 in Hut.
  split.
  - subst out. unfold Bank.transfer. fold db1 db2. rewrite Hut.
    repeat match goal with
           | |- context [match ?x with _ => _ end] => destruct x
           end; discriminate.
  - intros Hne [Hlo Hhi] Hnone.
    assert (Hut' : ut = new_user t tn now).
    { apply Hnew. subst db1. now rewrite ensure_keeps_other. }
    subst ut.
    destruct (ensure_finds db now f fn) as (uf & Huf & _). fold db1 in Huf.
    assert (Huf2 : find_user f (users db2) = Some uf).
    { subst db2. rewrite ensure_keeps_other by congruence. exact Huf. }
    assert (Hsav : savings_of db f = bank_money uf).
    { rewrite <- (savings_of_ensure db now f fn f). fold db1.
      unfold savings_of. now rewrite Huf. }
    split; [exact Hut|].
    assert (Hout : out =
      if bank_money uf <? amt then (Failure InsufficientSavings, db2)
      else (Success (Bank.mkTransferReceipt amt (bank_money uf - amt)
                       (bank_money (new_user t tn now) + amt)),
            insert_transaction
              (insert_transaction
                 (with_users
                    (with_users db2
                       (update_user f (Bank.set_bank_money (bank_money uf - amt) now)
                                    (users db2)))
                    (update_user t
                       (Bank.set_bank_money (bank_money (new_user t tn now) + amt) now)
                       (update_user f (Bank.set_bank_money (bank_money uf - amt) now)
                                    (users db2))))
                 (mkTx f transfer_out_tx amt (bank_money uf) (bank_money uf - amt) now))
              (mkTx t transfer_in_tx amt (bank_money (new_user t tn now))
                    (bank_money (new_user t tn now) + amt) now))).
    { subst out. unfold Bank.transfer.
      destruct (String.eqb_spec f t); [contradiction|].
      destruct (Z.ltb_spec amt Bank.min_deposit); [lia|].
      destruct (Z.gtb_spec amt Bank.max_deposit); [lia|].
      fold db1 db2. rewrite Huf2, Hut. reflexivity. }
    change (bank_money (new_user t tn now)) with 0 in Hout.
    rewrite Z.add_0_l in Hout. rewrite Hsav.
    split.
    + intros Hlt. rewrite Hout. destruct (Z.ltb_spec (bank_money uf) amt); [reflexivity|lia].
    + intros Hge. rewrite Hout. destruct (Z.ltb_spec (bank_money uf) amt); [lia|].
      cbn [fst snd]. split; [reflexivity|].
      unfold savings_of.
      cbn [users bank_transactions insert_transaction with_users].
      rewrite find_user_update_other by (apply set_bank_money_id || congruence).
      rewrite !find_user_update_same by apply set_bank_money_id.
      rewrite find_user_update_other by (apply set_bank_money_id || congruence).
      rewrite Huf2, Hut. cbn [option_map]. split; [reflexivity|]. split; [reflexivity|].
      subst db2 db1. rewrite !ensure_bank_transactions.
      now rewrite <- app_assoc.
Qed.

(** ** Ranking *)

(** C8, as stated, fails: the query orders by the metric alone, so tied
    accounts come out in table order, whichever way their ids compare;
    and an account whose metric is 0 is never listed, even when it is
    the only account. *)
Lemma ranking_ties_follow_table_order :
  ranking_ids (Ranking.get_ranking_data tie_db_bob_first "money" 10)
  = Some ["bob"; "alice"]%string
  /\ ranking_ids (Ranking.get_ranking_data tie_db_alice_first "money" 10)
     = Some ["alice"; "bob"]%string
  /\ ranking_ids (Ranking.get_ranking_data penniless_db "money" 1) = Some [].
Proof. repeat split. Qed.

Section OrderBy.
Variable cols : list (User -> Z).

Lemma lex_gtb_asym x y :
  Ranking.lex_gtb (Ranking.sort_key cols x) (Ranking.sort_key cols y) = true ->
  Ranking.lex_gtb (Ranking.sort_key cols y) (Ranking.sort_key cols x) = false.
Proof.
  unfold Ranking.sort_key. induction cols as [|c cs IH]; cbn; [discriminate|].
  destruct (Z.ltb_spec (c y) (c x)), (Z.ltb_spec (c x) (c y)),
           (Z.eqb_spec (c x) (c y)), (Z.eqb_spec (c y) (c x));
    cbn; try lia; auto.
Qed.

Lemma not_below_trans x y z :
  not_below cols x y -> not_below cols y z -> not_below cols x z.
Proof.
  unfold not_below, Ranking.sort_key. induction cols as [|c cs IH]; cbn; [auto|].
  destruct (Z.ltb_spec (c x) (c y)), (Z.ltb_spec (c y) (c z)),
           (Z.ltb_spec (c x) (c z)), (Z.eqb_spec (c y) (c x)),
           (Z.eqb_spec (c z) (c y)), (Z.eqb_spec (c z) (c x));
    cbn; try lia; auto; discriminate.
Qed.

Lemma not_below_refl x : not_below cols x x.
Proof.
  unfold not_below, Ranking.sort_key. induction cols as [|c cs IH]; cbn; [auto|].
  rewrite Z.ltb_irrefl, Z.eqb_refl. exact IH.
Qed.

Lemma insert_desc_perm x s : Permutation (Ranking.insert_desc cols x s) (x :: s).
Proof.
  induction s as [|y s IH]; cbn; [reflexivity|].
  destruct (Ranking.lex_gtb _ _); [|reflexivity].
  rewrite IH. apply perm_swap.
Qed.

Lemma order_by_desc_perm l : Permutation (Ranking.order_by_desc cols l) l.
Proof.
  induction l as [|x l IH]; cbn; [reflexivity|].
  rewrite insert_desc_perm. now constructor.
Qed.

Lemma insert_desc_sorted x s :
  StronglySorted (not_below cols) s ->
  StronglySorted (not_below cols) (Ranking.insert_desc cols x s).
Proof.
  induction s as [|y s IH]; cbn; intros Hs.
  - repeat constructor.
  - inversion Hs as [|? ? Hs' Hall]; subst.
    destruct (Ranking.lex_gtb (Ranking.sort_key cols y) (Ranking.sort_key cols x))
      eqn:E.
    + constructor; [auto|].
      eapply Permutation_Forall; [symmetry; apply insert_desc_perm|].
      constructor; [|assumption]. now apply lex_gtb_asym.
    + constructor; [assumption|]. constructor; [exact E|].
      eapply Forall_impl; [|exact Hall]. intros z Hz.
      eapply not_below_trans; eauto.
Qed.

Lemma order_by_desc_sorted l :
  StronglySorted (not_below cols) (Ranking.order_by_desc cols l).
Proof.
  induction l as [|x l IH]; cbn; [constructor|]. now apply insert_desc_sorted.
Qed.

Lemma same_key_both k x y :
  same_key cols k x = true -> same_key cols k y = true ->
  Ranking.lex_gtb (Ranking.sort_key cols y) (Ranking.sort_key cols x) = false.
Proof.
  unfold same_key.
  destruct (list_eq_dec _ _ _) as [->|]; [|discriminate].
  destruct (list_eq_dec _ _ _) as [E|]; [|discriminate].
  intros _ _. rewrite E, <- (f_equal (fun k => Ranking.lex_gtb k k) E).
  apply not_below_refl.
Qed.

(** Rows with equal keys keep their relative order. *)
Lemma insert_desc_stable k x s :
  filter (same_key cols k) (Ranking.insert_desc cols x s)
  = filter (same_key cols k) (x :: s).
Proof.
  induction s as [|y s IH]; [reflexivity|]. cbn [Ranking.insert_desc].
  destruct (Ranking.lex_gtb (Ranking.sort_key cols y) (Ranking.sort_key cols x))
    eqn:E; [|reflexivity].
  cbn [filter] in *. rewrite IH.
  destruct (same_key cols k x) eqn:Ex, (same_key cols k y) eqn:Ey; try reflexivity.
  rewrite (same_key_both k x y Ex Ey) in E. discriminate.
Qed.

Lemma order_by_desc_stable k l :
  filter (same_key cols k) (Ranking.order_by_desc cols l)
  = filter (same_key cols k) l.
Proof.
  induction l as [|x l IH]; [reflexivity|]. cbn [Ranking.order_by_desc fold_right].
  rewrite insert_desc_stable. cbn [filter]. fold (Ranking.order_by_desc cols l).
  now rewrite IH.
Qed.

End OrderBy.

Lemma StronglySorted_app {A} (R : A -> A -> Prop) l1 l2 :
  StronglySorted R (l1 ++ l2) ->
  StronglySorted R l1 /\ forall x y, In x l1 -> In y l2 -> R x y.
Proof.
  induction l1 as [|a l1 IH]; cbn; intros H.
  - split; [constructor|]. intros x y [].
  - inversion H as [|? ? Hs Hall]; subst. destruct (IH Hs) as [Hs1 Hcross].
    apply Forall_app in Hall as [Hall1 Hall2]. split.
    + now constructor.
    + intros x y [<-|Hx] Hy; [|auto]. rewrite Forall_forall in Hall2. auto.
Qed.

Lemma sql_limit_split {A} limit (l : list A) :
  exists rest, l = Ranking.sql_limit limit l ++ rest
               /\ (0 <= limit -> (Z.of_nat (List.length (Ranking.sql_limit limit l)) <= limit)).
Proof.
  unfold Ranking.sql_limit. destruct (Z.ltb_spec limit 0).
  - exists []. split; [now rewrite app_nil_r|lia].
  - exists (skipn (Z.to_nat limit) l). split; [now rewrite firstn_skipn|].
    intros _. pose proof (firstn_le_length (Z.to_nat limit) l). lia.
Qed.

Lemma enumerate_from_ids field rows : forall i,
  map Ranking.e_user_id (Ranking.enumerate_from field i rows) = map user_id rows
  /\ map Ranking.value (Ranking.enumerate_from field i rows) = map field rows
  /\ map Ranking.rank (Ranking.enumerate_from field i rows)
     = map (fun n => i + Z.of_nat n) (seq 0 (List.length rows)).
Proof.
  induction rows as [|u rows IH]; intros i;
    cbn [Ranking.enumerate_from map List.length seq]; [auto|].
  destruct (IH (i + 1)) as (-> & -> & ->).
  cbn [Ranking.e_user_id Ranking.value Ranking.rank]. repeat split.
  rewrite <- seq_shift, map_map. f_equal; [lia|].
  apply map_ext. intros n. lia.
Qed.

Lemma StronglySorted_weaken {A} (R S : A -> A -> Prop) l :
  (forall x y, R x y -> S x y) -> StronglySorted R l -> StronglySorted S l.
Proof.
  intros HRS. induction 1 as [|a l Hs IH Hall]; constructor; auto.
  eapply Forall_impl; [|exact Hall]. auto.
Qed.

Lemma not_below_single field x y : not_below [field] x y -> field y <= field x.
Proof.
  unfold not_below. cbn.
  destruct (Z.ltb_spec (field x) (field y)); [discriminate|]. lia.
Qed.

(** C8, amended.  For a known ranking type the query lists only accounts
    whose metric is > 0, at most [limit] of them (all of them when
    [limit] is negative or not smaller than their number), numbered from
    1, in descending order of the metric (of level, then experience, for
    the level ranking); no account left out ranks above a listed one; and
    accounts with equal sort keys appear in the order in which the users
    table holds them: there is no tie-break by account id. *)
Theorem ranking_lists_positive_metrics_in_stable_descending_order
    (db : Db) (ranking_type : string) (limit : Z) (field : User -> Z) :
  Ranking.lookup_field ranking_type = Some field ->
  let cols := Ranking.order_columns ranking_type field in
  let eligible := filter (fun u => field u >? 0) (users db) in
  let rows := Ranking.ranked_users ranking_type field limit db in
  exists rd rest,
    Ranking.get_ranking_data db ranking_type limit = Some rd
    /\ map Ranking.e_user_id (Ranking.data rd) = map user_id rows
    /\ map Ranking.value (Ranking.data rd) = map field rows
    /\ map Ranking.rank (Ranking.data rd)
       = map (fun n => 1 + Z.of_nat n) (seq 0 (List.length rows))
    /\ (0 <= limit -> Z.of_nat (List.length rows) <= limit)
    /\ Permutation (rows ++ rest) eligible
    /\ (limit < 0 \/ Z.of_nat (List.length eligible) <= limit -> rest = [])
    /\ (forall u, In u rows -> In u (users db) /\ 0 < field u)
    /\ StronglySorted (not_below cols) rows
    /\ (forall x y, In x rows -> In y rest -> not_below cols x y)
    /\ (forall k, exists later,
          filter (same_key cols k) eligible
          = filter (same_key cols k) rows ++ later)
    /\ (ranking_type <> "level"%string ->
        StronglySorted (fun x y => field y <= field x) rows).
Proof.
  intros Hfield cols eligible rows.
  pose proof (order_by_desc_sorted cols eligible) as Hsorted.
  pose proof (order_by_desc_perm cols eligible) as Hperm.
  destruct (sql_limit_split limit (Ranking.order_by_desc cols eligible))
    as (rest & Hsplit & Hlen).
  fold cols eligible in rows.
  change (Ranking.sql_limit limit (Ranking.order_by_desc cols eligible))
    with rows in Hsplit, Hlen.
  rewrite Hsplit in Hsorted, Hperm.
  apply StronglySorted_app in Hsorted as [Hrows Hcross].
  destruct (enumerate_from_ids field rows 1) as (Hids & Hvals & Hranks).
  eexists. exists rest.
  split; [unfold Ranking.get_ranking_data; rewrite Hfield; reflexivity|].
  cbn [Ranking.data].
  split; [exact Hids|]. split; [exact Hvals|]. split; [exact Hranks|].
  split; [exact Hlen|]. split; [exact Hperm|].
  split; [|split; [|split; [exact Hrows|split; [exact Hcross|split]]]].
  - intros Hall.
    assert (Hfull : rows = Ranking.order_by_desc cols eligible).
    { subst rows. unfold Ranking.ranked_users, Ranking.sql_limit.
      fold cols eligible. destruct (Z.ltb_spec limit 0); [reflexivity|].
      apply firstn_all2.
      rewrite (Permutation_length (order_by_desc_perm cols eligible)). lia. }
    rewrite <- Hfull in Hsplit.
    apply (f_equal (@List.length User)) in Hsplit.
    rewrite length_app in Hsplit. destruct rest; [reflexivity|cbn in Hsplit; lia].
  - intros u Hu.
    assert (Hin : In u eligible).
    { eapply Permutation_in; [exact Hperm|]. apply in_or_app. now left. }
    apply filter_In in Hin as [Hin Hpos]. split; [assumption|]. lia.
  - intros k. exists (filter (same_key cols k) rest).
    rewrite <- filter_app, <- Hsplit. symmetry. apply order_by_desc_stable.
  - intros Hnl. eapply StronglySorted_weaken; [|exact Hrows].
    subst cols. unfold Ranking.order_columns.
    destruct (String.eqb_spec ranking_type "level"); [contradiction|].
    apply not_below_single.
Qed.

Lemma ranking_lists_positive_metrics_in_stable_descending_order_witness :
  exists rd,
    Ranking.get_ranking_data tie_db_bob_first "money" 10 = Some rd
    /\ map Ranking.e_user_id (Ranking.data rd) = ["bob"; "alice"]%string
    /\ map Ranking.rank (Ranking.data rd) = [1; 2].
Proof.
  destruct (ranking_lists_positive_metrics_in_stable_descending_order
              tie_db_bob_first "money" 10 money eq_refl)
    as (rd & rest & Hrd & Hids & _ & Hranks & _).
  exists rd. split; [exact Hrd|]. split; [exact Hids|exact Hranks].
Defined.

(** ** Work records and cash *)

Lemma set_worked_id m e l earned now u :
  user_id (Work.set_worked m e l earned now u) = user_id u.
Proof. reflexivity. Qed.

Lemma earned_by_insert db w who :
  earned_by (insert_work db w) who
  = earned_by db who + (if String.eqb (wr_user_id w) who then wr_total_earned w else 0).
Proof.
  unfold earned_by, insert_work. cbn [work_records].
  rewrite filter_app, map_app. cbn [filter].
  generalize (map wr_total_earned
                (filter (fun w0 => String.eqb (wr_user_id w0) who) (work_records db))).
  intros l. destruct (String.eqb (wr_user_id w) who); cbn [map app].
  - induction l as [|x l IH]; cbn; [lia|]. rewrite IH. lia.
  - rewrite app_nil_r. lia.
Qed.

Lemma earned_by_ensure db now uid name who :
  earned_by (_ensure_user_exists db now uid name) who = earned_by db who.
Proof. unfold earned_by. now rewrite ensure_work_records. Qed.

(** One [work] call credits exactly what its record says. *)
Lemma work_cash_matches_record cfg db now r uid name job_name who :
  let db' := snd (Work.work cfg db now r uid name job_name) in
  cash_of db' who - cash_of db who = earned_by db' who - earned_by db who.
Proof.
  destruct (Work.work cfg db now r uid name job_name) as [[rc|why] db'] eqn:E;
    cbn [snd].
  - apply work_success in E as (j & u & sal & _ & Hu & _ & _ & _ & ->).
    rewrite earned_by_insert. cbn [wr_user_id wr_total_earned].
    unfold earned_by at 1. cbn [work_records with_users].
    fold (earned_by (_ensure_user_exists db now uid name) who).
    rewrite earned_by_ensure.
    rewrite <- (cash_of_ensure db now uid name who).
    unfold cash_of. cbn [users insert_work with_users].
    destruct (String.eqb_spec uid who) as [->|Hne].
    + rewrite find_user_update_same by apply set_worked_id.
      rewrite Hu. cbn [option_map money Work.set_worked]. lia.
    + rewrite find_user_update_other by (apply set_worked_id || assumption). lia.
  - apply work_failure in E. subst db'.
    rewrite cash_of_ensure, earned_by_ensure. lia.
Qed.

Lemma run_work_cash_matches_records cfg calls : forall db who,
  Forall is_work_call calls ->
  cash_of (run cfg db calls) who - cash_of db who
  = earned_by (run cfg db calls) who - earned_by db who.
Proof.
  unfold run. induction calls as [|op calls IH]; intros db who Hall;
    cbn [fold_left]; [lia|].
  inversion Hall as [|? ? Hop Hrest]; subst.
  specialize (IH (step cfg db op) who Hrest).
  destruct op; try contradiction. cbn [step] in *.
  pose proof (work_cash_matches_record cfg db now r uid name job_name who) as Hstep.
  cbv zeta in Hstep. lia.
Qed.

(** C10.  The record appended by a [work] call that goes through carries
    total = base_salary + bonus, where its base_salary is the salary
    drawn from the job's range (not the job's catalog base salary) and
    its bonus is level bonus plus luck bonus, and the user's cash grows
    by exactly that total.  Hence over any sequence of work calls the
    growth of every user's cash equals the growth of the sum of the
    totals of that user's work records. *)
Theorem work_record_total_is_draw_plus_bonus
    (cfg : GameSettings) (db : Db) (now : Clock) (r : Rand)
    (uid name job_name : string) (rc : Work.WorkReceipt) (db' : Db)
    (calls : list Op) :
  Work.work cfg db now r uid name job_name = (Success rc, db') ->
  Forall is_work_call calls ->
  (exists j w,
      Work.lookup_job job_name = Some j
      /\ work_records db' = work_records db ++ [w]
      /\ wr_user_id w = uid
      /\ work_type w = job_name
      /\ wr_total_earned w = base_salary w + bonus w
      /\ randint r (fst (Work.salary_range j)) (snd (Work.salary_range j))
         = Some (base_salary w)
      /\ fst (Work.salary_range j) <= base_salary w <= snd (Work.salary_range j)
      /\ base_salary w = Work.sal_base_salary (Work.salary_result rc)
      /\ bonus w = Work.level_bonus (Work.salary_result rc)
                   + Work.luck_bonus (Work.salary_result rc)
      /\ cash_of db' uid = cash_of db uid + wr_total_earned w)
  /\ (forall who,
        cash_of (run cfg db calls) who - cash_of db who
        = earned_by (run cfg db calls) who - earned_by db who).
Proof.
  intros Hwork Hcalls. split; [|intros who; now apply run_work_cash_matches_records].
  pose proof (work_cash_matches_record cfg db now r uid name job_name uid) as Hcash.
  rewrite Hwork in Hcash. cbn [snd] in Hcash.
  apply work_success in Hwork as (j & u & sal & Hj & Hu & _ & Hs & Hrc & ->).
  apply calculate_salary_inv in Hs as (Hdraw & Htot & _ & _).
  exists j. eexists. split; [exact Hj|].
  split; [cbn [work_records insert_work with_users];
          now rewrite ensure_work_records|].
  cbn [wr_user_id work_type wr_total_earned base_salary bonus].
  rewrite Hrc. repeat split; auto; try lia.
  - apply randint_range in Hdraw. lia.
  - apply randint_range in Hdraw. lia.
  - rewrite earned_by_insert in Hcash.
    unfold earned_by in Hcash at 1.
    cbn [work_records with_users wr_user_id wr_total_earned] in Hcash.
    fold (earned_by (_ensure_user_exists db now uid name) uid) in Hcash.
    rewrite earned_by_ensure, String.eqb_refl in Hcash. lia.
Qed.

(** ** The primary key stays a key *)

Lemma ids_update db uid f :
  (forall u, user_id (f u) = user_id u) ->
  ids (with_users db (update_user uid f (users db))) = ids db.
Proof.
  intros Hid. unfold ids, update_user. rewrite users_with_users, map_map.
  apply map_ext. intros u. now destruct (String.eqb _ _).
Qed.

Lemma ids_ensure db now uid name :
  NoDup (ids db) -> NoDup (ids (_ensure_user_exists db now uid name)).
Proof.
  unfold _ensure_user_exists, ids. intros H.
  destruct (find_user uid (users db)) eqn:E; [assumption|].
  rewrite users_with_users, map_app. cbn [map new_user user_id].
  apply NoDup_app; repeat split; auto.
  - repeat constructor. intros [].
  - intros x Hx [<-|[]]. apply in_map_iff in Hx as (u & Hu & Hin).
    pose proof (find_none _ _ E u Hin) as Hn. cbn in Hn.
    rewrite Hu, String.eqb_refl in Hn. discriminate.
Qed.

Lemma ids_robbery_ensure db now uid name :
  NoDup (ids db) -> NoDup (ids (Robbery._ensure_user_exists db now uid name)).
Proof.
  intros H. unfold Robbery._ensure_user_exists.
  rewrite ids_update by apply rename_id. now apply ids_ensure.
Qed.

Lemma ids_interest_loop cfg now rows : forall st,
  ids (fst (fold_left (credit_step cfg now) rows st)) = ids (fst st).
Proof.
  induction rows as [|[uid b] rows IH]; intros [db rep]; [reflexivity|].
  cbn [fold_left]. rewrite IH. unfold credit_step.
  destruct (_ >? _); [|reflexivity]. cbn [fst].
  change (ids (insert_transaction ?d ?t)) with (ids d).
  apply ids_update. reflexivity.
Qed.

Ltac ids_branches :=
  repeat match goal with
         | |- context [match ?x with _ => _ end] => destruct x
         end;
  cbn [snd];
  repeat (change (ids (insert_transaction ?d ?t)) with (ids d)
          || change (ids (insert_work ?d ?t)) with (ids d)
          || change (ids (insert_checkin ?d ?t)) with (ids d)
          || change (ids (insert_robbery ?d ?t)) with (ids d)
          || rewrite ids_update by (intros; reflexivity));
  auto using ids_ensure, ids_robbery_ensure.

(** Every call keeps the user ids of the table distinct, so the tables
    the engine can reach from the empty database have [user_id] as a key. *)
Lemma step_keeps_ids_distinct cfg db op :
  NoDup (ids db) -> NoDup (ids (step cfg db op)).
Proof.
  intros H. destruct op; cbn [step].
  - unfold Checkin.daily_checkin. ids_branches.
  - unfold Work.work. ids_branches.
  - unfold Bank.deposit. ids_branches.
  - unfold Bank.withdraw. ids_branches.
  - unfold Bank.transfer. ids_branches.
  - unfold Robbery.rob_user. fold (rob_entry db now robber robber_name victim victim_name).
    assert (H0 : NoDup (ids (rob_entry db now robber robber_name victim victim_name)))
      by (unfold rob_entry; auto using ids_robbery_ensure).
    ids_branches.
  - destruct (apply_daily_interest_snd cfg db now) as [-> | ->]; [|exact H].
    now rewrite (ids_interest_loop cfg now (Bank.savers db)
                   (db, Bank.mkInterestReport 0 0)).
Qed.

Lemma run_keeps_ids_distinct cfg ops : forall db,
  NoDup (ids db) -> NoDup (ids (run cfg db ops)).
Proof.
  unfold run. induction ops as [|op ops IH]; intros db H; cbn [fold_left]; auto.
  apply IH. now apply step_keeps_ids_distinct.
Qed.

(** ** The statements at concrete ledgers *)

Lemma balances_never_negative_witness :
  Forall all_solvent
    (trace default_settings (heist_db 500)
       [ OpRob (utc_host 1000) (mkRand 0 170) "bob" "Bob" "alice" "Alice";
         OpDeposit 2000 "bob" "Bob" 200;
         OpWithdraw (utc_host 3000) "bob" "Bob" 500;
         OpCheckin (utc_host 4000) (mkRand 0 7) "alice" "Alice";
         OpTransfer 5000 "bob" "alice" "Bob" "Alice" 150;
         OpInterest 90000 ]).
Proof.
  refine (proj1 (balances_never_negative default_settings (heist_db 500) _ _ _)).
  - unfold robbery_amounts_nonneg. cbn. lia.
  - unfold all_solvent, solvent. cbn. repeat constructor; cbn; lia.
Defined.

Lemma successful_robbery_moves_the_drawn_amount_witness :
  exists amt db',
    Robbery.rob_user default_settings (heist_db 500) (utc_host 1000) (mkRand 0 170)
                     "bob" "Bob" "alice" "Alice"
    = (Success (Robbery.mkRobReceipt true amt "Alice"), db')
    /\ cash_of db' "bob" = 30 + amt
    /\ cash_of db' "alice" = 500 - amt
    /\ robbery_records db' = [mkRobbery "bob" "alice" amt true 1000].
Proof.
  destruct (successful_robbery_moves_the_drawn_amount
              default_settings (heist_db 500) (utc_host 1000) (mkRand 0 170)
              "bob" "Bob" "alice" "Alice" heist_bob (heist_alice 500))
    as (amt & db' & Hout & _ & _ & _ & Hrob & Hvic & _ & _ & _ & Hrec).
  - discriminate.
  - reflexivity.
  - reflexivity.
  - cbn. lia.
  - reflexivity.
  - cbn. lia.
  - reflexivity.
  - exists amt, db'. repeat split; assumption.
Defined.

(** The robbery scenario of the spec: victim cash 500, protection 100,
    maximum 300, the draw yields 220. *)
Example robbery_scenario_220 :
  let out := Robbery.rob_user default_settings (heist_db 500) (utc_host 1000) (mkRand 0 170)
                              "bob" "Bob" "alice" "Alice" in
  fst out = Success (Robbery.mkRobReceipt true 220 "Alice")
  /\ cash_of (snd out) "bob" = 30 + 220
  /\ cash_of (snd out) "alice" = 500 - 220
  /\ robbery_records (snd out) = [mkRobbery "bob" "alice" 220 true 1000].
Proof. repeat split. Qed.

Lemma protection_floor_is_strict_and_kept_witness :
  let out := Robbery.rob_user default_settings (heist_db 100) (utc_host 1000) (mkRand 0 170)
                              "bob" "Bob" "alice" "Alice" in
  fst out = Success (Robbery.mkRobReceipt true 0 "Alice")
  /\ cash_of (snd out) "bob" = 30
  /\ cash_of (snd out) "alice" = 100.
Proof.
  destruct (protection_floor_is_strict_and_kept
              default_settings (heist_db 100) (utc_host 1000) (mkRand 0 170)
              "bob" "Bob" "alice" "Alice") as (_ & Hgate & _).
  destruct (Hgate heist_bob (heist_alice 100)) as (_ & _ & Hedge).
  - discriminate.
  - reflexivity.
  - reflexivity.
  - cbn. lia.
  - reflexivity.
  - destruct Hedge as (Hout & Hrob & Hvic & _).
    + reflexivity.
    + cbn. lia.
    + cbn. lia.
    + reflexivity.
    + cbv zeta. split; [exact (f_equal fst Hout)|].
      split; [exact Hrob | exact Hvic].
Defined.

Lemma checkin_streak_rule_and_same_day_rejection_witness :
  exists rc,
    fst (Checkin.daily_checkin streak6_db (utc_host 864000) (mkRand 0 7) "alice" "Alice")
    = Success rc
    /\ Checkin.new_streak rc = 6 + 1.
Proof.
  destruct (checkin_streak_rule_and_same_day_rejection
              streak6_db (utc_host 864000) (mkRand 0 7) "alice" "Alice")
    as (u & Hu & _ & Hgo & _).
  injection Hu as <-.
  destruct Hgo as [Hnext _]; [reflexivity|].
  exact (Hnext eq_refl).
Defined.

Lemma daily_interest_credits_truncated_float_product_witness :
  let out := Bank.apply_daily_interest default_settings savers_db 90000 in
  savings_of (snd out) "alice" = 1000 + 1
  /\ txs_of (snd out) "alice" = [mkTx "alice" interest_tx 1 1000 1001 90000].
Proof.
  destruct (daily_interest_credits_truncated_float_product
              default_settings savers_db 90000
              (mkUser "alice" "Alice" 40 1000 0 1 0 None 0 0 None 0 0 0 0 0))
    as (_ & _ & _ & Hgo & _).
  - cbn. repeat constructor; cbn; intuition discriminate.
  - left. reflexivity.
  - destruct Hgo as [Hpos _]; [vm_compute; reflexivity|].
    destruct Hpos as (interest & Hi & Hcredit & _); [reflexivity|].
    assert (Hone : interest = 1)
      by (vm_compute in Hi; now injection Hi as <-).
    subst interest.
    destruct Hcredit as [Hfind Htxs]; [reflexivity|].
    cbv zeta. unfold savings_of. cbn [user_id] in Hfind, Htxs.
    rewrite Hfind, Htxs. split; reflexivity.
Defined.

Lemma work_record_total_is_draw_plus_bonus_witness :
  exists j w db',
    Work.lookup_job "搬砖" = Some j
    /\ work_records db' = [w]
    /\ Work.job_base_salary j = 80
    /\ base_salary w = 60
    /\ wr_total_earned w = base_salary w + bonus w
    /\ cash_of db' "alice" = 40 + wr_total_earned w.
Proof.
  assert (Hwork : exists rc db',
             Work.work default_settings savers_db (utc_host 1000) (mkRand (1 # 2) 0)
                       "alice" "Alice" "搬砖" = (Success rc, db'))
    by (eexists; eexists; reflexivity).
  destruct Hwork as (rc & db' & Hwork).
  destruct (work_record_total_is_draw_plus_bonus
              default_settings savers_db (utc_host 1000) (mkRand (1 # 2) 0)
              "alice" "Alice" "搬砖" rc db'
              [OpWork (utc_host 1000) (mkRand (1 # 2) 0) "alice" "Alice" "搬砖"]
              Hwork)
    as ((j & w & Hj & Hrec & _ & _ & Htot & Hdraw & _ & _ & _ & Hcash) & _).
  - repeat constructor.
  - exists j, w, db'. split; [exact Hj|]. split; [exact Hrec|].
    vm_compute in Hj. injection Hj as <-.
    vm_compute in Hdraw. injection Hdraw as Hdraw.
    repeat split; [symmetry; exact Hdraw | exact Htot | exact Hcash].
Defined.

Lemma transfer_creates_missing_recipient_witness :
  let out := Bank.transfer savers_db 100 "alice" "dave" "Alice" "Dave" 50 in
  fst out = Success (Bank.mkTransferReceipt 50 (1000 - 50) 50)
  /\ find_user "dave" (users (snd out))
     = Some (Bank.set_bank_money 50 100 (new_user "dave" "Dave" 100)).
Proof.
  destruct (transfer_creates_missing_recipient
              savers_db 100 "alice" "dave" "Alice" "Dave" 50) as [_ Hnew].
  destruct Hnew as (_ & _ & Hgo).
  - discriminate.
  - unfold Bank.min_deposit, Bank.max_deposit. lia.
  - reflexivity.
  - destruct Hgo as (Hout & _ & Hdave & _); [cbn; lia|].
    cbv zeta. split; [exact Hout | exact Hdave].
Defined.

(** * Further properties of the engine *)

(** ** Columns under the table operations *)

Lemma field_of_ensure column db now uid name who :
  column (new_user uid name now) = 0 ->
  field_of column (_ensure_user_exists db now uid name) who = field_of column db who.
Proof.
  intros Hzero. unfold field_of. destruct (String.eqb_spec uid who) as [->|Hne].
  - destruct (ensure_finds db now who name) as (u & -> & Hnew & Hold).
    destruct (find_user who (users db)) as [w|].
    + now rewrite (Hold w eq_refl).
    + now rewrite Hnew.
  - now rewrite ensure_keeps_other.
Qed.

Lemma field_of_update_other column db uid f who :
  (forall u, user_id (f u) = user_id u) ->
  uid <> who ->
  field_of column (with_users db (update_user uid f (users db))) who
  = field_of column db who.
Proof.
  intros Hid Hne. unfold field_of. rewrite users_with_users.
  now rewrite find_user_update_other.
Qed.

Lemma field_of_update_kept column db uid f who :
  (forall u, user_id (f u) = user_id u) ->
  (forall u, column (f u) = column u) ->
  field_of column (with_users db (update_user uid f (users db))) who
  = field_of column db who.
Proof.
  intros Hid Hcol. destruct (String.eqb_spec uid who) as [->|Hne].
  - unfold field_of. rewrite users_with_users, find_user_update_same by assumption.
    destruct (find_user who (users db)); cbn; auto.
  - now apply field_of_update_other.
Qed.

Lemma field_of_update_same column db uid f u :
  (forall u, user_id (f u) = user_id u) ->
  find_user uid (users db) = Some u ->
  field_of column (with_users db (update_user uid f (users db))) uid = column (f u).
Proof.
  intros Hid Hu. unfold field_of.
  now rewrite users_with_users, find_user_update_same, Hu.
Qed.

Lemma field_of_robbery_ensure column db now uid name who :
  column (new_user uid name now) = 0 ->
  (forall u, column (Robbery.rename name now u) = column u) ->
  field_of column (Robbery._ensure_user_exists db now uid name) who
  = field_of column db who.
Proof.
  intros Hzero Hcol. unfold Robbery._ensure_user_exists.
  rewrite field_of_update_kept by (apply rename_id || assumption).
  now apply field_of_ensure.
Qed.

Lemma field_of_rob_entry column db now a an v vn who :
  (forall uid name, column (new_user uid name now) = 0) ->
  (forall name u, column (Robbery.rename name now u) = column u) ->
  field_of column (rob_entry db now a an v vn) who = field_of column db who.
Proof.
  intros Hzero Hcol. unfold rob_entry.
  now rewrite !field_of_robbery_ensure.
Qed.

Lemma rename_money name now u : money (Robbery.rename name now u) = money u.
Proof. unfold Robbery.rename. now destruct (String.eqb _ _). Qed.

Lemma rename_bank_money name now u :
  bank_money (Robbery.rename name now u) = bank_money u.
Proof. unfold Robbery.rename. now destruct (String.eqb _ _). Qed.

Lemma rename_level name now u : level (Robbery.rename name now u) = level u.
Proof. unfold Robbery.rename. now destruct (String.eqb _ _). Qed.

(** ** What each bank call did *)

Lemma deposit_outcome db now uid name amt :
  let db0 := _ensure_user_exists db now uid name in
  let out := Bank.deposit db now uid name amt in
  (exists why, out = (Failure why, db0))
  \/ (exists u,
        find_user uid (users db0) = Some u
        /\ Bank.min_deposit <= amt <= Bank.max_deposit
        /\ amt <= money u
        /\ out = (Success (Bank.mkReceipt amt (money u - amt) (bank_money u + amt)
                             (money u - amt + (bank_money u + amt))),
                  insert_transaction
                    (with_users db0
                       (update_user uid
                          (Bank.set_balances (money u - amt) (bank_money u + amt) now)
                          (users db0)))
                    (mkTx uid deposit_tx amt (bank_money u) (bank_money u + amt) now))).
Proof.
  intros db0 out. subst out. unfold Bank.deposit. fold db0.
  destruct (Z.ltb_spec amt Bank.min_deposit); [left; eauto|].
  destruct (Z.gtb_spec amt Bank.max_deposit); [left; eauto|].
  destruct (find_user uid (users db0)) as [u|]; [|left; eauto].
  destruct (Z.ltb_spec (money u) amt); [left; eauto|].
  right. exists u. repeat split; auto; lia.
Qed.

Lemma withdraw_outcome db (now : Clock) uid name amt :
  let db0 := _ensure_user_exists db now uid name in
  let out := Bank.withdraw db now uid name amt in
  (exists why, out = (Failure why, db0))
  \/ (exists u,
        find_user uid (users db0) = Some u
        /\ Bank.min_withdraw <= amt <= Bank.max_withdraw
        /\ Bank.today_withdraw db0 uid (date_of (local_time now)) + amt <= Bank.daily_withdraw_limit
        /\ amt <= bank_money u
        /\ out = (Success (Bank.mkReceipt amt (money u + amt) (bank_money u - amt)
                             (money u + amt + (bank_money u - amt))),
                  insert_transaction
                    (with_users db0
                       (update_user uid
                          (Bank.set_balances (money u + amt) (bank_money u - amt) now)
                          (users db0)))
                    (mkTx uid withdraw_tx amt (bank_money u) (bank_money u - amt) now))).
Proof.
  intros db0 out. subst out. unfold Bank.withdraw. fold db0.
  destruct (Z.ltb_spec amt Bank.min_withdraw); [left; eauto|].
  destruct (Z.gtb_spec amt Bank.max_withdraw); [left; eauto|].
  destruct (Z.gtb_spec (Bank.today_withdraw db0 uid (date_of (local_time now)) + amt)
                       Bank.daily_withdraw_limit); [left; eauto|].
  destruct (find_user uid (users db0)) as [u|]; [|left; eauto].
  destruct (Z.ltb_spec (bank_money u) amt); [left; eauto|].
  right. exists u. repeat split; auto; lia.
Qed.

Lemma transfer_outcome db now f t fn tn amt :
  let db2 := _ensure_user_exists (_ensure_user_exists db now f fn) now t tn in
  let out := Bank.transfer db now f t fn tn amt in
  (exists why, out = (Failure why, db) \/ out = (Failure why, db2))
  \/ (exists uf ut,
        f <> t
        /\ find_user f (users db2) = Some uf
        /\ find_user t (users db2) = Some ut
        /\ Bank.min_deposit <= amt <= Bank.max_deposit
        /\ amt <= bank_money uf
        /\ out = (Success (Bank.mkTransferReceipt amt (bank_money uf - amt)
                             (bank_money ut + amt)),
                  insert_transaction
                    (insert_transaction
                       (with_users
                          (with_users db2
                             (update_user f (Bank.set_bank_money (bank_money uf - amt) now)
                                          (users db2)))
                          (update_user t (Bank.set_bank_money (bank_money ut + amt) now)
                             (update_user f (Bank.set_bank_money (bank_money uf - amt) now)
                                          (users db2))))
                       (mkTx f transfer_out_tx amt (bank_money uf)
                             (bank_money uf - amt) now))
                    (mkTx t transfer_in_tx amt (bank_money ut) (bank_money ut + amt) now))).
Proof.
  intros db2 out. subst out. unfold Bank.transfer.
  destruct (String.eqb_spec f t); [left; eauto|].
  destruct (Z.ltb_spec amt Bank.min_deposit); [left; eauto|].
  destruct (Z.gtb_spec amt Bank.max_deposit); [left; eauto|].
  fold db2.
  destruct (find_user f (users db2)) as [uf|]; [|left; eauto].
  destruct (Z.ltb_spec (bank_money uf) amt); [left; eauto|].
  destruct (find_user t (users db2)) as [ut|]; [|left; eauto].
  right. exists uf, ut. repeat split; auto; lia.
Qed.

(** ** Declined calls *)

Lemma same_records_refl db : same_records db db.
Proof. repeat split. Qed.

Lemma same_records_ensure db now uid name :
  same_records db (_ensure_user_exists db now uid name).
Proof.
  unfold same_records, _ensure_user_exists.
  destruct (find_user uid (users db)); repeat split.
Qed.

Lemma same_records_rob_entry db now a an v vn :
  same_records db (rob_entry db now a an v vn).
Proof.
  unfold same_records, rob_entry, Robbery._ensure_user_exists, _ensure_user_exists.
  destruct (find_user a (users db)); cbn [users with_users];
    match goal with |- context [find_user v ?us] => destruct (find_user v us) end;
    repeat split.
Qed.

Lemma daily_checkin_failure db now r uid name why db' :
  Checkin.daily_checkin db now r uid name = (Failure why, db') ->
  db' = _ensure_user_exists db now uid name.
Proof.
  unfold Checkin.daily_checkin.
  repeat match goal with
         | |- context [match ?x with _ => _ end] => destruct x
         end; now intros [= _ <-].
Qed.

Lemma rob_user_failure cfg db now r a an v vn why db' :
  Robbery.rob_user cfg db now r a an v vn = (Failure why, db') ->
  db' = rob_entry db now a an v vn.
Proof.
  unfold Robbery.rob_user. fold (rob_entry db now a an v vn).
  repeat match goal with
         | |- context [match ?x with _ => _ end] => destruct x
         end; now intros [= _ <-].
Qed.

Lemma cash_of_rob_entry db now a an v vn who :
  cash_of (rob_entry db now a an v vn) who = cash_of db who.
Proof.
  apply (field_of_rob_entry money); [reflexivity|]. intros. apply rename_money.
Qed.

Lemma savings_of_rob_entry db now a an v vn who :
  savings_of (rob_entry db now a an v vn) who = savings_of db who.
Proof.
  apply (field_of_rob_entry bank_money); [reflexivity|]. intros. apply rename_bank_money.
Qed.

(** X1.  A declined call writes nothing: whichever check declines a
    checkin, work, deposit, withdraw, transfer or robbery, and whenever
    an interest run fails, the four record tables are as before and
    every user's cash and savings are as before (at most, rows with zero
    balances were created for the users named in the call). *)
Theorem declined_call_changes_no_balance_and_no_record
    (cfg : GameSettings) (db : Db) (op : Op) :
  went_through cfg db op = false ->
  same_records db (step cfg db op)
  /\ forall who, cash_of (step cfg db op) who = cash_of db who
                 /\ savings_of (step cfg db op) who = savings_of db who.
Proof.
  assert (Hens : forall now uid name,
             same_records db (_ensure_user_exists db now uid name)
             /\ forall who, cash_of (_ensure_user_exists db now uid name) who
                            = cash_of db who
                            /\ savings_of (_ensure_user_exists db now uid name) who
                               = savings_of db who).
  { intros. split; [apply same_records_ensure|].
    intros who. now rewrite cash_of_ensure, savings_of_ensure. }
  destruct op; cbn [went_through step].
  - destruct (Checkin.daily_checkin db now r uid name) as [[rc|why] db'] eqn:E;
      [discriminate|]. intros _. apply daily_checkin_failure in E. subst db'. apply Hens.
  - destruct (Work.work cfg db now r uid name job_name) as [[rc|why] db'] eqn:E;
      [discriminate|]. intros _. apply work_failure in E. subst db'. apply Hens.
  - destruct (deposit_outcome db now uid name amt) as [[why ->]|(u & _ & _ & _ & ->)];
      [|discriminate]. intros _. apply Hens.
  - destruct (withdraw_outcome db now uid name amt)
      as [[why ->]|(u & _ & _ & _ & _ & ->)]; [|discriminate]. intros _. apply Hens.
  - destruct (transfer_outcome db now from_id to_id from_name to_name amt)
      as [[why [->| ->]]|(uf & ut & _ & _ & _ & _ & _ & ->)]; [| |discriminate];
      intros _; cbn [snd].
    + split; [apply same_records_refl|auto].
    + split.
      * destruct (same_records_ensure db now from_id from_name) as (H1 & H2 & H3 & H4).
        destruct (same_records_ensure (_ensure_user_exists db now from_id from_name)
                    now to_id to_name) as (G1 & G2 & G3 & G4).
        repeat split; congruence.
      * intros who. now rewrite !cash_of_ensure, !savings_of_ensure.
  - destruct (Robbery.rob_user cfg db now r robber robber_name victim victim_name)
      as [[rc|why] db'] eqn:E; [discriminate|]. intros _.
    apply rob_user_failure in E. subst db'. cbn [snd].
    split; [apply same_records_rob_entry|].
    intros who. now rewrite cash_of_rob_entry, savings_of_rob_entry.
  - destruct (apply_daily_interest_cases cfg db now) as [[-> _]|[-> _]];
      [discriminate|]. intros _. cbn [snd].
    split; [apply same_records_refl|auto].
Qed.

Lemma declined_call_changes_no_balance_and_no_record_witness :
  let op := OpDeposit 2000 "bob" "Bob" 5 in
  same_records (heist_db 500) (step default_settings (heist_db 500) op)
  /\ cash_of (step default_settings (heist_db 500) op) "bob" = 30.
Proof.
  destruct (declined_call_changes_no_balance_and_no_record
              default_settings (heist_db 500) (OpDeposit 2000 "bob" "Bob" 5) eq_refl)
    as [Hrec Hbal].
  split; [exact Hrec|]. exact (proj1 (Hbal "bob"%string)).
Defined.

(** ** Deposits, withdrawals and transfers *)

Lemma found_cash db now uid name u :
  find_user uid (users (_ensure_user_exists db now uid name)) = Some u ->
  cash_of db uid = money u /\ savings_of db uid = bank_money u.
Proof.
  intros Hu. rewrite <- (cash_of_ensure db now uid name uid).
  rewrite <- (savings_of_ensure db now uid name uid).
  unfold cash_of, savings_of. now rewrite Hu.
Qed.

Lemma set_balances_id m b now u : user_id (Bank.set_balances m b now u) = user_id u.
Proof. reflexivity. Qed.

Lemma balances_after_update db0 uid m b now u who :
  find_user uid (users db0) = Some u ->
  let db1 := with_users db0 (update_user uid (Bank.set_balances m b now) (users db0)) in
  (who = uid -> cash_of db1 who = m /\ savings_of db1 who = b)
  /\ (who <> uid -> cash_of db1 who = cash_of db0 who
                    /\ savings_of db1 who = savings_of db0 who).
Proof.
  intros Hu db1. split.
  - intros ->. subst db1. unfold cash_of, savings_of.
    rewrite users_with_users, find_user_update_same by apply set_balances_id.
    now rewrite Hu.
  - intros Hne. subst db1. unfold cash_of, savings_of.
    rewrite users_with_users, find_user_update_other
      by (apply set_balances_id || congruence). auto.
Qed.

Lemma deposit_effect db now uid name amt rc db' :
  Bank.deposit db now uid name amt = (Success rc, db') ->
  Bank.min_deposit <= amt <= Bank.max_deposit
  /\ amt <= cash_of db uid
  /\ rc = Bank.mkReceipt amt (cash_of db uid - amt) (savings_of db uid + amt)
                         (cash_of db uid - amt + (savings_of db uid + amt))
  /\ cash_of db' uid = cash_of db uid - amt
  /\ savings_of db' uid = savings_of db uid + amt
  /\ (forall who, who <> uid ->
        cash_of db' who = cash_of db who /\ savings_of db' who = savings_of db who)
  /\ bank_transactions db'
     = bank_transactions db
       ++ [mkTx uid deposit_tx amt (savings_of db uid) (savings_of db uid + amt) now]
  /\ work_records db' = work_records db
  /\ checkin_records db' = checkin_records db
  /\ robbery_records db' = robbery_records db.
Proof.
  intros H.
  destruct (deposit_outcome db now uid name amt) as [[why E]|(u & Hu & Hb & Hle & E)];
    rewrite E in H; [discriminate|]. injection H as <- <-.
  destruct (found_cash _ _ _ _ _ Hu) as [-> ->].
  destruct (same_records_ensure db now uid name) as (T1 & T2 & T3 & T4).
  pose proof (fun who => balances_after_update _ uid (money u - amt) (bank_money u + amt)
                           now u who Hu) as Hbal.
  cbv zeta in Hbal.
  split; [exact Hb|]. split; [exact Hle|]. split; [reflexivity|].
  split; [apply (proj1 (Hbal uid)); reflexivity|].
  split; [apply (proj1 (Hbal uid)); reflexivity|].
  split.
  { intros who Hne. destruct (proj2 (Hbal who) Hne) as [Hc Hs].
    change (cash_of (insert_transaction ?d ?t) who) with (cash_of d who).
    change (savings_of (insert_transaction ?d ?t) who) with (savings_of d who).
    rewrite Hc, Hs. now rewrite cash_of_ensure, savings_of_ensure. }
  cbn [bank_transactions work_records checkin_records robbery_records
       insert_transaction with_users].
  rewrite T1, T2, T3, T4. auto.
Qed.

Lemma withdraw_effect db now uid name amt rc db' :
  Bank.withdraw db now uid name amt = (Success rc, db') ->
  Bank.min_withdraw <= amt <= Bank.max_withdraw
  /\ Bank.today_withdraw db uid (date_of (local_time now)) + amt <= Bank.daily_withdraw_limit
  /\ amt <= savings_of db uid
  /\ rc = Bank.mkReceipt amt (cash_of db uid + amt) (savings_of db uid - amt)
                         (cash_of db uid + amt + (savings_of db uid - amt))
  /\ cash_of db' uid = cash_of db uid + amt
  /\ savings_of db' uid = savings_of db uid - amt
  /\ (forall who, who <> uid ->
        cash_of db' who = cash_of db who /\ savings_of db' who = savings_of db who)
  /\ bank_transactions db'
     = bank_transactions db
       ++ [mkTx uid withdraw_tx amt (savings_of db uid) (savings_of db uid - amt) now]
  /\ work_records db' = work_records db
  /\ checkin_records db' = checkin_records db
  /\ robbery_records db' = robbery_records db.
Proof.
  intros H.
  destruct (withdraw_outcome db now uid name amt)
    as [[why E]|(u & Hu & Hb & Hday & Hle & E)];
    rewrite E in H; [discriminate|]. injection H as <- <-.
  destruct (found_cash _ _ _ _ _ Hu) as [-> ->].
  destruct (same_records_ensure db now uid name) as (T1 & T2 & T3 & T4).
  pose proof (fun who => balances_after_update _ uid (money u + amt) (bank_money u - amt)
                           now u who Hu) as Hbal.
  cbv zeta in Hbal.
  split; [exact Hb|]. split.
  { unfold Bank.today_withdraw in *. now rewrite T1 in Hday. }
  split; [exact Hle|]. split; [reflexivity|].
  split; [apply (proj1 (Hbal uid)); reflexivity|].
  split; [apply (proj1 (Hbal uid)); reflexivity|].
  split.
  { intros who Hne. destruct (proj2 (Hbal who) Hne) as [Hc Hs].
    change (cash_of (insert_transaction ?d ?t) who) with (cash_of d who).
    change (savings_of (insert_transaction ?d ?t) who) with (savings_of d who).
    rewrite Hc, Hs. now rewrite cash_of_ensure, savings_of_ensure. }
  cbn [bank_transactions work_records checkin_records robbery_records
       insert_transaction with_users].
  rewrite T1, T2, T3, T4. auto.
Qed.

(** A withdrawal that passes every check goes through. *)
Lemma withdraw_goes_through db now uid name amt :
  Bank.min_withdraw <= amt <= Bank.max_withdraw ->
  Bank.today_withdraw db uid (date_of (local_time now)) + amt <= Bank.daily_withdraw_limit ->
  amt <= savings_of db uid ->
  exists rc db', Bank.withdraw db now uid name amt = (Success rc, db').
Proof.
  intros Hb Hday Hle.
  destruct (ensure_finds db now uid name) as (u & Hu & _).
  destruct (found_cash _ _ _ _ _ Hu) as [_ Hs].
  destruct (same_records_ensure db now uid name) as (T1 & _).
  unfold Bank.withdraw.
  destruct (Z.ltb_spec amt Bank.min_withdraw); [lia|].
  destruct (Z.gtb_spec amt Bank.max_withdraw); [lia|].
  unfold Bank.today_withdraw in *. rewrite T1.
  match goal with |- context [?a >? ?b] => destruct (Z.gtb_spec a b) end; [lia|].
  rewrite Hu. destruct (Z.ltb_spec (bank_money u) amt); [lia|]. eauto.
Qed.

(** X2.  A deposit that goes through moves exactly [amt] (within the
    deposit bounds, and not more than the cash held) from the user's cash
    to the user's savings: total assets are unchanged, nobody else's
    balances change, and exactly one deposit record is appended, whose
    balance_before is the savings held before. *)
Theorem deposit_moves_cash_into_savings
    (db : Db) (now : Z) (uid name : string) (amt : Z)
    (rc : Bank.Receipt) (db' : Db) :
  Bank.deposit db now uid name amt = (Success rc, db') ->
  10 <= amt <= 100000
  /\ amt <= cash_of db uid
  /\ cash_of db' uid = cash_of db uid - amt
  /\ savings_of db' uid = savings_of db uid + amt
  /\ cash_of db' uid + savings_of db' uid = cash_of db uid + savings_of db uid
  /\ Bank.total_assets rc = cash_of db uid + savings_of db uid
  /\ (forall who, who <> uid ->
        cash_of db' who = cash_of db who /\ savings_of db' who = savings_of db who)
  /\ bank_transactions db'
     = bank_transactions db
       ++ [mkTx uid deposit_tx amt (savings_of db uid) (savings_of db uid + amt) now].
Proof.
  intros H.
  apply deposit_effect in H as (Hb & Hle & -> & Hc & Hs & Hothers & Htx & _).
  unfold Bank.min_deposit, Bank.max_deposit in Hb. cbn [Bank.total_assets].
  split; [exact Hb|]. split; [exact Hle|]. split; [exact Hc|]. split; [exact Hs|].
  split; [lia|]. split; [lia|]. split; [exact Hothers | exact Htx].
Qed.

Lemma deposit_moves_cash_into_savings_witness :
  exists rc db',
    Bank.deposit savers_db 2000 "bob" "Bob" 200 = (Success rc, db')
    /\ cash_of db' "bob" = 500 - 200
    /\ savings_of db' "bob" = 0 + 200.
Proof.
  assert (H : exists rc db',
             Bank.deposit savers_db 2000 "bob" "Bob" 200 = (Success rc, db'))
    by (eexists; eexists; reflexivity).
  destruct H as (rc & db' & H). exists rc, db'. split; [exact H|].
  destruct (deposit_moves_cash_into_savings _ _ _ _ _ _ _ H)
    as (_ & _ & Hc & Hs & _).
  split; [exact Hc | exact Hs].
Defined.

(** X3.  A withdrawal that goes through moves exactly [amt] (within the
    withdrawal bounds, within what the records dated today on the host's
    clock leave of the day's limit of 200000, and not more than the savings
    held) from savings to cash, leaves total assets and everybody else's
    balances alone, and appends exactly one withdraw record, stamped with
    the UTC time; that record counts toward the day of its stamp, which is
    the day the limit was tested for only when both clocks show the same
    date. *)
Theorem withdraw_moves_savings_into_cash
    (db : Db) (now : Clock) (uid name : string) (amt : Z)
    (rc : Bank.Receipt) (db' : Db) :
  Bank.withdraw db now uid name amt = (Success rc, db') ->
  10 <= amt <= 50000
  /\ amt <= savings_of db uid
  /\ cash_of db' uid = cash_of db uid + amt
  /\ savings_of db' uid = savings_of db uid - amt
  /\ cash_of db' uid + savings_of db' uid = cash_of db uid + savings_of db uid
  /\ (forall who, who <> uid ->
        cash_of db' who = cash_of db who /\ savings_of db' who = savings_of db who)
  /\ bank_transactions db'
     = bank_transactions db
       ++ [mkTx uid withdraw_tx amt (savings_of db uid) (savings_of db uid - amt)
                (utc_time now)]
  /\ Bank.today_withdraw db uid (date_of (local_time now)) + amt <= 200000
  /\ (forall day,
        Bank.today_withdraw db' uid day
        = Bank.today_withdraw db uid day
          + (if date_of (utc_time now) =? day then amt else 0)).
Proof.
  intros H.
  apply withdraw_effect in H as (Hb & Hday & Hle & -> & Hc & Hs & Hothers & Htx & _).
  unfold Bank.min_withdraw, Bank.max_withdraw, Bank.daily_withdraw_limit in *.
  split; [exact Hb|]. split; [exact Hle|]. split; [exact Hc|]. split; [exact Hs|].
  split; [lia|]. split; [exact Hothers|]. split; [exact Htx|].
  split; [exact Hday|].
  intros day. unfold Bank.today_withdraw. rewrite Htx, filter_app, map_app.
  cbn [filter tx_user_id transaction_type tx_created_at TransactionType_eqb].
  rewrite String.eqb_refl. cbn [andb].
  generalize (map tx_amount
                (filter (fun t => String.eqb (tx_user_id t) uid
                                  && TransactionType_eqb (transaction_type t) withdraw_tx
                                  && (date_of (tx_created_at t) =? day))
                        (bank_transactions db))).
  intros l. destruct (date_of (utc_time now) =? day);
    induction l as [|x l IH]; cbn in *; lia.
Qed.

Lemma withdraw_moves_savings_into_cash_witness :
  exists rc db',
    Bank.withdraw savers_db (mkClock 90000 61200) "alice" "Alice" 300 = (Success rc, db')
    /\ cash_of db' "alice" = 40 + 300
    /\ savings_of db' "alice" = 1000 - 300
    /\ Bank.today_withdraw db' "alice" 0 = 300
    /\ Bank.today_withdraw db' "alice" 1 = 0.
Proof.
  assert (H : exists rc db',
             Bank.withdraw savers_db (mkClock 90000 61200) "alice" "Alice" 300
             = (Success rc, db'))
    by (eexists; eexists; reflexivity).
  destruct H as (rc & db' & H). exists rc, db'. split; [exact H|].
  destruct (withdraw_moves_savings_into_cash _ _ _ _ _ _ _ H)
    as (_ & _ & Hc & Hs & _ & _ & _ & _ & Hday).
  split; [exact Hc|]. split; [exact Hs|].
  split; [rewrite (Hday 0) | rewrite (Hday 1)]; reflexivity.
Defined.

(** X4.  Deposit and withdraw are inverse: after a deposit of [amt] that
    went through, a withdrawal of the same amount (any later time, when
    [amt] is within the withdrawal maximum and the day's withdrawal limit,
    the savings before the deposit not being negative) goes through and gives the user back the cash and savings held before
    the deposit. *)
Theorem deposit_then_withdraw_restores_balances
    (db : Db) (now : Z) (now2 : Clock) (uid name name2 : string) (amt : Z)
    (rc : Bank.Receipt) (db1 : Db) :
  Bank.deposit db now uid name amt = (Success rc, db1) ->
  0 <= savings_of db uid ->
  amt <= Bank.max_withdraw ->
  Bank.today_withdraw db uid (date_of (local_time now2)) + amt <= Bank.daily_withdraw_limit ->
  exists rc2 db2,
    Bank.withdraw db1 now2 uid name2 amt = (Success rc2, db2)
    /\ cash_of db2 uid = cash_of db uid
    /\ savings_of db2 uid = savings_of db uid
    /\ forall who, cash_of db2 who = cash_of db who
                   /\ savings_of db2 who = savings_of db who.
Proof.
  intros Hdep Hsolv Hmax Hday.
  apply deposit_effect in Hdep as (Hb & Hle & _ & Hc & Hs & Hothers & Htx & _).
  assert (Hsame : Bank.today_withdraw db1 uid (date_of (local_time now2))
                  = Bank.today_withdraw db uid (date_of (local_time now2))).
  { unfold Bank.today_withdraw. rewrite Htx, filter_app, map_app.
    cbn [filter tx_user_id transaction_type TransactionType_eqb].
    rewrite andb_false_r. cbn [andb map]. now rewrite app_nil_r. }
  destruct (withdraw_goes_through db1 now2 uid name2 amt) as (rc2 & db2 & Hw).
  { unfold Bank.min_withdraw, Bank.min_deposit in *. lia. }
  { now rewrite Hsame. }
  { lia. }
  exists rc2, db2. split; [exact Hw|].
  apply withdraw_effect in Hw as (_ & _ & _ & _ & Hc2 & Hs2 & Hothers2 & _).
  assert (Hu : cash_of db2 uid = cash_of db uid /\ savings_of db2 uid = savings_of db uid)
    by lia.
  split; [apply Hu|]. split; [apply Hu|].
  intros who. destruct (String.eqb_spec who uid) as [->|Hne]; [exact Hu|].
  destruct (Hothers who Hne), (Hothers2 who Hne). split; congruence.
Qed.

Lemma deposit_then_withdraw_restores_balances_witness :
  exists rc db1 rc2 db2,
    Bank.deposit savers_db 2000 "bob" "Bob" 200 = (Success rc, db1)
    /\ Bank.withdraw db1 (utc_host 9000) "bob" "Bobby" 200 = (Success rc2, db2)
    /\ cash_of db2 "bob" = 500
    /\ savings_of db2 "bob" = 0.
Proof.
  assert (H : exists rc db1,
             Bank.deposit savers_db 2000 "bob" "Bob" 200 = (Success rc, db1))
    by (eexists; eexists; reflexivity).
  destruct H as (rc & db1 & H).
  destruct (deposit_then_withdraw_restores_balances
              savers_db 2000 (utc_host 9000) "bob" "Bob" "Bobby" 200 rc db1 H)
    as (rc2 & db2 & Hw & Hc & Hs & _).
  - vm_compute; discriminate.
  - vm_compute; discriminate.
  - vm_compute; discriminate.
  - exists rc, db1, rc2, db2. repeat split; assumption.
Defined.

Lemma transfer_effect db now f t fn tn amt rc db' :
  Bank.transfer db now f t fn tn amt = (Success rc, db') ->
  f <> t
  /\ Bank.min_deposit <= amt <= Bank.max_deposit
  /\ amt <= savings_of db f
  /\ rc = Bank.mkTransferReceipt amt (savings_of db f - amt) (savings_of db t + amt)
  /\ savings_of db' f = savings_of db f - amt
  /\ savings_of db' t = savings_of db t + amt
  /\ (forall who, who <> f -> who <> t -> savings_of db' who = savings_of db who)
  /\ (forall who, cash_of db' who = cash_of db who)
  /\ bank_transactions db'
     = bank_transactions db
       ++ [mkTx f transfer_out_tx amt (savings_of db f) (savings_of db f - amt) now;
           mkTx t transfer_in_tx amt (savings_of db t) (savings_of db t + amt) now]
  /\ work_records db' = work_records db
  /\ checkin_records db' = checkin_records db
  /\ robbery_records db' = robbery_records db.
Proof.
  intros H.
  destruct (transfer_outcome db now f t fn tn amt)
    as [[why [E|E]]|(uf & ut & Hne & Huf & Hut & Hb & Hle & E)];
    rewrite E in H; try discriminate. injection H as <- <-.
  set (db2 := _ensure_user_exists (_ensure_user_exists db now f fn) now t tn) in *.
  assert (Hsf : savings_of db f = bank_money uf).
  { rewrite <- (savings_of_ensure db now f fn f).
    rewrite <- (savings_of_ensure _ now t tn f). fold db2.
    unfold savings_of. now rewrite Huf. }
  assert (Hst : savings_of db t = bank_money ut).
  { rewrite <- (savings_of_ensure db now f fn t).
    rewrite <- (savings_of_ensure _ now t tn t). fold db2.
    unfold savings_of. now rewrite Hut. }
  rewrite Hsf, Hst.
  split; [exact Hne|]. split; [exact Hb|]. split; [exact Hle|]. split; [reflexivity|].
  unfold savings_of, cash_of.
  cbn [users bank_transactions work_records checkin_records robbery_records
       insert_transaction with_users].
  split.
  { rewrite find_user_update_other by (apply set_bank_money_id || congruence).
    rewrite find_user_update_same by apply set_bank_money_id. now rewrite Huf. }
  split.
  { rewrite find_user_update_same by apply set_bank_money_id.
    rewrite find_user_update_other by (apply set_bank_money_id || congruence).
    now rewrite Hut. }
  split.
  { intros who Hf Ht.
    rewrite !find_user_update_other by (apply set_bank_money_id || congruence).
    fold (savings_of db2 who). subst db2. now rewrite !savings_of_ensure. }
  split.
  { intros who.
    assert (Hkeep : forall b us,
               match find_user who (update_user t (Bank.set_bank_money b now) us) with
               | Some u => money u | None => 0 end
               = match find_user who us with Some u => money u | None => 0 end).
    { intros b us. destruct (String.eqb_spec t who) as [->|Hn].
      - rewrite find_user_update_same by apply set_bank_money_id.
        now destruct (find_user who us).
      - now rewrite find_user_update_other by (apply set_bank_money_id || assumption). }
    rewrite Hkeep.
    destruct (String.eqb_spec f who) as [->|Hn].
    - rewrite find_user_update_same by apply set_bank_money_id.
      rewrite Huf. cbn [option_map Bank.set_bank_money money].
      fold (cash_of db who).
      rewrite <- (cash_of_ensure db now who fn who).
      rewrite <- (cash_of_ensure _ now t tn who). fold db2.
      unfold cash_of. now rewrite Huf.
    - rewrite find_user_update_other by (apply set_bank_money_id || assumption).
      fold (cash_of db2 who). subst db2. now rewrite !cash_of_ensure. }
  destruct (same_records_ensure db now f fn) as (T1 & T2 & T3 & T4).
  destruct (same_records_ensure (_ensure_user_exists db now f fn) now t tn)
    as (G1 & G2 & G3 & G4).
  fold db2 in G1, G2, G3, G4.
  rewrite G1, G2, G3, G4, T1, T2, T3, T4, <- app_assoc. auto.
Qed.

(** X5.  A transfer that goes through debits the sender's savings and
    credits the recipient's savings by the same [amt] (sender and
    recipient distinct, [amt] within 10..100000 and not above the sender's
    savings): the sum of the two savings is unchanged, nobody's cash and no
    third party's savings change, and exactly two records, a transfer-out
    for the sender and a transfer-in for the recipient, are appended. *)
Theorem transfer_conserves_savings
    (db : Db) (now : Z) (f t fn tn : string) (amt : Z)
    (rc : Bank.TransferReceipt) (db' : Db) :
  Bank.transfer db now f t fn tn amt = (Success rc, db') ->
  f <> t
  /\ 10 <= amt <= 100000
  /\ amt <= savings_of db f
  /\ savings_of db' f = savings_of db f - amt
  /\ savings_of db' t = savings_of db t + amt
  /\ savings_of db' f + savings_of db' t = savings_of db f + savings_of db t
  /\ (forall who, who <> f -> who <> t -> savings_of db' who = savings_of db who)
  /\ (forall who, cash_of db' who = cash_of db who)
  /\ bank_transactions db'
     = bank_transactions db
       ++ [mkTx f transfer_out_tx amt (savings_of db f) (savings_of db f - amt) now;
           mkTx t transfer_in_tx amt (savings_of db t) (savings_of db t + amt) now].
Proof.
  intros H.
  apply transfer_effect in H
    as (Hne & Hb & Hle & _ & Hf & Ht & Hothers & Hcash & Htx & _).
  unfold Bank.min_deposit, Bank.max_deposit in Hb.
  split; [exact Hne|]. split; [exact Hb|]. split; [exact Hle|].
  split; [exact Hf|]. split; [exact Ht|]. split; [lia|].
  split; [exact Hothers|]. split; [exact Hcash | exact Htx].
Qed.

Lemma transfer_conserves_savings_witness :
  exists rc db',
    Bank.transfer savers_db 100 "carol" "alice" "Carol" "Alice" 5000 = (Success rc, db')
    /\ savings_of db' "carol" = 20000 - 5000
    /\ savings_of db' "alice" = 1000 + 5000.
Proof.
  assert (H : exists rc db',
             Bank.transfer savers_db 100 "carol" "alice" "Carol" "Alice" 5000
             = (Success rc, db'))
    by (eexists; eexists; reflexivity).
  destruct H as (rc & db' & H). exists rc, db'. split; [exact H|].
  destruct (transfer_conserves_savings _ _ _ _ _ _ _ _ _ H)
    as (_ & _ & _ & Hf & Ht & _).
  split; [exact Hf | exact Ht].
Defined.

(** ** Robbery moves cash and nothing else *)

(** What a robbery that was carried out did to the ledger. *)
Lemma rob_user_effect
    (cfg : GameSettings) (db : Db) (now : Clock) (r : Rand) (a an v vn : string)
    (rc : Robbery.RobReceipt) (db' : Db) :
  Robbery.rob_user cfg db now r a an v vn = (Success rc, db') ->
  a <> v
  /\ cash_of db' a + cash_of db' v = cash_of db a + cash_of db v
  /\ (forall who, savings_of db' who = savings_of db who)
  /\ (forall who, who <> a -> who <> v -> cash_of db' who = cash_of db who)
  /\ field_of rob_count_today db' a = field_of rob_count_today db a + 1
  /\ field_of robbed_count_today db' v = field_of robbed_count_today db v + 1
  /\ exists moved,
       robbery_records db'
       = robbery_records db
         ++ [mkRobbery a v moved (Robbery.robbery_success rc) now]
       /\ (Robbery.robbery_success rc = true ->
           Robbery.amount rc = moved
           /\ cash_of db' a = cash_of db a + moved
           /\ cash_of db' v = cash_of db v - moved)
       /\ (Robbery.robbery_success rc = false ->
           Robbery.amount rc = 0
           /\ cash_of db' a = cash_of db a - moved
           /\ cash_of db' v = cash_of db v + moved).
Proof.
  intros H.
  apply rob_user_success_inv in H
    as (Hne & rd & vd & Hrd & Hvd & _ & _ & _ & Hcase).
  set (db0 := rob_entry db now a an v vn) in *.
  assert (Hca : cash_of db a = money rd).
  { rewrite <- (cash_of_rob_entry db now a an v vn a). fold db0.
    unfold cash_of. now rewrite Hrd. }
  assert (Hcv : cash_of db v = money vd).
  { rewrite <- (cash_of_rob_entry db now a an v vn v). fold db0.
    unfold cash_of. now rewrite Hvd. }
  assert (Hra : field_of rob_count_today db a = rob_count_today rd).
  { rewrite <- (field_of_rob_entry rob_count_today db now a an v vn a).
    - fold db0. unfold field_of. now rewrite Hrd.
    - reflexivity.
    - intros. unfold Robbery.rename. now destruct (String.eqb _ _). }
  assert (Hrv : field_of robbed_count_today db v = robbed_count_today vd).
  { rewrite <- (field_of_rob_entry robbed_count_today db now a an v vn v).
    - fold db0. unfold field_of. now rewrite Hvd.
    - reflexivity.
    - intros. unfold Robbery.rename. now destruct (String.eqb _ _). }
  assert (Hgen : forall rm vm amt ok,
             let d := settled db0 now a v rm vm amt ok in
             cash_of d a = rm /\ cash_of d v = vm
             /\ (forall who, savings_of d who = savings_of db who)
             /\ (forall who, who <> a -> who <> v -> cash_of d who = cash_of db who)
             /\ field_of rob_count_today d a = rob_count_today rd + 1
             /\ field_of robbed_count_today d v = robbed_count_today vd + 1
             /\ robbery_records d = robbery_records db ++ [mkRobbery a v amt ok now]).
  { intros rm vm amt ok d. subst d. unfold cash_of, field_of.
    rewrite (settled_robber _ _ _ _ _ _ _ _ Hne _ Hrd).
    rewrite (settled_victim _ _ _ _ _ _ _ _ Hne _ Hvd).
    split; [reflexivity|]. split; [reflexivity|]. split.
    { intros who. unfold savings_of.
      destruct (String.eqb_spec who a) as [->|Ha].
      - rewrite (settled_robber _ _ _ _ _ _ _ _ Hne _ Hrd).
        cbn [bank_money Robbery.set_robber].
        fold (savings_of db a). rewrite <- (savings_of_rob_entry db now a an v vn a).
        fold db0. unfold savings_of. now rewrite Hrd.
      - destruct (String.eqb_spec who v) as [->|Hv].
        + rewrite (settled_victim _ _ _ _ _ _ _ _ Hne _ Hvd).
          cbn [bank_money Robbery.set_victim].
          fold (savings_of db v). rewrite <- (savings_of_rob_entry db now a an v vn v).
          fold db0. unfold savings_of. now rewrite Hvd.
        + rewrite settled_other by assumption.
          fold (savings_of db0 who). fold (savings_of db who).
          apply savings_of_rob_entry. }
    split.
    { intros who Ha Hv. rewrite settled_other by assumption.
      fold (cash_of db0 who). fold (cash_of db who). apply cash_of_rob_entry. }
    split; [reflexivity|]. split; [reflexivity|].
    rewrite settled_records. unfold db0. now rewrite rob_entry_records. }
  cbv zeta in Hgen.
  split; [exact Hne|].
  destruct Hcase as [(_ & amt & _ & -> & ->)|(_ & -> & ->)].
  - destruct (Hgen (money rd + amt) (money vd - amt) amt true)
      as (Ha & Hv & Hsav & Hoth & Hc1 & Hc2 & Hrec).
    split; [lia|]. split; [exact Hsav|]. split; [exact Hoth|].
    split; [lia|]. split; [lia|]. exists amt. cbn [Robbery.robbery_success Robbery.amount].
    split; [exact Hrec|]. split; [intros _; repeat split; lia | discriminate].
  - set (pen := Z.min (Robbery.failure_penalty cfg) (money rd)).
    destruct (Hgen (money rd - pen) (money vd + pen) pen false)
      as (Ha & Hv & Hsav & Hoth & Hc1 & Hc2 & Hrec).
    split; [lia|]. split; [exact Hsav|]. split; [exact Hoth|].
    split; [lia|]. split; [lia|]. exists pen. cbn [Robbery.robbery_success Robbery.amount].
    split; [exact Hrec|]. split; [discriminate | intros _; repeat split; lia].
Qed.

(** X6.  A robbery that is carried out, whether it succeeds or fails,
    only moves cash between the robber and the victim: their combined
    cash is unchanged, nobody's savings change, nobody else's cash
    changes, the robber's and the victim's daily counters each grow by
    one, and exactly one robbery record is appended, whose amount is what
    moved. *)
Theorem robbery_moves_cash_between_the_two_parties
    (cfg : GameSettings) (db : Db) (now : Clock) (r : Rand) (a an v vn : string)
    (rc : Robbery.RobReceipt) (db' : Db) :
  Robbery.rob_user cfg db now r a an v vn = (Success rc, db') ->
  a <> v
  /\ cash_of db' a + cash_of db' v = cash_of db a + cash_of db v
  /\ (forall who, savings_of db' who = savings_of db who)
  /\ (forall who, who <> a -> who <> v -> cash_of db' who = cash_of db who)
  /\ field_of rob_count_today db' a = field_of rob_count_today db a + 1
  /\ field_of robbed_count_today db' v = field_of robbed_count_today db v + 1
  /\ exists moved,
       robbery_records db'
       = robbery_records db
         ++ [mkRobbery a v moved (Robbery.robbery_success rc) now]
       /\ (Robbery.robbery_success rc = true ->
           Robbery.amount rc = moved
           /\ cash_of db' a = cash_of db a + moved
           /\ cash_of db' v = cash_of db v - moved)
       /\ (Robbery.robbery_success rc = false ->
           Robbery.amount rc = 0
           /\ cash_of db' a = cash_of db a - moved
           /\ cash_of db' v = cash_of db v + moved).
Proof. apply rob_user_effect. Qed.

Lemma robbery_moves_cash_between_the_two_parties_witness :
  exists rc db',
    Robbery.rob_user default_settings (heist_db 500) (utc_host 1000) (mkRand 1 0)
                     "bob" "Bob" "alice" "Alice" = (Success rc, db')
    /\ Robbery.robbery_success rc = false
    /\ cash_of db' "bob" + cash_of db' "alice" = 30 + 500.
Proof.
  assert (H : exists rc db',
             Robbery.rob_user default_settings (heist_db 500) (utc_host 1000) (mkRand 1 0)
                              "bob" "Bob" "alice" "Alice" = (Success rc, db'))
    by (eexists; eexists; reflexivity).
  destruct H as (rc & db' & H). exists rc, db'. split; [exact H|].
  destruct (robbery_moves_cash_between_the_two_parties _ _ _ _ _ _ _ _ _ _ H)
    as (_ & Hsum & _).
  split; [|exact Hsum].
  vm_compute in H. injection H as <- _. reflexivity.
Defined.

(** ** The bank table along a run *)

Lemma interest_loop_transactions cfg now rows : forall st,
  bank_transactions (fst (fold_left (credit_step cfg now) rows st))
  = bank_transactions (fst st)
    ++ flat_map (fun row => interest_records cfg now (fst row) (snd row)) rows.
Proof.
  induction rows as [|[uid b] rows IH]; intros [db rep]; cbn [fold_left flat_map fst snd].
  - now rewrite app_nil_r.
  - rewrite IH. unfold credit_step, interest_records.
    destruct (_ >? _); cbn [fst bank_transactions insert_transaction with_users].
    + now rewrite <- app_assoc.
    + reflexivity.
Qed.

Lemma interest_loop_other_tables cfg now rows : forall st,
  let db' := fst (fold_left (credit_step cfg now) rows st) in
  work_records db' = work_records (fst st)
  /\ checkin_records db' = checkin_records (fst st)
  /\ robbery_records db' = robbery_records (fst st).
Proof.
  induction rows as [|[uid b] rows IH]; intros [db rep]; cbn [fold_left fst]; [auto|].
  destruct (IH (credit_step cfg now (db, rep) (uid, b))) as (-> & -> & ->).
  unfold credit_step. destruct (_ >? _); repeat split.
Qed.

(** What a call appends to the bank table. *)
Lemma step_bank_transactions cfg db op :
  exists new,
    bank_transactions (step cfg db op) = bank_transactions db ++ new
    /\ Forall tx_consistent new
    /\ (forall t, In t new -> transaction_type t = withdraw_tx ->
          exists now uid name amt,
            op = OpWithdraw now uid name amt
            /\ new = [t] /\ tx_user_id t = uid /\ tx_amount t = amt
            /\ tx_created_at t = now
            /\ Bank.today_withdraw db uid (date_of (local_time now)) + amt
               <= Bank.daily_withdraw_limit).
Proof.
  assert (Hnone : forall db', bank_transactions db' = bank_transactions db ->
            exists new,
              bank_transactions db' = bank_transactions db ++ new
              /\ Forall tx_consistent new
              /\ (forall t, In t new -> transaction_type t = withdraw_tx ->
                    exists now uid name amt,
                      op = OpWithdraw now uid name amt
                      /\ new = [t] /\ tx_user_id t = uid /\ tx_amount t = amt
                      /\ tx_created_at t = now
                      /\ Bank.today_withdraw db uid (date_of (local_time now)) + amt
                         <= Bank.daily_withdraw_limit)).
  { intros db' E. exists []. rewrite app_nil_r. split; [exact E|].
    split; [constructor|]. intros t []. }
  destruct op; cbn [step].
  - apply Hnone.
    destruct (Checkin.daily_checkin db now r uid name) as [[rc|why] db'] eqn:E; cbn [snd].
    + apply daily_checkin_success in E as (u & rw & _ & _ & _ & _ & _ & ->).
      cbn [bank_transactions insert_checkin with_users]. apply ensure_bank_transactions.
    + apply daily_checkin_failure in E. subst db'. apply ensure_bank_transactions.
  - apply Hnone.
    destruct (Work.work cfg db now r uid name job_name) as [[rc|why] db'] eqn:E; cbn [snd].
    + apply work_success in E as (j & u & sal & _ & _ & _ & _ & _ & ->).
      cbn [bank_transactions insert_work with_users]. apply ensure_bank_transactions.
    + apply work_failure in E. subst db'. apply ensure_bank_transactions.
  - destruct (Bank.deposit db now uid name amt) as [[rc|why] db'] eqn:E; cbn [snd].
    + apply deposit_effect in E as (Hb & _ & _ & _ & _ & _ & Htx & _).
      eexists. split; [exact Htx|]. unfold Bank.min_deposit in Hb. split.
      * repeat constructor; cbn; lia.
      * intros t [<-|[]]. discriminate.
    + apply Hnone.
      destruct (deposit_outcome db now uid name amt) as [[w E']|(u & _ & _ & _ & E')];
        rewrite E' in E; [|discriminate]. injection E as _ <-.
      apply ensure_bank_transactions.
  - destruct (Bank.withdraw db now uid name amt) as [[rc|why] db'] eqn:E; cbn [snd].
    + apply withdraw_effect in E as (Hb & Hday & _ & _ & _ & _ & _ & Htx & _).
      eexists. split; [exact Htx|]. unfold Bank.min_withdraw in Hb. split.
      * repeat constructor; cbn; lia.
      * intros t [<-|[]] _. exists now, uid, name, amt. repeat split; auto.
    + apply Hnone.
      destruct (withdraw_outcome db now uid name amt)
        as [[w E']|(u & _ & _ & _ & _ & E')];
        rewrite E' in E; [|discriminate]. injection E as _ <-.
      apply ensure_bank_transactions.
  - destruct (Bank.transfer db now from_id to_id from_name to_name amt)
      as [[rc|why] db'] eqn:E; cbn [snd].
    + apply transfer_effect in E as (_ & Hb & _ & _ & _ & _ & _ & _ & Htx & _).
      eexists. split; [exact Htx|]. unfold Bank.min_deposit in Hb. split.
      * repeat constructor; cbn; lia.
      * intros t [<-|[<-|[]]]; discriminate.
    + apply Hnone.
      destruct (transfer_outcome db now from_id to_id from_name to_name amt)
        as [[w [E'|E']]|(uf & ut & _ & _ & _ & _ & _ & E')];
        rewrite E' in E; try discriminate; injection E as _ <-; [reflexivity|].
      now rewrite !ensure_bank_transactions.
  - apply Hnone.
    destruct (Robbery.rob_user cfg db now r robber robber_name victim victim_name)
      as [[rc|why] db'] eqn:E; cbn [snd].
    + destruct (same_records_rob_entry db now robber robber_name victim victim_name)
        as (T1 & _).
      apply rob_user_success_inv in E
        as (_ & rd & vd & _ & _ & _ & _ & _
            & [(_ & amt & _ & _ & ->)|(_ & _ & ->)]); exact T1.
    + apply rob_user_failure in E. subst db'.
      apply (same_records_rob_entry db now robber robber_name victim victim_name).
  - destruct (apply_daily_interest_snd cfg db now) as [-> | ->]; [|now apply Hnone].
    pose proof (interest_loop_transactions cfg now (Bank.savers db)
                  (db, Bank.mkInterestReport 0 0)) as Hloop.
    destruct (fold_left _ _ _) as [db1 rep1]. cbn [fst snd] in *.
    eexists. split; [exact Hloop|].
    assert (Hrec : forall uid b t,
               In t (interest_records cfg now uid b) ->
               tx_consistent t /\ transaction_type t = interest_tx).
    { intros uid b t. unfold interest_records.
      destruct (Z.gtb_spec (interest_due cfg b) 0); [|intros []].
      intros [<-|[]]. split; [|reflexivity]. split; cbn; lia. }
    split.
    + apply Forall_forall. intros t Ht. apply in_flat_map in Ht as ([uid b] & _ & Ht).
      now apply (Hrec uid b).
    + intros t Ht Hty. apply in_flat_map in Ht as ([uid b] & _ & Ht).
      apply (Hrec uid b) in Ht as [_ Hi]. congruence.
Qed.

(** X7.  Every record the engine writes to the bank table is consistent:
    its amount is positive and its balance_after is its balance_before
    plus the amount for a deposit, transfer-in or interest record, minus
    the amount for a withdraw or transfer-out record.  A consistent bank
    table stays consistent along every sequence of calls. *)
Theorem bank_records_stay_consistent
    (cfg : GameSettings) (db : Db) (ops : list Op) :
  ledger_consistent db -> ledger_consistent (run cfg db ops).
Proof.
  unfold run. revert db. induction ops as [|op ops IH]; intros db H; [exact H|].
  cbn [fold_left]. apply IH. unfold ledger_consistent in *.
  destruct (step_bank_transactions cfg db op) as (new & -> & Hnew & _).
  apply Forall_app. auto.
Qed.

Lemma bank_records_stay_consistent_witness :
  ledger_consistent
    (run default_settings savers_db
       [ OpDeposit 2000 "bob" "Bob" 200;
         OpTransfer 3000 "carol" "bob" "Carol" "Bob" 700;
         OpWithdraw (utc_host 4000) "bob" "Bob" 900;
         OpInterest 90000 ]).
Proof.
  apply bank_records_stay_consistent. constructor.
Defined.






(** ** Savings against the bank table *)

Lemma checkin_keeps_savings db now r uid name who :
  savings_of (snd (Checkin.daily_checkin db now r uid name)) who = savings_of db who.
Proof.
  destruct (Checkin.daily_checkin db now r uid name) as [[rc|why] db'] eqn:E; cbn [snd].
  - apply daily_checkin_success in E as (u & rw & _ & _ & _ & _ & _ & ->).
    change (savings_of (insert_checkin ?d ?c) who) with (field_of bank_money d who).
    rewrite field_of_update_kept by reflexivity. apply savings_of_ensure.
  - apply daily_checkin_failure in E. subst db'. apply savings_of_ensure.
Qed.

Lemma work_keeps_savings cfg db now r uid name job_name who :
  savings_of (snd (Work.work cfg db now r uid name job_name)) who = savings_of db who.
Proof.
  destruct (Work.work cfg db now r uid name job_name) as [[rc|why] db'] eqn:E; cbn [snd].
  - apply work_success in E as (j & u & sal & _ & _ & _ & _ & _ & ->).
    change (savings_of (insert_work ?d ?c) who) with (field_of bank_money d who).
    rewrite field_of_update_kept by reflexivity. apply savings_of_ensure.
  - apply work_failure in E. subst db'. apply savings_of_ensure.
Qed.

Lemma rob_keeps_savings cfg db now r a an v vn who :
  savings_of (snd (Robbery.rob_user cfg db now r a an v vn)) who = savings_of db who.
Proof.
  destruct (Robbery.rob_user cfg db now r a an v vn) as [[rc|why] db'] eqn:E; cbn [snd].
  - now apply rob_user_effect in E as (_ & _ & Hs & _).
  - apply rob_user_failure in E. subst db'. apply savings_of_rob_entry.
Qed.

Lemma sum_app l l' :
  fold_right Z.add 0 (l ++ l') = fold_right Z.add 0 l + fold_right Z.add 0 l'.
Proof. induction l as [|x l IH]; cbn [app fold_right]; lia. Qed.

Lemma replayed_app db db' new uid :
  bank_transactions db' = bank_transactions db ++ new ->
  replayed db' uid
  = replayed db uid
    + fold_right Z.add 0
        (map signed_amount (filter (fun t => String.eqb (tx_user_id t) uid) new)).
Proof.
  intros E. unfold replayed, txs_of. rewrite E, filter_app, map_app.
  generalize (map signed_amount
                (filter (fun t => String.eqb (tx_user_id t) uid) (bank_transactions db))).
  intros l. induction l as [|x l IH]; cbn [app fold_right]; lia.
Qed.

Lemma replayed_same db db' uid :
  bank_transactions db' = bank_transactions db -> replayed db' uid = replayed db uid.
Proof. intros E. unfold replayed, txs_of. now rewrite E. Qed.

Lemma interest_reconciled cfg db now :
  NoDup (ids db) -> reconciled db ->
  reconciled (snd (Bank.apply_daily_interest cfg db now)).
Proof.
  intros Hnd Hrec who. unfold ids in Hnd.
  pose proof (interest_loop_effect cfg now (Bank.savers db)
                (db, Bank.mkInterestReport 0 0) who) as Hloop.
  rewrite savers_ids in Hloop.
  specialize (Hloop (NoDup_map_filter _ _ _ Hnd)).
  cbv zeta in Hloop. cbn [fst] in Hloop. destruct Hloop as [Hout Hsel].
  destruct (apply_daily_interest_snd cfg db now) as [-> | ->]; [|apply Hrec].
  destruct (fold_left _ _ _) as [db1 rep1]. cbn [fst snd] in *.
  destruct (in_dec string_dec who
              (map user_id (filter (fun u => bank_money u >? 0) (users db))))
    as [Hin|Hnot].
  - apply in_map_iff in Hin as (u & Hid & Hu).
    pose proof Hu as Hu'. apply filter_In in Hu' as [Hin _].
    assert (Hfind : find_user who (users db) = Some u)
      by (rewrite <- Hid; now apply find_user_NoDup).
    destruct (Hsel (bank_money u)) as [Hf Ht].
    { unfold Bank.savers. apply in_map_iff. exists u. split; [now rewrite Hid|assumption]. }
    specialize (Hrec who). unfold savings_of in *. unfold replayed in *.
    rewrite Hf, Ht, Hfind in *. cbn [option_map].
    unfold credited, interest_records. rewrite map_app.
    destruct (Z.gtb_spec (interest_due cfg (bank_money u)) 0).
    + rewrite sum_app. cbn [bank_money Bank.set_bank_money map fold_right].
      unfold signed_amount in *. cbn [transaction_type tx_amount]. lia.
    + cbn [map]. now rewrite app_nil_r.
  - destruct (Hout Hnot) as [Hf Ht].
    specialize (Hrec who). unfold savings_of, replayed in *. now rewrite Hf, Ht.
Qed.

Lemma step_reconciled cfg db op :
  NoDup (ids db) -> reconciled db -> reconciled (step cfg db op).
Proof.
  intros Hnd Hrec who.
  assert (Hkeep : forall db', (forall w, savings_of db' w = savings_of db w) ->
                              bank_transactions db' = bank_transactions db ->
                              savings_of db' who = replayed db' who).
  { intros db' Hs Ht. rewrite Hs, (replayed_same db db' who Ht). apply Hrec. }
  destruct (step_bank_transactions cfg db op) as (new & Htx & _).
  destruct op; cbn [step] in *.
  - apply Hkeep; [intros; apply checkin_keeps_savings|].
    destruct (Checkin.daily_checkin db now r uid name) as [[rc|why] db'] eqn:E; cbn [snd].
    + apply daily_checkin_success in E as (u & rw & _ & _ & _ & _ & _ & ->).
      apply ensure_bank_transactions.
    + apply daily_checkin_failure in E. subst db'. apply ensure_bank_transactions.
  - apply Hkeep; [intros; apply work_keeps_savings|].
    destruct (Work.work cfg db now r uid name job_name) as [[rc|why] db'] eqn:E; cbn [snd].
    + apply work_success in E as (j & u & sal & _ & _ & _ & _ & _ & ->).
      apply ensure_bank_transactions.
    + apply work_failure in E. subst db'. apply ensure_bank_transactions.
  - destruct (Bank.deposit db now uid name amt) as [[rc|why] db'] eqn:E; cbn [snd] in *.
    + apply deposit_effect in E as (_ & _ & _ & _ & Hs & Hothers & Ht & _).
      rewrite (replayed_app db db' _ who Ht). cbn [filter tx_user_id].
      destruct (String.eqb_spec uid who) as [->|Hne].
      * rewrite Hs, (Hrec who). cbn. lia.
      * destruct (Hothers who ltac:(congruence)) as [_ ->]. rewrite (Hrec who). cbn. lia.
    + destruct (deposit_outcome db now uid name amt) as [[w E']|(u & _ & _ & _ & E')];
        rewrite E' in E; [|discriminate]. injection E as _ <-.
      apply Hkeep; [intros; apply savings_of_ensure|apply ensure_bank_transactions].
  - destruct (Bank.withdraw db now uid name amt) as [[rc|why] db'] eqn:E; cbn [snd] in *.
    + apply withdraw_effect in E as (_ & _ & _ & _ & _ & Hs & Hothers & Ht & _).
      rewrite (replayed_app db db' _ who Ht). cbn [filter tx_user_id].
      destruct (String.eqb_spec uid who) as [->|Hne].
      * rewrite Hs, (Hrec who). cbn. lia.
      * destruct (Hothers who ltac:(congruence)) as [_ ->]. rewrite (Hrec who). cbn. lia.
    + destruct (withdraw_outcome db now uid name amt)
        as [[w E']|(u & _ & _ & _ & _ & E')];
        rewrite E' in E; [|discriminate]. injection E as _ <-.
      apply Hkeep; [intros; apply savings_of_ensure|apply ensure_bank_transactions].
  - destruct (Bank.transfer db now from_id to_id from_name to_name amt)
      as [[rc|why] db'] eqn:E; cbn [snd] in *.
    + apply transfer_effect in E as (Hne & _ & _ & _ & Hf & Hto & Hothers & _ & Ht & _).
      rewrite (replayed_app db db' _ who Ht). cbn [filter tx_user_id].
      destruct (String.eqb_spec from_id who) as [->|Hnf];
        destruct (String.eqb_spec to_id who) as [->|Hnt]; try contradiction.
      * rewrite Hf, (Hrec who). cbn. lia.
      * rewrite Hto, (Hrec who). cbn. lia.
      * rewrite (Hothers who) by congruence. rewrite (Hrec who). cbn. lia.
    + destruct (transfer_outcome db now from_id to_id from_name to_name amt)
        as [[w [E'|E']]|(uf & ut & _ & _ & _ & _ & _ & E')];
        rewrite E' in E; try discriminate; injection E as _ <-.
      * apply Hrec.
      * apply Hkeep; [intros; now rewrite !savings_of_ensure|].
        now rewrite !ensure_bank_transactions.
  - apply Hkeep; [intros; apply rob_keeps_savings|].
    destruct (Robbery.rob_user cfg db now r robber robber_name victim victim_name)
      as [[rc|why] db'] eqn:E; cbn [snd].
    + destruct (same_records_rob_entry db now robber robber_name victim victim_name)
        as (T1 & _).
      apply rob_user_success_inv in E
        as (_ & rd & vd & _ & _ & _ & _ & _
            & [(_ & amt & _ & _ & ->)|(_ & _ & ->)]); exact T1.
    + apply rob_user_failure in E. subst db'.
      apply (same_records_rob_entry db now robber robber_name victim victim_name).
  - now apply interest_reconciled.
Qed.

(** X9.  Savings reconcile with the bank table: if every user's savings
    equal the signed sum of that user's bank records (deposits,
    transfers-in and interest added, withdrawals and transfers-out
    subtracted) and user ids are distinct, the same holds after every
    sequence of calls; in particular it holds in every ledger reached
    from the empty one. *)
Theorem savings_reconcile_with_bank_records
    (cfg : GameSettings) (db : Db) (ops : list Op) :
  NoDup (ids db) -> reconciled db ->
  reconciled (run cfg db ops)
  /\ reconciled (run cfg empty_db ops).
Proof.
  assert (Hgen : forall ops db, NoDup (ids db) -> reconciled db ->
                                reconciled (run cfg db ops)).
  { clear. unfold run. induction ops as [|op ops IH]; intros db Hnd Hrec; [exact Hrec|].
    cbn [fold_left]. apply IH; [now apply step_keeps_ids_distinct|].
    now apply step_reconciled. }
  intros Hnd Hrec. split; [now apply Hgen|].
  apply Hgen; [constructor|]. intros uid. reflexivity.
Qed.

Lemma savings_reconcile_with_bank_records_witness :
  let db := run default_settings empty_db
              [ OpCheckin (utc_host 4000) (mkRand 0 7) "alice" "Alice";
                OpCheckin (utc_host 4000) (mkRand 0 9) "bob" "Bob";
                OpDeposit 5000 "alice" "Alice" 100;
                OpTransfer 6000 "alice" "bob" "Alice" "Bob" 40;
                OpWithdraw (utc_host 7000) "bob" "Bob" 15 ] in
  savings_of db "bob" = replayed db "bob" /\ savings_of db "bob" = 25.
Proof.
  cbv zeta. split; [|reflexivity].
  refine (proj1 (savings_reconcile_with_bank_records default_settings empty_db _ _ _) _).
  - constructor.
  - intros uid. reflexivity.
Defined.

(** ** Accounts along a run *)

Section Persists.
Variable R : User -> User -> Prop.
Hypothesis R_refl : forall u, R u u.
Hypothesis R_trans : forall u v w, R u v -> R v w -> R u w.

Lemma persists_refl db : persists R db db.
Proof. intros who u Hu. eauto. Qed.

Lemma persists_trans db1 db2 db3 :
  persists R db1 db2 -> persists R db2 db3 -> persists R db1 db3.
Proof.
  intros H12 H23 who u Hu.
  destruct (H12 who u Hu) as (v & Hv & Huv).
  destruct (H23 who v Hv) as (w & Hw & Hvw). eauto.
Qed.

Lemma persists_ensure db now uid name :
  persists R db (_ensure_user_exists db now uid name).
Proof.
  intros who u Hu. exists u. split; [|apply R_refl].
  destruct (String.eqb_spec uid who) as [->|Hne].
  - now rewrite (ensure_present _ _ _ _ _ Hu).
  - now rewrite ensure_keeps_other.
Qed.

Lemma persists_update db uid f :
  (forall u, user_id (f u) = user_id u) ->
  (forall u, find_user uid (users db) = Some u -> R u (f u)) ->
  persists R db (with_users db (update_user uid f (users db))).
Proof.
  intros Hid Hf who u Hu. rewrite users_with_users.
  destruct (String.eqb_spec uid who) as [->|Hne].
  - rewrite find_user_update_same by assumption. rewrite Hu. cbn. eauto.
  - rewrite find_user_update_other by assumption. eauto.
Qed.

Lemma persists_interest_loop cfg now rows : forall st,
  (forall b t u, R u (Bank.set_bank_money b t u)) ->
  persists R (fst st) (fst (fold_left (credit_step cfg now) rows st)).
Proof.
  intros st Hset. revert st.
  induction rows as [|[uid b] rows IH]; intros [db rep]; cbn [fold_left fst].
  - apply persists_refl.
  - eapply persists_trans; [|apply IH].
    unfold credit_step. destruct (_ >? _); cbn [fst]; [|apply persists_refl].
    change (persists R db
              (with_users db
                 (update_user uid
                    (Bank.set_bank_money (b + interest_due cfg b) now) (users db)))).
    apply persists_update; [reflexivity|auto].
Qed.

End Persists.

Lemma grown_refl u : grown u u.
Proof. unfold grown. repeat split; lia. Qed.

Lemma grown_trans u v w : grown u v -> grown v w -> grown u w.
Proof. unfold grown. intros (? & ? & ? & ?) (? & ? & ? & ?). repeat split; try congruence; lia. Qed.

Lemma grown_with_exp_refl u : grown_with_exp u u.
Proof. split; [apply grown_refl|lia]. Qed.

Lemma grown_with_exp_trans u v w :
  grown_with_exp u v -> grown_with_exp v w -> grown_with_exp u w.
Proof. intros [? ?] [? ?]. split; [eapply grown_trans; eauto|lia]. Qed.

Lemma grown_rename name now u : grown_with_exp u (Robbery.rename name now u).
Proof.
  unfold Robbery.rename. destruct (String.eqb _ _); [apply grown_with_exp_refl|].
  unfold grown_with_exp, grown. cbn. repeat split; lia.
Qed.

Lemma work_exp_reward_nonneg cfg r j lvl sal job_name :
  Work.lookup_job job_name = Some j ->
  Work._calculate_salary cfg r j lvl = Some sal ->
  (0 <= Qnum (work_experience_multiplier cfg))%Z ->
  0 <= Work.sal_exp_reward sal.
Proof.
  intros Hj Hs Hm. unfold Work._calculate_salary in Hs.
  destruct (randint r _ _); [|discriminate]. injection Hs as <-.
  cbn [Work.sal_exp_reward]. apply Qtrunc_nonneg. cbn.
  assert (0 <= Work.exp_reward j).
  { revert Hj. unfold Work.lookup_job, Work.jobs. cbn [find fst].
    repeat match goal with
           | |- context [String.eqb ?a job_name] => destruct (String.eqb a job_name)
           end; cbn [option_map snd]; intros [= <-]; cbn; lia. }
  unfold Work.exp_multiplier. nia.
Qed.

Section StepPersists.
Variables (cfg : GameSettings) (R : User -> User -> Prop).
Hypothesis Rr : forall u, R u u.
Hypothesis Rt : forall u v w, R u v -> R v w -> R u w.
Hypothesis Rg : forall u v, grown_with_exp u v -> R u v.
Hypothesis Rwork :
  forall job_name j r u sal m l now,
    Work.lookup_job job_name = Some j ->
    Work.level_required j <= level u ->
    Work._calculate_salary cfg r j (level u) = Some sal ->
    R u (Work.set_worked m (exp u + Work.sal_exp_reward sal) l
                         (Work.sal_total_earned sal) now u).

Lemma unchanged_counters_grown u v :
  user_id v = user_id u -> created_at v = created_at u ->
  total_earned v = total_earned u -> total_checkin v = total_checkin u ->
  exp v = exp u -> R u v.
Proof.
  intros. apply Rg. unfold grown_with_exp, grown. repeat split; try congruence; lia.
Qed.

(** One call never deletes an account and relates every account to its
    later self. *)
Lemma step_persists db op : persists R db (step cfg db op).
Proof.
  destruct op; cbn [step].
  - destruct (Checkin.daily_checkin db now r uid name) as [[rc|why] db'] eqn:E; cbn [snd].
    + apply daily_checkin_success in E as (u & rw & Hu & _ & _ & _ & _ & ->).
      eapply persists_trans; [exact Rt|apply persists_ensure; exact Rr|].
      apply (persists_update R Rr (_ensure_user_exists db now uid name) uid);
        [reflexivity|].
      intros u0 Hu0. rewrite Hu in Hu0. injection Hu0 as <-.
      apply Rg. unfold grown_with_exp, grown. cbn. repeat split; lia.
    + apply daily_checkin_failure in E. subst db'. apply persists_ensure; exact Rr.
  - destruct (Work.work cfg db now r uid name job_name) as [[rc|why] db'] eqn:E;
      cbn [snd].
    + apply work_success in E as (j & u & sal & Hj & Hu & Hlv & Hs & _ & ->).
      eapply persists_trans; [exact Rt|apply persists_ensure; exact Rr|].
      apply (persists_update R Rr (_ensure_user_exists db now uid name) uid);
        [reflexivity|].
      intros u0 Hu0. rewrite Hu in Hu0. injection Hu0 as <-.
      eapply Rwork; eauto.
    + apply work_failure in E. subst db'. apply persists_ensure; exact Rr.
  - destruct (deposit_outcome db now uid name amt) as [[why ->]|(u & Hu & _ & _ & ->)];
      cbn [snd]; [apply persists_ensure; exact Rr|].
    eapply persists_trans; [exact Rt|apply persists_ensure; exact Rr|].
    apply (persists_update R Rr (_ensure_user_exists db now uid name) uid);
      [reflexivity|].
    intros u0 _. now apply unchanged_counters_grown.
  - destruct (withdraw_outcome db now uid name amt)
      as [[why ->]|(u & Hu & _ & _ & _ & ->)];
      cbn [snd]; [apply persists_ensure; exact Rr|].
    eapply persists_trans; [exact Rt|apply persists_ensure; exact Rr|].
    apply (persists_update R Rr (_ensure_user_exists db now uid name) uid);
      [reflexivity|].
    intros u0 _. now apply unchanged_counters_grown.
  - assert (Hens : persists R db
                     (_ensure_user_exists (_ensure_user_exists db now from_id from_name)
                        now to_id to_name)).
    { eapply persists_trans; [exact Rt|apply persists_ensure; exact Rr|].
      apply persists_ensure; exact Rr. }
    destruct (transfer_outcome db now from_id to_id from_name to_name amt)
      as [[why [->| ->]]|(uf & ut & _ & _ & _ & _ & _ & ->)]; cbn [snd].
    + apply persists_refl; exact Rr.
    + exact Hens.
    + eapply persists_trans; [exact Rt|exact Hens|].
      set (db2 := _ensure_user_exists (_ensure_user_exists db now from_id from_name)
                    now to_id to_name).
      set (d1 := with_users db2
                   (update_user from_id
                      (Bank.set_bank_money (bank_money uf - amt) now) (users db2))).
      apply (persists_trans R Rt db2 d1).
      * apply (persists_update R Rr db2 from_id); [reflexivity|].
        intros u0 _. now apply unchanged_counters_grown.
      * change (persists R d1
                  (with_users d1
                     (update_user to_id
                        (Bank.set_bank_money (bank_money ut + amt) now) (users d1)))).
        apply (persists_update R Rr d1 to_id); [reflexivity|].
        intros u0 _. now apply unchanged_counters_grown.
  - assert (Hens : persists R db
                     (rob_entry db now robber robber_name victim victim_name)).
    { unfold rob_entry, Robbery._ensure_user_exists.
      assert (Hone : forall d uid name,
                 persists R d
                   (with_users (_ensure_user_exists d now uid name)
                      (update_user uid (Robbery.rename name now)
                         (users (_ensure_user_exists d now uid name))))).
      { intros d uid name.
        eapply persists_trans; [exact Rt|apply persists_ensure; exact Rr|].
        apply persists_update; [exact Rr|apply rename_id|].
        intros u0 _. apply Rg, grown_rename. }
      eapply persists_trans; [exact Rt|apply Hone|apply Hone]. }
    assert (Hset : forall rm vm amt ok,
               persists R (rob_entry db now robber robber_name victim victim_name)
                 (settled (rob_entry db now robber robber_name victim victim_name)
                    now robber victim rm vm amt ok)).
    { intros rm vm amt ok.
      set (db0 := rob_entry db now robber robber_name victim victim_name).
      set (d1 := with_users db0
                   (update_user robber (Robbery.set_robber rm now) (users db0))).
      apply (persists_trans R Rt db0 d1).
      - apply (persists_update R Rr db0 robber); [reflexivity|].
        intros u0 _. now apply unchanged_counters_grown.
      - change (persists R d1
                  (with_users d1
                     (update_user victim (Robbery.set_victim vm now) (users d1)))).
        apply (persists_update R Rr d1 victim); [reflexivity|].
        intros u0 _. now apply unchanged_counters_grown. }
    destruct (Robbery.rob_user cfg db now r robber robber_name victim victim_name)
      as [[rc|why] db'] eqn:E; cbn [snd].
    + apply rob_user_success_inv in E
        as (_ & rd & vd & _ & _ & _ & _ & _
            & [(_ & amt & _ & _ & ->)|(_ & _ & ->)]);
        (eapply persists_trans; [exact Rt|exact Hens|apply Hset]).
    + apply rob_user_failure in E. subst db'. exact Hens.
  - destruct (apply_daily_interest_snd cfg db now) as [-> | ->];
      [|apply persists_refl; exact Rr].
    apply (persists_interest_loop R Rr Rt cfg now (Bank.savers db)
             (db, Bank.mkInterestReport 0 0)).
    intros b t u. now apply unchanged_counters_grown.
Qed.

Lemma run_persists ops : forall db, persists R db (run cfg db ops).
Proof.
  unfold run. induction ops as [|op ops IH]; intros db; cbn [fold_left].
  - apply persists_refl; exact Rr.
  - eapply persists_trans; [exact Rt|apply step_persists|apply IH].
Qed.

End StepPersists.

(** X10.  The engine never deletes an account and never lowers a lifetime
    counter: after any sequence of calls every account that existed still
    exists under the same id with the same creation time, and its
    total_earned and total_checkin are not smaller than before; the same
    holds for its experience when the experience multiplier of the
    configuration is not negative. *)
Theorem accounts_persist_and_counters_grow
    (cfg : GameSettings) (db : Db) (ops : list Op) (who : string) (u : User) :
  find_user who (users db) = Some u ->
  exists u',
    find_user who (users (run cfg db ops)) = Some u'
    /\ user_id u' = user_id u
    /\ created_at u' = created_at u
    /\ total_earned u <= total_earned u'
    /\ total_checkin u <= total_checkin u'
    /\ ((0 <= Qnum (work_experience_multiplier cfg))%Z -> exp u <= exp u').
Proof.
  intros Hu.
  assert (Hsal : forall job_name j r u sal,
             Work.lookup_job job_name = Some j ->
             Work.level_required j <= level u ->
             Work._calculate_salary cfg r j (level u) = Some sal ->
             0 <= Work.sal_total_earned sal).
  { intros job_name j r u0 sal Hj Hlv Hs.
    apply lookup_job_sound in Hj as (Hreq & Hbase & Hrange).
    apply (calculate_salary_nonneg _ _ _ _ _ Hs Hbase); lia. }
  destruct (run_persists cfg grown grown_refl grown_trans) with (ops := ops) (db := db)
                                                                (who := who) (u := u)
    as (u' & Hu' & Hid & Hc & He & Ht); [| |exact Hu|].
  { now intros a b [H _]. }
  { intros job_name j r u0 sal m l now Hj Hlv Hs.
    pose proof (Hsal _ _ _ _ _ Hj Hlv Hs). unfold grown. cbn. repeat split; lia. }
  exists u'. repeat split; auto.
  intros Hm.
  destruct (run_persists cfg grown_with_exp grown_with_exp_refl grown_with_exp_trans)
    with (ops := ops) (db := db) (who := who) (u := u)
    as (u2 & Hu2 & _ & Hexp); [| |exact Hu|].
  { auto. }
  { intros job_name j r u0 sal m l now Hj Hlv Hs.
    pose proof (Hsal _ _ _ _ _ Hj Hlv Hs).
    pose proof (work_exp_reward_nonneg _ _ _ _ _ _ Hj Hs Hm).
    unfold grown_with_exp, grown. cbn. repeat split; lia. }
  rewrite Hu' in Hu2. now injection Hu2 as <-.
Qed.

Lemma accounts_persist_and_counters_grow_witness :
  exists u',
    find_user "bob"
      (users (run default_settings savers_db
                [ OpCheckin (utc_host 4000) (mkRand 0 7) "bob" "Bob";
                  OpWork (utc_host 5000) (mkRand (1 # 2) 3) "bob" "Bob" "快递员" ]))
    = Some u'
    /\ 0 <= total_earned u' /\ 0 <= total_checkin u' /\ 420 <= exp u'.
Proof.
  destruct (accounts_persist_and_counters_grow default_settings savers_db
              [ OpCheckin (utc_host 4000) (mkRand 0 7) "bob" "Bob";
                OpWork (utc_host 5000) (mkRand (1 # 2) 3) "bob" "Bob" "快递员" ]
              "bob" (mkUser "bob" "Bob" 500 0 0 5 420 None 0 0 None 0 0 0 0 0) eq_refl)
    as (u' & Hu' & _ & _ & He & Hc & Hx).
  exists u'. split; [exact Hu'|]. split; [exact He|]. split; [exact Hc|].
  apply Hx. vm_compute. discriminate.
Defined.

(** ** Stored levels *)

Lemma rename_exp name now u : exp (Robbery.rename name now u) = exp u.
Proof. unfold Robbery.rename. now destruct (String.eqb _ _). Qed.

Section RowInvariant.
Variable P : User -> Prop.
Hypothesis Pnew : forall uid name now, P (new_user uid name now).
Hypothesis Pkeep : forall u v, level v = level u -> exp v = exp u -> P u -> P v.
Hypothesis Pwork :
  forall m e earned now u,
    P (Work.set_worked m e (Leveling._calculate_level e) earned now u).

Lemma rows_update uid f us :
  Forall P us -> (forall u, P u -> P (f u)) -> Forall P (update_user uid f us).
Proof.
  intros H Hf. apply Forall_update_user; [assumption|].
  intros u Hin _. apply Hf. rewrite Forall_forall in H. auto.
Qed.

Lemma rows_ensure db now uid name :
  Forall P (users db) -> Forall P (users (_ensure_user_exists db now uid name)).
Proof.
  intros H. unfold _ensure_user_exists.
  destruct (find_user uid (users db)); [assumption|].
  rewrite users_with_users. apply Forall_app. split; [assumption|].
  constructor; [apply Pnew|constructor].
Qed.

Lemma rows_robbery_ensure db now uid name :
  Forall P (users db) ->
  Forall P (users (Robbery._ensure_user_exists db now uid name)).
Proof.
  intros H. unfold Robbery._ensure_user_exists. rewrite users_with_users.
  apply rows_update; [now apply rows_ensure|].
  intros u Hu. apply (Pkeep u); [apply rename_level|apply rename_exp|assumption].
Qed.

Lemma rows_interest_loop cfg now rows : forall st,
  Forall P (users (fst st)) ->
  Forall P (users (fst (fold_left (credit_step cfg now) rows st))).
Proof.
  induction rows as [|[uid b] rows IH]; intros [db rep] H; [exact H|].
  cbn [fold_left]. apply IH. unfold credit_step.
  destruct (_ >? _); [|exact H]. cbn [fst users insert_transaction with_users].
  apply rows_update; [exact H|].
  intros u Hu. now apply (Pkeep u).
Qed.

Ltac rows_branches :=
  repeat match goal with
         | |- context [match ?x with _ => _ end] => destruct x
         end;
  cbn [snd users insert_transaction insert_work insert_checkin insert_robbery
       with_users];
  repeat (apply rows_update;
          [|first [ intros ? ?; apply Pwork
                  | let row := fresh "row" in
                    let Hrow := fresh "Hrow" in
                    intros row Hrow;
                    apply (Pkeep row); [reflexivity|reflexivity|exact Hrow] ]]);
  auto using rows_ensure, rows_robbery_ensure.

Lemma step_keeps_rows cfg db op :
  Forall P (users db) -> Forall P (users (step cfg db op)).
Proof.
  intros H. destruct op; cbn [step].
  - unfold Checkin.daily_checkin. rows_branches.
  - unfold Work.work. rows_branches.
  - unfold Bank.deposit. rows_branches.
  - unfold Bank.withdraw. rows_branches.
  - unfold Bank.transfer. rows_branches.
  - unfold Robbery.rob_user. rows_branches.
  - destruct (apply_daily_interest_snd cfg db now) as [-> | ->]; [|exact H].
    exact (rows_interest_loop cfg now (Bank.savers db)
             (db, Bank.mkInterestReport 0 0) H).
Qed.

Lemma run_keeps_rows cfg ops : forall db,
  Forall P (users db) -> Forall P (users (run cfg db ops)).
Proof.
  unfold run. induction ops as [|op ops IH]; intros db H; cbn [fold_left]; auto.
  apply IH. now apply step_keeps_rows.
Qed.

End RowInvariant.

(** X11.  The stored level is always the level of the stored experience:
    if every row has [level = _calculate_level(exp)], every row still
    has after any sequence of calls, and then every level is at least 1;
    rows of new accounts (level 1, experience 0) satisfy it, so it holds
    in every ledger reached from the empty one. *)
Theorem stored_level_is_level_of_stored_experience
    (cfg : GameSettings) (db : Db) (ops : list Op) :
  levels_consistent db ->
  levels_consistent (run cfg db ops)
  /\ Forall (fun u => 1 <= level u) (users (run cfg db ops))
  /\ levels_consistent (run cfg empty_db ops).
Proof.
  assert (Hgen : forall db, levels_consistent db -> levels_consistent (run cfg db ops)).
  { intros d Hd. unfold levels_consistent in *.
    apply (run_keeps_rows (fun u => level u = Leveling._calculate_level (exp u)));
      [reflexivity| |reflexivity|exact Hd].
    intros u v Hl He Hu. congruence. }
  intros H. split; [now apply Hgen|]. split.
  - eapply Forall_impl; [|apply (Hgen db H)]. cbn. intros u ->.
    apply calculate_level_ge_1.
  - apply Hgen. constructor.
Qed.

Lemma stored_level_is_level_of_stored_experience_witness :
  levels_consistent
    (run default_settings savers_db
       [ OpWork (utc_host 5000) (mkRand (1 # 2) 3) "bob" "Bob" "快递员";
         OpWork (utc_host 9000) (mkRand (1 # 2) 3) "bob" "Bob" "客服代表" ]).
Proof.
  refine (proj1 (stored_level_is_level_of_stored_experience _ _ _ _)).
  unfold levels_consistent. cbn. repeat constructor.
Defined.

(** ** The daily work quota *)

(** The checks a [work] call that went through has passed. *)
Lemma work_success_gates cfg db now r uid name job_name rc db' :
  Work.work cfg db now r uid name job_name = (Success rc, db') ->
  Work.today_count db uid (date_of (local_time now)) < Work.daily_work_limit
  /\ Work.today_work_count rc = Work.today_count db uid (date_of (local_time now)) + 1
  /\ (forall j last,
        Work.lookup_job job_name = Some j ->
        Work.last_work db uid job_name = Some last ->
        Work.cooling_down (local_time now) last
          (inject_Z (Work.cooldown_hours j) * Work.cooldown_multiplier cfg) = false).
Proof.
  unfold Work.work. set (db0 := _ensure_user_exists db now uid name).
  assert (Hcount : Work.today_count db0 uid (date_of (local_time now))
                   = Work.today_count db uid (date_of (local_time now)))
    by (unfold Work.today_count, db0; now rewrite ensure_work_records).
  assert (Hlast : Work.last_work db0 uid job_name = Work.last_work db uid job_name)
    by (unfold Work.last_work, db0; now rewrite ensure_work_records).
  rewrite Hcount, Hlast.
  destruct (Work.lookup_job job_name) as [j|]; [|discriminate].
  destruct (find_user uid (users db0)) as [u|]; [|discriminate].
  destruct (Z.ltb_spec (level u) (Work.level_required j)); [discriminate|].
  destruct (Z.geb_spec (Work.today_count db uid (date_of (local_time now))) Work.daily_work_limit);
    [discriminate|].
  destruct (Work.last_work db uid job_name) as [last|] eqn:El.
  - destruct (Work.cooling_down (local_time now) last _) eqn:Ec; [discriminate|].
    destruct (Work._calculate_salary cfg r j (level u)); [|discriminate].
    intros [= <- _]. cbn [Work.today_work_count].
    split; [lia|]. split; [reflexivity|].
    intros j' last' [= <-] [= <-]. exact Ec.
  - destruct (Work._calculate_salary cfg r j (level u)); [|discriminate].
    intros [= <- _]. cbn [Work.today_work_count].
    split; [lia|]. split; [reflexivity|]. intros j' last' _ [=].
Qed.

(** What a call appends to the work table. *)
Lemma step_work_records cfg db op :
  work_records (step cfg db op) = work_records db
  \/ exists now r uid name job_name w,
       op = OpWork now r uid name job_name
       /\ work_records (step cfg db op) = work_records db ++ [w]
       /\ wr_user_id w = uid /\ work_type w = job_name /\ work_time w = now
       /\ Work.today_count db uid (date_of (local_time now)) < Work.daily_work_limit.
Proof.
  destruct op; cbn [step].
  - left.
    destruct (Checkin.daily_checkin db now r uid name) as [[rc|why] db'] eqn:E; cbn [snd].
    + apply daily_checkin_success in E as (u & rw & _ & _ & _ & _ & _ & ->).
      apply ensure_work_records.
    + apply daily_checkin_failure in E. subst db'. apply ensure_work_records.
  - destruct (Work.work cfg db now r uid name job_name) as [[rc|why] db'] eqn:E; cbn [snd].
    + right. pose proof (work_success_gates _ _ _ _ _ _ _ _ _ E) as (Hq & _).
      apply work_success in E as (j & u & sal & _ & _ & _ & _ & _ & ->).
      eexists now, r, uid, name, job_name, _. split; [reflexivity|].
      cbn [work_records insert_work with_users]. rewrite ensure_work_records.
      repeat split; auto.
    + left. apply work_failure in E. subst db'. apply ensure_work_records.
  - left. destruct (Bank.deposit db now uid name amt) as [[rc|why] db'] eqn:E; cbn [snd].
    + now apply deposit_effect in E as (_ & _ & _ & _ & _ & _ & _ & Hw & _).
    + destruct (deposit_outcome db now uid name amt) as [[w E']|(u & _ & _ & _ & E')];
        rewrite E' in E; [|discriminate]. injection E as _ <-.
      apply ensure_work_records.
  - left. destruct (Bank.withdraw db now uid name amt) as [[rc|why] db'] eqn:E; cbn [snd].
    + now apply withdraw_effect in E as (_ & _ & _ & _ & _ & _ & _ & _ & Hw & _).
    + destruct (withdraw_outcome db now uid name amt)
        as [[w E']|(u & _ & _ & _ & _ & E')];
        rewrite E' in E; [|discriminate]. injection E as _ <-.
      apply ensure_work_records.
  - left. destruct (Bank.transfer db now from_id to_id from_name to_name amt)
      as [[rc|why] db'] eqn:E; cbn [snd].
    + now apply transfer_effect in E as (_ & _ & _ & _ & _ & _ & _ & _ & _ & Hw & _).
    + destruct (transfer_outcome db now from_id to_id from_name to_name amt)
        as [[w [E'|E']]|(uf & ut & _ & _ & _ & _ & _ & E')];
        rewrite E' in E; try discriminate; injection E as _ <-; [reflexivity|].
      now rewrite !ensure_work_records.
  - left.
    destruct (same_records_rob_entry db now robber robber_name victim victim_name)
      as (_ & T2 & _).
    destruct (Robbery.rob_user cfg db now r robber robber_name victim victim_name)
      as [[rc|why] db'] eqn:E; cbn [snd].
    + apply rob_user_success_inv in E
        as (_ & rd & vd & _ & _ & _ & _ & _
            & [(_ & amt & _ & _ & ->)|(_ & _ & ->)]); exact T2.
    + apply rob_user_failure in E. subst db'. exact T2.
  - left. destruct (apply_daily_interest_snd cfg db now) as [-> | ->]; [|reflexivity].
    exact (proj1 (interest_loop_other_tables cfg now (Bank.savers db)
                    (db, Bank.mkInterestReport 0 0))).
Qed.

Lemma today_count_app db db' w uid day :
  work_records db' = work_records db ++ [w] ->
  Work.today_count db' uid day
  = Work.today_count db uid day
    + (if String.eqb (wr_user_id w) uid && (date_of (work_time w) =? day) then 1 else 0).
Proof.
  intros E. unfold Work.today_count. rewrite E, filter_app, length_app.
  cbn [filter]. destruct (_ && _); cbn [List.length]; lia.
Qed.

Lemma step_within_work_quota cfg db op :
  dated_alike op ->
  within_work_quota db -> within_work_quota (step cfg db op).
Proof.
  intros Hop H uid day.
  destruct (step_work_records cfg db op)
    as [E|(now & r & uid' & name & job & w & Hcall & E & Hu & _ & Ht & Hq)].
  - unfold Work.today_count. rewrite E. apply H.
  - rewrite Hcall in Hop. cbn [dated_alike] in Hop. unfold same_date in Hop.
    rewrite (today_count_app db _ w uid day E), Hu, Ht, Hop.
    destruct (String.eqb_spec uid' uid) as [->|Hne]; cbn [andb].
    + destruct (Z.eqb_spec (date_of (local_time now)) day) as [<-|Hd]; [lia|].
      specialize (H uid day). lia.
    + specialize (H uid day). lia.
Qed.

(** X12.  The daily work quota is kept while the clocks agree on the
    date.  A [work] call that goes through was made with fewer than 10
    records of that user stamped with the date of the host's clock and
    reports that count plus one; its record counts for the date of its UTC
    stamp.  So if nobody has more than 10 work records on any one day,
    that is still so after any number of calls at each of which the two
    clocks show the same date (any call on a host whose local time is
    UTC).  Without that condition it is not: on a host eight hours east
    of UTC, eleven shifts between 00:00 and 08:00 all go through and put
    eleven records on one stored day. *)
Theorem daily_work_quota_is_kept_while_clocks_agree
    (cfg : GameSettings) (db : Db) (ops : list Op) :
  Forall dated_alike ops ->
  within_work_quota db ->
  within_work_quota (run cfg db ops)
  /\ (forall (now : Clock) r uid name job_name rc db',
        Work.work cfg db now r uid name job_name = (Success rc, db') ->
        Work.today_count db uid (date_of (local_time now)) < 10
        /\ Work.today_work_count rc
           = Work.today_count db uid (date_of (local_time now)) + 1
        /\ forall day,
             Work.today_count db' uid day
             = Work.today_count db uid day
               + (if date_of (utc_time now) =? day then 1 else 0))
  /\ within_work_quota wealthy_db
  /\ Work.today_count (run default_settings wealthy_db night_shifts) "dora" 0 = 11.
Proof.
  intros Hops H. split; [|split; [|split]].
  - revert db H. unfold run.
    induction Hops as [|op ops Hop _ IH]; intros db H; [exact H|].
    cbn [fold_left]. apply IH. now apply step_within_work_quota.
  - intros now r uid name job_name rc db' E.
    pose proof (work_success_gates _ _ _ _ _ _ _ _ _ E) as (Hq & Hc & _).
    unfold Work.daily_work_limit in Hq.
    split; [exact Hq|]. split; [exact Hc|].
    intros day.
    apply work_success in E as (j & u & sal & _ & _ & _ & _ & _ & ->).
    erewrite today_count_app;
      [|cbn [work_records insert_work with_users];
        rewrite ensure_work_records; reflexivity].
    cbn [wr_user_id work_time]. now rewrite String.eqb_refl.
  - intros uid day. unfold Work.daily_work_limit. cbn. lia.
  - vm_compute. reflexivity.
Qed.

Lemma daily_work_quota_is_kept_while_clocks_agree_witness :
  Work.today_count
    (run default_settings savers_db
       [ OpWork (utc_host 5000) (mkRand (1 # 2) 3) "bob" "Bob" "快递员";
         OpWork (utc_host 5001) (mkRand (1 # 2) 3) "bob" "Bob" "搬砖" ])
    "bob" 0 <= 10.
Proof.
  refine (proj1 (daily_work_quota_is_kept_while_clocks_agree
                   default_settings savers_db _ _ _) "bob"%string 0).
  - repeat constructor.
  - intros uid day. vm_compute. discriminate.
Defined.

(** ** Cooldowns *)

Lemma Qltb_lt x y : Qltb x y = true <-> (x < y)%Q.
Proof.
  unfold Qltb. rewrite negb_true_iff. split.
  - intros H. apply Qnot_le_lt. intros Hle.
    apply Qle_bool_iff in Hle. congruence.
  - intros H. destruct (Qle_bool y x) eqn:E; [|reflexivity].
    apply Qle_bool_iff in E. exfalso. exact (Qlt_not_le _ _ H E).
Qed.

(** A later record keeps the cooldown running at least as long. *)
Lemma cooling_down_later now2 t t' hours :
  Work.cooling_down now2 t hours = true -> t <= t' ->
  Work.cooling_down now2 t' hours = true.
Proof.
  unfold Work.cooling_down. rewrite !Qltb_lt. intros H Hle.
  eapply Qlt_le_trans; [exact H|].
  apply Qplus_le_compat; [|apply Qle_refl].
  now rewrite <- Zle_Qle.
Qed.

Lemma last_robbery_insert db rec uid :
  robber_id rec = uid ->
  exists t, Robbery.last_robbery (insert_robbery db rec) uid = Some t
            /\ rob_created_at rec <= t.
Proof.
  intros Hu. unfold Robbery.last_robbery, insert_robbery. cbn [robbery_records].
  rewrite fold_left_app. cbn [fold_left]. rewrite Hu, String.eqb_refl.
  destruct (fold_left _ _ _) as [t0|]; eexists; split; try reflexivity; lia.
Qed.

Lemma last_work_insert db w uid job_name :
  wr_user_id w = uid -> work_type w = job_name ->
  exists t, Work.last_work (insert_work db w) uid job_name = Some t
            /\ work_time w <= t.
Proof.
  intros Hu Hj. unfold Work.last_work, insert_work. cbn [work_records].
  rewrite fold_left_app. cbn [fold_left]. rewrite Hu, Hj, !String.eqb_refl. cbn [andb].
  destruct (fold_left _ _ _) as [t0|]; eexists; split; try reflexivity; lia.
Qed.

Lemma rob_entry_keeps_level db now a an v vn who u :
  find_user who (users db) = Some u ->
  exists u', find_user who (users (rob_entry db now a an v vn)) = Some u'
             /\ level u' = level u.
Proof.
  set (R := fun u u' : User => level u' = level u).
  assert (Rr : forall x, R x x) by reflexivity.
  assert (Rt : forall x y z, R x y -> R y z -> R x z) by (unfold R; congruence).
  assert (Hone : forall d uid name,
             persists R d (Robbery._ensure_user_exists d now uid name)).
  { intros d uid name. unfold Robbery._ensure_user_exists.
    eapply persists_trans; [exact Rt|apply persists_ensure; exact Rr|].
    apply persists_update; [exact Rr|apply rename_id|].
    intros x _. apply rename_level. }
  intros Hu. unfold rob_entry.
  exact (persists_trans R Rt _ _ _ (Hone db a an) (Hone _ v vn) who u Hu).
Qed.

(** X13.  The robbery cooldown runs from the UTC stamp of the last
    robbery and is tested against the host's clock: after a robbery that
    was carried out (successful or failed) and stamped [utc_time now],
    every further attempt of the same robber on anybody else made while
    the host's clock reads less than that stamp plus [cooldown_hours] is
    declined as on cooldown, and nothing is moved or recorded.  On a host
    whose local time is UTC these are the attempts of the next
    [cooldown_hours]; on a host eight hours east of UTC, with the default
    cooldown of six hours, a second robbery a minute after the first is
    carried out. *)
Theorem robber_is_on_cooldown_after_a_robbery
    (cfg : GameSettings) (db : Db) (now : Clock) (r : Rand) (a an v vn : string)
    (rc : Robbery.RobReceipt) (db' : Db)
    (now2 : Clock) (r2 : Rand) (an2 v2 vn2 : string) :
  Robbery.rob_user cfg db now r a an v vn = (Success rc, db') ->
  a <> v2 ->
  Work.cooling_down (local_time now2) (utc_time now) (Robbery.cooldown_hours cfg)
  = true ->
  Robbery.rob_user cfg db' now2 r2 a an2 v2 vn2
  = (Failure OnCooldown, rob_entry db' now2 a an2 v2 vn2)
  /\ robbery_records (rob_entry db' now2 a an2 v2 vn2) = robbery_records db'
  /\ (forall who, cash_of (rob_entry db' now2 a an2 v2 vn2) who = cash_of db' who)
  /\ exists rc1 db1,
       Robbery.rob_user default_settings (heist_db 500) (east8 0) (mkRand 0 170)
                        "bob" "Bob" "alice" "Alice" = (Success rc1, db1)
       /\ is_success (fst (Robbery.rob_user default_settings db1 (east8 60)
                             (mkRand 0 170) "bob" "Bob" "alice" "Alice")) = true.
Proof.
  intros H Hne Hcool.
  split; [|split; [apply rob_entry_records|split;
                   [intros; apply cash_of_rob_entry
                   |eexists; eexists; split; reflexivity]]].
  apply rob_user_success_inv in H
    as (Hav & rd & vd & Hrd & Hvd & Hlv & _ & _ & Hcase).
  set (db0 := rob_entry db now a an v vn) in *.
  assert (Hafter : exists rm vm amt ok, db' = settled db0 now a v rm vm amt ok).
  { destruct Hcase as [(_ & amt & _ & _ & ->)|(_ & _ & ->)]; eauto 6. }
  destruct Hafter as (rm & vm & amt & ok & ->).
  pose proof (settled_robber db0 now a v rm vm amt ok Hav rd Hrd) as Hfa.
  destruct (rob_entry_keeps_level _ now2 a an2 v2 vn2 a _ Hfa) as (rd2 & Hrd2 & Hl2).
  cbn [level Robbery.set_robber] in Hl2.
  destruct (last_robbery_insert
              (with_users
                 (with_users db0 (update_user a (Robbery.set_robber rm now) (users db0)))
                 (update_user v (Robbery.set_victim vm now)
                    (update_user a (Robbery.set_robber rm now) (users db0))))
              (mkRobbery a v amt ok now) a eq_refl) as (t & Ht & Hle).
  cbn [rob_created_at] in Hle.
  change (insert_robbery _ _) with (settled db0 now a v rm vm amt ok) in Ht.
  set (db1 := settled db0 now a v rm vm amt ok) in *.
  assert (Hc : robber_cooling cfg (rob_entry db1 now2 a an2 v2 vn2) now2 a = true).
  { unfold robber_cooling, Robbery.last_robbery.
    rewrite rob_entry_records. fold (Robbery.last_robbery db1 a). rewrite Ht.
    now apply (cooling_down_later (local_time now2) (utc_time now) t). }
  destruct (rob_user_gates cfg db1 now2 r2 a an2 v2 vn2)
    as [[E _]|(_ & rd' & vd' & Hrd' & _ & [[Hlow _]|[(_ & _ & E)|[_ Hfalse]]])].
  - contradiction.
  - rewrite Hrd2 in Hrd'. injection Hrd' as <-. lia.
  - exact E.
  - congruence.
Qed.

Lemma robber_is_on_cooldown_after_a_robbery_witness :
  exists rc db',
    Robbery.rob_user default_settings (heist_db 500) (utc_host 1000) (mkRand 0 170)
                     "bob" "Bob" "alice" "Alice" = (Success rc, db')
    /\ fst (Robbery.rob_user default_settings db' (utc_host 20000) (mkRand 0 1)
                             "bob" "Bob" "carol" "Carol")
       = Failure OnCooldown.
Proof.
  assert (H : exists rc db',
             Robbery.rob_user default_settings (heist_db 500) (utc_host 1000)
                              (mkRand 0 170) "bob" "Bob" "alice" "Alice"
             = (Success rc, db'))
    by (eexists; eexists; reflexivity).
  destruct H as (rc & db' & H). exists rc, db'. split; [exact H|].
  destruct (robber_is_on_cooldown_after_a_robbery
              default_settings (heist_db 500) (utc_host 1000) (mkRand 0 170)
              "bob" "Bob" "alice" "Alice" rc db' (utc_host 20000) (mkRand 0 1)
              "Bob" "carol" "Carol" H) as (Hout & _).
  - discriminate.
  - reflexivity.
  - now rewrite Hout.
Defined.

(** X14.  A job's cooldown runs from the UTC stamp of the last shift and
    is tested against the host's clock: after a [work] call for a job
    that went through and was stamped [utc_time now], every further call
    of the same user for the same job made while the host's clock reads
    less than that stamp plus [cooldown_hours * cooldown_multiplier] is
    declined (as on cooldown, unless the level gate or the daily quota
    declines it first) and leaves the database untouched.  On a host
    whose local time is UTC these are the calls of the next cooldown
    period; on a host eight hours east of UTC a second shift of the same
    job a minute after the first goes through. *)
Theorem job_is_on_cooldown_after_work
    (cfg : GameSettings) (db : Db) (now : Clock) (r : Rand)
    (uid name job_name : string)
    (rc : Work.WorkReceipt) (db' : Db) (j : Work.Job)
    (now2 : Clock) (r2 : Rand) (name2 : string) :
  Work.work cfg db now r uid name job_name = (Success rc, db') ->
  Work.lookup_job job_name = Some j ->
  Work.cooling_down (local_time now2) (utc_time now)
    (inject_Z (Work.cooldown_hours j) * Work.cooldown_multiplier cfg) = true ->
  (exists why,
     Work.work cfg db' now2 r2 uid name2 job_name = (Failure why, db')
     /\ (why = LevelTooLow \/ why = DailyQuotaExceeded \/ why = OnCooldown)
     /\ (Work.level_required j <= field_of level db' uid ->
         Work.today_count db' uid (date_of (local_time now2)) < Work.daily_work_limit ->
         why = OnCooldown))
  /\ exists rc1 db1,
       Work.work default_settings wealthy_db (east8 0) (mkRand (1 # 2) 0)
                 "dora" "Dora" "搬砖" = (Success rc1, db1)
       /\ is_success (fst (Work.work default_settings db1 (east8 60) (mkRand (1 # 2) 0)
                                     "dora" "Dora" "搬砖")) = true.
Proof.
  intros H Hj Hcool.
  split; [|eexists; eexists; split; reflexivity].
  apply work_success in H as (j0 & u & sal & Hj0 & Hu & _ & _ & _ & ->).
  rewrite Hj in Hj0. injection Hj0 as <-.
  set (db0 := _ensure_user_exists db now uid name) in *.
  set (f := Work.set_worked (money u + Work.sal_total_earned sal)
              (exp u + Work.sal_exp_reward sal)
              (Leveling._calculate_level (exp u + Work.sal_exp_reward sal))
              (Work.sal_total_earned sal) now).
  set (w := mkWork uid job_name (Work.sal_base_salary sal)
              (Work.level_bonus sal + Work.luck_bonus sal)
              (Work.sal_total_earned sal) now).
  set (db1 := insert_work (with_users db0 (update_user uid f (users db0))) w).
  assert (Hfind : find_user uid (users db1) = Some (f u)).
  { unfold db1. cbn [users insert_work with_users].
    rewrite find_user_update_same by reflexivity. now rewrite Hu. }
  destruct (last_work_insert (with_users db0 (update_user uid f (users db0))) w
              uid job_name eq_refl eq_refl) as (t & Ht & Hle).
  fold db1 in Ht. cbn [work_time w] in Hle.
  pose proof (cooling_down_later _ _ _ _ Hcool Hle) as Hc.
  unfold Work.work. rewrite (ensure_present _ _ _ _ _ Hfind), Hj, Hfind, Ht, Hc.
  unfold field_of. rewrite Hfind.
  destruct (Z.ltb_spec (level (f u)) (Work.level_required j)).
  { eexists. split; [reflexivity|]. split; [auto|]. intros; lia. }
  destruct (Z.geb_spec (Work.today_count db1 uid (date_of (local_time now2))) Work.daily_work_limit).
  { eexists. split; [reflexivity|]. split; [auto|]. intros; lia. }
  eexists. split; [reflexivity|]. auto.
Qed.

Lemma job_is_on_cooldown_after_work_witness :
  exists rc db',
    Work.work default_settings savers_db (utc_host 5000) (mkRand (1 # 2) 3)
              "bob" "Bob" "快递员"
    = (Success rc, db')
    /\ Work.work default_settings db' (utc_host 9000) (mkRand (1 # 2) 3)
                 "bob" "Bob" "快递员"
       = (Failure OnCooldown, db').
Proof.
  assert (H : exists rc db',
             Work.work default_settings savers_db (utc_host 5000) (mkRand (1 # 2) 3)
                       "bob" "Bob" "快递员" = (Success rc, db'))
    by (eexists; eexists; reflexivity).
  destruct H as (rc & db' & H). exists rc, db'. split; [exact H|].
  destruct (job_is_on_cooldown_after_work
              default_settings savers_db (utc_host 5000) (mkRand (1 # 2) 3)
              "bob" "Bob" "快递员"
              rc db' (Work.mkJob 200 (150, 280) 3 2 15) (utc_host 9000)
              (mkRand (1 # 2) 3) "Bob" H)
    as ((why & Hout & _ & Hwhy) & _).
  - reflexivity.
  - reflexivity.
  - rewrite Hout. f_equal. f_equal. apply Hwhy.
    + vm_compute in H. injection H as _ <-. vm_compute. discriminate.
    + vm_compute in H. injection H as _ <-. vm_compute. reflexivity.
Defined.


(** * The read-only queries *)

(** ** Level information *)

Ltac level_cases :=
  repeat match goal with
         | |- context [Z.ltb ?a ?b] => destruct (Z.ltb_spec a b)
         | |- context [Z.leb ?a ?b] => destruct (Z.leb_spec a b)
         end.

(** X15.  What [_get_level_info] reports for an experience [exp >= 0]:
    the level is [_calculate_level exp] and its band of the helper table
    contains [exp] (progress is not negative and the experience still
    needed is positive).  Progress and need add up to the reported size of
    the level at every level except 5, 10 and 15; at those three the
    reported size is at least twice the real one, so the progress shown
    never passes half. *)
Theorem level_info_locates_experience_in_its_band
    (int_percent : Z -> Z -> Z) (exp : Z) :
  0 <= exp ->
  let i := LevelInfo._get_level_info int_percent exp in
  let span := LevelInfo.level_progress i + LevelInfo.exp_needed i in
  LevelInfo.current_level i = Leveling._calculate_level exp
  /\ LevelInfo.next_level i = LevelInfo.current_level i + 1
  /\ Leveling.get_level_exp_requirement (LevelInfo.current_level i) <= exp
     < Leveling.get_level_exp_requirement (LevelInfo.next_level i)
  /\ 0 <= LevelInfo.level_progress i < LevelInfo.exp_for_current_level i
  /\ 0 < LevelInfo.exp_needed i
  /\ (LevelInfo.current_level i <> 5 -> LevelInfo.current_level i <> 10 ->
      LevelInfo.current_level i <> 15 ->
      span = LevelInfo.exp_for_current_level i)
  /\ (LevelInfo.current_level i = 5 \/ LevelInfo.current_level i = 10
      \/ LevelInfo.current_level i = 15 ->
      2 * span <= LevelInfo.exp_for_current_level i
      /\ 2 * LevelInfo.level_progress i < LevelInfo.exp_for_current_level i).
Proof.
  intros Hexp.
  cbn [LevelInfo._get_level_info LevelInfo.current_level LevelInfo.next_level
       LevelInfo.level_progress LevelInfo.exp_needed LevelInfo.exp_for_current_level].
  unfold Leveling._calculate_level.
  destruct (Z.ltb_spec exp 500); [|destruct (Z.ltb_spec exp 1500);
                                   [|destruct (Z.ltb_spec exp 4000)]].
  - assert (Hl : Z.max 1 (exp / 100 + 1) = exp / 100 + 1)
      by (pose proof (Z.div_pos exp 100); lia).
    rewrite Hl.
    assert (Hq : 0 <= exp / 100 <= 4) by (Z.div_mod_to_equations; lia).
    assert (Hm : 100 * (exp / 100) <= exp < 100 * (exp / 100) + 100)
      by (Z.div_mod_to_equations; lia).
    unfold Leveling.get_level_exp_requirement, Leveling.get_exp_for_next_level.
    level_cases; lia.
  - assert (Hq : 0 <= (exp - 500) / 200 <= 4) by (Z.div_mod_to_equations; lia).
    assert (Hm : 200 * ((exp - 500) / 200) <= exp - 500
                 < 200 * ((exp - 500) / 200) + 200)
      by (Z.div_mod_to_equations; lia).
    unfold Leveling.get_level_exp_requirement, Leveling.get_exp_for_next_level.
    level_cases; lia.
  - assert (Hq : 0 <= (exp - 1500) / 500 <= 4) by (Z.div_mod_to_equations; lia).
    assert (Hm : 500 * ((exp - 1500) / 500) <= exp - 1500
                 < 500 * ((exp - 1500) / 500) + 500)
      by (Z.div_mod_to_equations; lia).
    unfold Leveling.get_level_exp_requirement, Leveling.get_exp_for_next_level.
    level_cases; lia.
  - assert (Hq : 0 <= (exp - 4000) / 1000) by (Z.div_mod_to_equations; lia).
    assert (Hm : 1000 * ((exp - 4000) / 1000) <= exp - 4000
                 < 1000 * ((exp - 4000) / 1000) + 1000)
      by (Z.div_mod_to_equations; lia).
    unfold Leveling.get_level_exp_requirement, Leveling.get_exp_for_next_level.
    level_cases; lia.
Qed.

Lemma level_info_locates_experience_in_its_band_witness :
  0 <= 450
  /\ LevelInfo.level_progress (LevelInfo._get_level_info (fun _ _ => 0) 450) = 50
  /\ LevelInfo.exp_needed (LevelInfo._get_level_info (fun _ _ => 0) 450) = 50
  /\ LevelInfo.exp_for_current_level (LevelInfo._get_level_info (fun _ _ => 0) 450) = 200
  /\ 2 * (LevelInfo.level_progress (LevelInfo._get_level_info (fun _ _ => 0) 450)
          + LevelInfo.exp_needed (LevelInfo._get_level_info (fun _ _ => 0) 450))
     <= LevelInfo.exp_for_current_level (LevelInfo._get_level_info (fun _ _ => 0) 450).
Proof.
  split; [lia|].
  split; [reflexivity|]. split; [reflexivity|]. split; [reflexivity|].
  apply (level_info_locates_experience_in_its_band (fun _ _ => 0) 450); [lia|].
  left. reflexivity.
Defined.


(** ** [ORDER BY ... DESC LIMIT ...] over any table *)

Section SortBy.
Context {A : Type} (key : A -> Z).

Lemma insert_by_desc_perm x s : Permutation (insert_by_desc key x s) (x :: s).
Proof.
  induction s as [|y s IH]; cbn; [reflexivity|].
  destruct (key x <? key y); [|reflexivity].
  rewrite IH. apply perm_swap.
Qed.

Lemma sort_by_desc_perm l : Permutation (sort_by_desc key l) l.
Proof.
  induction l as [|x l IH]; cbn; [reflexivity|].
  rewrite insert_by_desc_perm. now constructor.
Qed.

Lemma sort_by_desc_in l x : In x (sort_by_desc key l) <-> In x l.
Proof.
  split; apply Permutation_in; [|symmetry]; apply sort_by_desc_perm.
Qed.

Lemma insert_by_desc_sorted x s :
  StronglySorted (desc_by key) s ->
  StronglySorted (desc_by key) (insert_by_desc key x s).
Proof.
  induction s as [|y s IH]; cbn; intros Hs.
  - repeat constructor.
  - inversion Hs as [|? ? Hs' Hall]; subst.
    destruct (Z.ltb_spec (key x) (key y)).
    + constructor; [auto|].
      rewrite Forall_forall in *. intros z Hz.
      apply (Permutation_in _ (insert_by_desc_perm x s)) in Hz as [<-|Hz]; [|auto].
      unfold desc_by. lia.
    + constructor; [assumption|]. constructor; [unfold desc_by; lia|].
      rewrite Forall_forall in *. intros z Hz. specialize (Hall z Hz).
      unfold desc_by in *. lia.
Qed.

Lemma sort_by_desc_sorted l : StronglySorted (desc_by key) (sort_by_desc key l).
Proof.
  induction l as [|x l IH]; cbn; [constructor|]. now apply insert_by_desc_sorted.
Qed.

(** Rows of one key keep their scan order. *)
Lemma insert_by_desc_stable k x s :
  filter (fun y => key y =? k) (insert_by_desc key x s)
  = filter (fun y => key y =? k) (x :: s).
Proof.
  induction s as [|y s IH]; [reflexivity|]. cbn [insert_by_desc].
  destruct (Z.ltb_spec (key x) (key y)); [|reflexivity].
  cbn [filter] in *. rewrite IH.
  destruct (Z.eqb_spec (key x) k), (Z.eqb_spec (key y) k); try reflexivity. lia.
Qed.

Lemma sort_by_desc_stable k l :
  filter (fun y => key y =? k) (sort_by_desc key l) = filter (fun y => key y =? k) l.
Proof.
  induction l as [|x l IH]; [reflexivity|]. cbn [sort_by_desc fold_right].
  rewrite insert_by_desc_stable. cbn [filter]. fold (sort_by_desc key l).
  now rewrite IH.
Qed.

End SortBy.

Lemma sql_limit_in {A} limit (l : list A) x : In x (Ranking.sql_limit limit l) -> In x l.
Proof.
  destruct (sql_limit_split limit l) as (rest & E & _).
  intros H. rewrite E. apply in_or_app. now left.
Qed.

Lemma sql_limit_sorted {A} (R : A -> A -> Prop) limit l :
  StronglySorted R l -> StronglySorted R (Ranking.sql_limit limit l).
Proof.
  destruct (sql_limit_split limit l) as (rest & E & _).
  intros H. rewrite E in H. now apply StronglySorted_app in H.
Qed.

(** A row of a sorted table is kept by the limit, or the limit is reached
    and every row kept comes before it. *)
Lemma sql_limit_left_out {A} (R : A -> A -> Prop) limit l x :
  StronglySorted R l -> In x l ->
  In x (Ranking.sql_limit limit l)
  \/ (Z.of_nat (List.length (Ranking.sql_limit limit l)) = limit
      /\ forall y, In y (Ranking.sql_limit limit l) -> R y x).
Proof.
  intros Hs Hin. unfold Ranking.sql_limit in *.
  destruct (Z.ltb_spec limit 0); [now left|].
  rewrite <- (firstn_skipn (Z.to_nat limit) l) in Hin, Hs.
  apply in_app_or in Hin as [Hin|Hin]; [now left|]. right.
  split.
  - destruct (Nat.le_gt_cases (List.length l) (Z.to_nat limit)) as [Hle|Hgt].
    + rewrite skipn_all2 in Hin by assumption. destruct Hin.
    + rewrite length_firstn. lia.
  - apply StronglySorted_app in Hs as [_ Hcross]. intros y Hy. now apply Hcross.
Qed.

Lemma StronglySorted_map {A B} (f : A -> B) (R : B -> B -> Prop) l :
  StronglySorted (fun x y => R (f x) (f y)) l -> StronglySorted R (map f l).
Proof.
  induction 1 as [|x l Hs IH Hall]; cbn; constructor; [assumption|].
  rewrite Forall_forall in *. intros y Hy.
  apply in_map_iff in Hy as (z & <- & Hz). auto.
Qed.

(** ** Robbery targets *)

Lemma candidates_spec cfg db a limit u :
  In u (Targets.candidates cfg db a limit) ->
  In u (users db) /\ user_id u <> a /\ Robbery.protection_amount cfg <= money u.
Proof.
  unfold Targets.candidates. intros H.
  apply sql_limit_in, sort_by_desc_in, filter_In in H as [Hin Hc].
  apply andb_prop in Hc as [Hid Hm].
  split; [assumption|]. split; [|lia].
  intros E. rewrite E, String.eqb_refl in Hid. discriminate.
Qed.

(** X16.  [get_robbery_targets] lists the richest robbable users: every
    target is a user other than the robber whose cash is at least the
    protection amount, the list is in descending order of cash and no
    longer than a non-negative [limit], and a qualifying user is left out
    only when the list is full of users with at least as much cash. *)
Theorem robbery_targets_are_the_richest_unprotected_users
    (cfg : GameSettings) (db : Db) (robber : string) (limit : Z) :
  let targets := Targets.get_robbery_targets cfg db robber limit in
  (forall t, In t targets ->
     exists u, In u (users db) /\ t = Targets.describe cfg u
               /\ user_id u <> robber
               /\ Robbery.protection_amount cfg <= money u)
  /\ StronglySorted (desc_by Targets.t_money) targets
  /\ (0 <= limit -> Z.of_nat (List.length targets) <= limit)
  /\ (forall u, In u (users db) -> user_id u <> robber ->
        Robbery.protection_amount cfg <= money u ->
        In (Targets.describe cfg u) targets
        \/ (Z.of_nat (List.length targets) = limit
            /\ forall t, In t targets -> money u <= Targets.t_money t)).
Proof.
  intros targets. subst targets. unfold Targets.get_robbery_targets.
  split; [|split; [|split]].
  - intros t Ht. apply in_map_iff in Ht as (u & <- & Hu).
    apply candidates_spec in Hu as (Hin & Hid & Hm). eauto.
  - apply StronglySorted_map. unfold Targets.candidates.
    apply (sql_limit_sorted (desc_by money)). apply sort_by_desc_sorted.
  - intros Hl. rewrite length_map. unfold Targets.candidates.
    destruct (sql_limit_split limit
                (sort_by_desc money
                   (filter (fun u => negb (String.eqb (user_id u) robber)
                                     && (money u >=? Robbery.protection_amount cfg))
                           (users db)))) as (rest & _ & Hlen).
    auto.
  - intros u Hin Hid Hm. rewrite length_map. unfold Targets.candidates.
    set (l := sort_by_desc money _).
    assert (Hl : In u l).
    { apply sort_by_desc_in, filter_In. split; [assumption|].
      apply andb_true_intro. split; [|lia].
      destruct (String.eqb_spec (user_id u) robber); [contradiction|reflexivity]. }
    destruct (sql_limit_left_out (desc_by money) limit l u
                (sort_by_desc_sorted money _) Hl) as [Hk|[Hlen Hall]].
    + left. now apply in_map.
    + right. split; [assumption|].
      intros t Ht. apply in_map_iff in Ht as (w & <- & Hw).
      apply (Hall w Hw).
Qed.


Lemma describe_range cfg u x :
  in_range (Targets.rob_range (Targets.describe cfg u)) x
  <-> (let cap := Z.min (Robbery.max_amount cfg)
                        (money u - Robbery.protection_amount cfg) in
       (cap <= Robbery.min_amount cfg /\ x = cap)
       \/ (Robbery.min_amount cfg < cap /\ Robbery.min_amount cfg <= x <= cap)).
Proof.
  cbn [Targets.describe Targets.rob_range].
  set (cap := Z.min (Robbery.max_amount cfg) (money u - Robbery.protection_amount cfg)).
  cbv zeta.
  destruct (Z.ltb_spec (Z.min (Robbery.min_amount cfg) cap) cap); cbn [in_range]; lia.
Qed.

Lemma loot_in_range cfg u r amt :
  Robbery.loot cfg r (money u) = Some amt ->
  in_range (Targets.rob_range (Targets.describe cfg u)) amt.
Proof.
  intros H. apply loot_inv in H as (Hcap & Hlow & Hhigh).
  apply describe_range. cbv zeta.
  set (cap := Z.min (Robbery.max_amount cfg) (money u - Robbery.protection_amount cfg)) in *.
  destruct (Z.lt_ge_cases cap (Robbery.min_amount cfg)) as [Hlt|Hge].
  - left. specialize (Hlow Hlt). lia.
  - destruct (Hhigh Hge) as [Hmin _].
    destruct (Z.eq_dec cap (Robbery.min_amount cfg)); [left|right]; lia.
Qed.

Lemma range_is_lootable cfg u x :
  in_range (Targets.rob_range (Targets.describe cfg u)) x ->
  exists r, Robbery.loot cfg r (money u) = Some x.
Proof.
  intros H. apply describe_range in H. cbv zeta in H.
  set (cap := Z.min (Robbery.max_amount cfg) (money u - Robbery.protection_amount cfg)) in *.
  destruct (Z.lt_ge_cases cap (Robbery.min_amount cfg)) as [Hlt|Hge].
  - exists (mkRand 0 0). unfold Robbery.loot. fold cap.
    destruct (Z.ltb_spec cap (Robbery.min_amount cfg)); [|lia].
    f_equal. lia.
  - exists (mkRand 0 (x - Robbery.min_amount cfg)).
    apply loot_any. fold cap. lia.
Qed.

(** X17.  A listed target can be robbed, for the advertised amount.  With
    distinct user ids, [rob_user] on a target taken from
    [get_robbery_targets] is never declined as a self-robbery or for the
    victim's protection; when the robbery succeeds the amount taken lies
    in the target's [rob_range] and comes off the cash that was listed;
    and every amount of the range is taken for some draw. *)
Theorem listed_target_is_robbed_within_the_advertised_range
    (cfg : GameSettings) (db : Db) (robber : string) (limit : Z) (t : Targets.Target)
    (now : Clock) (r : Rand) (robber_name victim_name : string) :
  NoDup (ids db) ->
  In t (Targets.get_robbery_targets cfg db robber limit) ->
  let out := Robbery.rob_user cfg db now r robber robber_name
                              (Targets.t_user_id t) victim_name in
  cash_of db (Targets.t_user_id t) = Targets.t_money t
  /\ fst out <> Failure SelfTarget
  /\ fst out <> Failure VictimProtected
  /\ (forall rc db', out = (Success rc, db') ->
        Robbery.robbery_success rc = true ->
        in_range (Targets.rob_range t) (Robbery.amount rc)
        /\ cash_of db' (Targets.t_user_id t) = Targets.t_money t - Robbery.amount rc)
  /\ (forall x, in_range (Targets.rob_range t) x ->
        exists r', Robbery.loot cfg r' (Targets.t_money t) = Some x).
Proof.
  intros Hnd Ht out.
  unfold Targets.get_robbery_targets in Ht.
  apply in_map_iff in Ht as (u & <- & Hu).
  apply candidates_spec in Hu as (Hin & Hid & Hm).
  cbn [Targets.describe Targets.t_user_id Targets.t_money] in *.
  fold (Targets.describe cfg u).
  assert (Hcash : cash_of db (user_id u) = money u).
  { unfold cash_of. now rewrite (find_user_NoDup _ _ Hnd Hin). }
  assert (Hvd : forall vd,
             find_user (user_id u)
               (users (rob_entry db now robber robber_name (user_id u) victim_name))
             = Some vd -> money vd = money u).
  { intros vd Hf. rewrite <- Hcash.
    rewrite <- (cash_of_rob_entry db now robber robber_name (user_id u) victim_name).
    unfold cash_of. now rewrite Hf. }
  split; [exact Hcash|].
  assert (Hgates : fst out <> Failure SelfTarget /\ fst out <> Failure VictimProtected).
  { subst out.
    destruct (rob_user_gates cfg db now r robber robber_name (user_id u) victim_name)
      as [[E _]|(Hne & rd & vd & Hrd & Hfv & [[_ ->]|[(_ & _ & ->)|[Hlv Hcool]]])];
      [congruence| | |]; try (split; discriminate).
    rewrite (rob_user_past_gates cfg db now r robber robber_name (user_id u)
               victim_name rd vd) by assumption.
    rewrite (Hvd vd Hfv).
    destruct (Z.ltb_spec (money u) (Robbery.protection_amount cfg)); [lia|].
    destruct (Qltb _ _).
    - destruct (Robbery.loot cfg r (money u)); split; discriminate.
    - split; discriminate. }
  split; [apply Hgates|]. split; [apply Hgates|]. split.
  - intros rc db' Hout Hok. subst out.
    pose proof (rob_user_effect _ _ _ _ _ _ _ _ _ _ Hout)
      as (_ & _ & _ & _ & _ & _ & moved & _ & Hyes & _).
    destruct (Hyes Hok) as (Hamt & _ & Hv). rewrite Hamt, Hv, Hcash.
    split; [|reflexivity].
    apply rob_user_success_inv in Hout
      as (_ & rd & vd & _ & Hfv & _ & _ & _ & [(_ & amt & Hloot & -> & _)|(_ & -> & _)]);
      [|discriminate].
    cbn [Robbery.amount] in Hamt. subst amt.
    rewrite (Hvd vd Hfv) in Hloot. now apply loot_in_range in Hloot.
  - intros x Hx. now apply range_is_lootable.
Qed.


Lemma listed_target_is_robbed_within_the_advertised_range_witness :
  NoDup (ids (heist_db 220))
  /\ In (Targets.describe default_settings (heist_alice 220))
        (Targets.get_robbery_targets default_settings (heist_db 220) "bob" 10)
  /\ Targets.rob_range (Targets.describe default_settings (heist_alice 220))
     = Targets.Between 50 120
  /\ fst (Robbery.rob_user default_settings (heist_db 220) (utc_host 100000) (mkRand 0 7)
            "bob" "Bob" "alice" "Alice") <> Failure VictimProtected.
Proof.
  assert (Hnd : NoDup (ids (heist_db 220))).
  { repeat constructor; cbn; intros H;
      repeat (destruct H as [H|H]; [discriminate|]); exact H. }
  assert (Hin : In (Targets.describe default_settings (heist_alice 220))
                   (Targets.get_robbery_targets default_settings (heist_db 220) "bob" 10)).
  { left. reflexivity. }
  split; [exact Hnd|]. split; [exact Hin|]. split; [reflexivity|].
  apply (listed_target_is_robbed_within_the_advertised_range
           default_settings (heist_db 220) "bob" 10 _ (utc_host 100000) (mkRand 0 7)
           "Bob"%string "Alice"%string Hnd Hin).
Defined.


(** ** Checkin information *)

Lemma todays_record_checked db uid today :
  Checkin.checked_on db uid today
  = match CheckinInfo.todays_record db uid today with Some _ => true | None => false end.
Proof.
  unfold Checkin.checked_on, CheckinInfo.todays_record.
  induction (checkin_records db) as [|c l IH]; [reflexivity|]. cbn.
  destruct (String.eqb (cr_user_id c) uid && (checkin_date c =? today)); auto.
Qed.

Lemma get_checkin_info_inv db now r uid name info db1 :
  CheckinInfo.get_checkin_info db now r uid name = (Some info, db1) ->
  let db0 := _ensure_user_exists db now uid name in
  db1 = db0
  /\ exists u,
       find_user uid (users db0) = Some u
       /\ CheckinInfo.i_money info = money u
       /\ CheckinInfo.streak info = checkin_streak u
       /\ CheckinInfo.i_total_checkin info = total_checkin u
       /\ CheckinInfo.i_last_checkin info = last_checkin u
       /\ CheckinInfo.has_checked_today info = Checkin.checked_on db0 uid (date_of (local_time now))
       /\ Checkin._calculate_reward r
            (if CheckinInfo.has_checked_today info then checkin_streak u + 1
             else next_streak u (date_of (local_time now)))
          = Some (CheckinInfo.next_reward info).
Proof.
  unfold CheckinInfo.get_checkin_info.
  set (db0 := _ensure_user_exists db now uid name). cbv zeta.
  rewrite todays_record_checked.
  destruct (find_user uid (users db0)) as [u|]; [|discriminate].
  fold (next_streak u (date_of (local_time now))).
  destruct (Checkin._calculate_reward r _) as [rw|] eqn:Hr; [|discriminate].
  intros [= <- <-]. split; [reflexivity|]. exists u.
  cbn [CheckinInfo.i_money CheckinInfo.streak CheckinInfo.i_total_checkin
       CheckinInfo.i_last_checkin CheckinInfo.has_checked_today CheckinInfo.next_reward].
  repeat (split; [reflexivity|]).
  exact Hr.
Qed.

(** X18.  [get_checkin_info] previews [daily_checkin].  When it reports
    that the user has checked in today, a checkin at that moment is
    declined as already done.  When it reports that the user has not, a
    checkin that goes through with the same random draw pays exactly the
    [next_reward] shown, on top of the cash shown, and the streak it
    stores is the one the shown streak bonus was computed for. *)
Theorem checkin_info_previews_the_checkin
    (db : Db) (now : Clock) (r : Rand) (uid name : string)
    (info : CheckinInfo.Info) (db1 : Db) :
  CheckinInfo.get_checkin_info db now r uid name = (Some info, db1) ->
  (CheckinInfo.has_checked_today info = true ->
   fst (Checkin.daily_checkin db now r uid name) = Failure AlreadyCheckedIn)
  /\ (CheckinInfo.has_checked_today info = false ->
      forall rc db',
        Checkin.daily_checkin db now r uid name = (Success rc, db') ->
        Checkin.reward rc = CheckinInfo.next_reward info
        /\ Checkin.new_money rc
           = CheckinInfo.i_money info + Checkin.rw_total (CheckinInfo.next_reward info)
        /\ Checkin.rw_consecutive (CheckinInfo.next_reward info)
           = highest_tier_bonus (Checkin.new_streak rc)
        /\ Checkin.new_total_checkin rc = CheckinInfo.i_total_checkin info + 1).
Proof.
  intros H. apply get_checkin_info_inv in H as (_ & u & Hu & Hm & _ & Ht & _ & Hc & Hr).
  split.
  - intros Hyes. rewrite Hyes in Hc. unfold Checkin.daily_checkin.
    now rewrite <- Hc.
  - intros Hno rc db' Hd. rewrite Hno in Hr.
    apply daily_checkin_success in Hd as (u' & rw & Hu' & _ & _ & Hrw & -> & _).
    rewrite Hu in Hu'. injection Hu' as <-.
    rewrite Hr in Hrw. injection Hrw as <-.
    cbn [Checkin.reward Checkin.new_money Checkin.new_streak Checkin.new_total_checkin].
    apply calculate_reward_inv in Hr as [_ Hshape].
    split; [reflexivity|]. split; [congruence|]. split; [|congruence].
    rewrite Hshape. reflexivity.
Qed.

Lemma checkin_info_previews_the_checkin_witness :
  exists info db1,
    CheckinInfo.get_checkin_info streak6_db (utc_host 864000) (mkRand 0 17) "alice" "Alice"
    = (Some info, db1)
    /\ CheckinInfo.has_checked_today info = false
    /\ Checkin.rw_total (CheckinInfo.next_reward info) = 317
    /\ forall rc db',
         Checkin.daily_checkin streak6_db (utc_host 864000) (mkRand 0 17) "alice" "Alice"
         = (Success rc, db') ->
         Checkin.reward rc = CheckinInfo.next_reward info.
Proof.
  eexists. eexists. split; [reflexivity|]. split; [reflexivity|]. split; [reflexivity|].
  intros rc db' Hd.
  destruct (checkin_info_previews_the_checkin
              streak6_db (utc_host 864000) (mkRand 0 17) "alice" "Alice" _ _ eq_refl)
    as [_ Hno].
  apply (Hno eq_refl rc db' Hd).
Defined.


Lemma calculate_reward_some r s : exists rw, Checkin._calculate_reward r s = Some rw.
Proof.
  destruct (randint_some r 0 50 ltac:(lia)) as [x Hx].
  unfold Checkin._calculate_reward.
  change (fst Checkin.random_bonus_range) with 0.
  change (snd Checkin.random_bonus_range) with 50.
  rewrite Hx. eauto.
Qed.

Lemma todays_record_new db uid today c :
  Checkin.checked_on db uid today = false ->
  cr_user_id c = uid -> checkin_date c = today ->
  CheckinInfo.todays_record (insert_checkin db c) uid today = Some c.
Proof.
  unfold Checkin.checked_on, CheckinInfo.todays_record. cbn [checkin_records insert_checkin].
  intros Hnone Hid Hday.
  induction (checkin_records db) as [|c0 l IH]; cbn in *.
  - now rewrite Hid, Hday, String.eqb_refl, Z.eqb_refl.
  - destruct (String.eqb (cr_user_id c0) uid && (checkin_date c0 =? today));
      [discriminate|auto].
Qed.

(** X19.  [get_checkin_info] reports a checkin that went through.  Asked
    any time later on the same day, it creates nothing, says that the user
    has checked in today and shows the reward that was paid, the cash, the
    streak and the number of checkins the receipt announced; the bonus of
    the next reward is the one of the streak continued by a day. *)
Theorem checkin_info_reports_the_checkin_of_the_day
    (db : Db) (now : Clock) (r : Rand) (uid name : string)
    (rc : Checkin.CheckinReceipt) (db' : Db)
    (now2 : Clock) (r2 : Rand) (name2 : string) :
  Checkin.daily_checkin db now r uid name = (Success rc, db') ->
  date_of (local_time now2) = date_of (local_time now) ->
  exists info,
    CheckinInfo.get_checkin_info db' now2 r2 uid name2 = (Some info, db')
    /\ CheckinInfo.has_checked_today info = true
    /\ CheckinInfo.today_reward info = Checkin.rw_total (Checkin.reward rc)
    /\ CheckinInfo.i_money info = Checkin.new_money rc
    /\ CheckinInfo.streak info = Checkin.new_streak rc
    /\ CheckinInfo.i_total_checkin info = Checkin.new_total_checkin rc
    /\ CheckinInfo.i_last_checkin info = Some (date_of (local_time now))
    /\ Checkin.rw_consecutive (CheckinInfo.next_reward info)
       = highest_tier_bonus (Checkin.new_streak rc + 1).
Proof.
  intros Hd Hday.
  apply daily_checkin_success in Hd as (u & rw & Hu & Hc & _ & _ & -> & ->).
  set (db0 := _ensure_user_exists db now uid name) in *.
  set (today := date_of (local_time now)) in *.
  set (row := Checkin.set_checkin (money u + Checkin.rw_total rw) (next_streak u today)
                (total_checkin u + 1) today now u).
  set (rec := mkCheckin uid today (Checkin.rw_total rw) (next_streak u today) now).
  set (db1 := with_users db0 (update_user uid _ (users db0))).
  assert (Hrow : find_user uid (users (insert_checkin db1 rec)) = Some row).
  { cbn [users insert_checkin]. subst db1. rewrite users_with_users.
    rewrite find_user_update_same by reflexivity. now rewrite Hu. }
  assert (Hrec : CheckinInfo.todays_record (insert_checkin db1 rec) uid today = Some rec).
  { apply todays_record_new; [exact Hc|reflexivity|reflexivity]. }
  destruct (calculate_reward_some r2 (next_streak u today + 1)) as [rw2 Hrw2].
  unfold CheckinInfo.get_checkin_info.
  rewrite (ensure_present _ now2 uid name2 _ Hrow). cbv zeta.
  rewrite Hrow, Hday. fold today. rewrite Hrec.
  change (checkin_streak row) with (next_streak u today). rewrite Hrw2.
  eexists. split; [reflexivity|].
  cbn [CheckinInfo.has_checked_today CheckinInfo.today_reward CheckinInfo.i_money
       CheckinInfo.streak CheckinInfo.i_total_checkin CheckinInfo.i_last_checkin
       CheckinInfo.next_reward Checkin.reward Checkin.new_money Checkin.new_streak
       Checkin.new_total_checkin].
  repeat (split; [reflexivity|]).
  apply calculate_reward_inv in Hrw2 as [_ ->]. reflexivity.
Qed.

Lemma checkin_info_reports_the_checkin_of_the_day_witness :
  exists rc db' info,
    Checkin.daily_checkin streak6_db (utc_host 864000) (mkRand 0 17) "alice" "Alice"
    = (Success rc, db')
    /\ date_of 899999 = date_of 864000
    /\ CheckinInfo.get_checkin_info db' (utc_host 899999) (mkRand 0 3) "alice" "Alice"
       = (Some info, db')
    /\ CheckinInfo.has_checked_today info = true
    /\ CheckinInfo.today_reward info = 317.
Proof.
  assert (Hd : exists rc db',
             Checkin.daily_checkin streak6_db (utc_host 864000) (mkRand 0 17) "alice" "Alice"
             = (Success rc, db')
             /\ Checkin.rw_total (Checkin.reward rc) = 317)
    by (eexists; eexists; split; reflexivity).
  destruct Hd as (rc & db' & Hd & Hpaid).
  assert (Hday : date_of 899999 = date_of 864000) by reflexivity.
  destruct (checkin_info_reports_the_checkin_of_the_day
              streak6_db (utc_host 864000) (mkRand 0 17) "alice" "Alice" rc db'
              (utc_host 899999) (mkRand 0 3) "Alice" Hd Hday)
    as (info & Hinfo & Hyes & Hreward & _).
  exists rc, db', info.
  split; [exact Hd|]. split; [exact Hday|]. split; [exact Hinfo|].
  split; [exact Hyes|]. now rewrite Hreward.
Defined.


(** ** Bank information *)

(** What [apply_daily_interest] does to the savings of any user. *)
Lemma apply_daily_interest_savings cfg db now who :
  NoDup (ids db) ->
  is_success (fst (Bank.apply_daily_interest cfg db now)) = true ->
  savings_of (snd (Bank.apply_daily_interest cfg db now)) who
  = if (savings_of db who >? 0) && (interest_due cfg (savings_of db who) >? 0)
    then savings_of db who + interest_due cfg (savings_of db who)
    else savings_of db who.
Proof.
  intros Hnd Hgo. unfold ids in Hnd.
  destruct (apply_daily_interest_cases cfg db now) as [[E _]|[E _]];
    rewrite E in Hgo |- *; [clear Hgo|discriminate]. cbn [snd].
  pose proof (interest_loop_effect cfg now (Bank.savers db)
                (db, Bank.mkInterestReport 0 0) who) as Hloop.
  rewrite savers_ids in Hloop.
  specialize (Hloop (NoDup_map_filter _ _ _ Hnd)).
  cbv zeta in Hloop. cbn [fst] in Hloop. destruct Hloop as [Hout Hsel].
  destruct (fold_left _ _ _) as [db1 rep1]. cbn [fst snd] in *.
  unfold savings_of.
  destruct (find_user who (users db)) as [u|] eqn:Hu.
  - apply find_user_some in Hu as [Hin Hid].
    destruct (Z.gtb_spec (bank_money u) 0) as [Hpos|Hle]; cbn [andb].
    + destruct (Hsel (bank_money u)) as [-> _].
      { unfold Bank.savers. apply in_map_iff. exists u. split; [now rewrite Hid|].
        apply filter_In. split; [assumption|]. now apply Z.gtb_lt. }
      cbn [option_map]. unfold credited.
      destruct (interest_due cfg (bank_money u) >? 0); reflexivity.
    + destruct Hout as [-> _]; [|reflexivity].
      intros Hin'. apply in_map_iff in Hin' as (w & Hw & Hf).
      apply filter_In in Hf as [Hinw Hposw]. apply Z.gtb_lt in Hposw.
      assert (w = u) by (eapply NoDup_map_inj; eauto; congruence). subst w. lia.
  - cbn [Z.gtb Z.compare andb].
    destruct Hout as [-> _]; [|reflexivity].
    intros Hin'. apply in_map_iff in Hin' as (w & Hw & Hf).
    apply filter_In in Hf as [Hinw _].
    pose proof (find_none _ _ Hu w Hinw) as Hn. cbn in Hn.
    rewrite Hw, String.eqb_refl in Hn. discriminate.
Qed.

Lemma today_withdraw_ensure db now uid name who day :
  Bank.today_withdraw (_ensure_user_exists db now uid name) who day
  = Bank.today_withdraw db who day.
Proof. unfold Bank.today_withdraw. now rewrite ensure_bank_transactions. Qed.

Lemma get_bank_info_inv cfg db now uid name info db1 :
  BankInfo.get_bank_info cfg db now uid name = (Some info, db1) ->
  let db0 := _ensure_user_exists db now uid name in
  db1 = db0
  /\ exists u,
       find_user uid (users db0) = Some u
       /\ BankInfo.i_money info = money u
       /\ BankInfo.i_bank_money info = bank_money u
       /\ BankInfo.i_total_assets info = money u + bank_money u
       /\ Bank.interest_of cfg (bank_money u) = Some (BankInfo.daily_interest info)
       /\ BankInfo.i_today_withdraw info = Bank.today_withdraw db0 uid (date_of (local_time now))
       /\ BankInfo.remaining_withdraw info
          = Bank.daily_withdraw_limit - Bank.today_withdraw db0 uid (date_of (local_time now)).
Proof.
  unfold BankInfo.get_bank_info.
  set (db0 := _ensure_user_exists db now uid name). cbv zeta.
  destruct (find_user uid (users db0)) as [u|]; [|discriminate].
  unfold Bank.interest_of.
  destruct (int_of_product _ _) as [daily_interest|] eqn:Ei; [|discriminate].
  intros H.
  assert (Hdb : db1 = db0) by (apply (f_equal snd) in H; symmetry; exact H).
  apply (f_equal fst) in H. cbn [fst] in H.
  split; [exact Hdb|]. exists u. split; [reflexivity|].
  assert (Hi : forall {X} (f : BankInfo.Info -> X) a b, Some a = Some b -> f b = f a)
    by (intros X f a b [= ->]; reflexivity).
  repeat split.
  - exact (Hi _ BankInfo.i_money _ _ H).
  - exact (Hi _ BankInfo.i_bank_money _ _ H).
  - exact (Hi _ BankInfo.i_total_assets _ _ H).
  - rewrite (Hi _ BankInfo.daily_interest _ _ H). exact Ei.
  - exact (Hi _ BankInfo.i_today_withdraw _ _ H).
  - exact (Hi _ BankInfo.remaining_withdraw _ _ H).
Qed.

(** X20.  [get_bank_info] agrees with the operations it describes.  The
    balances shown are the user's; a withdrawal of an amount within the
    per-call bounds goes through exactly when the amount is within the
    [remaining_withdraw] and the savings shown, and is declined for the
    daily limit when it exceeds [remaining_withdraw]; and, with distinct
    user ids, the next [apply_daily_interest] that completes adds the
    [daily_interest] shown to positive savings whenever that interest is
    positive, and nothing otherwise. *)
Theorem bank_info_agrees_with_withdraw_and_interest
    (cfg : GameSettings) (db : Db) (now : Clock) (uid name : string)
    (info : BankInfo.Info) (db1 : Db) :
  BankInfo.get_bank_info cfg db now uid name = (Some info, db1) ->
  BankInfo.i_money info = cash_of db uid
  /\ BankInfo.i_bank_money info = savings_of db uid
  /\ BankInfo.i_total_assets info = cash_of db uid + savings_of db uid
  /\ BankInfo.remaining_withdraw info
     = Bank.daily_withdraw_limit - Bank.today_withdraw db uid (date_of (local_time now))
  /\ (forall amt, Bank.min_withdraw <= amt <= Bank.max_withdraw ->
        (is_success (fst (Bank.withdraw db now uid name amt)) = true
         <-> amt <= BankInfo.remaining_withdraw info
             /\ amt <= BankInfo.i_bank_money info)
        /\ (BankInfo.remaining_withdraw info < amt ->
            fst (Bank.withdraw db now uid name amt) = Failure DailyLimitExceeded))
  /\ (NoDup (ids db) -> forall later,
        is_success (fst (Bank.apply_daily_interest cfg db later)) = true ->
        savings_of (snd (Bank.apply_daily_interest cfg db later)) uid
        = BankInfo.i_bank_money info
          + (if 0 <? BankInfo.i_bank_money info
             then Z.max 0 (BankInfo.daily_interest info) else 0)).
Proof.
  intros H.
  apply get_bank_info_inv in H as (_ & u & Hu & -> & -> & -> & Hint & _ & ->).
  destruct (found_cash _ _ _ _ _ Hu) as [Hc Hs].
  rewrite today_withdraw_ensure.
  split; [congruence|]. split; [congruence|]. split; [congruence|].
  split; [reflexivity|]. split.
  - intros amt Hb.
    destruct (withdraw_outcome db now uid name amt)
      as [[why E]|(u' & Hu' & _ & Hday & Hle & E)].
    + split.
      * split.
        -- rewrite E. discriminate.
        -- intros [Hrem Hsav].
           destruct (withdraw_goes_through db now uid name amt Hb) as (rc & db' & E');
             [lia|lia|]. rewrite E' in E. discriminate.
      * intros Hover. unfold Bank.withdraw.
        destruct (Z.ltb_spec amt Bank.min_withdraw); [lia|].
        destruct (Z.gtb_spec amt Bank.max_withdraw); [lia|].
        rewrite today_withdraw_ensure.
        destruct (Z.gtb_spec (Bank.today_withdraw db uid (date_of (local_time now)) + amt)
                             Bank.daily_withdraw_limit); [reflexivity|lia].
    + rewrite today_withdraw_ensure in Hday. rewrite Hu in Hu'. injection Hu' as <-.
      split.
      * rewrite E. cbn [fst is_success]. split; [lia|reflexivity].
      * lia.
  - intros Hnd later Hgo.
    rewrite (apply_daily_interest_savings cfg db later uid Hnd Hgo).
    rewrite Hs. unfold interest_due. rewrite Hint.
    destruct (Z.gtb_spec (bank_money u) 0), (Z.ltb_spec 0 (bank_money u)); try lia;
      cbn [andb]; [|lia].
    destruct (Z.gtb_spec (BankInfo.daily_interest info) 0); lia.
Qed.


Lemma bank_info_agrees_with_withdraw_and_interest_witness :
  exists info db1,
    BankInfo.get_bank_info default_settings savers_db (utc_host 86400) "alice" "Alice"
    = (Some info, db1)
    /\ BankInfo.i_bank_money info = 1000
    /\ BankInfo.daily_interest info = 1
    /\ BankInfo.remaining_withdraw info = 200000
    /\ (is_success (fst (Bank.withdraw savers_db (utc_host 86400) "alice" "Alice" 500)) = true
        <-> 500 <= BankInfo.remaining_withdraw info /\ 500 <= BankInfo.i_bank_money info).
Proof.
  eexists. eexists. split; [reflexivity|].
  split; [reflexivity|]. split; [reflexivity|]. split; [reflexivity|].
  destruct (bank_info_agrees_with_withdraw_and_interest
              default_settings savers_db (utc_host 86400) "alice" "Alice" _ _ eq_refl)
    as (_ & _ & _ & _ & Hw & _).
  apply (Hw 500). unfold Bank.min_withdraw, Bank.max_withdraw. lia.
Defined.


(** ** A user's rank *)

Section LexOrder.
Variable cols : list (User -> Z).

Lemma lex_gtb_irrefl u : Ranking.lex_gtb (Ranking.sort_key cols u) (Ranking.sort_key cols u) = false.
Proof.
  induction cols as [|c cs IH]; [reflexivity|]. cbn.
  rewrite Z.ltb_irrefl, Z.eqb_refl. exact IH.
Qed.

Lemma lex_gtb_trans u v w :
  Ranking.lex_gtb (Ranking.sort_key cols u) (Ranking.sort_key cols v) = true ->
  Ranking.lex_gtb (Ranking.sort_key cols v) (Ranking.sort_key cols w) = true ->
  Ranking.lex_gtb (Ranking.sort_key cols u) (Ranking.sort_key cols w) = true.
Proof.
  induction cols as [|c cs IH]; [discriminate|]. cbn.
  intros H1 H2.
  apply orb_true_iff in H1 as [H1|H1]; apply orb_true_iff in H2 as [H2|H2];
    apply orb_true_iff.
  - left. lia.
  - apply andb_true_iff in H2 as [H2 _]. left. lia.
  - apply andb_true_iff in H1 as [H1 _]. left. lia.
  - apply andb_true_iff in H1 as [H1 H1']. apply andb_true_iff in H2 as [H2 H2'].
    right. apply andb_true_iff. split; [lia|auto].
Qed.

Lemma lex_gtb_total u v :
  Ranking.lex_gtb (Ranking.sort_key cols u) (Ranking.sort_key cols v) = false ->
  Ranking.lex_gtb (Ranking.sort_key cols v) (Ranking.sort_key cols u) = false ->
  Ranking.sort_key cols u = Ranking.sort_key cols v.
Proof.
  induction cols as [|c cs IH]; [reflexivity|]. cbn.
  intros H1 H2.
  apply orb_false_iff in H1 as [H1 H1']. apply orb_false_iff in H2 as [H2 H2'].
  assert (E : c u = c v) by lia. rewrite E in *.
  rewrite Z.eqb_refl in H1', H2'. cbn in H1', H2'. f_equal. auto.
Qed.

(** Users with the same key have the same users ahead of them. *)
Lemma lex_gtb_same_key u v w :
  Ranking.sort_key cols u = Ranking.sort_key cols v ->
  Ranking.lex_gtb (Ranking.sort_key cols w) (Ranking.sort_key cols u)
  = Ranking.lex_gtb (Ranking.sort_key cols w) (Ranking.sort_key cols v).
Proof. now intros ->. Qed.

End LexOrder.

Lemma filter_length_le {A} (P Q : A -> bool) l :
  (forall x, In x l -> P x = true -> Q x = true) ->
  (List.length (filter P l) <= List.length (filter Q l))%nat.
Proof.
  induction l as [|x l IH]; intros H; [reflexivity|]. cbn.
  assert (IH' := IH (fun y Hy => H y (or_intror Hy))).
  destruct (P x) eqn:Px.
  - rewrite (H x (or_introl eq_refl) Px). cbn. lia.
  - destruct (Q x); cbn; lia.
Qed.

Lemma filter_length_lt {A} (P Q : A -> bool) l x :
  (forall y, In y l -> P y = true -> Q y = true) ->
  In x l -> P x = false -> Q x = true ->
  (List.length (filter P l) < List.length (filter Q l))%nat.
Proof.
  induction l as [|y l IH]; intros H Hin Px Qx; [destruct Hin|]. cbn.
  assert (Hle := filter_length_le P Q l (fun z Hz => H z (or_intror Hz))).
  destruct Hin as [->|Hin].
  - rewrite Px, Qx. cbn. lia.
  - specialize (IH (fun z Hz => H z (or_intror Hz)) Hin Px Qx).
    destruct (P y) eqn:Py.
    + rewrite (H y (or_introl eq_refl) Py). cbn. lia.
    + destruct (Q y); cbn; lia.
Qed.

Lemma filter_length_ext {A} (P Q : A -> bool) l :
  (forall x, In x l -> P x = Q x) ->
  List.length (filter P l) = List.length (filter Q l).
Proof.
  intros H. apply Nat.le_antisymm; apply filter_length_le; intros x Hx E;
    [rewrite <- (H x Hx)|rewrite (H x Hx)]; exact E.
Qed.

(** The rank [get_user_ranking_info] computes, by the sort key of the
    leaderboard of that type. *)
Lemma get_user_ranking_info_rank db uid ranking_type field me :
  Ranking.lookup_field ranking_type = Some field ->
  find_user uid (users db) = Some me ->
  RankInfo.get_user_ranking_info db uid ranking_type
  = RankInfo.Ranked
      (RankInfo.mkInfo
         (RankInfo.count_plus_one
            (fun u => Ranking.lex_gtb
                        (Ranking.sort_key (Ranking.order_columns ranking_type field) u)
                        (Ranking.sort_key (Ranking.order_columns ranking_type field) me))
            db)
         (username me) (field me) (RankInfo.count_active db)).
Proof.
  intros Hf Hme. unfold RankInfo.get_user_ranking_info. rewrite Hf, Hme.
  unfold Ranking.order_columns.
  destruct (String.eqb ranking_type "level"); do 2 f_equal;
    unfold RankInfo.count_plus_one; f_equal; f_equal;
    apply filter_length_ext; intros u _; cbn;
    rewrite ?Z.gtb_ltb, ?andb_false_r, ?orb_false_r; reflexivity.
Qed.


Lemma outranks_lex ranking_type field x y :
  outranks ranking_type field x y
  <-> Ranking.lex_gtb (Ranking.sort_key (Ranking.order_columns ranking_type field) x)
                      (Ranking.sort_key (Ranking.order_columns ranking_type field) y)
      = true.
Proof.
  unfold outranks, Ranking.order_columns.
  destruct (String.eqb ranking_type "level"); cbn;
    rewrite ?andb_false_r, ?orb_false_r.
  - rewrite orb_true_iff, andb_true_iff. lia.
  - lia.
Qed.

Lemma tied_lex ranking_type field x y :
  tied ranking_type field x y
  <-> Ranking.sort_key (Ranking.order_columns ranking_type field) x
      = Ranking.sort_key (Ranking.order_columns ranking_type field) y.
Proof.
  unfold tied, Ranking.order_columns.
  destruct (String.eqb ranking_type "level"); cbn.
  - split; [intros [-> ->]; reflexivity|intros [= -> ->]; auto].
  - split; [intros ->; reflexivity|intros [= ->]; auto].
Qed.

(** X21.  The rank of [get_user_ranking_info] follows the order of the
    leaderboard of its type.  For two users with a row: the rank is
    between 1 and the number of users and the value is the user's metric;
    a user strictly ahead of another has a strictly smaller rank; users
    level with each other share their rank; and the rank is 1 exactly
    when no user is strictly ahead. *)
Theorem rank_follows_the_order_of_the_leaderboard
    (db : Db) (ranking_type : string) (field : User -> Z)
    (a b : string) (ua ub : User) :
  Ranking.lookup_field ranking_type = Some field ->
  find_user a (users db) = Some ua ->
  find_user b (users db) = Some ub ->
  exists ia ib,
    RankInfo.get_user_ranking_info db a ranking_type = RankInfo.Ranked ia
    /\ RankInfo.get_user_ranking_info db b ranking_type = RankInfo.Ranked ib
    /\ RankInfo.value ia = field ua
    /\ 1 <= RankInfo.rank ia <= Z.of_nat (List.length (users db))
    /\ (outranks ranking_type field ua ub -> RankInfo.rank ia < RankInfo.rank ib)
    /\ (tied ranking_type field ua ub -> RankInfo.rank ia = RankInfo.rank ib)
    /\ (RankInfo.rank ia = 1
        <-> forall u, In u (users db) -> ~ outranks ranking_type field u ua).
Proof.
  intros Hf Ha Hb.
  rewrite (get_user_ranking_info_rank db a ranking_type field ua Hf Ha).
  rewrite (get_user_ranking_info_rank db b ranking_type field ub Hf Hb).
  set (cols := Ranking.order_columns ranking_type field).
  eexists. eexists. split; [reflexivity|]. split; [reflexivity|].
  cbn [RankInfo.value RankInfo.rank]. unfold RankInfo.count_plus_one.
  apply find_user_some in Ha as [Hina _]. apply find_user_some in Hb as [Hinb _].
  split; [reflexivity|]. split; [|split; [|split]].
  - split; [lia|].
    assert (List.length
              (filter (fun u => Ranking.lex_gtb (Ranking.sort_key cols u)
                                                (Ranking.sort_key cols ua)) (users db))
            < List.length (filter (fun _ => true) (users db)))%nat.
    { apply (filter_length_lt _ _ _ ua); auto. apply lex_gtb_irrefl. }
    assert (Hall : filter (fun _ : User => true) (users db) = users db).
    { clear. induction (users db) as [|x l IH]; cbn; [reflexivity|]. now rewrite IH. }
    rewrite Hall in *. lia.
  - intros Hout. apply outranks_lex in Hout. fold cols in Hout.
    assert (List.length
              (filter (fun u => Ranking.lex_gtb (Ranking.sort_key cols u)
                                                (Ranking.sort_key cols ua)) (users db))
            < List.length
                (filter (fun u => Ranking.lex_gtb (Ranking.sort_key cols u)
                                                  (Ranking.sort_key cols ub)) (users db)))%nat.
    { apply (filter_length_lt _ _ _ ua); auto.
      - intros y _ Hy. now apply (lex_gtb_trans cols y ua ub).
      - apply lex_gtb_irrefl. }
    lia.
  - intros Htie. apply tied_lex in Htie. fold cols in Htie. now rewrite Htie.
  - split.
    + intros Hone u Hu Hout. apply outranks_lex in Hout. fold cols in Hout.
      assert (Hin : In u (filter (fun u => Ranking.lex_gtb (Ranking.sort_key cols u)
                                            (Ranking.sort_key cols ua)) (users db)))
        by (apply filter_In; auto).
      destruct (filter _ (users db)); [destruct Hin|]. cbn [List.length] in Hone. lia.
    + intros Hnone.
      assert (Hnil : filter (fun u => Ranking.lex_gtb (Ranking.sort_key cols u)
                                        (Ranking.sort_key cols ua)) (users db) = []).
      { destruct (filter _ (users db)) as [|u l] eqn:E; [reflexivity|].
        assert (Hin : In u (u :: l)) by now left. rewrite <- E in Hin.
        apply filter_In in Hin as [Hu Hout]. exfalso.
        apply (Hnone u Hu). apply outranks_lex. exact Hout. }
      rewrite Hnil. reflexivity.
Qed.

Lemma rank_follows_the_order_of_the_leaderboard_witness :
  exists ia ib,
    RankInfo.get_user_ranking_info savers_db "bob" "money" = RankInfo.Ranked ia
    /\ RankInfo.get_user_ranking_info savers_db "alice" "money" = RankInfo.Ranked ib
    /\ RankInfo.rank ia = 1 /\ RankInfo.rank ib = 2
    /\ RankInfo.rank ia < RankInfo.rank ib.
Proof.
  destruct (rank_follows_the_order_of_the_leaderboard savers_db "money" money
              "bob" "alice" _ _ eq_refl eq_refl eq_refl)
    as (ia & ib & Ha & Hb & _ & _ & Hlt & _).
  exists ia, ib. split; [exact Ha|]. split; [exact Hb|].
  assert (Hra : RankInfo.rank ia = 1)
    by (vm_compute in Ha; injection Ha as <-; reflexivity).
  assert (Hrb : RankInfo.rank ib = 2)
    by (vm_compute in Hb; injection Hb as <-; reflexivity).
  split; [exact Hra|]. split; [exact Hrb|].
  apply Hlt. unfold outranks. cbn. lia.
Defined.


(** ** The leaderboard and the rank of a listed user *)

Lemma enumerate_from_app field p1 p2 : forall i,
  Ranking.enumerate_from field i (p1 ++ p2)
  = Ranking.enumerate_from field i p1
    ++ Ranking.enumerate_from field (i + Z.of_nat (List.length p1)) p2.
Proof.
  induction p1 as [|x p1 IH]; intros i; cbn [Ranking.enumerate_from app List.length].
  - now rewrite Z.add_0_r.
  - rewrite IH. do 3 f_equal. lia.
Qed.

Lemma enumerate_from_in field p : forall i e,
  In e (Ranking.enumerate_from field i p) ->
  exists p1 u p2, p = p1 ++ u :: p2
                  /\ e = entry_of field (i + Z.of_nat (List.length p1)) u.
Proof.
  induction p as [|x p IH]; intros i e; cbn [Ranking.enumerate_from]; [intros []|].
  intros [<-|Hin].
  - exists [], x, p. split; [reflexivity|]. cbn. now rewrite Z.add_0_r.
  - destruct (IH _ _ Hin) as (p1 & u & p2 & -> & ->).
    exists (x :: p1), u, p2. split; [reflexivity|]. cbn [List.length]. f_equal. lia.
Qed.

Lemma enumerate_from_filter field (g : Ranking.Entry -> bool) (h : User -> bool) p :
  forall i,
  (forall j x, i <= j < i + Z.of_nat (List.length p) -> In x p ->
               g (entry_of field j x) = h x) ->
  List.length (filter g (Ranking.enumerate_from field i p)) = List.length (filter h p).
Proof.
  induction p as [|x p IH]; intros i H; [reflexivity|].
  cbn [Ranking.enumerate_from filter]. fold (entry_of field i x).
  rewrite (H i x); [|cbn [List.length]; lia|now left].
  assert (IH' : List.length (filter g (Ranking.enumerate_from field (i + 1) p))
                = List.length (filter h p)).
  { apply IH. intros j y Hj Hy. apply H; [cbn [List.length]; lia|now right]. }
  destruct (h x); cbn [List.length]; now rewrite IH'.
Qed.

Lemma filter_length_none {A} (P : A -> bool) l :
  (forall x, In x l -> P x = false) -> List.length (filter P l) = 0%nat.
Proof.
  induction l as [|x l IH]; intros H; [reflexivity|]. cbn.
  rewrite (H x (or_introl eq_refl)). apply IH. intros y Hy. apply H. now right.
Qed.

Lemma filter_length_partition {A} (P : A -> bool) l :
  (List.length (filter P l) + List.length (filter (fun x => negb (P x)) l))%nat
  = List.length l.
Proof.
  induction l as [|x l IH]; [reflexivity|]. cbn.
  destruct (P x); cbn; lia.
Qed.

Lemma filter_length_within {A} (P Q : A -> bool) l :
  (forall x, In x l -> P x = true -> Q x = true) ->
  List.length (filter P (filter Q l)) = List.length (filter P l).
Proof.
  induction l as [|x l IH]; intros H; [reflexivity|]. cbn.
  assert (IH' := IH (fun y Hy => H y (or_intror Hy))).
  destruct (P x) eqn:Px.
  - rewrite (H x (or_introl eq_refl) Px). cbn. rewrite Px. cbn. now rewrite IH'.
  - destruct (Q x); cbn; rewrite ?Px; exact IH'.
Qed.

Lemma filter_length_perm {A} (P : A -> bool) l1 l2 :
  Permutation l1 l2 -> List.length (filter P l1) = List.length (filter P l2).
Proof.
  induction 1 as [|x l1 l2 _ IH|x y l|l1 l2 l3 _ IH1 _ IH2]; cbn.
  - reflexivity.
  - destruct (P x); cbn; now rewrite IH.
  - destruct (P x), (P y); reflexivity.
  - now rewrite IH1.
Qed.

Lemma StronglySorted_app_r {A} (R : A -> A -> Prop) l1 l2 :
  StronglySorted R (l1 ++ l2) -> StronglySorted R l2.
Proof.
  induction l1 as [|a l1 IH]; cbn; intros H; [exact H|].
  inversion H; subst. auto.
Qed.

(** With levels that follow experience, only users with a positive
    metric are ahead of a user with a positive metric. *)
Lemma outranks_positive db ranking_type field x u :
  Ranking.lookup_field ranking_type = Some field ->
  (ranking_type = "level"%string -> levels_consistent db) ->
  In x (users db) -> In u (users db) ->
  0 < field u -> outranks ranking_type field x u -> 0 < field x.
Proof.
  intros Hf Hlv Hx Hu Hpos. unfold outranks.
  destruct (String.eqb_spec ranking_type "level") as [->|_]; [|lia].
  injection Hf as <-. specialize (Hlv eq_refl). unfold levels_consistent in Hlv.
  rewrite Forall_forall in Hlv.
  intros [Hlt|[_ Hlt]]; [|lia].
  rewrite (Hlv x Hx), (Hlv u Hu) in Hlt.
  destruct (Z.lt_ge_cases (exp u) (exp x)) as [|Hle]; [lia|].
  pose proof (calculate_level_mono _ _ Hle). lia.
Qed.

Lemma tied_before_user ranking_type field i j x u :
  tied_before ranking_type (entry_of field i u) (entry_of field j x)
  = (j <? i)
    && ((field x =? field u)
        && (if String.eqb ranking_type "level" then level x =? level u else true)).
Proof. unfold tied_before. cbn. now rewrite andb_assoc. Qed.

Lemma tied_bool ranking_type field x u :
  ((field x =? field u)
   && (if String.eqb ranking_type "level" then level x =? level u else true)) = true
  <-> tied ranking_type field x u.
Proof.
  unfold tied. rewrite andb_true_iff.
  destruct (String.eqb ranking_type "level"); rewrite ?Z.eqb_eq; intuition.
Qed.

(** X22.  The position on the leaderboard and the rank agree up to ties.
    With distinct user ids (and, for the level ranking, levels that follow
    experience), every entry that [get_ranking_data] lists for a user
    shows the value that [get_user_ranking_info] reports for that user,
    and its position is the user's rank plus the number of entries listed
    before it that are level with it: the rank is never worse than the
    position, and the two are equal when nobody level is listed before. *)
Theorem leaderboard_position_is_rank_plus_ties_listed_before
    (db : Db) (ranking_type : string) (limit : Z)
    (rd : Ranking.RankingData) (e : Ranking.Entry) :
  NoDup (ids db) ->
  (ranking_type = "level"%string -> levels_consistent db) ->
  Ranking.get_ranking_data db ranking_type limit = Some rd ->
  In e (Ranking.data rd) ->
  exists info,
    RankInfo.get_user_ranking_info db (Ranking.e_user_id e) ranking_type
    = RankInfo.Ranked info
    /\ RankInfo.value info = Ranking.value e
    /\ RankInfo.total_users info = Ranking.total_users rd
    /\ Ranking.rank e
       = RankInfo.rank info
         + Z.of_nat (List.length (filter (tied_before ranking_type e) (Ranking.data rd)))
    /\ RankInfo.rank info <= Ranking.rank e.
Proof.
  intros Hnd Hlv Hrd He. unfold Ranking.get_ranking_data in Hrd.
  destruct (Ranking.lookup_field ranking_type) as [field|] eqn:Hf; [|discriminate].
  injection Hrd as <-. cbn [Ranking.data Ranking.total_users] in *.
  unfold Ranking.ranked_users in *.
  set (cols := Ranking.order_columns ranking_type field) in *.
  set (l := filter (fun u => field u >? 0) (users db)) in *.
  set (s := Ranking.order_by_desc cols l) in *.
  destruct (sql_limit_split limit s) as (rest & Hs & _).
  set (p := Ranking.sql_limit limit s) in *.
  destruct (enumerate_from_in field p 1 e He) as (p1 & u & p2 & Hp & ->).
  assert (Hsorted : StronglySorted (not_below cols) s) by apply order_by_desc_sorted.
  rewrite Hs, Hp, <- app_assoc in Hsorted. cbn [app] in Hsorted.
  apply StronglySorted_app in Hsorted as [_ Hbefore].
  assert (Hafter : forall y, In y (p2 ++ rest) -> not_below cols u y).
  { assert (Hs' : StronglySorted (not_below cols) s) by apply order_by_desc_sorted.
    rewrite Hs, Hp, <- app_assoc in Hs'. cbn [app] in Hs'.
    apply StronglySorted_app_r in Hs'.
    inversion Hs' as [|? ? _ Hall]; subst. now rewrite Forall_forall in Hall. }
  assert (Hus : In u s).
  { rewrite Hs, Hp. apply in_or_app. left. apply in_or_app. right. now left. }
  assert (Hul : In u l).
  { now apply (Permutation_in _ (order_by_desc_perm cols l)) in Hus. }
  apply filter_In in Hul as [Huin Hupos]. apply Z.gtb_lt in Hupos.
  assert (Hfind : find_user (user_id u) (users db) = Some u)
    by now apply find_user_NoDup.
  cbn [Ranking.e_user_id entry_of].
  rewrite (get_user_ranking_info_rank db _ ranking_type field u Hf Hfind).
  fold cols. eexists. split; [reflexivity|].
  cbn [RankInfo.value RankInfo.total_users RankInfo.rank Ranking.value Ranking.rank].
  split; [reflexivity|]. split; [reflexivity|].
  set (gt := fun x => Ranking.lex_gtb (Ranking.sort_key cols x) (Ranking.sort_key cols u)).
  set (tie := fun x => (field x =? field u)
                       && (if String.eqb ranking_type "level"
                           then level x =? level u else true)).
  assert (Hcount : List.length (filter gt (users db)) = List.length (filter gt p1)).
  { rewrite <- (filter_length_within gt (fun x => field x >? 0) (users db)).
    2:{ intros x Hx Hgt. apply Z.gtb_lt.
        apply (outranks_positive db ranking_type field x u); auto.
        apply outranks_lex. exact Hgt. }
    fold l. rewrite <- (filter_length_perm gt _ _ (order_by_desc_perm cols l)).
    fold s. rewrite Hs, Hp, <- app_assoc. cbn [app].
    rewrite filter_app, length_app. cbn [filter].
    unfold gt at 2. rewrite lex_gtb_irrefl.
    rewrite (filter_length_none gt (p2 ++ rest)); [lia|].
    intros y Hy. apply (Hafter y Hy). }
  assert (Hties : List.length
                    (filter (tied_before ranking_type
                               (entry_of field (1 + Z.of_nat (List.length p1)) u))
                            (Ranking.enumerate_from field 1 p))
                  = List.length (filter (fun x => negb (gt x)) p1)).
  { rewrite Hp, enumerate_from_app, filter_app, length_app.
    rewrite (enumerate_from_filter field _ (fun x => negb (gt x)) p1).
    2:{ intros j x Hj Hx. rewrite tied_before_user.
        destruct (Z.ltb_spec j (1 + Z.of_nat (List.length p1))); [|lia].
        cbn [andb]. fold (tie x).
        pose proof (Hbefore x u Hx (or_introl eq_refl)) as Hnb. unfold not_below in Hnb.
        destruct (gt x) eqn:Hg; cbn [negb].
        - destruct (tie x) eqn:Ht; [|reflexivity].
          apply tied_bool, tied_lex in Ht. fold cols in Ht.
          unfold gt in Hg. rewrite Ht, lex_gtb_irrefl in Hg. discriminate.
        - apply tied_bool, tied_lex. fold cols. now apply lex_gtb_total. }
    rewrite (enumerate_from_filter field _ (fun _ => false) (u :: p2)).
    2:{ intros j x Hj _. rewrite tied_before_user.
        destruct (Z.ltb_spec j (1 + Z.of_nat (List.length p1))); [lia|reflexivity]. }
    rewrite (filter_length_none (fun _ => false)); [lia|reflexivity]. }
  rewrite Hties. unfold RankInfo.count_plus_one. fold gt. rewrite Hcount.
  pose proof (filter_length_partition gt p1).
  cbn [Ranking.rank entry_of]. lia.
Qed.


Lemma leaderboard_position_is_rank_plus_ties_listed_before_witness :
  exists rd e info,
    NoDup (ids tie_db_bob_first)
    /\ Ranking.get_ranking_data tie_db_bob_first "money" 10 = Some rd
    /\ In e (Ranking.data rd)
    /\ Ranking.e_user_id e = "alice"%string
    /\ Ranking.rank e = 2
    /\ RankInfo.get_user_ranking_info tie_db_bob_first (Ranking.e_user_id e) "money"
       = RankInfo.Ranked info
    /\ Ranking.rank e
       = RankInfo.rank info
         + Z.of_nat (List.length (filter (tied_before "money" e) (Ranking.data rd))).
Proof.
  assert (Hnd : NoDup (ids tie_db_bob_first)).
  { repeat constructor; cbn; intros H;
      repeat (destruct H as [H|H]; [discriminate|]); exact H. }
  assert (Hrd : exists rd e,
             Ranking.get_ranking_data tie_db_bob_first "money" 10 = Some rd
             /\ In e (Ranking.data rd)
             /\ Ranking.e_user_id e = "alice"%string
             /\ Ranking.rank e = 2).
  { eexists. eexists. split; [reflexivity|]. split; [right; left; reflexivity|].
    split; reflexivity. }
  destruct Hrd as (rd & e & Hrd & He & Hid & Hpos).
  assert (Hlv : "money"%string = "level"%string -> levels_consistent tie_db_bob_first)
    by discriminate.
  destruct (leaderboard_position_is_rank_plus_ties_listed_before
              tie_db_bob_first "money" 10 rd e Hnd Hlv Hrd He)
    as (info & Hinfo & _ & _ & Hrank & _).
  exists rd, e, info. repeat (split; [assumption|]). exact Hrank.
Defined.


(** ** The ranks of the personal information page *)

Lemma lex_count_lt cols (l : list User) ua ub :
  In ua l ->
  Ranking.lex_gtb (Ranking.sort_key cols ua) (Ranking.sort_key cols ub) = true ->
  (List.length (filter (fun u => Ranking.lex_gtb (Ranking.sort_key cols u)
                                                 (Ranking.sort_key cols ua)) l)
   < List.length (filter (fun u => Ranking.lex_gtb (Ranking.sort_key cols u)
                                                   (Ranking.sort_key cols ub)) l))%nat.
Proof.
  intros Hin Hgt. apply (filter_length_lt _ _ _ ua); auto.
  - intros y _ Hy. now apply (lex_gtb_trans cols y ua ub).
  - apply lex_gtb_irrefl.
Qed.

Lemma checkin_rank_lex db uid m :
  find_user uid (users db) = Some m ->
  RankInfo.checkin_rank (RankInfo.get_user_ranking db uid)
  = RankInfo.count_plus_one
      (fun u => Ranking.lex_gtb
                  (Ranking.sort_key [checkin_streak; total_checkin] u)
                  (Ranking.sort_key [checkin_streak; total_checkin] m)) db.
Proof.
  intros Hm. unfold RankInfo.get_user_ranking. rewrite Hm.
  cbn [RankInfo.checkin_rank]. unfold RankInfo.count_plus_one. do 2 f_equal.
  apply filter_length_ext. intros u _. cbn.
  now rewrite !Z.gtb_ltb, andb_false_r, orb_false_r.
Qed.

(** X23.  The ranks of [UserInfoManager.get_user_ranking].  For a user
    with a row, [money_rank] and [assets_rank] (and the user count) are
    the ones [RankingManager.get_user_ranking_info] reports for the money
    and assets rankings.  A user without a row is given rank 1 three
    times, where the ranking manager reports an error.  [checkin_rank]
    orders by streak before the number of checkins: a longer streak is a
    strictly better rank whatever the totals, and with equal streaks the
    larger total is. *)
Theorem personal_ranks_agree_with_the_ranking_manager (db : Db) (uid : string) :
  let r := RankInfo.get_user_ranking db uid in
  (forall u, find_user uid (users db) = Some u ->
     RankInfo.get_user_ranking_info db uid "money"
     = RankInfo.Ranked (RankInfo.mkInfo (RankInfo.money_rank r) (username u) (money u)
                                        (RankInfo.r_total_users r))
     /\ RankInfo.get_user_ranking_info db uid "assets"
        = RankInfo.Ranked (RankInfo.mkInfo (RankInfo.assets_rank r) (username u)
                                           (money u + bank_money u)
                                           (RankInfo.r_total_users r)))
  /\ (find_user uid (users db) = None ->
      RankInfo.money_rank r = 1 /\ RankInfo.assets_rank r = 1
      /\ RankInfo.checkin_rank r = 1
      /\ RankInfo.get_user_ranking_info db uid "money" = RankInfo.NoSuchUser)
  /\ (forall other u v,
        find_user uid (users db) = Some u ->
        find_user other (users db) = Some v ->
        checkin_streak v < checkin_streak u
        \/ (checkin_streak v = checkin_streak u /\ total_checkin v < total_checkin u) ->
        RankInfo.checkin_rank r
        < RankInfo.checkin_rank (RankInfo.get_user_ranking db other)).
Proof.
  cbv zeta. split; [|split].
  - intros u Hu. unfold RankInfo.get_user_ranking_info, RankInfo.get_user_ranking.
    rewrite Hu. cbn. split; reflexivity.
  - intros Hnone. unfold RankInfo.get_user_ranking_info, RankInfo.get_user_ranking.
    rewrite Hnone. cbn.
    unfold RankInfo.count_plus_one.
    rewrite !(filter_length_none (fun _ => false)) by reflexivity.
    repeat split.
  - intros other u v Hu Hv Hlt.
    rewrite (checkin_rank_lex db uid u Hu), (checkin_rank_lex db other v Hv).
    unfold RankInfo.count_plus_one.
    apply find_user_some in Hu as [Hin _].
    pose proof (lex_count_lt [checkin_streak; total_checkin] (users db) u v Hin) as Hc.
    assert (Hgt : Ranking.lex_gtb (Ranking.sort_key [checkin_streak; total_checkin] u)
                    (Ranking.sort_key [checkin_streak; total_checkin] v) = true).
    { cbn. rewrite andb_false_r, orb_false_r.
      apply orb_true_iff. rewrite andb_true_iff. lia. }
    specialize (Hc Hgt). lia.
Qed.


(** ** Recent activities *)

Lemma sql_limit_length {A} (n : Z) (l : list A) :
  0 <= n ->
  Z.of_nat (List.length (Ranking.sql_limit n l)) = Z.min n (Z.of_nat (List.length l)).
Proof.
  intros Hn. unfold Ranking.sql_limit. destruct (Z.ltb_spec n 0); [lia|].
  rewrite length_firstn. lia.
Qed.

Lemma sort_by_desc_length {A} (key : A -> Z) l :
  List.length (sort_by_desc key l) = List.length l.
Proof. apply Permutation_length, sort_by_desc_perm. Qed.

(** X24.  What [get_recent_activities] returns for a [limit >= 0]: the
    newest [limit // 2] checkins and the newest [limit // 2] bank
    transactions of the user and nothing else, newest first.  Their
    number is the sum of the two capped counts, so it never exceeds
    [limit], and stays below it when [limit] is odd (the page that asks
    for 5 activities gets at most 4) or when one of the two kinds has
    fewer than [limit // 2] records. *)
Theorem recent_activities_take_half_of_each_kind
    (db : Db) (uid : string) (limit : Z) :
  0 <= limit ->
  let acts := Activities.get_recent_activities db uid limit in
  let checkins := filter (fun c => String.eqb (cr_user_id c) uid) (checkin_records db) in
  Permutation acts
    (map Activities.of_checkin (Activities.recent_checkins db uid (limit / 2))
     ++ map Activities.of_transaction
          (Activities.recent_transactions db uid (limit / 2)))
  /\ Z.of_nat (List.length acts)
     = Z.min (limit / 2) (Z.of_nat (List.length checkins))
       + Z.min (limit / 2) (Z.of_nat (List.length (txs_of db uid)))
  /\ Z.of_nat (List.length acts) <= limit
  /\ (Z.odd limit = true -> Z.of_nat (List.length acts) < limit)
  /\ StronglySorted (desc_by Activities.timestamp) acts
  /\ (forall c, In c (Activities.recent_checkins db uid (limit / 2)) ->
        In c (checkin_records db) /\ cr_user_id c = uid)
  /\ (forall t, In t (Activities.recent_transactions db uid (limit / 2)) ->
        In t (bank_transactions db) /\ tx_user_id t = uid)
  /\ (forall c, In c checkins ->
        In c (Activities.recent_checkins db uid (limit / 2))
        \/ forall c', In c' (Activities.recent_checkins db uid (limit / 2)) ->
                      cr_created_at c <= cr_created_at c')
  /\ (forall t, In t (txs_of db uid) ->
        In t (Activities.recent_transactions db uid (limit / 2))
        \/ forall t', In t' (Activities.recent_transactions db uid (limit / 2)) ->
                      tx_created_at t <= tx_created_at t').
Proof.
  intros Hl acts checkins.
  assert (Hhalf : 0 <= limit / 2) by (apply Z.div_pos; lia).
  assert (Hdouble : 2 * (limit / 2) <= limit) by (apply Z.mul_div_le; lia).
  set (merged := map Activities.of_checkin (Activities.recent_checkins db uid (limit / 2))
                 ++ map Activities.of_transaction
                      (Activities.recent_transactions db uid (limit / 2))).
  assert (Hlen : Z.of_nat (List.length merged)
                 = Z.min (limit / 2) (Z.of_nat (List.length checkins))
                   + Z.min (limit / 2) (Z.of_nat (List.length (txs_of db uid)))).
  { subst merged. rewrite length_app, !length_map.
    unfold Activities.recent_checkins, Activities.recent_transactions.
    rewrite Nat2Z.inj_add, !sql_limit_length, !sort_by_desc_length by assumption.
    reflexivity. }
  assert (Hacts : acts = sort_by_desc Activities.timestamp merged).
  { subst acts. unfold Activities.get_recent_activities. fold merged.
    unfold slice_to. destruct (Z.ltb_spec limit 0); [lia|].
    apply firstn_all2. rewrite sort_by_desc_length. lia. }
  rewrite Hacts, sort_by_desc_length, Hlen.
  split; [apply sort_by_desc_perm|]. split; [reflexivity|]. split; [lia|].
  split.
  { intros Hodd. rewrite Z.odd_spec in Hodd. destruct Hodd as [k ->].
    assert ((2 * k + 1) / 2 = k) by (Z.div_mod_to_equations; lia). lia. }
  split; [apply sort_by_desc_sorted|]. split.
  - intros c Hc. unfold Activities.recent_checkins in Hc.
    apply sql_limit_in, sort_by_desc_in, filter_In in Hc as [Hin Hid].
    split; [assumption|]. now apply String.eqb_eq.
  - split; [|split].
    + intros t Ht. unfold Activities.recent_transactions in Ht.
      apply sql_limit_in, sort_by_desc_in, filter_In in Ht as [Hin Hid].
      split; [assumption|]. now apply String.eqb_eq.
    + intros c Hc. unfold Activities.recent_checkins. fold checkins.
      destruct (sql_limit_left_out (desc_by cr_created_at) (limit / 2)
                  (sort_by_desc cr_created_at checkins) c
                  (sort_by_desc_sorted _ _)) as [Hk|[_ Hall]];
        [now apply sort_by_desc_in|now left|right; exact Hall].
    + intros t Ht. unfold Activities.recent_transactions. fold (txs_of db uid).
      destruct (sql_limit_left_out (desc_by tx_created_at) (limit / 2)
                  (sort_by_desc tx_created_at (txs_of db uid)) t
                  (sort_by_desc_sorted _ _)) as [Hk|[_ Hall]];
        [now apply sort_by_desc_in|now left|right; exact Hall].
Qed.

Lemma recent_activities_take_half_of_each_kind_witness :
  0 <= 5
  /\ Activities.get_recent_activities streak6_db "alice" 5
     = [Activities.CheckinActivity 9 120 6 777600]
  /\ Z.of_nat (List.length (Activities.get_recent_activities streak6_db "alice" 5)) < 5.
Proof.
  split; [lia|]. split; [reflexivity|].
  destruct (recent_activities_take_half_of_each_kind streak6_db "alice" 5 ltac:(lia))
    as (_ & _ & _ & Hodd & _).
  apply Hodd. reflexivity.
Defined.


(** ** The job list *)

Lemma lookup_job_listed n j : In (n, j) Work.jobs -> Work.lookup_job n = Some j.
Proof.
  unfold Work.jobs. cbn [In]. intros H.
  repeat (destruct H as [H|H]; [injection H as <- <-; reflexivity|]).
  destruct H.
Qed.

Lemma lookup_job_in n j : Work.lookup_job n = Some j -> In (n, j) Work.jobs.
Proof.
  unfold Work.lookup_job. destruct (find _ Work.jobs) as [[n' j']|] eqn:E; [|discriminate].
  intros [= <-]. apply find_some in E as [Hin Hn]. cbn in Hn.
  apply String.eqb_eq in Hn. now subst n'.
Qed.

Lemma find_first {A} (P : A -> bool) l w :
  find P l = Some w ->
  exists l1 l2, l = l1 ++ w :: l2 /\ P w = true /\ forall x, In x l1 -> P x = false.
Proof.
  induction l as [|a l IH]; [discriminate|]. cbn.
  destruct (P a) eqn:Pa.
  - intros [= <-]. exists [], l. repeat split; auto. intros x [].
  - intros H. destruct (IH H) as (l1 & l2 & -> & Pw & Hnone).
    exists (a :: l1), l2. repeat split; auto.
    intros x [<-|Hx]; auto.
Qed.

(** In a table sorted newest first, the first record of a kind is the
    newest of that kind. *)
Lemma first_match_is_latest (P : WorkRecord -> bool) s w :
  StronglySorted (desc_by work_time) s ->
  find P s = Some w ->
  forall w', In w' s -> P w' = true -> work_time w' <= work_time w.
Proof.
  intros Hs Hf w' Hin Pw'.
  destruct (find_first P s w Hf) as (l1 & l2 & -> & Pw & Hnone).
  apply in_app_or in Hin as [Hin|[<-|Hin]].
  - rewrite (Hnone w' Hin) in Pw'. discriminate.
  - lia.
  - apply StronglySorted_app_r in Hs. inversion Hs as [|? ? _ Hall]; subst.
    rewrite Forall_forall in Hall. apply (Hall w' Hin).
Qed.

(** [last_work] is the time of the newest record of the user for the
    job. *)
Lemma last_work_fold uid job_name l : forall best,
  (forall t0, best = Some t0 ->
     exists t, fold_left (newer_of uid job_name) l best = Some t /\ t0 <= t)
  /\ (forall w, In w l -> wr_user_id w = uid -> work_type w = job_name ->
        exists t, fold_left (newer_of uid job_name) l best = Some t /\ work_time w <= t)
  /\ (forall t, fold_left (newer_of uid job_name) l best = Some t ->
        best = Some t
        \/ exists w, In w l /\ wr_user_id w = uid /\ work_type w = job_name
                     /\ work_time w = t).
Proof.
  induction l as [|a l IH]; intros best.
  - cbn. split; [|split; [intros w []|auto]].
    intros t0 ->. exists t0. split; [reflexivity|lia].
  - cbn [fold_left].
    destruct (IH (newer_of uid job_name best a)) as (IH1 & IH2 & IH3).
    split; [|split].
    + intros t0 ->.
      assert (Hn : exists t1, newer_of uid job_name (Some t0) a = Some t1 /\ t0 <= t1).
      { unfold newer_of. destruct (_ && _); eexists; split; try reflexivity; lia. }
      destruct Hn as (t1 & Hn & Hle1). destruct (IH1 t1 Hn) as (t & Ht & Hle).
      exists t. split; [exact Ht|lia].
    + intros w [<-|Hin] Hu Hj; [|now apply IH2].
      assert (Hn : exists t1, newer_of uid job_name best a = Some t1
                              /\ work_time a <= t1).
      { unfold newer_of. rewrite Hu, Hj, !String.eqb_refl. cbn [andb].
        destruct best; eexists; split; try reflexivity; lia. }
      destruct Hn as (t1 & Hn & Hle1). destruct (IH1 t1 Hn) as (t & Ht & Hle).
      exists t. split; [exact Ht|lia].
    + intros t Ht. destruct (IH3 t Ht) as [Hb|(w & Hin & Hu & Hj & Hw)].
      * unfold newer_of in Hb.
        destruct (String.eqb (wr_user_id a) uid && String.eqb (work_type a) job_name) eqn:E;
          [|now left].
        apply andb_true_iff in E as [Eu Ej].
        apply String.eqb_eq in Eu. apply String.eqb_eq in Ej.
        destruct best as [t0|].
        -- injection Hb as Hb. destruct (Z.max_spec t0 (work_time a)) as [[_ Hm]|[_ Hm]].
           ++ right. exists a.
              split; [now left|]. split; [exact Eu|]. split; [exact Ej|lia].
           ++ left. f_equal. lia.
        -- injection Hb as Hb. right. exists a.
           split; [now left|]. split; [exact Eu|]. split; [exact Ej|exact Hb].
      * right. exists w. split; [now right|]. auto.
Qed.

Lemma last_work_ge db uid job_name w :
  In w (work_records db) -> wr_user_id w = uid -> work_type w = job_name ->
  exists t, Work.last_work db uid job_name = Some t /\ work_time w <= t.
Proof.
  intros Hin Hu Hj.
  destruct (last_work_fold uid job_name (work_records db) None) as (_ & H & _).
  now apply H.
Qed.

Lemma last_work_in db uid job_name t :
  Work.last_work db uid job_name = Some t ->
  exists w, In w (work_records db) /\ wr_user_id w = uid /\ work_type w = job_name
            /\ work_time w = t.
Proof.
  intros H.
  destruct (last_work_fold uid job_name (work_records db) None) as (_ & _ & H3).
  destruct (H3 t H) as [Hn|Hw]; [discriminate|exact Hw].
Qed.

Lemma recent_works_in db uid w :
  In w (JobList.recent_works db uid) -> In w (work_records db) /\ wr_user_id w = uid.
Proof.
  unfold JobList.recent_works. intros H.
  apply sql_limit_in, sort_by_desc_in, filter_In in H as [Hin Hu].
  split; [assumption|]. now apply String.eqb_eq.
Qed.

(** [work] once the job is known and the level check is passed. *)
Lemma work_past_level cfg db (now : Clock) r uid uname job_name j u :
  let db0 := _ensure_user_exists db now uid uname in
  Work.lookup_job job_name = Some j ->
  find_user uid (users db0) = Some u ->
  Work.level_required j <= level u ->
  (Work.daily_work_limit <= Work.today_count db0 uid (date_of (local_time now)) ->
   fst (Work.work cfg db now r uid uname job_name) = Failure DailyQuotaExceeded)
  /\ (forall t, Work.last_work db0 uid job_name = Some t ->
        Work.cooling_down (local_time now) t
          (inject_Z (Work.cooldown_hours j) * Work.cooldown_multiplier cfg) = true ->
        is_success (fst (Work.work cfg db now r uid uname job_name)) = false)
  /\ (Work.today_count db0 uid (date_of (local_time now)) < Work.daily_work_limit ->
      (forall t, Work.last_work db0 uid job_name = Some t ->
         Work.cooling_down (local_time now) t
           (inject_Z (Work.cooldown_hours j) * Work.cooldown_multiplier cfg) = false) ->
      is_success (fst (Work.work cfg db now r uid uname job_name)) = true).
Proof.
  intros db0 Hj Hu Hlv. unfold Work.work. fold db0. rewrite Hj, Hu.
  destruct (Z.ltb_spec (level u) (Work.level_required j)); [lia|].
  split; [|split].
  - intros Hq.
    destruct (Z.geb_spec (Work.today_count db0 uid (date_of (local_time now))) Work.daily_work_limit);
      [reflexivity|lia].
  - intros t Ht Hc. rewrite Ht, Hc.
    destruct (_ >=? _); reflexivity.
  - intros Hq Hfree.
    destruct (Z.geb_spec (Work.today_count db0 uid (date_of (local_time now))) Work.daily_work_limit);
      [lia|].
    destruct (Work.last_work db0 uid job_name) as [t|].
    + rewrite (Hfree t eq_refl).
      apply lookup_job_sound in Hj as (_ & _ & Hrange).
      destruct (randint_some r _ _ (proj2 Hrange)) as [x Hx].
      unfold Work._calculate_salary. rewrite Hx. reflexivity.
    + apply lookup_job_sound in Hj as (_ & _ & Hrange).
      destruct (randint_some r _ _ (proj2 Hrange)) as [x Hx].
      unfold Work._calculate_salary. rewrite Hx. reflexivity.
Qed.


Lemma entry_for_spec cfg now recent lvl n j :
  let e := JobList.entry_for cfg now recent lvl (n, j) in
  let hours := (inject_Z (Work.cooldown_hours j) * Work.cooldown_multiplier cfg)%Q in
  JobList.name e = n /\ JobList.config e = j /\ JobList.user_level e = lvl
  /\ (JobList.available e = false ->
      exists w, find (fun w => String.eqb (work_type w) n) recent = Some w
                /\ Work.cooling_down now (work_time w) hours = true)
  /\ (JobList.available e = true ->
      forall w, find (fun w => String.eqb (work_type w) n) recent = Some w ->
                Work.cooling_down now (work_time w) hours = false).
Proof.
  cbv zeta. unfold JobList.entry_for.
  destruct (find _ recent) as [w|]; cbn [JobList.name JobList.config JobList.user_level
                                         JobList.available].
  - fold (Work.cooling_down now (work_time w)
            (inject_Z (Work.cooldown_hours j) * Work.cooldown_multiplier cfg)).
    repeat split; auto.
    + intros H. exists w. split; [reflexivity|]. now apply negb_false_iff.
    + intros H w' [= <-]. now apply negb_true_iff.
  - repeat split; auto; discriminate.
Qed.

Lemma work_not_refused cfg db (now : Clock) r uid uname job_name j u :
  Work.lookup_job job_name = Some j ->
  find_user uid (users (_ensure_user_exists db now uid uname)) = Some u ->
  Work.level_required j <= level u ->
  fst (Work.work cfg db now r uid uname job_name) <> Failure UnknownJob
  /\ fst (Work.work cfg db now r uid uname job_name) <> Failure LevelTooLow.
Proof.
  intros Hj Hu Hlv. unfold Work.work. rewrite Hj, Hu.
  destruct (Z.ltb_spec (level u) (Work.level_required j)); [lia|].
  destruct (_ >=? _); [split; discriminate|].
  destruct (match Work.last_work _ uid job_name with Some _ => _ | None => _ end);
    [split; discriminate|].
  destruct (Work._calculate_salary cfg r j (level u)); split; discriminate.
Qed.

(** X25.  [get_available_jobs] agrees with [work].  Every job it lists
    is a job of the catalogue whose level requirement the user meets, so
    [work] never refuses it as unknown or for the level; when the list
    says the daily quota is used up, [work] declines for the quota; a job
    shown as not available is declined by [work]; and a job shown as
    available, with quota left, is carried out by [work], provided the
    user has at most 10 work records, the number the list looks at. *)
Theorem listed_jobs_agree_with_work
    (cfg : GameSettings) (db : Db) (now : Clock) (uid uname : string)
    (e : JobList.Entry) (r : Rand) :
  In e (JobList.jobs (fst (JobList.get_available_jobs cfg db now uid uname))) ->
  let listing := fst (JobList.get_available_jobs cfg db now uid uname) in
  let out := fst (Work.work cfg db now r uid uname (JobList.name e)) in
  Work.lookup_job (JobList.name e) = Some (JobList.config e)
  /\ Work.level_required (JobList.config e) <= JobList.user_level e
  /\ JobList.today_work_count listing = Work.today_count db uid (date_of (local_time now))
  /\ out <> Failure UnknownJob
  /\ out <> Failure LevelTooLow
  /\ (JobList.can_work_today listing = false -> out = Failure DailyQuotaExceeded)
  /\ (JobList.available e = false -> is_success out = false)
  /\ (JobList.available e = true ->
      JobList.can_work_today listing = true ->
      (List.length (filter (fun w => String.eqb (wr_user_id w) uid) (work_records db))
       <= 10)%nat ->
      is_success out = true).
Proof.
  intros He listing out. subst listing out.
  unfold JobList.get_available_jobs in *.
  set (db0 := _ensure_user_exists db now uid uname) in *.
  destruct (ensure_finds db now uid uname) as (u & Hu & _). fold db0 in Hu.
  rewrite Hu in *. cbn [fst JobList.jobs JobList.can_work_today JobList.today_work_count] in *.
  apply in_map_iff in He as ([n j] & <- & Hin).
  apply filter_In in Hin as [Hin Hgate]. cbn [snd] in Hgate.
  apply negb_true_iff, Z.ltb_ge in Hgate.
  pose proof (lookup_job_listed n j Hin) as Hj.
  destruct (entry_for_spec cfg (local_time now) (JobList.recent_works db0 uid)
              (level u) n j)
    as (-> & -> & -> & Hno & Hyes).
  destruct (work_not_refused cfg db now r uid uname n j u Hj Hu Hgate) as [Hn1 Hn2].
  destruct (work_past_level cfg db now r uid uname n j u Hj Hu Hgate)
    as (Hquota & Hcool & Hgo). fold db0 in Hquota, Hcool, Hgo.
  assert (Hcount : Work.today_count db0 uid (date_of (local_time now))
                   = Work.today_count db uid (date_of (local_time now)))
    by (unfold Work.today_count, db0; now rewrite ensure_work_records).
  split; [exact Hj|]. split; [exact Hgate|]. split; [exact Hcount|].
  split; [exact Hn1|]. split; [exact Hn2|]. split; [|split].
  - intros Hfull. apply Z.ltb_ge in Hfull. now apply Hquota.
  - intros Hoff. destruct (Hno Hoff) as (w & Hfind & Hcd).
    apply find_some in Hfind as [Hw Hty]. apply String.eqb_eq in Hty.
    apply recent_works_in in Hw as [Hw Hwu].
    destruct (last_work_ge db0 uid n w Hw Hwu Hty) as (t & Ht & Hle).
    apply (Hcool t Ht). now apply (cooling_down_later (local_time now) (work_time w)).
  - intros Hon Hleft Hfew. apply Z.ltb_lt in Hleft.
    apply Hgo; [exact Hleft|].
    intros t Ht. apply last_work_in in Ht as (w' & Hw' & Hu' & Hty' & <-).
    assert (Hall : JobList.recent_works db0 uid
                   = sort_by_desc work_time
                       (filter (fun w => String.eqb (wr_user_id w) uid) (work_records db0))).
    { unfold JobList.recent_works, Ranking.sql_limit. cbn [Z.ltb Z.compare].
      apply firstn_all2. rewrite sort_by_desc_length.
      unfold db0. rewrite ensure_work_records.
      change (Z.to_nat 10) with 10%nat. exact Hfew. }
    assert (Hrecent : In w' (JobList.recent_works db0 uid)).
    { rewrite Hall. apply sort_by_desc_in, filter_In. split; [exact Hw'|].
      now apply String.eqb_eq. }
    destruct (find (fun w => String.eqb (work_type w) n) (JobList.recent_works db0 uid))
      as [w|] eqn:Hfind.
    + assert (Hle : work_time w' <= work_time w).
      { apply (first_match_is_latest _ _ w) with (w' := w') in Hfind; auto.
        - rewrite Hall. apply sort_by_desc_sorted.
        - now apply String.eqb_eq. }
      specialize (Hyes Hon w eq_refl).
      destruct (Work.cooling_down (local_time now) (work_time w') _) eqn:Hcd;
        [|reflexivity].
      rewrite (cooling_down_later _ _ _ _ Hcd Hle) in Hyes. discriminate.
    + pose proof (find_none _ _ Hfind w' Hrecent) as Hn. cbn in Hn.
      rewrite Hty', String.eqb_refl in Hn. discriminate.
Qed.


Lemma listed_jobs_agree_with_work_witness :
  exists e,
    In e (JobList.jobs (fst (JobList.get_available_jobs default_settings savers_db
                               (utc_host 1000) "bob" "Bob")))
    /\ JobList.user_level e = 5
    /\ JobList.available e = true
    /\ is_success (fst (Work.work default_settings savers_db (utc_host 1000) (mkRand 0 3)
                          "bob" "Bob" (JobList.name e))) = true.
Proof.
  assert (He : exists e,
             In e (JobList.jobs (fst (JobList.get_available_jobs default_settings
                                        savers_db (utc_host 1000) "bob" "Bob")))
             /\ JobList.user_level e = 5
             /\ JobList.available e = true).
  { eexists. split; [left; reflexivity|]. split; reflexivity. }
  destruct He as (e & He & Hlv & Hon).
  destruct (listed_jobs_agree_with_work default_settings savers_db (utc_host 1000) "bob" "Bob"
              e (mkRand 0 3) He)
    as (_ & _ & _ & _ & _ & _ & _ & Hgo).
  exists e. split; [exact He|]. split; [exact Hlv|]. split; [exact Hon|].
  apply Hgo; [exact Hon|reflexivity|cbn; lia].
Defined.


(** ** Robbery statistics *)

Lemma robber_cooling_rob_entry cfg db (now : Clock) a an v vn :
  robber_cooling cfg (rob_entry db now a an v vn) now a = robber_cooling cfg db now a.
Proof.
  unfold robber_cooling, Robbery.last_robbery. now rewrite rob_entry_records.
Qed.

Lemma get_robbery_stats_can_rob cfg db now uid info :
  RobStats.get_robbery_stats cfg db now uid = Some info ->
  exists u,
    find_user uid (users db) = Some u
    /\ RobStats.s_level info = level u
    /\ RobStats.s_money info = money u
    /\ RobStats.can_rob info
       = negb (robber_cooling cfg db now uid)
         && (level u >=? Robbery.level_requirement cfg)
    /\ (robber_cooling cfg db now uid = false ->
        RobStats.cooldown_remaining info = 0%Q).
Proof.
  unfold RobStats.get_robbery_stats, robber_cooling.
  destruct (find_user uid (users db)) as [u|]; [|discriminate].
  unfold Work.cooling_down.
  destruct (Robbery.last_robbery db uid) as [t|].
  - destruct (Qltb _ _); intros H;
      assert (Hi : forall {X} (f : RobStats.Info -> X) a b, Some a = Some b -> f b = f a)
        by (intros X f a b [= ->]; reflexivity);
      exists u; split; [reflexivity| |reflexivity|].
    + split; [exact (Hi _ RobStats.s_level _ _ H)|].
      split; [exact (Hi _ RobStats.s_money _ _ H)|].
      split; [exact (Hi _ RobStats.can_rob _ _ H)|discriminate].
    + split; [exact (Hi _ RobStats.s_level _ _ H)|].
      split; [exact (Hi _ RobStats.s_money _ _ H)|].
      split; [exact (Hi _ RobStats.can_rob _ _ H)|].
      intros _. exact (Hi _ RobStats.cooldown_remaining _ _ H).
  - intros H.
    assert (Hi : forall {X} (f : RobStats.Info -> X) a b, Some a = Some b -> f b = f a)
      by (intros X f a b [= ->]; reflexivity).
    exists u. split; [reflexivity|].
    split; [exact (Hi _ RobStats.s_level _ _ H)|].
    split; [exact (Hi _ RobStats.s_money _ _ H)|].
    split; [exact (Hi _ RobStats.can_rob _ _ H)|].
    intros _. exact (Hi _ RobStats.cooldown_remaining _ _ H).
Qed.


(** X26.  [can_rob] of [get_robbery_stats] agrees with the gates of
    [rob_user].  When it is false, every robbery the user attempts at that
    moment is declined.  When it is true, an attempt on somebody else is
    not declined for the level or the cooldown, no cooldown is reported as
    remaining, and the attempt is carried out whenever the victim's cash
    reaches the protection amount. *)
Theorem can_rob_agrees_with_the_robbery_gates
    (cfg : GameSettings) (db : Db) (now : Clock) (uid : string) (info : RobStats.Info)
    (r : Rand) (robber_name victim victim_name : string) :
  RobStats.get_robbery_stats cfg db now uid = Some info ->
  let out := fst (Robbery.rob_user cfg db now r uid robber_name victim victim_name) in
  RobStats.s_money info = cash_of db uid
  /\ RobStats.s_level info = field_of level db uid
  /\ (RobStats.can_rob info = false -> is_success out = false)
  /\ (RobStats.can_rob info = true ->
      (RobStats.cooldown_remaining info == 0)%Q
      /\ (victim <> uid ->
          out <> Failure LevelTooLow
          /\ out <> Failure OnCooldown
          /\ (is_success out = true
              <-> Robbery.protection_amount cfg <= cash_of db victim))).
Proof.
  intros H out.
  apply get_robbery_stats_can_rob in H as (u & Hu & Hlv & Hm & Hcan & Hrem).
  rewrite Hcan.
  split; [unfold cash_of; now rewrite Hu|].
  split; [unfold field_of; now rewrite Hu|].
  destruct (rob_entry_keeps_level db now uid robber_name victim victim_name uid u Hu)
    as (u' & Hu' & Hlevel).
  pose proof (robber_cooling_rob_entry cfg db now uid robber_name victim victim_name)
    as Hcool.
  subst out.
  destruct (rob_user_gates cfg db now r uid robber_name victim victim_name)
    as [[Hself E]|(Hne & rd & vd & Hrd & Hvd & Hcase)].
  - rewrite E. cbn [fst is_success]. split; [reflexivity|].
    intros Hyes. split; [|congruence].
    rewrite Hrem; [reflexivity|].
    apply andb_true_iff in Hyes as [Hc _]. now apply negb_true_iff.
  - rewrite Hu' in Hrd. injection Hrd as <-. rewrite Hcool in Hcase.
    destruct Hcase as [[Hlow E]|[(Hok & Hcd & E)|[Hok Hfree]]].
    + rewrite E. cbn [fst is_success]. split; [reflexivity|].
      intros Hyes. apply andb_true_iff in Hyes as [_ Hge]. lia.
    + rewrite E. cbn [fst is_success]. split; [reflexivity|].
      intros Hyes. rewrite Hcd in Hyes. discriminate.
    + split.
      * intros Hno. rewrite Hfree in Hno. cbn [negb andb] in Hno. lia.
      * intros _. split; [rewrite (Hrem Hfree); reflexivity|].
        intros _.
        assert (Hcash : money vd = cash_of db victim).
        { rewrite <- (cash_of_rob_entry db now uid robber_name victim victim_name).
          unfold cash_of. now rewrite Hvd. }
        rewrite (rob_user_past_gates cfg db now r uid robber_name victim victim_name
                   u' vd Hne Hu' Hvd Hok).
        2:{ now rewrite Hcool. }
        rewrite Hcash.
        destruct (Z.ltb_spec (cash_of db victim) (Robbery.protection_amount cfg)).
        -- cbn [fst is_success].
           split; [discriminate|]. split; [discriminate|].
           split; [discriminate|intros; exfalso; lia].
        -- destruct (Qltb _ _).
           ++ destruct (loot_some cfg r (cash_of db victim)) as [amt ->].
              cbn [fst is_success].
              split; [discriminate|]. split; [discriminate|]. split; auto.
           ++ cbn [fst is_success].
              split; [discriminate|]. split; [discriminate|]. split; auto.
Qed.


Lemma can_rob_agrees_with_the_robbery_gates_witness :
  exists info,
    RobStats.get_robbery_stats default_settings (heist_db 220) (utc_host 100000) "bob" = Some info
    /\ RobStats.can_rob info = true
    /\ fst (Robbery.rob_user default_settings (heist_db 220) (utc_host 100000) (mkRand 0 7)
              "bob" "Bob" "alice" "Alice") <> Failure OnCooldown.
Proof.
  assert (Hi : exists info,
             RobStats.get_robbery_stats default_settings (heist_db 220) (utc_host 100000) "bob"
             = Some info
             /\ RobStats.can_rob info = true)
    by (eexists; split; reflexivity).
  destruct Hi as (info & Hinfo & Hcan).
  destruct (can_rob_agrees_with_the_robbery_gates default_settings (heist_db 220)
              (utc_host 100000) "bob" info (mkRand 0 7) "Bob" "alice" "Alice" Hinfo)
    as (_ & _ & _ & Hyes).
  exists info. split; [exact Hinfo|]. split; [exact Hcan|].
  destruct (Hyes Hcan) as [_ Hgate].
  apply Hgate. discriminate.
Defined.


(** ** The report of the interest run *)

Lemma sum_map_add {A} (f g : A -> Z) l :
  fold_right Z.add 0 (map (fun x => f x + g x) l)
  = fold_right Z.add 0 (map f l) + fold_right Z.add 0 (map g l).
Proof. induction l as [|x l IH]; cbn [map fold_right]; lia. Qed.

Lemma sum_map_ext_in {A} (f g : A -> Z) l :
  (forall x, In x l -> f x = g x) ->
  fold_right Z.add 0 (map f l) = fold_right Z.add 0 (map g l).
Proof. intros H. f_equal. now apply map_ext_in. Qed.

Lemma interest_loop_report cfg now rows : forall st,
  let rep := snd (fold_left (credit_step cfg now) rows st) in
  let new := flat_map (fun row => interest_records cfg now (fst row) (snd row)) rows in
  Bank.processed_users rep = Bank.processed_users (snd st) + Z.of_nat (List.length new)
  /\ Bank.total_interest rep
     = Bank.total_interest (snd st) + fold_right Z.add 0 (map tx_amount new).
Proof.
  induction rows as [|[uid b] rows IH]; intros [db rep]; cbn [fold_left flat_map fst snd].
  - cbn. lia.
  - destruct (IH (credit_step cfg now (db, rep) (uid, b))) as [-> ->].
    rewrite length_app, map_app, sum_app.
    unfold credit_step, interest_records.
    destruct (_ >? _); cbn [snd Bank.processed_users Bank.total_interest List.length
                            map fold_right tx_amount]; lia.
Qed.

Lemma interest_records_spec cfg now rows :
  Forall (fun t => transaction_type t = interest_tx /\ 0 < tx_amount t
                   /\ tx_created_at t = now
                   /\ balance_after t = balance_before t + tx_amount t)
         (flat_map (fun row => interest_records cfg now (fst row) (snd row)) rows).
Proof.
  induction rows as [|[uid b] rows IH]; cbn [flat_map fst snd]; [constructor|].
  apply Forall_app. split; [|exact IH].
  unfold interest_records. destruct (Z.gtb_spec (interest_due cfg b) 0);
    constructor; [|constructor]. cbn. repeat split; lia.
Qed.

Lemma interest_paid_total cfg now (us : list User) :
  fold_right Z.add 0
    (map tx_amount
       (flat_map (fun row => interest_records cfg now (fst row) (snd row))
          (map (fun u => (user_id u, bank_money u))
               (filter (fun u => bank_money u >? 0) us))))
  = fold_right Z.add 0 (map (fun u => interest_paid cfg (bank_money u)) us).
Proof.
  induction us as [|u us IH]; [reflexivity|]. cbn [filter map fold_right].
  unfold interest_paid at 1.
  destruct (bank_money u >? 0); cbn [andb map flat_map fst snd].
  - rewrite map_app, sum_app, IH. unfold interest_records.
    destruct (_ >? _); cbn [map fold_right tx_amount]; lia.
  - rewrite IH. lia.
Qed.

Lemma total_savings_by_id db :
  NoDup (ids db) ->
  total_savings db = fold_right Z.add 0 (map (savings_of db) (ids db)).
Proof.
  intros Hnd. unfold total_savings, ids. rewrite map_map.
  apply sum_map_ext_in. intros u Hu. unfold savings_of.
  now rewrite (find_user_NoDup _ _ Hnd Hu).
Qed.

Lemma apply_daily_interest_cash cfg db now who :
  NoDup (ids db) ->
  cash_of (snd (Bank.apply_daily_interest cfg db now)) who = cash_of db who.
Proof.
  intros Hnd. unfold ids in Hnd.
  pose proof (interest_loop_effect cfg now (Bank.savers db)
                (db, Bank.mkInterestReport 0 0) who) as Hloop.
  rewrite savers_ids in Hloop.
  specialize (Hloop (NoDup_map_filter _ _ _ Hnd)).
  cbv zeta in Hloop. cbn [fst] in Hloop. destruct Hloop as [Hout Hsel].
  destruct (apply_daily_interest_snd cfg db now) as [-> | ->]; [|reflexivity].
  destruct (fold_left _ _ _) as [db1 rep1]. cbn [fst snd] in *.
  unfold cash_of.
  destruct (in_dec string_dec who
              (map user_id (filter (fun u => bank_money u >? 0) (users db))))
    as [Hin|Hnot].
  - apply in_map_iff in Hin as (u & <- & Hu).
    destruct (Hsel (bank_money u)) as [-> _].
    { unfold Bank.savers. apply in_map_iff. exists u. split; [reflexivity|exact Hu]. }
    destruct (find_user (user_id u) (users db)) as [w|]; [|reflexivity].
    cbn [option_map]. unfold credited. now destruct (_ >? _).
  - now destruct (Hout Hnot) as [-> _].
Qed.

(** X27.  The report of [apply_daily_interest] accounts for the money it
    creates.  The run appends only interest records, each with a positive
    amount and the time of the run; [processed_users] is their number and
    [total_interest] the sum of their amounts; and, with distinct user
    ids, the savings held by all users together grow by exactly
    [total_interest], while nobody's cash changes. *)
Theorem interest_report_accounts_for_the_money_created
    (cfg : GameSettings) (db : Db) (now : Z)
    (rep : Bank.InterestReport) (db' : Db) :
  Bank.apply_daily_interest cfg db now = (Success rep, db') ->
  exists new,
    bank_transactions db' = bank_transactions db ++ new
    /\ Forall (fun t => transaction_type t = interest_tx /\ 0 < tx_amount t
                        /\ tx_created_at t = now
                        /\ balance_after t = balance_before t + tx_amount t) new
    /\ Bank.processed_users rep = Z.of_nat (List.length new)
    /\ Bank.total_interest rep = fold_right Z.add 0 (map tx_amount new)
    /\ 0 <= Bank.total_interest rep
    /\ (NoDup (ids db) ->
        total_savings db' = total_savings db + Bank.total_interest rep
        /\ forall who, cash_of db' who = cash_of db who).
Proof.
  intros H.
  pose proof (apply_daily_interest_savings cfg db now) as Hsav.
  pose proof (apply_daily_interest_cash cfg db now) as Hcash.
  rewrite H in Hsav, Hcash. cbn [fst snd is_success] in Hsav, Hcash.
  destruct (apply_daily_interest_cases cfg db now) as [[E _]|[E _]];
    rewrite E in H; [|discriminate].
  pose proof (interest_loop_transactions cfg now (Bank.savers db)
                (db, Bank.mkInterestReport 0 0)) as Htx.
  pose proof (interest_loop_report cfg now (Bank.savers db)
                (db, Bank.mkInterestReport 0 0)) as Hrep.
  pose proof (ids_interest_loop cfg now (Bank.savers db)
                (db, Bank.mkInterestReport 0 0)) as Hids.
  destruct (fold_left _ _ _) as [db1 rep1]. cbn [fst snd] in H. injection H as <- <-.
  cbv zeta in Hrep. cbn [fst snd Bank.processed_users Bank.total_interest] in *.
  destruct Hrep as [Hcount Htotal].
  set (new := flat_map (fun row => interest_records cfg now (fst row) (snd row))
                       (Bank.savers db)) in *.
  pose proof (interest_records_spec cfg now (Bank.savers db)) as Hnew. fold new in Hnew.
  exists new. split; [exact Htx|]. split; [exact Hnew|].
  split; [lia|]. split; [lia|]. split.
  - rewrite Htotal. clear - Hnew. induction Hnew as [|t l (_ & Hpos & _) _ IH]; cbn; lia.
  - intros Hnd. split; [|intros who; now apply Hcash].
    rewrite (total_savings_by_id db1) by now rewrite Hids.
    rewrite Hids, (total_savings_by_id db Hnd).
    rewrite (sum_map_ext_in (savings_of db1)
               (fun id => savings_of db id + interest_paid cfg (savings_of db id))).
    2:{ intros id _. rewrite (Hsav id Hnd eq_refl). unfold interest_paid.
        destruct (_ && _); lia. }
    rewrite sum_map_add. f_equal.
    rewrite Htotal. subst new. unfold Bank.savers. rewrite interest_paid_total.
    unfold ids. rewrite map_map. cbn [Z.add].
    apply sum_map_ext_in. intros u Hu. unfold savings_of.
    now rewrite (find_user_NoDup _ _ Hnd Hu).
Qed.


Lemma interest_report_accounts_for_the_money_created_witness :
  exists rep db',
    Bank.apply_daily_interest default_settings savers_db 86400 = (Success rep, db')
    /\ Bank.processed_users rep = 2
    /\ Bank.total_interest rep = 31
    /\ exists new,
         bank_transactions db' = bank_transactions savers_db ++ new
         /\ Bank.total_interest rep = fold_right Z.add 0 (map tx_amount new).
Proof.
  assert (Hrun : exists rep db',
             Bank.apply_daily_interest default_settings savers_db 86400
             = (Success rep, db')
             /\ Bank.processed_users rep = 2
             /\ Bank.total_interest rep = 31)
    by (eexists; eexists; split; [reflexivity|split; reflexivity]).
  destruct Hrun as (rep & db' & Hrun & Hcount & Htotal).
  destruct (interest_report_accounts_for_the_money_created
              default_settings savers_db 86400 rep db' Hrun)
    as (new & Htx & _ & _ & Hsum & _).
  exists rep, db'. split; [exact Hrun|]. split; [exact Hcount|]. split; [exact Htotal|].
  exists new. split; [exact Htx|exact Hsum].
Defined.
